(** * TankGameMultiplayer: the networked simulation core, embedded in Rocq

    A shallow embedding of the authoritative server (game_server.cpp), the
    validators (network_validation.h), the enemy burst fire (EnemyTank.cpp),
    the client reconciliation (network_client.cpp, client_prediction.cpp) and
    the interpolation buffer (entity_interpolation.cpp).

    Numbers.  [uint32_t] is [N] with the wrap-around modulo 2^32 written out
    where the code adds; [int32_t] and [int64_t] are [Z].  A C++ [float] is
    modelled twice:
    - in [F32], bit for bit, as an IEEE-754 binary32 value ([spec_float] with
      24 bits of precision), for the validator whose loops depend on rounding;
    - everywhere else as an exact rational [Q]: the game rules (thresholds,
      timers, clamps) are read in exact arithmetic, and the C math library
      ([std::sqrt], [std::cos], [std::sin], [std::atan2]) is a parameter.

    Effects.  The server's [socket.send] appends to an outbox ([sent]); the
    clock ([GetCurrentTimestamp]) and the random generator are inputs.

    The wire.  An [sf::Packet] is the sequence of typed values written to it
    (network_messages.cpp); the server's and the client's [ProcessPacket]
    read it back with a small reader monad ([Wire.Reader]). *)

From Stdlib Require Import ZArith NArith QArith Qround Lqa Lia List Bool String.
From Stdlib Require Import Floats.SpecFloat.
From Stdlib Require Import DecimalString.
From stdpp Require Import gmap strings sorting.
Import ListNotations.

Local Open Scope Z_scope.

(* ===================================================================== *)
(** * Part I: definitions                                                  *)
(* ===================================================================== *)

(** ** Rational helpers *)

Definition Qltb (x y : Q) : bool := negb (Qle_bool y x).

Definition Qgeb (x y : Q) : bool := Qle_bool y x.

Definition Qgtb (x y : Q) : bool := negb (Qle_bool x y).

(** [std::max] and [std::min] on floats: [max a b] is [(a < b) ? b : a],
    [min a b] is [(b < a) ? b : a]. *)
Definition fmaxQ (a b : Q) : Q := if Qltb a b then b else a.

Definition fminQ (a b : Q) : Q := if Qltb b a then b else a.

(** ** world_constants.h *)

Module WorldConstants.
Local Open Scope Q_scope.

Definition WORLD_WIDTH : Q := 1280.
Definition WORLD_HEIGHT : Q := 960.
Definition BORDER_THICKNESS : Q := 48.
Definition PLAYABLE_MIN_X : Q := BORDER_THICKNESS.
Definition PLAYABLE_MAX_X : Q := WORLD_WIDTH - BORDER_THICKNESS.
Definition PLAYABLE_MIN_Y : Q := BORDER_THICKNESS.
Definition PLAYABLE_MAX_Y : Q := WORLD_HEIGHT - BORDER_THICKNESS.
Definition TANK_RADIUS : Q := 25.
Definition MOVEMENT_MIN_X : Q := PLAYABLE_MIN_X + TANK_RADIUS.
Definition MOVEMENT_MAX_X : Q := PLAYABLE_MAX_X - TANK_RADIUS.
Definition MOVEMENT_MIN_Y : Q := PLAYABLE_MIN_Y + TANK_RADIUS.
Definition MOVEMENT_MAX_Y : Q := PLAYABLE_MAX_Y - TANK_RADIUS.
Definition SPAWN_SAFETY_MARGIN : Q := 10.
Definition SPAWN_MARGIN : Q := BORDER_THICKNESS + TANK_RADIUS + SPAWN_SAFETY_MARGIN.
Definition SPAWN_MIN_X : Q := SPAWN_MARGIN.
Definition SPAWN_MAX_X : Q := WORLD_WIDTH - SPAWN_MARGIN.
Definition SPAWN_MIN_Y : Q := SPAWN_MARGIN.
Definition SPAWN_MAX_Y : Q := WORLD_HEIGHT - SPAWN_MARGIN.
Definition CENTER_X : Q := WORLD_WIDTH / 2.
Definition CENTER_Y : Q := WORLD_HEIGHT / 2.

End WorldConstants.

(** ** network_validation.h, bit for bit on binary32 *)

Module F32.

Definition prec : Z := 24.
Definition emax : Z := 128.

(** A C++ [float]. *)
Definition float32 : Type := spec_float.

Definition fadd : float32 -> float32 -> float32 := SFadd prec emax.
Definition fsub : float32 -> float32 -> float32 := SFsub prec emax.
Definition flt : float32 -> float32 -> bool := SFltb.
Definition fge (x y : float32) : bool := SFleb y x.

(** The literals [0.0f] and [360.0f] (360 = 11796480 * 2^-15). *)
Definition f0 : float32 := S754_zero false.
Definition f360 : float32 := S754_finite false 11796480 (-15).

(** The integer [z] rounded to binary32, for literals. *)
Definition of_Z (z : Z) : float32 := binary_normalize prec emax z 0 false.

Definition isnan (x : float32) : bool :=
  match x with S754_nan => true | _ => false end.

Definition isinf (x : float32) : bool :=
  match x with S754_infinity _ => true | _ => false end.

(** [while (rotation < 0.0f) rotation += 360.0f;] with a bound on the number
    of iterations: [None] when the bound is reached with the test still true. *)
Fixpoint while_negative (fuel : nat) (rotation : float32) : option float32 :=
  match fuel with
  | O => None
  | S fuel' =>
      if flt rotation f0 then while_negative fuel' (fadd rotation f360)
      else Some rotation
  end.

(** [while (rotation >= 360.0f) rotation -= 360.0f;] *)
Fixpoint while_ge_360 (fuel : nat) (rotation : float32) : option float32 :=
  match fuel with
  | O => None
  | S fuel' =>
      if fge rotation f360 then while_ge_360 fuel' (fsub rotation f360)
      else Some rotation
  end.

(** [NetworkValidation::NormalizeRotation]: [Some v] when the function returns
    [v] within [fuel] iterations of each loop. *)
Definition NormalizeRotation (fuel : nat) (rotation : float32) : option float32 :=
  if isnan rotation || isinf rotation then Some f0
  else
    match while_negative fuel rotation with
    | Some r => while_ge_360 fuel r
    | None => None
    end.

(** [NetworkValidation::IsValidRotation], with [MIN_ROTATION = -360.0f] and
    [MAX_ROTATION = 720.0f]. *)
Definition IsValidRotation (rotation : float32) : bool :=
  fge rotation (of_Z (-360)) && SFleb rotation (of_Z 720)
  && negb (isnan rotation) && negb (isinf rotation).

End F32.

(** ** network_validation.h in exact arithmetic *)

Module NetworkValidation.
Local Open Scope Q_scope.

Definition MIN_X : Q := WorldConstants.MOVEMENT_MIN_X.
Definition MAX_X : Q := WorldConstants.MOVEMENT_MAX_X.
Definition MIN_Y : Q := WorldConstants.MOVEMENT_MIN_Y.
Definition MAX_Y : Q := WorldConstants.MOVEMENT_MAX_Y.
Definition MIN_ROTATION : Q := -360.
Definition MAX_ROTATION : Q := 720.
Definition MAX_PLAYER_NAME_LENGTH : nat := 50.
Definition MAX_COLOR_NAME_LENGTH : nat := 20.
Definition MAX_TIMESTAMP_DELTA : Z := 60000.

Definition IsValidPosition (x y : Q) : bool :=
  Qle_bool MIN_X x && Qle_bool x MAX_X && Qle_bool MIN_Y y && Qle_bool y MAX_Y.

Definition IsValidRotation (rotation : Q) : bool :=
  Qle_bool MIN_ROTATION rotation && Qle_bool rotation MAX_ROTATION.

Definition IsValidPlayerName (name : string) : bool :=
  negb (String.length name =? 0)%nat
  && (String.length name <=? MAX_PLAYER_NAME_LENGTH)%nat.

Definition IsValidColor (color : string) : bool :=
  negb (String.length color =? 0)%nat
  && (String.length color <=? MAX_COLOR_NAME_LENGTH)%nat.

Definition IsValidTimestamp (timestamp currentTime : Z) : bool :=
  if ((timestamp <=? 0) || (currentTime <=? 0))%Z then false
  else (Z.abs (currentTime - timestamp) <=? MAX_TIMESTAMP_DELTA)%Z.

Definition IsValidPlayerId (playerId : N) : bool :=
  (0 <? playerId)%N && (playerId <? 1000000)%N.

Definition ClampPosition (value min max : Q) : Q :=
  fmaxQ min (fminQ max value).

Definition ClampPositionX (x : Q) : Q := ClampPosition x MIN_X MAX_X.

Definition ClampPositionY (y : Q) : Q := ClampPosition y MIN_Y MAX_Y.

(** [while (rotation < 0.0f) rotation += 360.0f;] *)
Fixpoint while_negative (fuel : nat) (rotation : Q) : option Q :=
  match fuel with
  | O => None
  | S fuel' =>
      if Qltb rotation 0 then while_negative fuel' (rotation + 360)
      else Some rotation
  end.

(** [while (rotation >= 360.0f) rotation -= 360.0f;] *)
Fixpoint while_ge_360 (fuel : nat) (rotation : Q) : option Q :=
  match fuel with
  | O => None
  | S fuel' =>
      if Qgeb rotation 360 then while_ge_360 fuel' (rotation - 360)
      else Some rotation
  end.

Definition NormalizeRotation_fuel (fuel : nat) (rotation : Q) : option Q :=
  match while_negative fuel rotation with
  | Some r => while_ge_360 fuel r
  | None => None
  end.

(** In exact arithmetic each loop runs at most [|floor (rotation / 360)|]
    times before its test fails, so this many iterations (and one more test)
    are enough; [NormalizeRotation_enough_fuel] below proves it. *)
Definition rotation_fuel (rotation : Q) : nat :=
  S (Z.to_nat (Z.abs (Qfloor (rotation / 360)))).

Definition NormalizeRotation (rotation : Q) : Q :=
  match NormalizeRotation_fuel (rotation_fuel rotation) rotation with
  | Some r => r
  | None => rotation
  end.

End NetworkValidation.

(** ** The random generator

    [std::mt19937] is an input: [draws n] is the [n]-th canonical sample and
    [cursor] counts the samples taken.  A sample is forced into [0, 1]. *)

Module Rng.
Local Open Scope Q_scope.

Record t : Type := mk { draws : nat -> Q; cursor : nat }.

Definition unit_sample (g : t) : Q := fmaxQ 0 (fminQ 1 (draws g (cursor g))).

Definition advance (g : t) : t := mk (draws g) (S (cursor g)).

(** [std::uniform_real_distribution<float>(a, b)(g)] *)
Definition uniform_real (a b : Q) (g : t) : Q * t :=
  (a + (b - a) * unit_sample g, advance g).

(** [std::uniform_int_distribution<int>(a, b)(g)] *)
Definition uniform_int (a b : Z) (g : t) : Z * t :=
  (Z.min b (a + Qfloor (unit_sample g * inject_Z (b - a + 1))), advance g).

End Rng.

(** ** network_messages.h *)

Definition UINT32_MOD : N := 4294967296.

(** Arithmetic on [uint32_t] wraps. *)
Definition u32 (n : N) : N := (n mod UINT32_MOD)%N.

Module PlayerData.
Record t : Type := mk {
  playerId : N;
  playerName : string;
  x : Q;
  y : Q;
  bodyRotation : Q;
  barrelRotation : Q;
  color : string;
  isMoving_forward : bool;
  isMoving_backward : bool;
  isMoving_left : bool;
  isMoving_right : bool;
  health : Q;
  maxHealth : Q;
  score : Z;
  isDead : bool
}.

(** The default constructor (color "green", health 100). *)
Definition default : t :=
  mk 0%N "" 0%Q 0%Q 0%Q 0%Q "green" false false false false 100%Q 100%Q 0%Z false.

Definition set_playerId (v : N) (p : t) : t :=
  mk v (playerName p) (x p) (y p) (bodyRotation p) (barrelRotation p) (color p)
     (isMoving_forward p) (isMoving_backward p) (isMoving_left p) (isMoving_right p)
     (health p) (maxHealth p) (score p) (isDead p).
Definition set_playerName (v : string) (p : t) : t :=
  mk (playerId p) v (x p) (y p) (bodyRotation p) (barrelRotation p) (color p)
     (isMoving_forward p) (isMoving_backward p) (isMoving_left p) (isMoving_right p)
     (health p) (maxHealth p) (score p) (isDead p).
Definition set_position (vx vy : Q) (p : t) : t :=
  mk (playerId p) (playerName p) vx vy (bodyRotation p) (barrelRotation p) (color p)
     (isMoving_forward p) (isMoving_backward p) (isMoving_left p) (isMoving_right p)
     (health p) (maxHealth p) (score p) (isDead p).
Definition set_bodyRotation (v : Q) (p : t) : t :=
  mk (playerId p) (playerName p) (x p) (y p) v (barrelRotation p) (color p)
     (isMoving_forward p) (isMoving_backward p) (isMoving_left p) (isMoving_right p)
     (health p) (maxHealth p) (score p) (isDead p).
Definition set_barrelRotation (v : Q) (p : t) : t :=
  mk (playerId p) (playerName p) (x p) (y p) (bodyRotation p) v (color p)
     (isMoving_forward p) (isMoving_backward p) (isMoving_left p) (isMoving_right p)
     (health p) (maxHealth p) (score p) (isDead p).
Definition set_color (v : string) (p : t) : t :=
  mk (playerId p) (playerName p) (x p) (y p) (bodyRotation p) (barrelRotation p) v
     (isMoving_forward p) (isMoving_backward p) (isMoving_left p) (isMoving_right p)
     (health p) (maxHealth p) (score p) (isDead p).
Definition set_moving (f b l r : bool) (p : t) : t :=
  mk (playerId p) (playerName p) (x p) (y p) (bodyRotation p) (barrelRotation p) (color p)
     f b l r (health p) (maxHealth p) (score p) (isDead p).
Definition set_health (v : Q) (p : t) : t :=
  mk (playerId p) (playerName p) (x p) (y p) (bodyRotation p) (barrelRotation p) (color p)
     (isMoving_forward p) (isMoving_backward p) (isMoving_left p) (isMoving_right p)
     v (maxHealth p) (score p) (isDead p).
Definition set_maxHealth (v : Q) (p : t) : t :=
  mk (playerId p) (playerName p) (x p) (y p) (bodyRotation p) (barrelRotation p) (color p)
     (isMoving_forward p) (isMoving_backward p) (isMoving_left p) (isMoving_right p)
     (health p) v (score p) (isDead p).
Definition set_score (v : Z) (p : t) : t :=
  mk (playerId p) (playerName p) (x p) (y p) (bodyRotation p) (barrelRotation p) (color p)
     (isMoving_forward p) (isMoving_backward p) (isMoving_left p) (isMoving_right p)
     (health p) (maxHealth p) v (isDead p).
Definition set_isDead (v : bool) (p : t) : t :=
  mk (playerId p) (playerName p) (x p) (y p) (bodyRotation p) (barrelRotation p) (color p)
     (isMoving_forward p) (isMoving_backward p) (isMoving_left p) (isMoving_right p)
     (health p) (maxHealth p) (score p) v.
End PlayerData.

Module EnemyData.
Record t : Type := mk {
  enemyId : N;
  enemyType : N;
  x : Q;
  y : Q;
  bodyRotation : Q;
  barrelRotation : Q;
  health : Q;
  maxHealth : Q
}.
End EnemyData.

Module JoinMessage.
Record t : Type := mk {
  playerName : string;
  preferredColor : string;
  timestamp : Z;
  sequenceNumber : N
}.
End JoinMessage.

Module PlayerUpdateMessage.
Record t : Type := mk {
  playerId : N;
  x : Q;
  y : Q;
  bodyRotation : Q;
  barrelRotation : Q;
  isMoving_forward : bool;
  isMoving_backward : bool;
  isMoving_left : bool;
  isMoving_right : bool;
  timestamp : Z;
  sequenceNumber : N
}.
End PlayerUpdateMessage.

Module PlayerInputMessage.
Record t : Type := mk {
  playerId : N;
  isMoving_forward : bool;
  isMoving_backward : bool;
  isMoving_left : bool;
  isMoving_right : bool;
  barrelRotation : Q;
  timestamp : Z;
  sequenceNumber : N
}.
End PlayerInputMessage.

Module GameStateMessage.
Record t : Type := mk {
  activeClientCount : N;
  players : list PlayerData.t;
  enemyCount : N;
  enemies : list EnemyData.t;
  timestamp : Z;
  sequenceNumber : N;
  lastAckedInput : N
}.
End GameStateMessage.

(** What the server writes to a packet before [socket.send]. *)
Inductive Packet : Type :=
| PLAYER_ID_ASSIGNMENT (playerId : N)
| GAME_STATE (msg : GameStateMessage.t)
| INPUT_ACKNOWLEDGMENT (playerId acknowledgedSequence : N) (serverTimestamp : Z)
| PLAYER_DEATH (playerId killerId : N) (deathX deathY : Q) (scorePenalty : Z)
               (timestamp : Z) (sequenceNumber : N)
| PLAYER_RESPAWN (playerId : N) (spawnX spawnY health : Q)
                 (timestamp : Z) (sequenceNumber : N).

(** [sf::IpAddress] (as its 32-bit integer) and port. *)
Record Endpoint : Type := mkEndpoint { ip : N; port : N }.

Definition Endpoint_eqb (a b : Endpoint) : bool :=
  (ip a =? ip b)%N && (port a =? port b)%N.

(** The lines the handlers print through [Utils::printMsg] when a check
    fails. *)
Inductive Diagnostic : Type :=
| InvalidPlayerName (len : nat)
| InvalidColorName (len : nat)
| InvalidTimestamp
| InvalidBarrelRotation
| OutOfOrderOrDuplicate (playerId sequenceNumber : N)
| AlreadyConnected
| IncorrectAddress (playerId : N)
| NoSafeRespawnPosition.

(** ** EnemyTank.h, EnemyTank.cpp: stats, burst fire *)

Module EnemyTank.
Local Open Scope Q_scope.

Inductive EnemyType : Type := RED | BLACK | PURPLE | ORANGE | TEAL.

Inductive AIState : Type := IDLE | PATROL | CHASE | ATTACK | RETREAT.

Definition AIState_eqb (a b : AIState) : bool :=
  match a, b with
  | IDLE, IDLE | PATROL, PATROL | CHASE, CHASE | ATTACK, ATTACK
  | RETREAT, RETREAT => true
  | _, _ => false
  end.

(** [static_cast<uint8_t>(enemy->GetEnemyType())] *)
Definition EnemyType_code (ty : EnemyType) : N :=
  match ty with RED => 0 | BLACK => 1 | PURPLE => 2 | ORANGE => 3 | TEAL => 4 end%N.

(** The fields of [EnemyTank] the simulation reads; sprites, textures and the
    steering timers are left out. *)
Record t : Type := mk {
  enemyType : EnemyType;
  position : Q * Q;
  bodyRotation : Q;
  barrelRotation : Q;
  maxHealth : Q;
  currentHealth : Q;
  scoreValue : Z;
  currentAIState : AIState;
  shootCooldown : Q;
  shootCooldownTime : Q;
  barrelLength : Q;
  baseAccuracy : Q;
  accuracySpreadAngle : Q;
  lastShotTime : Q;
  shotsInBurst : Z;
  maxBurstSize : Z
}.

(** [InitializeStats]: max health and score value by type. *)
Definition stats (ty : EnemyType) : Q * Z :=
  match ty with
  | RED => (100, 10%Z)
  | BLACK => (200, 25%Z)
  | PURPLE => (60, 15%Z)
  | ORANGE => (300, 50%Z)
  | TEAL => (80, 12%Z)
  end.

(** [InitializeShootingParameters]: (shootCooldownTime, baseAccuracy,
    accuracySpreadAngle, maxBurstSize) by type. *)
Definition shooting_parameters (ty : EnemyType) : Q * Q * Q * Z :=
  match ty with
  | RED => (15 # 10, 6 # 10, 15, 3%Z)
  | BLACK => (25 # 10, 8 # 10, 8, 1%Z)
  | PURPLE => (8 # 10, 4 # 10, 25, 5%Z)
  | ORANGE => (3, 9 # 10, 5, 1%Z)
  | TEAL => (12 # 10, 7 # 10, 12, 2%Z)
  end.

(** The constructor: [InitializeStats], [InitializeAIParameters] (initial
    state PATROL), [InitializeShootingParameters]. *)
Definition make (ty : EnemyType) (startPosition : Q * Q) : t :=
  let '(hp, sv) := stats ty in
  let '(cd, acc, spread, burst) := shooting_parameters ty in
  mk ty startPosition 0 0 hp hp sv PATROL 0 cd 20 acc spread 0 0%Z burst.

Definition IsDead (e : t) : bool := Qle_bool (currentHealth e) 0.

Definition CanShoot (e : t) : bool := Qle_bool (shootCooldown e) 0.

Definition SetAIState (s : AIState) (e : t) : t :=
  mk (enemyType e) (position e) (bodyRotation e) (barrelRotation e) (maxHealth e)
     (currentHealth e) (scoreValue e) s (shootCooldown e) (shootCooldownTime e)
     (barrelLength e) (baseAccuracy e) (accuracySpreadAngle e) (lastShotTime e)
     (shotsInBurst e) (maxBurstSize e).

Definition set_currentHealth (h : Q) (e : t) : t :=
  mk (enemyType e) (position e) (bodyRotation e) (barrelRotation e) (maxHealth e)
     h (scoreValue e) (currentAIState e) (shootCooldown e) (shootCooldownTime e)
     (barrelLength e) (baseAccuracy e) (accuracySpreadAngle e) (lastShotTime e)
     (shotsInBurst e) (maxBurstSize e).

Definition set_shooting (cooldown lastShot : Q) (shots : Z) (e : t) : t :=
  mk (enemyType e) (position e) (bodyRotation e) (barrelRotation e) (maxHealth e)
     (currentHealth e) (scoreValue e) (currentAIState e) cooldown (shootCooldownTime e)
     (barrelLength e) (baseAccuracy e) (accuracySpreadAngle e) lastShot
     shots (maxBurstSize e).

(** [EnemyTank::UpdateCooldown] *)
Definition UpdateCooldown (dt : Q) (e : t) : t :=
  let cooldown :=
    if Qgtb (shootCooldown e) 0 then
      let c := shootCooldown e - dt in
      if Qltb c 0 then 0 else c
    else shootCooldown e in
  set_shooting cooldown (lastShotTime e + dt) (shotsInBurst e) e.

(** [EnemyTank::TryShoot]: the returned flag and the enemy afterwards. *)
Definition TryShoot (e : t) : bool * t :=
  if negb (CanShoot e) then (false, e)
  else if negb (AIState_eqb (currentAIState e) ATTACK) then (false, e)
  else
    let cooldown := shootCooldownTime e in
    let shots := (shotsInBurst e + 1)%Z in
    if (shots >=? maxBurstSize e)%Z
    then (true, set_shooting (cooldown * (15 # 10)) 0 0%Z e)
    else (true, set_shooting cooldown 0 shots e).

(** [n] shots in a row: before each one the enemy waits out the cooldown left
    by the previous shot ([UpdateCooldown] with the remaining time).  [None]
    when a call of [TryShoot] returns false. *)
Fixpoint consecutive_shots (n : nat) (e : t) : option t :=
  match n with
  | O => Some e
  | S n' =>
      match consecutive_shots n' e with
      | Some e1 =>
          let e2 := UpdateCooldown (shootCooldown e1) e1 in
          let '(fired, e3) := TryShoot e2 in
          if fired then Some e3 else None
      | None => None
      end
  end.

End EnemyTank.

(** ** game_server.h: [ClientInfo] *)

Module ClientInfo.
Record t : Type := mk {
  address : Endpoint;
  playerData : PlayerData.t;
  lastUpdateTime : Q;
  isActive : bool;
  lastReceivedSequenceNumber : N;
  receivedSequenceNumbers : gmap N bool;
  lastAcknowledgedInputSeq : N;
  score : Z;
  isDead : bool;
  deathTimer : Q
}.

Definition RESPAWN_COOLDOWN : Q := 5.
Definition DEATH_PENALTY : Z := 100.

(** [ClientInfo(addr, p)] *)
Definition make (addr : Endpoint) : t :=
  mk addr PlayerData.default 0 true 0%N ∅ 0%N 0%Z false 0.

Definition set_playerData (v : PlayerData.t) (c : t) : t :=
  mk (address c) v (lastUpdateTime c) (isActive c) (lastReceivedSequenceNumber c)
     (receivedSequenceNumbers c) (lastAcknowledgedInputSeq c) (score c) (isDead c)
     (deathTimer c).
Definition set_lastUpdateTime (v : Q) (c : t) : t :=
  mk (address c) (playerData c) v (isActive c) (lastReceivedSequenceNumber c)
     (receivedSequenceNumbers c) (lastAcknowledgedInputSeq c) (score c) (isDead c)
     (deathTimer c).
Definition set_isActive (v : bool) (c : t) : t :=
  mk (address c) (playerData c) (lastUpdateTime c) v (lastReceivedSequenceNumber c)
     (receivedSequenceNumbers c) (lastAcknowledgedInputSeq c) (score c) (isDead c)
     (deathTimer c).
Definition set_received (last : N) (seen : gmap N bool) (c : t) : t :=
  mk (address c) (playerData c) (lastUpdateTime c) (isActive c) last
     seen (lastAcknowledgedInputSeq c) (score c) (isDead c) (deathTimer c).
Definition set_lastAcknowledgedInputSeq (v : N) (c : t) : t :=
  mk (address c) (playerData c) (lastUpdateTime c) (isActive c)
     (lastReceivedSequenceNumber c) (receivedSequenceNumbers c) v (score c) (isDead c)
     (deathTimer c).
Definition set_score (v : Z) (c : t) : t :=
  mk (address c) (playerData c) (lastUpdateTime c) (isActive c)
     (lastReceivedSequenceNumber c) (receivedSequenceNumbers c)
     (lastAcknowledgedInputSeq c) v (isDead c) (deathTimer c).
Definition set_isDead (v : bool) (c : t) : t :=
  mk (address c) (playerData c) (lastUpdateTime c) (isActive c)
     (lastReceivedSequenceNumber c) (receivedSequenceNumbers c)
     (lastAcknowledgedInputSeq c) (score c) v (deathTimer c).
Definition set_deathTimer (v : Q) (c : t) : t :=
  mk (address c) (playerData c) (lastUpdateTime c) (isActive c)
     (lastReceivedSequenceNumber c) (receivedSequenceNumbers c)
     (lastAcknowledgedInputSeq c) (score c) (isDead c) v.
End ClientInfo.

(** ** game_server.cpp *)

Module GameServer.
Local Open Scope Q_scope.

Record t : Type := mk {
  clients : gmap N ClientInfo.t;
  nextPlayerId : N;
  enemies : gmap N EnemyTank.t;
  nextEnemyId : N;
  enemySpawnTimer : Q;
  enemySpawnInterval : Q;
  outgoingSequenceNumber : N;
  randomGenerator : Rng.t;
  sent : list (Endpoint * Packet);
  diagnostics : list Diagnostic
}.

Definition availableColors : list string := ["red"; "blue"; "green"; "black"].

(** The constructor: ids from 1 and 1000, spawn interval 5 s. *)
Definition make (g : Rng.t) : t := mk ∅ 1%N ∅ 1000%N 0 5 0%N g [] [].

Definition set_clients (v : gmap N ClientInfo.t) (s : t) : t :=
  mk v (nextPlayerId s) (enemies s) (nextEnemyId s) (enemySpawnTimer s)
     (enemySpawnInterval s) (outgoingSequenceNumber s) (randomGenerator s) (sent s)
     (diagnostics s).
Definition set_nextPlayerId (v : N) (s : t) : t :=
  mk (clients s) v (enemies s) (nextEnemyId s) (enemySpawnTimer s)
     (enemySpawnInterval s) (outgoingSequenceNumber s) (randomGenerator s) (sent s)
     (diagnostics s).
Definition set_enemies (v : gmap N EnemyTank.t) (s : t) : t :=
  mk (clients s) (nextPlayerId s) v (nextEnemyId s) (enemySpawnTimer s)
     (enemySpawnInterval s) (outgoingSequenceNumber s) (randomGenerator s) (sent s)
     (diagnostics s).
Definition set_nextEnemyId (v : N) (s : t) : t :=
  mk (clients s) (nextPlayerId s) (enemies s) v (enemySpawnTimer s)
     (enemySpawnInterval s) (outgoingSequenceNumber s) (randomGenerator s) (sent s)
     (diagnostics s).
Definition set_enemySpawnTimer (v : Q) (s : t) : t :=
  mk (clients s) (nextPlayerId s) (enemies s) (nextEnemyId s) v
     (enemySpawnInterval s) (outgoingSequenceNumber s) (randomGenerator s) (sent s)
     (diagnostics s).
Definition set_outgoingSequenceNumber (v : N) (s : t) : t :=
  mk (clients s) (nextPlayerId s) (enemies s) (nextEnemyId s) (enemySpawnTimer s)
     (enemySpawnInterval s) v (randomGenerator s) (sent s) (diagnostics s).
Definition set_randomGenerator (v : Rng.t) (s : t) : t :=
  mk (clients s) (nextPlayerId s) (enemies s) (nextEnemyId s) (enemySpawnTimer s)
     (enemySpawnInterval s) (outgoingSequenceNumber s) v (sent s) (diagnostics s).

(** [socket.send(packet, address, port)] *)
Definition send (to : Endpoint) (p : Packet) (s : t) : t :=
  mk (clients s) (nextPlayerId s) (enemies s) (nextEnemyId s) (enemySpawnTimer s)
     (enemySpawnInterval s) (outgoingSequenceNumber s) (randomGenerator s)
     (sent s ++ [(to, p)]) (diagnostics s).

(** [Utils::printMsg] of a failed check. *)
Definition printMsg (d : Diagnostic) (s : t) : t :=
  mk (clients s) (nextPlayerId s) (enemies s) (nextEnemyId s) (enemySpawnTimer s)
     (enemySpawnInterval s) (outgoingSequenceNumber s) (randomGenerator s) (sent s)
     (diagnostics s ++ [d]).

(** The clients in the order a [for (auto& [playerId, client] : clients)]
    visits them. *)
Definition client_list (s : t) : list (N * ClientInfo.t) := map_to_list (clients s).

Definition active_clients (s : t) : list (N * ClientInfo.t) :=
  List.filter (fun kc => ClientInfo.isActive kc.2) (client_list s).

(** [GameServer::ValidateSequenceNumber] *)
Definition ValidateSequenceNumber (client : ClientInfo.t) (sequenceNumber : N) : bool :=
  match ClientInfo.receivedSequenceNumbers client !! sequenceNumber with
  | Some _ => false
  | None =>
      let OUT_OF_ORDER_THRESHOLD := 50%N in
      if (u32 (sequenceNumber + OUT_OF_ORDER_THRESHOLD)
            <? ClientInfo.lastReceivedSequenceNumber client)%N
      then false else true
  end.

(** [GameServer::RecordReceivedSequence] *)
Definition RecordReceivedSequence (sequenceNumber : N) (client : ClientInfo.t)
  : ClientInfo.t :=
  let seen := <[sequenceNumber := true]> (ClientInfo.receivedSequenceNumbers client) in
  let last :=
    if (ClientInfo.lastReceivedSequenceNumber client <? sequenceNumber)%N
    then sequenceNumber else ClientInfo.lastReceivedSequenceNumber client in
  let MAX_SEQUENCE_HISTORY := 200%N in
  let seen' :=
    if (MAX_SEQUENCE_HISTORY <? N.of_nat (size seen))%N then
      let minSequence :=
        if (MAX_SEQUENCE_HISTORY <? last)%N then (last - MAX_SEQUENCE_HISTORY)%N
        else 0%N in
      filter (fun kv => (minSequence <= kv.1)%N) seen
    else seen in
  ClientInfo.set_received last seen' client.

(** [GameServer::FindPlayerByAddress] *)
Definition FindPlayerByAddress (addr : Endpoint) (s : t) : N :=
  match List.filter (fun kc => Endpoint_eqb (ClientInfo.address kc.2) addr)
                    (client_list s) with
  | (playerId, _) :: _ => playerId
  | [] => 0%N
  end.

(** [GameServer::AssignColor]: the first color of [availableColors] no client
    uses, else a random one.  (The source seeds a fresh generator for the
    random case; the model draws from the server's.) *)
Definition AssignColor (s : t) : string * t :=
  let usedColors :=
    List.map (fun kc => PlayerData.color (ClientInfo.playerData kc.2)) (client_list s) in
  match List.filter (fun c => negb (existsb (String.eqb c) usedColors)) availableColors with
  | c :: _ => (c, s)
  | [] =>
      let '(i, g) :=
        Rng.uniform_int 0 (Z.of_nat (List.length availableColors) - 1) (randomGenerator s) in
      (nth (Z.to_nat i) availableColors "red"%string, set_randomGenerator g s)
  end.

(** [GameServer::SendPlayerIdAssignment] *)
Definition SendPlayerIdAssignment (playerId : N) (to : Endpoint) (s : t) : t :=
  send to (PLAYER_ID_ASSIGNMENT playerId) s.

(** [GameServer::SendInputAcknowledgment] *)
Definition SendInputAcknowledgment (now : Z) (playerId acknowledgedSeq : N)
  (to : Endpoint) (s : t) : t :=
  send to (INPUT_ACKNOWLEDGMENT playerId acknowledgedSeq now) s.

(** The body of the loop that writes the players: an active client's score
    and death flag are copied into its [playerData] first. *)
Definition sync_playerData (c : ClientInfo.t) : ClientInfo.t :=
  if ClientInfo.isActive c then
    ClientInfo.set_playerData
      (PlayerData.set_isDead (ClientInfo.isDead c)
         (PlayerData.set_score (ClientInfo.score c) (ClientInfo.playerData c))) c
  else c.

Definition enemy_data (ke : N * EnemyTank.t) : EnemyData.t :=
  EnemyData.mk ke.1 (EnemyTank.EnemyType_code (EnemyTank.enemyType ke.2))
    (EnemyTank.position ke.2).1 (EnemyTank.position ke.2).2
    (EnemyTank.bodyRotation ke.2) (EnemyTank.barrelRotation ke.2)
    (EnemyTank.currentHealth ke.2) (EnemyTank.maxHealth ke.2).

(** The packet both [SendGameStateToAll] and [SendGameStateToClient] build,
    with the server after the sync and the increment of the sequence number. *)
Definition build_game_state (now : Z) (s : t) : GameStateMessage.t * t :=
  let s1 := set_clients (sync_playerData <$> clients s) s in
  let players := List.map (fun kc => ClientInfo.playerData kc.2) (active_clients s1) in
  let enemyList := List.map enemy_data (map_to_list (enemies s1)) in
  let lastAckedInput := 0%N in
  (GameStateMessage.mk (N.of_nat (List.length players)) players
     (N.of_nat (size (enemies s1))) enemyList now (outgoingSequenceNumber s1)
     lastAckedInput,
   set_outgoingSequenceNumber (u32 (outgoingSequenceNumber s1 + 1)) s1).

(** [GameServer::SendGameStateToAll] *)
Definition SendGameStateToAll (now : Z) (s : t) : t :=
  match client_list s with
  | [] => s
  | _ =>
      let '(msg, s1) := build_game_state now s in
      fold_left (fun acc kc => send (ClientInfo.address kc.2) (GAME_STATE msg) acc)
                (active_clients s1) s1
  end.

(** [GameServer::SendGameStateToClient] *)
Definition SendGameStateToClient (now : Z) (playerId : N) (s : t) : t :=
  match clients s !! playerId with
  | Some c =>
      if ClientInfo.isActive c then
        let '(msg, s1) := build_game_state now s in
        send (ClientInfo.address c) (GAME_STATE msg) s1
      else s
  | None => s
  end.

(** [GameServer::HandleJoinRequest]; [now] is [GetCurrentTimestamp()]. *)
Definition HandleJoinRequest (now : Z) (msg : JoinMessage.t) (from : Endpoint) (s : t) : t :=
  let name := JoinMessage.playerName msg in
  let preferredColor := JoinMessage.preferredColor msg in
  if negb (NetworkValidation.IsValidPlayerName name) then
    printMsg (InvalidPlayerName (String.length name)) s
  else
    let s1 :=
      if negb (String.length preferredColor =? 0)%nat
         && negb (NetworkValidation.IsValidColor preferredColor)
      then printMsg (InvalidColorName (String.length preferredColor)) s else s in
    let s2 :=
      if negb (NetworkValidation.IsValidTimestamp (JoinMessage.timestamp msg) now)
      then printMsg InvalidTimestamp s1 else s1 in
    let existingPlayerId := FindPlayerByAddress from s2 in
    if negb (existingPlayerId =? 0)%N then
      let s3 := printMsg AlreadyConnected s2 in
      let c :=
        match clients s3 !! existingPlayerId with
        | Some c => c
        | None => ClientInfo.make from
        end in
      let c' :=
        ClientInfo.set_playerData
          (PlayerData.set_playerName name (ClientInfo.playerData c))
          (ClientInfo.set_lastUpdateTime 0 (ClientInfo.set_isActive true c)) in
      let s4 := set_clients (<[existingPlayerId := c']> (clients s3)) s3 in
      SendGameStateToClient now existingPlayerId
        (SendPlayerIdAssignment existingPlayerId from s4)
    else
      let newId := nextPlayerId s2 in
      let s3 := set_nextPlayerId (u32 (newId + 1)) s2 in
      let '(color, s4) :=
        if negb (String.length preferredColor =? 0)%nat then (preferredColor, s3)
        else AssignColor s3 in
      let pd :=
        PlayerData.set_maxHealth 100
          (PlayerData.set_health 100
             (PlayerData.set_position WorldConstants.CENTER_X WorldConstants.CENTER_Y
                (PlayerData.set_color color
                   (PlayerData.set_playerName name
                      (PlayerData.set_playerId newId PlayerData.default))))) in
      let newClient :=
        RecordReceivedSequence (JoinMessage.sequenceNumber msg)
          (ClientInfo.set_playerData pd (ClientInfo.make from)) in
      let s5 := set_clients (<[newId := newClient]> (clients s4)) s4 in
      SendGameStateToAll now
        (SendGameStateToClient now newId (SendPlayerIdAssignment newId from s5)).

(** [GameServer::HandlePlayerInput].  A barrel rotation that fails
    [IsValidRotation] is only logged and then normalised like any other
    (game_server.cpp:409-412, 427).  [NormalizeRotation] is read in exact
    arithmetic here: for a rotation that passes [IsValidRotation] (between
    -360 and 720) the binary32 loops of the source return after at most two
    iterations and give this value up to rounding; for a rotation outside that
    range they may store another value or never return (C7), and then the
    source sends no acknowledgment.  What is proved of the stored rotation or of the
    acknowledgment therefore assumes [IsValidRotation]. *)
Definition HandlePlayerInput (now : Z) (msg : PlayerInputMessage.t) (from : Endpoint)
  (s : t) : t :=
  let playerId := PlayerInputMessage.playerId msg in
  let sequenceNumber := PlayerInputMessage.sequenceNumber msg in
  if negb (NetworkValidation.IsValidPlayerId playerId) then s
  else
    let s1 :=
      if negb (NetworkValidation.IsValidTimestamp (PlayerInputMessage.timestamp msg) now)
      then printMsg InvalidTimestamp s else s in
    let s2 :=
      if negb (NetworkValidation.IsValidRotation (PlayerInputMessage.barrelRotation msg))
      then printMsg InvalidBarrelRotation s1 else s1 in
    match clients s2 !! playerId with
    | Some c =>
        if Endpoint_eqb (ClientInfo.address c) from then
          let s3 :=
            if negb (ValidateSequenceNumber c sequenceNumber)
            then printMsg (OutOfOrderOrDuplicate playerId sequenceNumber) s2 else s2 in
          let pd :=
            PlayerData.set_barrelRotation
              (NetworkValidation.NormalizeRotation (PlayerInputMessage.barrelRotation msg))
              (PlayerData.set_moving
                 (PlayerInputMessage.isMoving_forward msg)
                 (PlayerInputMessage.isMoving_backward msg)
                 (PlayerInputMessage.isMoving_left msg)
                 (PlayerInputMessage.isMoving_right msg)
                 (ClientInfo.playerData c)) in
          let c' :=
            ClientInfo.set_lastAcknowledgedInputSeq sequenceNumber
              (RecordReceivedSequence sequenceNumber
                 (ClientInfo.set_lastUpdateTime 0 (ClientInfo.set_playerData pd c))) in
          SendInputAcknowledgment now playerId sequenceNumber from
            (set_clients (<[playerId := c']> (clients s3)) s3)
        else printMsg (IncorrectAddress playerId) s2
    | None => s2
    end.

(** [GameServer::HandlePlayerUpdate] (its log lines are commented out in the
    source, except the one for the sequence check). *)
Definition HandlePlayerUpdate (now : Z) (msg : PlayerUpdateMessage.t) (from : Endpoint)
  (s : t) : t :=
  let playerId := PlayerUpdateMessage.playerId msg in
  let sequenceNumber := PlayerUpdateMessage.sequenceNumber msg in
  if negb (NetworkValidation.IsValidPlayerId playerId) then s
  else if negb (NetworkValidation.IsValidPosition (PlayerUpdateMessage.x msg)
                  (PlayerUpdateMessage.y msg)) then s
  else if negb (NetworkValidation.IsValidRotation (PlayerUpdateMessage.bodyRotation msg))
          || negb (NetworkValidation.IsValidRotation (PlayerUpdateMessage.barrelRotation msg))
  then s
  else
    match clients s !! playerId with
    | Some c =>
        if Endpoint_eqb (ClientInfo.address c) from then
          let s1 :=
            if negb (ValidateSequenceNumber c sequenceNumber)
            then printMsg (OutOfOrderOrDuplicate playerId sequenceNumber) s else s in
          let pd :=
            PlayerData.set_moving
              (PlayerUpdateMessage.isMoving_forward msg)
              (PlayerUpdateMessage.isMoving_backward msg)
              (PlayerUpdateMessage.isMoving_left msg)
              (PlayerUpdateMessage.isMoving_right msg)
              (PlayerData.set_barrelRotation
                 (NetworkValidation.NormalizeRotation (PlayerUpdateMessage.barrelRotation msg))
                 (PlayerData.set_bodyRotation
                    (NetworkValidation.NormalizeRotation (PlayerUpdateMessage.bodyRotation msg))
                    (PlayerData.set_position
                       (NetworkValidation.ClampPositionX (PlayerUpdateMessage.x msg))
                       (NetworkValidation.ClampPositionY (PlayerUpdateMessage.y msg))
                       (ClientInfo.playerData c)))) in
          let c' :=
            RecordReceivedSequence sequenceNumber
              (ClientInfo.set_lastUpdateTime 0 (ClientInfo.set_playerData pd c)) in
          set_clients (<[playerId := c']> (clients s1)) s1
        else s
    | None => s
    end.

(** *** Movement *)

Section Simulation.
(** [std::cos] and [std::sin] *)
Variables cosf sinf : Q -> Q.

(** The body of the loop of [GameServer::SimulatePlayerMovement] for one
    client.  The source writes the two normalising [while] loops inline; they
    are the loops of [NetworkValidation.NormalizeRotation]. *)
Definition simulate_player (deltaTime : Q) (client : ClientInfo.t) : ClientInfo.t :=
  if negb (ClientInfo.isActive client) then client
  else
    let MOVEMENT_SPEED := 150 in
    let ROTATION_SPEED := 200 in
    let player := ClientInfo.playerData client in
    let turned :=
      if PlayerData.isMoving_left player
      then PlayerData.bodyRotation player - ROTATION_SPEED * deltaTime
      else if PlayerData.isMoving_right player
      then PlayerData.bodyRotation player + ROTATION_SPEED * deltaTime
      else PlayerData.bodyRotation player in
    let bodyRotation := NetworkValidation.NormalizeRotation turned in
    let radians := bodyRotation * (314159 # 100000) / 180 in
    let dirX := cosf radians in
    let dirY := sinf radians in
    let '(x1, y1) :=
      if PlayerData.isMoving_forward player
      then (PlayerData.x player + dirX * MOVEMENT_SPEED * deltaTime,
            PlayerData.y player + dirY * MOVEMENT_SPEED * deltaTime)
      else if PlayerData.isMoving_backward player
      then (PlayerData.x player - dirX * MOVEMENT_SPEED * deltaTime,
            PlayerData.y player - dirY * MOVEMENT_SPEED * deltaTime)
      else (PlayerData.x player, PlayerData.y player) in
    let x2 := fmaxQ WorldConstants.MOVEMENT_MIN_X (fminQ WorldConstants.MOVEMENT_MAX_X x1) in
    let y2 := fmaxQ WorldConstants.MOVEMENT_MIN_Y (fminQ WorldConstants.MOVEMENT_MAX_Y y1) in
    ClientInfo.set_playerData
      (PlayerData.set_position x2 y2 (PlayerData.set_bodyRotation bodyRotation player))
      client.

(** [GameServer::SimulatePlayerMovement] *)
Definition SimulatePlayerMovement (deltaTime : Q) (s : t) : t :=
  set_clients (simulate_player deltaTime <$> clients s) s.

End Simulation.

(** *** Enemies *)

(** [activePlayerCount] of [UpdateEnemies]: the active clients that are not
    dead. *)
Definition activePlayerCount (s : t) : Z :=
  Z.of_nat (List.length
    (List.filter (fun kc => ClientInfo.isActive kc.2 && negb (ClientInfo.isDead kc.2))
                 (client_list s))).

(** [3 * (activePlayerCount > 0 ? 1 : 0) + activePlayerCount] *)
Definition dynamicMaxEnemies (s : t) : Z :=
  (3 * (if 0 <? activePlayerCount s then 1 else 0) + activePlayerCount s)%Z.

(** [GameServer::GetRandomSpawnPosition] *)
Definition GetRandomSpawnPosition (s : t) : (Q * Q) * t :=
  let '(x, g1) :=
    Rng.uniform_real WorldConstants.SPAWN_MIN_X WorldConstants.SPAWN_MAX_X
      (randomGenerator s) in
  let '(y, g2) :=
    Rng.uniform_real WorldConstants.SPAWN_MIN_Y WorldConstants.SPAWN_MAX_Y g1 in
  ((x, y), set_randomGenerator g2 s).

(** [GameServer::GetRandomEnemyType] *)
Definition GetRandomEnemyType (s : t) : EnemyTank.EnemyType * t :=
  let '(roll, g) := Rng.uniform_int 1 100 (randomGenerator s) in
  (if (roll <=? 40)%Z then EnemyTank.RED
   else if (roll <=? 60)%Z then EnemyTank.BLACK
   else if (roll <=? 80)%Z then EnemyTank.PURPLE
   else if (roll <=? 95)%Z then EnemyTank.TEAL
   else EnemyTank.ORANGE,
   set_randomGenerator g s).

(** [GameServer::SpawnEnemy] *)
Definition SpawnEnemy (s : t) : t :=
  let '(spawnPos, s1) := GetRandomSpawnPosition s in
  let '(enemyType, s2) := GetRandomEnemyType s1 in
  let enemyId := nextEnemyId s2 in
  set_enemies (<[enemyId := EnemyTank.make enemyType spawnPos]> (enemies s2))
    (set_nextEnemyId (u32 (enemyId + 1)) s2).

(** [GameServer::RemoveDeadEnemies] *)
Definition RemoveDeadEnemies (s : t) : t :=
  set_enemies (filter (fun ke => EnemyTank.IsDead ke.2 = false) (enemies s)) s.

Section Enemies.
(** The per-enemy part of the loop of [UpdateEnemies]: target acquisition and
    [enemy->Update(deltaTime)], which read the clients and rewrite the enemy
    in place.  The bullets that loop spawns are not part of this model. *)
Variable enemyUpdate : gmap N ClientInfo.t -> Q -> EnemyTank.t -> EnemyTank.t.

(** [GameServer::UpdateEnemies] *)
Definition UpdateEnemies (deltaTime : Q) (s : t) : t :=
  let s1 := set_enemySpawnTimer (enemySpawnTimer s + deltaTime) s in
  let s2 :=
    if Qgeb (enemySpawnTimer s1) (enemySpawnInterval s1)
       && (Z.of_nat (size (enemies s1)) <? dynamicMaxEnemies s1)%Z
    then set_enemySpawnTimer 0 (SpawnEnemy s1)
    else s1 in
  let s3 :=
    set_enemies (enemyUpdate (clients s2) deltaTime <$> enemies s2) s2 in
  RemoveDeadEnemies s3.

End Enemies.

(** *** Death and respawn *)

(** Arithmetic on [int32_t], wrapped into [-2^31, 2^31). *)
Definition i32 (z : Z) : Z := ((z + 2147483648) mod 4294967296 - 2147483648)%Z.

(** The packet goes to every active client, in map order. *)
Definition broadcast (p : Packet) (s : t) : t :=
  fold_left (fun acc kc => send (ClientInfo.address kc.2) p acc) (active_clients s) s.

(** [GameServer::BroadcastPlayerDeath] *)
Definition BroadcastPlayerDeath (now : Z) (playerId killerId : N) (deathPos : Q * Q)
  (scorePenalty : Z) (s : t) : t :=
  match client_list s with
  | [] => s
  | _ =>
      let p := PLAYER_DEATH playerId killerId deathPos.1 deathPos.2 scorePenalty now
                 (outgoingSequenceNumber s) in
      broadcast p (set_outgoingSequenceNumber (u32 (outgoingSequenceNumber s + 1)) s)
  end.

(** [GameServer::BroadcastPlayerRespawn] *)
Definition BroadcastPlayerRespawn (now : Z) (playerId : N) (spawnPos : Q * Q) (health : Q)
  (s : t) : t :=
  match client_list s with
  | [] => s
  | _ =>
      let p := PLAYER_RESPAWN playerId spawnPos.1 spawnPos.2 health now
                 (outgoingSequenceNumber s) in
      broadcast p (set_outgoingSequenceNumber (u32 (outgoingSequenceNumber s + 1)) s)
  end.

(** [GameServer::HandlePlayerDeath] *)
Definition HandlePlayerDeath (now : Z) (playerId killerId : N) (s : t) : t :=
  match clients s !! playerId with
  | None => s
  | Some client =>
      if negb (ClientInfo.isActive client) then s
      else
        let deathPos := (PlayerData.x (ClientInfo.playerData client),
                         PlayerData.y (ClientInfo.playerData client)) in
        let oldScore := ClientInfo.score client in
        let lowered := i32 (oldScore - ClientInfo.DEATH_PENALTY) in
        let newScore := if (lowered <? 0)%Z then 0%Z else lowered in
        let actualPenalty := i32 (oldScore - newScore) in
        let pd :=
          PlayerData.set_health 0
            (PlayerData.set_score newScore
               (PlayerData.set_isDead true (ClientInfo.playerData client))) in
        let client' :=
          ClientInfo.set_playerData pd
            (ClientInfo.set_score newScore
               (ClientInfo.set_deathTimer ClientInfo.RESPAWN_COOLDOWN
                  (ClientInfo.set_isDead true client))) in
        BroadcastPlayerDeath now playerId killerId deathPos actualPenalty
          (set_clients (<[playerId := client']> (clients s)) s)
  end.

(** The body of the loop of [GameServer::CheckPlayerDeaths] for one key. *)
Definition check_player_death (now : Z) (s : t) (playerId : N) : t :=
  match clients s !! playerId with
  | None => s
  | Some client =>
      if negb (ClientInfo.isActive client) || ClientInfo.isDead client then s
      else if Qle_bool (PlayerData.health (ClientInfo.playerData client)) 0
      then HandlePlayerDeath now playerId 0%N s
      else s
  end.

(** [GameServer::CheckPlayerDeaths] *)
Definition CheckPlayerDeaths (now : Z) (s : t) : t :=
  fold_left (check_player_death now) (List.map fst (client_list s)) s.

Definition distSq (a b : Q * Q) : Q :=
  let dx := a.1 - b.1 in
  let dy := a.2 - b.2 in
  dx * dx + dy * dy.

Definition MIN_SAFE_DISTANCE : Q := 200.

(** The two inner loops of [GetRandomRespawnPosition]: no living enemy and no
    active, living player is closer than [MIN_SAFE_DISTANCE]. *)
Definition isSafe (candidatePos : Q * Q) (s : t) : bool :=
  forallb (fun ke =>
             EnemyTank.IsDead ke.2
             || negb (Qltb (distSq candidatePos (EnemyTank.position ke.2))
                           (MIN_SAFE_DISTANCE * MIN_SAFE_DISTANCE)))
          (map_to_list (enemies s))
  && forallb (fun kc =>
                negb (ClientInfo.isActive kc.2) || ClientInfo.isDead kc.2
                || negb (Qltb (distSq candidatePos
                                 (PlayerData.x (ClientInfo.playerData kc.2),
                                  PlayerData.y (ClientInfo.playerData kc.2)))
                              (MIN_SAFE_DISTANCE * MIN_SAFE_DISTANCE)))
             (client_list s).

(** One candidate of [GetRandomRespawnPosition]. *)
Definition respawn_candidate (s : t) : (Q * Q) * t :=
  let '(x, g1) :=
    Rng.uniform_real (WorldConstants.PLAYABLE_MIN_X + WorldConstants.TANK_RADIUS + 50)
                     (WorldConstants.PLAYABLE_MAX_X - WorldConstants.TANK_RADIUS - 50)
                     (randomGenerator s) in
  let '(y, g2) :=
    Rng.uniform_real (WorldConstants.PLAYABLE_MIN_Y + WorldConstants.TANK_RADIUS + 50)
                     (WorldConstants.PLAYABLE_MAX_Y - WorldConstants.TANK_RADIUS - 50)
                     g1 in
  ((x, y), set_randomGenerator g2 s).

(** The [for (attempt ...)] loop with [attempts] iterations left, then the
    fallback to the world center. *)
Fixpoint respawn_attempts (attempts : nat) (s : t) : (Q * Q) * t :=
  match attempts with
  | O => ((WorldConstants.CENTER_X, WorldConstants.CENTER_Y),
          printMsg NoSafeRespawnPosition s)
  | S attempts' =>
      let '(candidatePos, s1) := respawn_candidate s in
      if isSafe candidatePos s1 then (candidatePos, s1)
      else respawn_attempts attempts' s1
  end.

Definition MAX_ATTEMPTS : nat := 10.

(** [GameServer::GetRandomRespawnPosition] *)
Definition GetRandomRespawnPosition (s : t) : (Q * Q) * t :=
  respawn_attempts MAX_ATTEMPTS s.

(** [GameServer::RespawnPlayer] *)
Definition RespawnPlayer (now : Z) (playerId : N) (s : t) : t :=
  match clients s !! playerId with
  | None => s
  | Some client =>
      if negb (ClientInfo.isActive client) then s
      else
        let '(spawnPos, s1) := GetRandomRespawnPosition s in
        let pd0 := ClientInfo.playerData client in
        let pd :=
          PlayerData.set_moving false false false false
            (PlayerData.set_barrelRotation 0
               (PlayerData.set_bodyRotation 0
                  (PlayerData.set_position spawnPos.1 spawnPos.2
                     (PlayerData.set_health (PlayerData.maxHealth pd0)
                        (PlayerData.set_isDead false pd0))))) in
        let client' :=
          ClientInfo.set_playerData pd
            (ClientInfo.set_deathTimer 0 (ClientInfo.set_isDead false client)) in
        BroadcastPlayerRespawn now playerId spawnPos (PlayerData.health pd)
          (set_clients (<[playerId := client']> (clients s1)) s1)
  end.

(** The body of the loop of [GameServer::UpdateDeadPlayers] for one key. *)
Definition update_dead_player (now : Z) (deltaTime : Q) (s : t) (playerId : N) : t :=
  match clients s !! playerId with
  | None => s
  | Some client =>
      if negb (ClientInfo.isActive client) || negb (ClientInfo.isDead client) then s
      else
        let client' :=
          ClientInfo.set_deathTimer (ClientInfo.deathTimer client - deltaTime) client in
        let s1 := set_clients (<[playerId := client']> (clients s)) s in
        if Qle_bool (ClientInfo.deathTimer client') 0
        then RespawnPlayer now playerId s1
        else s1
  end.

(** [GameServer::UpdateDeadPlayers] *)
Definition UpdateDeadPlayers (now : Z) (deltaTime : Q) (s : t) : t :=
  fold_left (update_dead_player now deltaTime) (List.map fst (client_list s)) s.

(** *** Timeouts, hits and whole runs *)

Definition clientTimeoutDuration : Q := 15.

(** The first loop of [GameServer::RemoveInactiveClients] for one client. *)
Definition age_client (deltaTime : Q) (c : ClientInfo.t) : ClientInfo.t :=
  if ClientInfo.isActive c then
    let c1 := ClientInfo.set_lastUpdateTime (ClientInfo.lastUpdateTime c + deltaTime) c in
    if Qgtb (ClientInfo.lastUpdateTime c1) clientTimeoutDuration
    then ClientInfo.set_isActive false c1 else c1
  else c.

(** [GameServer::RemoveInactiveClients]; [BroadcastPlayerLeft] is
    [SendGameStateToAll]. *)
Definition RemoveInactiveClients (now : Z) (deltaTime : Q) (s : t) : t :=
  let toRemove :=
    List.map fst
      (List.filter (fun kc => ClientInfo.isActive kc.2
                              && negb (ClientInfo.isActive (age_client deltaTime kc.2)))
                   (client_list s)) in
  fold_left (fun acc playerId =>
               let acc1 := SendGameStateToAll now acc in
               set_clients (delete playerId (clients acc1)) acc1)
            toRemove (set_clients (age_client deltaTime <$> clients s) s).

(** What [GameServer::CheckBulletCollisions] does to a player an enemy bullet
    of the given damage hits (the bullets themselves are not modelled). *)
Definition enemy_bullet_hits_player (playerId : N) (damage : Q) (s : t) : t :=
  match clients s !! playerId with
  | Some client =>
      if ClientInfo.isActive client then
        let pd := ClientInfo.playerData client in
        let lowered := PlayerData.health pd - damage in
        let health := if Qltb lowered 0 then 0 else lowered in
        set_clients
          (<[playerId := ClientInfo.set_playerData (PlayerData.set_health health pd) client]>
             (clients s)) s
      else s
  | None => s
  end.

(** The calls [GameServer::Update] and [ProcessPacket] make, one at a time. *)
Inductive ServerCall : Type :=
| CallHandleJoinRequest (now : Z) (msg : JoinMessage.t) (from : Endpoint)
| CallHandlePlayerUpdate (now : Z) (msg : PlayerUpdateMessage.t) (from : Endpoint)
| CallHandlePlayerInput (now : Z) (msg : PlayerInputMessage.t) (from : Endpoint)
| CallSimulatePlayerMovement (deltaTime : Q)
| CallUpdateEnemies (deltaTime : Q)
| CallEnemyBulletHitsPlayer (playerId : N) (damage : Q)
| CallCheckPlayerDeaths (now : Z)
| CallUpdateDeadPlayers (now : Z) (deltaTime : Q)
| CallSendGameStateToAll (now : Z)
| CallRemoveInactiveClients (now : Z) (deltaTime : Q).

Section Run.
Variables cosf sinf : Q -> Q.
Variable enemyUpdate : gmap N ClientInfo.t -> Q -> EnemyTank.t -> EnemyTank.t.

Definition call (s : t) (c : ServerCall) : t :=
  match c with
  | CallHandleJoinRequest now msg from => HandleJoinRequest now msg from s
  | CallHandlePlayerUpdate now msg from => HandlePlayerUpdate now msg from s
  | CallHandlePlayerInput now msg from => HandlePlayerInput now msg from s
  | CallSimulatePlayerMovement deltaTime => SimulatePlayerMovement cosf sinf deltaTime s
  | CallUpdateEnemies deltaTime => UpdateEnemies enemyUpdate deltaTime s
  | CallEnemyBulletHitsPlayer playerId damage => enemy_bullet_hits_player playerId damage s
  | CallCheckPlayerDeaths now => CheckPlayerDeaths now s
  | CallUpdateDeadPlayers now deltaTime => UpdateDeadPlayers now deltaTime s
  | CallSendGameStateToAll now => SendGameStateToAll now s
  | CallRemoveInactiveClients now deltaTime => RemoveInactiveClients now deltaTime s
  end.

(** The server after a sequence of calls. *)
Definition run (calls : list ServerCall) (s : t) : t := fold_left call calls s.

End Run.

End GameServer.

(** ** client_prediction.h, client_prediction.cpp *)

Module InputState.
Record t : Type := mk {
  sequenceNumber : N;
  timestamp : Z;
  moveForward : bool;
  moveBackward : bool;
  turnLeft : bool;
  turnRight : bool;
  deltaTime : Q;
  acknowledged : bool;
  sentTime : Z
}.

Definition set_acknowledged (v : bool) (i : t) : t :=
  mk (sequenceNumber i) (timestamp i) (moveForward i) (moveBackward i) (turnLeft i)
     (turnRight i) (deltaTime i) v (sentTime i).

Definition set_numbering (seq : N) (sent : Z) (i : t) : t :=
  mk seq (timestamp i) (moveForward i) (moveBackward i) (turnLeft i)
     (turnRight i) (deltaTime i) false sent.
End InputState.

Module BufferedInput.
Record t : Type := mk {
  input : InputState.t;
  needsReplay : bool;
  bufferTime : Z
}.

(** [BufferedInput(const InputState& inp)] *)
Definition make (inp : InputState.t) : t := mk inp false 0.

Definition set_needsReplay (v : bool) (b : t) : t := mk (input b) v (bufferTime b).
End BufferedInput.

Module ClientPrediction.

Record t : Type := mk {
  inputHistory : list InputState.t;
  nextSequenceNumber : N;
  inputBuffer : gmap N BufferedInput.t
}.

Definition MAX_PREDICTION_HISTORY : nat := 60.
Definition MAX_INPUT_BUFFER_SIZE : nat := 100.

(** The constructor: sequence numbers start at 1. *)
Definition make : t := mk [] 1%N ∅.

Definition set_inputBuffer (v : gmap N BufferedInput.t) (p : t) : t :=
  mk (inputHistory p) (nextSequenceNumber p) v.

(** The key of the entry with the smallest [input.timestamp], as the scan of
    [BufferInput] finds it ([UINT32_MAX] when there is none). *)
Definition oldest_buffered (buffer : gmap N BufferedInput.t) : N :=
  (fold_left (fun best kv =>
                if (InputState.timestamp (BufferedInput.input kv.2) <? best.2)%Z
                then (kv.1, InputState.timestamp (BufferedInput.input kv.2))
                else best)
             (map_to_list buffer) (4294967295%N, 9223372036854775807%Z)).1.

(** [ClientPrediction::BufferInput] *)
Definition BufferInput (input : InputState.t) (p : t) : t :=
  let buffer := <[InputState.sequenceNumber input := BufferedInput.make input]>
                  (inputBuffer p) in
  let buffer' :=
    if (MAX_INPUT_BUFFER_SIZE <? size buffer)%nat then
      let oldestSeq := oldest_buffered buffer in
      if (oldestSeq =? 4294967295)%N then buffer else delete oldestSeq buffer
    else buffer in
  set_inputBuffer buffer' p.

(** [ClientPrediction::StoreInput]; [now] is the clock. *)
Definition StoreInput (now : Z) (input : InputState.t) (p : t) : N * t :=
  let numberedInput := InputState.set_numbering (nextSequenceNumber p) now input in
  let p1 := mk (inputHistory p ++ [numberedInput]) (u32 (nextSequenceNumber p + 1))
               (inputBuffer p) in
  let p2 := BufferInput numberedInput p1 in
  let history := inputHistory p2 in
  (InputState.sequenceNumber numberedInput,
   mk (skipn (List.length history - MAX_PREDICTION_HISTORY) history)
      (nextSequenceNumber p2) (inputBuffer p2)).

(** [ClientPrediction::AcknowledgeInput]: the entry leaves the buffer and the
    first entry of the history with that number is marked. *)
Fixpoint mark_acknowledged (sequenceNumber : N) (history : list InputState.t)
  : list InputState.t :=
  match history with
  | [] => []
  | i :: rest =>
      if (InputState.sequenceNumber i =? sequenceNumber)%N
      then InputState.set_acknowledged true i :: rest
      else i :: mark_acknowledged sequenceNumber rest
  end.

Definition AcknowledgeInput (sequenceNumber : N) (p : t) : t :=
  mk (mark_acknowledged sequenceNumber (inputHistory p)) (nextSequenceNumber p)
     (delete sequenceNumber (inputBuffer p)).

(** [std::sort] by sequence number (the numbers of a buffer are distinct). *)
Fixpoint insert_by_sequence (i : InputState.t) (l : list InputState.t)
  : list InputState.t :=
  match l with
  | [] => [i]
  | j :: rest =>
      if (InputState.sequenceNumber i <? InputState.sequenceNumber j)%N
      then i :: l else j :: insert_by_sequence i rest
  end.

Definition sort_by_sequence (l : list InputState.t) : list InputState.t :=
  fold_right insert_by_sequence [] l.

(** [ClientPrediction::GetUnacknowledgedInputs] *)
Definition GetUnacknowledgedInputs (p : t) : list InputState.t :=
  sort_by_sequence
    (List.map (fun kv => BufferedInput.input kv.2)
       (List.filter (fun kv => negb (InputState.acknowledged (BufferedInput.input kv.2)))
                    (map_to_list (inputBuffer p)))).

(** [ClientPrediction::MarkInputsForReplay] *)
Definition MarkInputsForReplay (fromSequence : N) (p : t) : t :=
  set_inputBuffer
    ((fun b => if (fromSequence <=? InputState.sequenceNumber (BufferedInput.input b))%N
               then BufferedInput.set_needsReplay true b else b) <$> inputBuffer p) p.

(** [ClientPrediction::GetInputsToReplay] *)
Definition GetInputsToReplay (p : t) : list InputState.t :=
  sort_by_sequence
    (List.map (fun kv => BufferedInput.input kv.2)
       (List.filter (fun kv => BufferedInput.needsReplay kv.2)
                    (map_to_list (inputBuffer p)))).

(** [ClientPrediction::ClearReplayFlags] *)
Definition ClearReplayFlags (p : t) : t :=
  set_inputBuffer (BufferedInput.set_needsReplay false <$> inputBuffer p) p.

End ClientPrediction.

(** ** network_client.h, network_client.cpp: reconciliation *)

Module Tank.
(** The fields of [Tank] the reconciliation touches; [sf::Angle] is read in
    degrees. *)
Record t : Type := mk {
  position : Q * Q;
  bodyRotation : Q;
  barrelRotation : Q
}.
End Tank.

Module NetworkClient.
Local Open Scope Q_scope.

Record t : Type := mk {
  isConnected : bool;
  localPlayerId : N;
  prediction : ClientPrediction.t;
  predictionEnabled : bool;
  serverAuthoritativePosition : Q * Q;
  serverAuthoritativeBodyRotation : Q;
  hasServerAuthoritativeState : bool;
  reconciliationTargetPosition : Q * Q;
  reconciliationTargetRotation : Q;
  isReconciling : bool;
  lastAcknowledgedInputSeq : N
}.

Definition MOVEMENT_SPEED : Q := 150.
Definition ROTATION_SPEED : Q := 200.
Definition SMOOTH_CORRECTION_THRESHOLD : Q := 30.
Definition SNAP_CORRECTION_THRESHOLD : Q := 50.
Definition RECONCILIATION_RATE : Q := 6.

Definition set_prediction (v : ClientPrediction.t) (c : t) : t :=
  mk (isConnected c) (localPlayerId c) v (predictionEnabled c)
     (serverAuthoritativePosition c) (serverAuthoritativeBodyRotation c)
     (hasServerAuthoritativeState c) (reconciliationTargetPosition c)
     (reconciliationTargetRotation c) (isReconciling c) (lastAcknowledgedInputSeq c).

Definition set_isReconciling (v : bool) (c : t) : t :=
  mk (isConnected c) (localPlayerId c) (prediction c) (predictionEnabled c)
     (serverAuthoritativePosition c) (serverAuthoritativeBodyRotation c)
     (hasServerAuthoritativeState c) (reconciliationTargetPosition c)
     (reconciliationTargetRotation c) v (lastAcknowledgedInputSeq c).

(** [reconciliationTargetPosition = serverPos; reconciliationTargetRotation =
    serverRot; isReconciling = true;] *)
Definition start_reconciling (serverPos : Q * Q) (serverRot : Q) (c : t) : t :=
  mk (isConnected c) (localPlayerId c) (prediction c) (predictionEnabled c)
     (serverAuthoritativePosition c) (serverAuthoritativeBodyRotation c)
     (hasServerAuthoritativeState c) serverPos serverRot true
     (lastAcknowledgedInputSeq c).

Section Libm.
(** [std::sqrt], [std::cos], [std::sin], [std::atan2] *)
Variable sqrtf : Q -> Q.
Variables cosf sinf : Q -> Q.
Variable atan2f : Q -> Q -> Q.

(** [NetworkClient::ApplyInputToTank].  The [std::isfinite] test on the mouse
    offset always passes on rationals. *)
Definition ApplyInputToTank (input : InputState.t) (mousePos : Q * Q) (tank : Tank.t)
  : Tank.t :=
  let turned :=
    if InputState.turnLeft input
    then Tank.bodyRotation tank - ROTATION_SPEED * InputState.deltaTime input
    else if InputState.turnRight input
    then Tank.bodyRotation tank + ROTATION_SPEED * InputState.deltaTime input
    else Tank.bodyRotation tank in
  let bodyRotDegrees := NetworkValidation.NormalizeRotation turned in
  let radians := bodyRotDegrees * (314159 # 100000) / 180 in
  let direction := (cosf radians, sinf radians) in
  let position :=
    if InputState.moveForward input
    then ((Tank.position tank).1 + direction.1 * MOVEMENT_SPEED * InputState.deltaTime input,
          (Tank.position tank).2 + direction.2 * MOVEMENT_SPEED * InputState.deltaTime input)
    else if InputState.moveBackward input
    then ((Tank.position tank).1 - direction.1 * MOVEMENT_SPEED * InputState.deltaTime input,
          (Tank.position tank).2 - direction.2 * MOVEMENT_SPEED * InputState.deltaTime input)
    else Tank.position tank in
  let deltaX := mousePos.1 - position.1 in
  let deltaY := mousePos.2 - position.2 in
  let barrelAngle := atan2f deltaY deltaX * 180 / (314159 # 100000) in
  Tank.mk position bodyRotDegrees barrelAngle.

(** [NetworkClient::ReplayInputsAfterCorrection]; the source never reads its
    [fromSequence] parameter. *)
Definition ReplayInputsAfterCorrection (fromSequence : N) (mousePos : Q * Q)
  (localPlayer : Tank.t) (c : t) : Tank.t * t :=
  match ClientPrediction.GetInputsToReplay (prediction c) with
  | [] => (localPlayer, c)
  | inputsToReplay =>
      (fold_left (fun tank input => ApplyInputToTank input mousePos tank)
                 inputsToReplay localPlayer,
       set_prediction (ClientPrediction.ClearReplayFlags (prediction c)) c)
  end.

(** The block both early exits of [ApplyServerReconciliation] run while
    [isReconciling]: one step of the smooth correction, at the fixed step of
    0.016 s. *)
Definition continue_smooth (localPlayer : Tank.t) (c : t) : Tank.t * t :=
  let lerpFactor := RECONCILIATION_RATE * (16 # 1000) in
  let currentPos := Tank.position localPlayer in
  let targetPos := reconciliationTargetPosition c in
  let position := (currentPos.1 + (targetPos.1 - currentPos.1) * lerpFactor,
                   currentPos.2 + (targetPos.2 - currentPos.2) * lerpFactor) in
  let currentRot := Tank.bodyRotation localPlayer in
  let targetRot := reconciliationTargetRotation c in
  let rotDiff0 := targetRot - currentRot in
  let rotDiff1 := if Qgtb rotDiff0 180 then rotDiff0 - 360 else rotDiff0 in
  let rotDiff := if Qltb rotDiff1 (-180) then rotDiff1 + 360 else rotDiff1 in
  let distToTarget :=
    sqrtf ((targetPos.1 - position.1) * (targetPos.1 - position.1)
           + (targetPos.2 - position.2) * (targetPos.2 - position.2)) in
  (Tank.mk position (currentRot + rotDiff * lerpFactor) (Tank.barrelRotation localPlayer),
   if Qltb distToTarget 2 then set_isReconciling false c else c).

(** The position error [ApplyServerReconciliation] measures. *)
Definition position_error (localPlayer : Tank.t) (c : t) : Q :=
  let errorX := (Tank.position localPlayer).1 - (serverAuthoritativePosition c).1 in
  let errorY := (Tank.position localPlayer).2 - (serverAuthoritativePosition c).2 in
  sqrtf (errorX * errorX + errorY * errorY).

(** [NetworkClient::ApplyServerReconciliation] *)
Definition ApplyServerReconciliation (localPlayer : Tank.t) (c : t) : Tank.t * t :=
  if negb (predictionEnabled c) || negb (isConnected c) || (localPlayerId c =? 0)%N then
    if isReconciling c then continue_smooth localPlayer c else (localPlayer, c)
  else if negb (hasServerAuthoritativeState c) then
    if isReconciling c then continue_smooth localPlayer c else (localPlayer, c)
  else
    let serverPos := serverAuthoritativePosition c in
    let serverRot := serverAuthoritativeBodyRotation c in
    let error := position_error localPlayer c in
    if Qltb error 5 then (localPlayer, c)
    else if Qltb error SMOOTH_CORRECTION_THRESHOLD then
      (localPlayer, start_reconciling serverPos serverRot c)
    else if Qltb error SNAP_CORRECTION_THRESHOLD then
      let pos := Tank.position localPlayer in
      let halfway := (pos.1 + (serverPos.1 - pos.1) * (1 # 2),
                      pos.2 + (serverPos.2 - pos.2) * (1 # 2)) in
      let c1 := start_reconciling serverPos serverRot c in
      (Tank.mk halfway serverRot (Tank.barrelRotation localPlayer),
       set_prediction
         (ClientPrediction.MarkInputsForReplay (u32 (lastAcknowledgedInputSeq c + 1))
            (prediction c1)) c1)
    else
      let snapped := Tank.mk serverPos serverRot (Tank.barrelRotation localPlayer) in
      let c1 := set_isReconciling false c in
      let barrelDeg := Tank.barrelRotation snapped in
      let barrelRad := barrelDeg * (314159 # 100000) / 180 in
      let mouseDistance := 100 in
      let mousePos := ((Tank.position snapped).1 + cosf barrelRad * mouseDistance,
                       (Tank.position snapped).2 + sinf barrelRad * mouseDistance) in
      ReplayInputsAfterCorrection (u32 (lastAcknowledgedInputSeq c + 1)) mousePos
        snapped c1.

End Libm.

End NetworkClient.

(** ** entity_interpolation.h, entity_interpolation.cpp: the snapshot buffer *)

Module EntitySnapshot.
Record t : Type := mk {
  timestamp : Z;
  position : Q * Q;
  bodyRotation : Q;
  barrelRotation : Q;
  isMoving_forward : bool;
  isMoving_backward : bool;
  isMoving_left : bool;
  isMoving_right : bool;
  velocity : Q * Q;
  angularVelocity : Q
}.

Definition set_velocity (v : Q * Q) (w : Q) (s : t) : t :=
  mk (timestamp s) (position s) (bodyRotation s) (barrelRotation s)
     (isMoving_forward s) (isMoving_backward s) (isMoving_left s) (isMoving_right s)
     v w.

(** [EntitySnapshot(ts, pos, body, barrel)] *)
Definition make (ts : Z) (pos : Q * Q) (body barrel : Q) : t :=
  mk ts pos body barrel false false false false (0%Q, 0%Q) 0%Q.
End EntitySnapshot.

Module EntityInterpolationBuffer.

Record t : Type := mk {
  snapshots : list EntitySnapshot.t;
  cachedSearchIdx : nat
}.

Definition MAX_BUFFER_SIZE : nat := 64.
Definition INTERPOLATION_DELAY_MS : Z := 100.

(** The constructor. *)
Definition make : t := mk [] 0.

Definition timestamps (b : t) : list Z :=
  List.map EntitySnapshot.timestamp (snapshots b).

(** [std::lower_bound] with the comparator [a.timestamp < b.timestamp]: the
    index of the first snapshot that is not before [ts] (the length when
    there is none). *)
Fixpoint lower_bound (ts : Z) (l : list EntitySnapshot.t) : nat :=
  match l with
  | [] => 0
  | s :: rest =>
      if (EntitySnapshot.timestamp s <? ts)%Z then S (lower_bound ts rest) else 0
  end.

(** [snapshots.insert(it, s)] at index [i]. *)
Definition insert_at (i : nat) (s : EntitySnapshot.t) (l : list EntitySnapshot.t)
  : list EntitySnapshot.t :=
  firstn i l ++ s :: skipn i l.

(** [*it = s] at index [i]. *)
Definition assign_at (i : nat) (s : EntitySnapshot.t) (l : list EntitySnapshot.t)
  : list EntitySnapshot.t :=
  firstn i l ++ s :: skipn (S i) l.

(** [while (snapshots.size() > MAX_BUFFER_SIZE) { snapshots.pop_front();
    if (cachedSearchIdx > 0) cachedSearchIdx--; }] *)
Fixpoint enforce_max_size (l : list EntitySnapshot.t) (idx : nat)
  : list EntitySnapshot.t * nat :=
  match l with
  | [] => ([], idx)
  | _ :: rest =>
      if (MAX_BUFFER_SIZE <? List.length l)%nat
      then enforce_max_size rest (Nat.pred idx)
      else (l, idx)
  end.

Section Velocity.
(** [CalculateVelocity] and [CalculateAngularVelocity] (older, newer): they
    fill the velocity fields and read nothing of the buffer. *)
Variable CalculateVelocity : EntitySnapshot.t -> EntitySnapshot.t -> Q * Q.
Variable CalculateAngularVelocity : EntitySnapshot.t -> EntitySnapshot.t -> Q.

(** The first half of [AddSnapshot]: the velocity against the snapshot that
    precedes the new one in time. *)
Definition with_velocity (snapshot : EntitySnapshot.t) (l : list EntitySnapshot.t)
  : EntitySnapshot.t :=
  match l with
  | [] => EntitySnapshot.set_velocity (0%Q, 0%Q) 0%Q snapshot
  | _ =>
      match lower_bound (EntitySnapshot.timestamp snapshot) l with
      | O => EntitySnapshot.set_velocity (0%Q, 0%Q) 0%Q snapshot
      | S i =>
          match l !! i with
          | Some prevSnapshot =>
              EntitySnapshot.set_velocity
                (CalculateVelocity prevSnapshot snapshot)
                (CalculateAngularVelocity prevSnapshot snapshot) snapshot
          | None => snapshot
          end
      end
  end.

(** The second half: where the snapshot goes. *)
Definition place (s : EntitySnapshot.t) (l : list EntitySnapshot.t)
  : list EntitySnapshot.t :=
  match last l with
  | None => l ++ [s]
  | Some back =>
      if (EntitySnapshot.timestamp s >=? EntitySnapshot.timestamp back)%Z
      then l ++ [s]
      else
        let i := lower_bound (EntitySnapshot.timestamp s) l in
        match l !! i with
        | Some found =>
            if (EntitySnapshot.timestamp found =? EntitySnapshot.timestamp s)%Z
            then assign_at i s l
            else insert_at i s l
        | None => insert_at i s l
        end
  end.

(** [EntityInterpolationBuffer::AddSnapshot] *)
Definition AddSnapshot (snapshot : EntitySnapshot.t) (b : t) : t :=
  let snapshotWithVelocity := with_velocity snapshot (snapshots b) in
  let '(l, idx) :=
    enforce_max_size (place snapshotWithVelocity (snapshots b)) (cachedSearchIdx b) in
  mk l idx.

End Velocity.

(** [while (snapshots.size() > 2 && snapshots.front().timestamp < cutoffTime)
    { snapshots.pop_front(); if (cachedSearchIdx > 0) cachedSearchIdx--; }] *)
Fixpoint drop_old (cutoffTime : Z) (l : list EntitySnapshot.t) (idx : nat)
  : list EntitySnapshot.t * nat :=
  match l with
  | [] => ([], idx)
  | front :: rest =>
      if (2 <? List.length l)%nat && (EntitySnapshot.timestamp front <? cutoffTime)%Z
      then drop_old cutoffTime rest (Nat.pred idx)
      else (l, idx)
  end.

(** [EntityInterpolationBuffer::CleanupOldSnapshots] *)
Definition CleanupOldSnapshots (currentRenderTime : Z) (b : t) : t :=
  let SAFETY_MARGIN := (INTERPOLATION_DELAY_MS * 2)%Z in
  let cutoffTime := (currentRenderTime - SAFETY_MARGIN)%Z in
  let '(l, idx) := drop_old cutoffTime (snapshots b) (cachedSearchIdx b) in
  mk l idx.

(** [EntityInterpolationBuffer::Clear] *)
Definition Clear (b : t) : t := mk [] (cachedSearchIdx b).

End EntityInterpolationBuffer.

(** ** client_prediction.cpp: the queries and the upkeep of the buffer *)

Module ClientPredictionBuffer.
Import ClientPrediction.


(** [ClientPrediction::GetInput]: the first input of the history with that
    sequence number. *)
Definition GetInput (sequenceNumber : N) (p : t) : option InputState.t :=
  List.find (fun i => (InputState.sequenceNumber i =? sequenceNumber)%N) (inputHistory p).

(** [ClientPrediction::GetInputsAfter] *)
Definition GetInputsAfter (sequenceNumber : N) (p : t) : list InputState.t :=
  sort_by_sequence
    (List.filter (fun i => (sequenceNumber <? InputState.sequenceNumber i)%N)
                 (inputHistory p)).

(** [ClientPrediction::GetLatestSequenceNumber]: [nextSequenceNumber - 1] on
    [uint32_t]. *)
Definition GetLatestSequenceNumber (p : t) : N :=
  u32 (nextSequenceNumber p + (UINT32_MOD - 1)).

(** [GetUnacknowledgedCount] *)
Definition GetUnacknowledgedCount (p : t) : nat := size (inputBuffer p).

(** [ClientPrediction::Clear] *)
Definition Clear (p : t) : t := make.







End ClientPredictionBuffer.

(** ** The wire: [sf::Packet] and network_messages.cpp

    An [sf::Packet] is read here as the sequence of values written to it,
    each with the type it was written with; [bool] travels as a [uint8_t], as
    in SFML.  A read ([operator>>]) takes the next value; a read past the end
    of the packet makes the packet invalid, which is all the callers test
    ([if (packet >> a >> b)]).  The bytes of a value are not modelled, so a
    read that meets a value written with another type has no meaning here
    and is given as invalid too; the packets studied below are those the
    program's own writers build, and prefixes of them. *)

Module Wire.

Inductive Field : Type :=
| U8 (n : N)
| U32 (n : N)
| I32 (z : Z)
| I64 (z : Z)
| F32 (q : Q)
| Str (s : string).

(** The values of a packet that have not been read yet. *)
Definition data : Type := list Field.

(** A chain of reads: the values read and the rest of the packet, or [None]
    when the packet became invalid. *)
Definition Reader (A : Type) : Type := data -> option (A * data).

Definition ret {A : Type} (a : A) : Reader A := fun d => Some (a, d).

Definition bind {A B : Type} (r : Reader A) (f : A -> Reader B) : Reader B :=
  fun d => match r d with
           | Some (a, rest) => f a rest
           | None => None
           end.

Definition read_u8 : Reader N :=
  fun d => match d with U8 n :: rest => Some (n, rest) | _ => None end.
Definition read_u32 : Reader N :=
  fun d => match d with U32 n :: rest => Some (n, rest) | _ => None end.
Definition read_i32 : Reader Z :=
  fun d => match d with I32 z :: rest => Some (z, rest) | _ => None end.
Definition read_i64 : Reader Z :=
  fun d => match d with I64 z :: rest => Some (z, rest) | _ => None end.
Definition read_f32 : Reader Q :=
  fun d => match d with F32 q :: rest => Some (q, rest) | _ => None end.
Definition read_string : Reader string :=
  fun d => match d with Str s :: rest => Some (s, rest) | _ => None end.

(** [operator<<(bool)] writes [static_cast<uint8_t>(data)]; [operator>>(bool&)]
    reads a [uint8_t] and tests [value != 0]. *)
Definition write_bool (b : bool) : Field := U8 (if b then 1 else 0).
Definition read_bool : Reader bool :=
  bind read_u8 (fun n => ret (negb (n =? 0)%N)).

(** [for (uint32_t i = 0; i < count; ++i) { T x; packet >> x; v.push_back(x); }] *)
Fixpoint read_n {A : Type} (count : nat) (r : Reader A) : Reader (list A) :=
  match count with
  | O => ret []
  | S count' => bind r (fun x => bind (read_n count' r) (fun xs => ret (x :: xs)))
  end.

End Wire.

#[global] Instance Reader_ret : MRet Wire.Reader := @Wire.ret.
#[global] Instance Reader_bind : MBind Wire.Reader :=
  fun A B f r => Wire.bind r f.

(** [enum class NetMessageType : uint8_t] *)
Module NetMessageType.
Definition PLAYER_JOIN : N := 1.
Definition PLAYER_LEAVE : N := 2.
Definition PLAYER_UPDATE : N := 3.
Definition GAME_STATE : N := 4.
Definition PLAYER_LIST : N := 5.
Definition PLAYER_ID_ASSIGNMENT : N := 6.
Definition PING : N := 7.
Definition PONG : N := 8.
Definition PLAYER_INPUT : N := 9.
Definition INPUT_ACKNOWLEDGMENT : N := 10.
Definition BULLET_SPAWN : N := 11.
Definition BULLET_UPDATE : N := 12.
Definition BULLET_DESTROY : N := 13.
Definition PLAYER_DEATH : N := 14.
Definition PLAYER_RESPAWN : N := 15.
End NetMessageType.

Module BulletData.
Record t : Type := mk {
  bulletId : N;
  ownerId : N;
  bulletType : N;
  x : Q;
  y : Q;
  velocityX : Q;
  velocityY : Q;
  rotation : Q;
  damage : Q;
  lifetime : Q;
  spawnTime : Z
}.
End BulletData.

Module PingMessage.
Record t : Type := mk { timestamp : Z; sequenceNumber : N }.
End PingMessage.

Module PongMessage.
Record t : Type := mk { originalTimestamp : Z; sequenceNumber : N }.
End PongMessage.

Module InputAcknowledgmentMessage.
Record t : Type := mk {
  playerId : N;
  acknowledgedSequence : N;
  serverTimestamp : Z
}.
End InputAcknowledgmentMessage.

Module BulletSpawnMessage.
Record t : Type := mk {
  playerId : N;
  spawnX : Q;
  spawnY : Q;
  directionX : Q;
  directionY : Q;
  barrelRotation : Q;
  timestamp : Z;
  sequenceNumber : N
}.
End BulletSpawnMessage.

Module BulletUpdateMessage.
Record t : Type := mk {
  bullets : list BulletData.t;
  timestamp : Z;
  sequenceNumber : N
}.
End BulletUpdateMessage.

Module BulletDestroyMessage.
Record t : Type := mk {
  bulletId : N;
  destroyReason : N;
  hitTargetId : N;
  hitX : Q;
  hitY : Q;
  timestamp : Z;
  sequenceNumber : N
}.
End BulletDestroyMessage.

(** [namespace NetworkUtils]: for each struct, [write_T] is
    [operator<<(sf::Packet&, const T&)] (the values it appends) and [read_T]
    is [operator>>(sf::Packet&, T&)].  The readers of the messages return the
    type byte they read next to the message. *)
Module NetworkUtils.
Import Wire.

Definition write_PlayerData (player : PlayerData.t) : data :=
  [U32 (PlayerData.playerId player);
   Str (PlayerData.playerName player);
   F32 (PlayerData.x player);
   F32 (PlayerData.y player);
   F32 (PlayerData.bodyRotation player);
   F32 (PlayerData.barrelRotation player);
   Str (PlayerData.color player);
   write_bool (PlayerData.isMoving_forward player);
   write_bool (PlayerData.isMoving_backward player);
   write_bool (PlayerData.isMoving_left player);
   write_bool (PlayerData.isMoving_right player);
   F32 (PlayerData.health player);
   F32 (PlayerData.maxHealth player);
   I32 (PlayerData.score player);
   write_bool (PlayerData.isDead player)].

Definition read_PlayerData : Reader PlayerData.t :=
  playerId ← read_u32;
  playerName ← read_string;
  x ← read_f32;
  y ← read_f32;
  bodyRotation ← read_f32;
  barrelRotation ← read_f32;
  color ← read_string;
  isMoving_forward ← read_bool;
  isMoving_backward ← read_bool;
  isMoving_left ← read_bool;
  isMoving_right ← read_bool;
  health ← read_f32;
  maxHealth ← read_f32;
  score ← read_i32;
  isDead ← read_bool;
  mret (PlayerData.mk playerId playerName x y bodyRotation barrelRotation color
         isMoving_forward isMoving_backward isMoving_left isMoving_right
         health maxHealth score isDead).

Definition write_EnemyData (enemy : EnemyData.t) : data :=
  [U32 (EnemyData.enemyId enemy);
   U8 (EnemyData.enemyType enemy);
   F32 (EnemyData.x enemy);
   F32 (EnemyData.y enemy);
   F32 (EnemyData.bodyRotation enemy);
   F32 (EnemyData.barrelRotation enemy);
   F32 (EnemyData.health enemy);
   F32 (EnemyData.maxHealth enemy)].

Definition read_EnemyData : Reader EnemyData.t :=
  enemyId ← read_u32;
  enemyType ← read_u8;
  x ← read_f32;
  y ← read_f32;
  bodyRotation ← read_f32;
  barrelRotation ← read_f32;
  health ← read_f32;
  maxHealth ← read_f32;
  mret (EnemyData.mk enemyId enemyType x y bodyRotation barrelRotation health maxHealth).

Definition write_BulletData (bullet : BulletData.t) : data :=
  [U32 (BulletData.bulletId bullet);
   U32 (BulletData.ownerId bullet);
   U8 (BulletData.bulletType bullet);
   F32 (BulletData.x bullet);
   F32 (BulletData.y bullet);
   F32 (BulletData.velocityX bullet);
   F32 (BulletData.velocityY bullet);
   F32 (BulletData.rotation bullet);
   F32 (BulletData.damage bullet);
   F32 (BulletData.lifetime bullet);
   I64 (BulletData.spawnTime bullet)].

Definition read_BulletData : Reader BulletData.t :=
  bulletId ← read_u32;
  ownerId ← read_u32;
  bulletType ← read_u8;
  x ← read_f32;
  y ← read_f32;
  velocityX ← read_f32;
  velocityY ← read_f32;
  rotation ← read_f32;
  damage ← read_f32;
  lifetime ← read_f32;
  spawnTime ← read_i64;
  mret (BulletData.mk bulletId ownerId bulletType x y velocityX velocityY rotation
         damage lifetime spawnTime).

Definition write_JoinMessage (msg : JoinMessage.t) : data :=
  [U8 NetMessageType.PLAYER_JOIN;
   Str (JoinMessage.playerName msg);
   Str (JoinMessage.preferredColor msg);
   I64 (JoinMessage.timestamp msg);
   U32 (JoinMessage.sequenceNumber msg)].

Definition read_JoinMessage : Reader (N * JoinMessage.t) :=
  type ← read_u8;
  playerName ← read_string;
  preferredColor ← read_string;
  timestamp ← read_i64;
  sequenceNumber ← read_u32;
  mret (type, JoinMessage.mk playerName preferredColor timestamp sequenceNumber).

Definition write_PlayerUpdateMessage (msg : PlayerUpdateMessage.t) : data :=
  [U8 NetMessageType.PLAYER_UPDATE;
   U32 (PlayerUpdateMessage.playerId msg);
   F32 (PlayerUpdateMessage.x msg);
   F32 (PlayerUpdateMessage.y msg);
   F32 (PlayerUpdateMessage.bodyRotation msg);
   F32 (PlayerUpdateMessage.barrelRotation msg);
   write_bool (PlayerUpdateMessage.isMoving_forward msg);
   write_bool (PlayerUpdateMessage.isMoving_backward msg);
   write_bool (PlayerUpdateMessage.isMoving_left msg);
   write_bool (PlayerUpdateMessage.isMoving_right msg);
   I64 (PlayerUpdateMessage.timestamp msg);
   U32 (PlayerUpdateMessage.sequenceNumber msg)].

Definition read_PlayerUpdateMessage : Reader (N * PlayerUpdateMessage.t) :=
  type ← read_u8;
  playerId ← read_u32;
  x ← read_f32;
  y ← read_f32;
  bodyRotation ← read_f32;
  barrelRotation ← read_f32;
  isMoving_forward ← read_bool;
  isMoving_backward ← read_bool;
  isMoving_left ← read_bool;
  isMoving_right ← read_bool;
  timestamp ← read_i64;
  sequenceNumber ← read_u32;
  mret (type, PlayerUpdateMessage.mk playerId x y bodyRotation barrelRotation
               isMoving_forward isMoving_backward isMoving_left isMoving_right
               timestamp sequenceNumber).

Definition write_PlayerInputMessage (msg : PlayerInputMessage.t) : data :=
  [U8 NetMessageType.PLAYER_INPUT;
   U32 (PlayerInputMessage.playerId msg);
   write_bool (PlayerInputMessage.isMoving_forward msg);
   write_bool (PlayerInputMessage.isMoving_backward msg);
   write_bool (PlayerInputMessage.isMoving_left msg);
   write_bool (PlayerInputMessage.isMoving_right msg);
   I64 (PlayerInputMessage.timestamp msg);
   U32 (PlayerInputMessage.sequenceNumber msg);
   F32 (PlayerInputMessage.barrelRotation msg)].

Definition read_PlayerInputMessage : Reader (N * PlayerInputMessage.t) :=
  type ← read_u8;
  playerId ← read_u32;
  isMoving_forward ← read_bool;
  isMoving_backward ← read_bool;
  isMoving_left ← read_bool;
  isMoving_right ← read_bool;
  timestamp ← read_i64;
  sequenceNumber ← read_u32;
  barrelRotation ← read_f32;
  mret (type, PlayerInputMessage.mk playerId isMoving_forward isMoving_backward
               isMoving_left isMoving_right barrelRotation timestamp sequenceNumber).

(** [operator<<] writes [static_cast<uint32_t>(msg.players.size())] and
    [msg.enemies.size()]; the count fields of the record are what
    [operator>>] read. *)
Definition write_GameStateMessage (msg : GameStateMessage.t) : data :=
  [U8 NetMessageType.GAME_STATE;
   U32 (u32 (N.of_nat (List.length (GameStateMessage.players msg))))]
  ++ List.concat (List.map write_PlayerData (GameStateMessage.players msg))
  ++ [U32 (u32 (N.of_nat (List.length (GameStateMessage.enemies msg))))]
  ++ List.concat (List.map write_EnemyData (GameStateMessage.enemies msg))
  ++ [I64 (GameStateMessage.timestamp msg);
      U32 (GameStateMessage.sequenceNumber msg);
      U32 (GameStateMessage.lastAckedInput msg)].

Definition read_GameStateMessage : Reader (N * GameStateMessage.t) :=
  type ← read_u8;
  playerCount ← read_u32;
  players ← read_n (N.to_nat playerCount) read_PlayerData;
  enemyCount ← read_u32;
  enemies ← read_n (N.to_nat enemyCount) read_EnemyData;
  timestamp ← read_i64;
  sequenceNumber ← read_u32;
  lastAckedInput ← read_u32;
  mret (type, GameStateMessage.mk playerCount players enemyCount enemies timestamp
               sequenceNumber lastAckedInput).

Definition write_PingMessage (msg : PingMessage.t) : data :=
  [U8 NetMessageType.PING;
   I64 (PingMessage.timestamp msg);
   U32 (PingMessage.sequenceNumber msg)].

Definition read_PingMessage : Reader (N * PingMessage.t) :=
  type ← read_u8;
  timestamp ← read_i64;
  sequenceNumber ← read_u32;
  mret (type, PingMessage.mk timestamp sequenceNumber).

Definition write_PongMessage (msg : PongMessage.t) : data :=
  [U8 NetMessageType.PONG;
   I64 (PongMessage.originalTimestamp msg);
   U32 (PongMessage.sequenceNumber msg)].

Definition read_PongMessage : Reader (N * PongMessage.t) :=
  type ← read_u8;
  originalTimestamp ← read_i64;
  sequenceNumber ← read_u32;
  mret (type, PongMessage.mk originalTimestamp sequenceNumber).

Definition write_InputAcknowledgmentMessage (msg : InputAcknowledgmentMessage.t) : data :=
  [U8 NetMessageType.INPUT_ACKNOWLEDGMENT;
   U32 (InputAcknowledgmentMessage.playerId msg);
   U32 (InputAcknowledgmentMessage.acknowledgedSequence msg);
   I64 (InputAcknowledgmentMessage.serverTimestamp msg)].

Definition read_InputAcknowledgmentMessage : Reader (N * InputAcknowledgmentMessage.t) :=
  type ← read_u8;
  playerId ← read_u32;
  acknowledgedSequence ← read_u32;
  serverTimestamp ← read_i64;
  mret (type, InputAcknowledgmentMessage.mk playerId acknowledgedSequence serverTimestamp).

Definition write_BulletSpawnMessage (msg : BulletSpawnMessage.t) : data :=
  [U8 NetMessageType.BULLET_SPAWN;
   U32 (BulletSpawnMessage.playerId msg);
   F32 (BulletSpawnMessage.spawnX msg);
   F32 (BulletSpawnMessage.spawnY msg);
   F32 (BulletSpawnMessage.directionX msg);
   F32 (BulletSpawnMessage.directionY msg);
   F32 (BulletSpawnMessage.barrelRotation msg);
   I64 (BulletSpawnMessage.timestamp msg);
   U32 (BulletSpawnMessage.sequenceNumber msg)].

Definition read_BulletSpawnMessage : Reader (N * BulletSpawnMessage.t) :=
  type ← read_u8;
  playerId ← read_u32;
  spawnX ← read_f32;
  spawnY ← read_f32;
  directionX ← read_f32;
  directionY ← read_f32;
  barrelRotation ← read_f32;
  timestamp ← read_i64;
  sequenceNumber ← read_u32;
  mret (type, BulletSpawnMessage.mk playerId spawnX spawnY directionX directionY
               barrelRotation timestamp sequenceNumber).

Definition write_BulletUpdateMessage (msg : BulletUpdateMessage.t) : data :=
  [U8 NetMessageType.BULLET_UPDATE;
   U32 (u32 (N.of_nat (List.length (BulletUpdateMessage.bullets msg))))]
  ++ List.concat (List.map write_BulletData (BulletUpdateMessage.bullets msg))
  ++ [I64 (BulletUpdateMessage.timestamp msg);
      U32 (BulletUpdateMessage.sequenceNumber msg)].

Definition read_BulletUpdateMessage : Reader (N * BulletUpdateMessage.t) :=
  type ← read_u8;
  bulletCount ← read_u32;
  bullets ← read_n (N.to_nat bulletCount) read_BulletData;
  timestamp ← read_i64;
  sequenceNumber ← read_u32;
  mret (type, BulletUpdateMessage.mk bullets timestamp sequenceNumber).

Definition write_BulletDestroyMessage (msg : BulletDestroyMessage.t) : data :=
  [U8 NetMessageType.BULLET_DESTROY;
   U32 (BulletDestroyMessage.bulletId msg);
   U8 (BulletDestroyMessage.destroyReason msg);
   U32 (BulletDestroyMessage.hitTargetId msg);
   F32 (BulletDestroyMessage.hitX msg);
   F32 (BulletDestroyMessage.hitY msg);
   I64 (BulletDestroyMessage.timestamp msg);
   U32 (BulletDestroyMessage.sequenceNumber msg)].

Definition read_BulletDestroyMessage : Reader (N * BulletDestroyMessage.t) :=
  type ← read_u8;
  bulletId ← read_u32;
  destroyReason ← read_u8;
  hitTargetId ← read_u32;
  hitX ← read_f32;
  hitY ← read_f32;
  timestamp ← read_i64;
  sequenceNumber ← read_u32;
  mret (type, BulletDestroyMessage.mk bulletId destroyReason hitTargetId hitX hitY
               timestamp sequenceNumber).

End NetworkUtils.

(** ** game_server.cpp on the wire *)

Module GameServerWire.
Import Wire GameServer.

(** The values each send of the server writes to its packet
    ([SendPlayerIdAssignment], [SendGameStateToAll] and
    [SendGameStateToClient], [SendInputAcknowledgment],
    [BroadcastPlayerDeath], [BroadcastPlayerRespawn]). *)
Definition wire (p : Packet) : data :=
  match p with
  | PLAYER_ID_ASSIGNMENT playerId =>
      [U8 NetMessageType.PLAYER_ID_ASSIGNMENT; U32 playerId]
  | GAME_STATE msg =>
      [U8 NetMessageType.GAME_STATE; U32 (u32 (GameStateMessage.activeClientCount msg))]
      ++ List.concat (List.map NetworkUtils.write_PlayerData (GameStateMessage.players msg))
      ++ [U32 (u32 (GameStateMessage.enemyCount msg))]
      ++ List.concat (List.map NetworkUtils.write_EnemyData (GameStateMessage.enemies msg))
      ++ [I64 (GameStateMessage.timestamp msg);
          U32 (GameStateMessage.sequenceNumber msg);
          U32 (GameStateMessage.lastAckedInput msg)]
  | INPUT_ACKNOWLEDGMENT playerId acknowledgedSequence serverTimestamp =>
      [U8 NetMessageType.INPUT_ACKNOWLEDGMENT; U32 playerId; U32 acknowledgedSequence;
       I64 serverTimestamp]
  | PLAYER_DEATH playerId killerId deathX deathY scorePenalty timestamp sequenceNumber =>
      [U8 NetMessageType.PLAYER_DEATH; U32 playerId; U32 killerId; F32 deathX; F32 deathY;
       I32 scorePenalty; I64 timestamp; U32 sequenceNumber]
  | PLAYER_RESPAWN playerId spawnX spawnY health timestamp sequenceNumber =>
      [U8 NetMessageType.PLAYER_RESPAWN; U32 playerId; F32 spawnX; F32 spawnY; F32 health;
       I64 timestamp; U32 sequenceNumber]
  end.

Section Handlers.
(** [HandleBulletSpawn] and [HandlePing] work on the bullets and answer with a
    Pong, which this model of the server does not hold. *)
Variable HandleBulletSpawn : Z -> BulletSpawnMessage.t -> Endpoint -> t -> t.
Variable HandlePing : PingMessage.t -> Endpoint -> t -> t.

(** [GameServer::ProcessPacket]; the warnings for packets that do not parse
    go to the console only. *)
Definition ProcessPacket (now : Z) (packet : data) (from : Endpoint) (s : t) : t :=
  match read_u8 packet with
  | None => s
  | Some (messageTypeRaw, rest) =>
      if (messageTypeRaw =? NetMessageType.PLAYER_JOIN)%N then
        match (playerName ← read_string;
               preferredColor ← read_string;
               timestamp ← read_i64;
               sequenceNumber ← read_u32;
               mret (JoinMessage.mk playerName preferredColor timestamp sequenceNumber))
                rest with
        | Some (joinMsg, _) => HandleJoinRequest now joinMsg from s
        | None => s
        end
      else if (messageTypeRaw =? NetMessageType.PLAYER_UPDATE)%N then
        match (playerId ← read_u32;
               x ← read_f32;
               y ← read_f32;
               bodyRotation ← read_f32;
               barrelRotation ← read_f32;
               isMoving_forward ← read_bool;
               isMoving_backward ← read_bool;
               isMoving_left ← read_bool;
               isMoving_right ← read_bool;
               timestamp ← read_i64;
               sequenceNumber ← read_u32;
               mret (PlayerUpdateMessage.mk playerId x y bodyRotation barrelRotation
                       isMoving_forward isMoving_backward isMoving_left isMoving_right
                       timestamp sequenceNumber)) rest with
        | Some (updateMsg, _) => HandlePlayerUpdate now updateMsg from s
        | None => s
        end
      else if (messageTypeRaw =? NetMessageType.PLAYER_INPUT)%N then
        match (playerId ← read_u32;
               isMoving_forward ← read_bool;
               isMoving_backward ← read_bool;
               isMoving_left ← read_bool;
               isMoving_right ← read_bool;
               timestamp ← read_i64;
               sequenceNumber ← read_u32;
               barrelRotation ← read_f32;
               mret (PlayerInputMessage.mk playerId isMoving_forward isMoving_backward
                       isMoving_left isMoving_right barrelRotation timestamp
                       sequenceNumber)) rest with
        | Some (inputMsg, _) => HandlePlayerInput now inputMsg from s
        | None => s
        end
      else if (messageTypeRaw =? NetMessageType.BULLET_SPAWN)%N then
        match (playerId ← read_u32;
               spawnX ← read_f32;
               spawnY ← read_f32;
               directionX ← read_f32;
               directionY ← read_f32;
               barrelRotation ← read_f32;
               timestamp ← read_i64;
               sequenceNumber ← read_u32;
               mret (BulletSpawnMessage.mk playerId spawnX spawnY directionX directionY
                       barrelRotation timestamp sequenceNumber)) rest with
        | Some (spawnMsg, _) => HandleBulletSpawn now spawnMsg from s
        | None => s
        end
      else if (messageTypeRaw =? NetMessageType.PING)%N then
        match (timestamp ← read_i64;
               sequenceNumber ← read_u32;
               mret (PingMessage.mk timestamp sequenceNumber)) rest with
        | Some (pingMsg, _) => HandlePing pingMsg from s
        | None => s
        end
      else s
  end.

End Handlers.

End GameServerWire.

(** ** network_client.cpp on the wire *)

(** [sf::Socket::Status] *)
Module SocketStatus.
Inductive t : Type := Done | NotReady | Partial | Disconnected | Error.
End SocketStatus.

(** What [NetworkClient] keeps of the game states it receives. *)
Module ServerView.
Record t : Type := mk {
  otherPlayers : gmap N PlayerData.t;
  enemyData : gmap N EnemyData.t;
  serverAuthoritativeBarrelRotation : Q;
  serverAuthoritativeHealth : Q;
  serverAuthoritativeMaxHealth : Q;
  serverAuthoritativeScore : Z;
  serverAuthoritativeIsDead : bool;
  lastServerTimestamp : Z;
  receivedSequenceNumbers : gmap N bool;
  lastReceivedSequenceNumber : N
}.

(** The values of the constructor. *)
Definition make : t := mk ∅ ∅ 0 100 100 0 false 0 ∅ 0.

Definition set_otherPlayers (v : gmap N PlayerData.t) (w : t) : t :=
  mk v (enemyData w) (serverAuthoritativeBarrelRotation w) (serverAuthoritativeHealth w)
     (serverAuthoritativeMaxHealth w) (serverAuthoritativeScore w)
     (serverAuthoritativeIsDead w) (lastServerTimestamp w) (receivedSequenceNumbers w)
     (lastReceivedSequenceNumber w).

Definition set_enemyData (v : gmap N EnemyData.t) (w : t) : t :=
  mk (otherPlayers w) v (serverAuthoritativeBarrelRotation w) (serverAuthoritativeHealth w)
     (serverAuthoritativeMaxHealth w) (serverAuthoritativeScore w)
     (serverAuthoritativeIsDead w) (lastServerTimestamp w) (receivedSequenceNumbers w)
     (lastReceivedSequenceNumber w).

Definition set_authoritative (player : PlayerData.t) (w : t) : t :=
  mk (otherPlayers w) (enemyData w) (PlayerData.barrelRotation player)
     (PlayerData.health player) (PlayerData.maxHealth player) (PlayerData.score player)
     (PlayerData.isDead player) (lastServerTimestamp w) (receivedSequenceNumbers w)
     (lastReceivedSequenceNumber w).

Definition set_lastServerTimestamp (v : Z) (w : t) : t :=
  mk (otherPlayers w) (enemyData w) (serverAuthoritativeBarrelRotation w)
     (serverAuthoritativeHealth w) (serverAuthoritativeMaxHealth w)
     (serverAuthoritativeScore w) (serverAuthoritativeIsDead w) v
     (receivedSequenceNumbers w) (lastReceivedSequenceNumber w).

Definition MAX_SEQUENCE_HISTORY : N := 200.

(** [NetworkClient::IsPacketOutOfOrder] *)
Definition IsPacketOutOfOrder (sequenceNumber : N) (w : t) : bool :=
  match receivedSequenceNumbers w !! sequenceNumber with
  | Some _ => true
  | None => (sequenceNumber <? lastReceivedSequenceNumber w)%N
  end.

(** [NetworkClient::CleanupOldSequenceNumbers] *)
Definition CleanupOldSequenceNumbers (w : t) : t :=
  if (MAX_SEQUENCE_HISTORY <? N.of_nat (size (receivedSequenceNumbers w)))%N then
    let minSequence :=
      if (MAX_SEQUENCE_HISTORY <? lastReceivedSequenceNumber w)%N
      then (lastReceivedSequenceNumber w - MAX_SEQUENCE_HISTORY)%N else 0%N in
    mk (otherPlayers w) (enemyData w) (serverAuthoritativeBarrelRotation w)
       (serverAuthoritativeHealth w) (serverAuthoritativeMaxHealth w)
       (serverAuthoritativeScore w) (serverAuthoritativeIsDead w) (lastServerTimestamp w)
       (filter (fun kv => (minSequence <= kv.1)%N) (receivedSequenceNumbers w))
       (lastReceivedSequenceNumber w)
  else w.

(** [NetworkClient::RecordReceivedPacket]; the out-of-order test only
    prints. *)
Definition RecordReceivedPacket (sequenceNumber : N) (w : t) : t :=
  CleanupOldSequenceNumbers
    (mk (otherPlayers w) (enemyData w) (serverAuthoritativeBarrelRotation w)
        (serverAuthoritativeHealth w) (serverAuthoritativeMaxHealth w)
        (serverAuthoritativeScore w) (serverAuthoritativeIsDead w) (lastServerTimestamp w)
        (<[sequenceNumber := true]> (receivedSequenceNumbers w))
        (if (lastReceivedSequenceNumber w <? sequenceNumber)%N
         then sequenceNumber else lastReceivedSequenceNumber w)).

End ServerView.

Module NetworkClientLink.
Import Wire.
Local Open Scope Q_scope.

(** The members of [NetworkClient] its sends and its receive path use, next
    to those of [NetworkClient.t] and [ServerView.t]; [sentPackets] holds
    (sequenceNumber, sentTime); [outbox] holds the packets [socket.send]
    accepted. *)
Record t : Type := mk {
  client : NetworkClient.t;
  outgoingSequenceNumber : N;
  sentPackets : list (N * Z);
  totalPacketsSent : N;
  consecutiveErrors : Z;
  updateTimer : Q;
  lastInputAckTime : Z;
  outbox : list data;
  world : ServerView.t
}.

Definition updateRate : Q := 167 # 10000.
Definition maxConsecutiveErrors : Z := 5.
Definition MAX_SENT_PACKETS_HISTORY : nat := 100.

(** The constructor. *)
Definition make : t :=
  mk (NetworkClient.mk false 0 ClientPrediction.make true (0, 0) 0 false (0, 0) 0 false 0)
     0 [] 0 0 0 0 [] ServerView.make.

Definition set_client (v : NetworkClient.t) (l : t) : t :=
  mk v (outgoingSequenceNumber l) (sentPackets l) (totalPacketsSent l)
     (consecutiveErrors l) (updateTimer l) (lastInputAckTime l) (outbox l) (world l).

Definition set_consecutiveErrors (v : Z) (l : t) : t :=
  mk (client l) (outgoingSequenceNumber l) (sentPackets l) (totalPacketsSent l)
     v (updateTimer l) (lastInputAckTime l) (outbox l) (world l).

Definition set_lastInputAckTime (v : Z) (l : t) : t :=
  mk (client l) (outgoingSequenceNumber l) (sentPackets l) (totalPacketsSent l)
     (consecutiveErrors l) (updateTimer l) v (outbox l) (world l).

Definition set_world (v : ServerView.t) (l : t) : t :=
  mk (client l) (outgoingSequenceNumber l) (sentPackets l) (totalPacketsSent l)
     (consecutiveErrors l) (updateTimer l) (lastInputAckTime l) (outbox l) v.

Definition set_isConnected (v : bool) (c : NetworkClient.t) : NetworkClient.t :=
  NetworkClient.mk v (NetworkClient.localPlayerId c) (NetworkClient.prediction c)
    (NetworkClient.predictionEnabled c) (NetworkClient.serverAuthoritativePosition c)
    (NetworkClient.serverAuthoritativeBodyRotation c)
    (NetworkClient.hasServerAuthoritativeState c)
    (NetworkClient.reconciliationTargetPosition c)
    (NetworkClient.reconciliationTargetRotation c) (NetworkClient.isReconciling c)
    (NetworkClient.lastAcknowledgedInputSeq c).

Definition set_localPlayerId (v : N) (c : NetworkClient.t) : NetworkClient.t :=
  NetworkClient.mk (NetworkClient.isConnected c) v (NetworkClient.prediction c)
    (NetworkClient.predictionEnabled c) (NetworkClient.serverAuthoritativePosition c)
    (NetworkClient.serverAuthoritativeBodyRotation c)
    (NetworkClient.hasServerAuthoritativeState c)
    (NetworkClient.reconciliationTargetPosition c)
    (NetworkClient.reconciliationTargetRotation c) (NetworkClient.isReconciling c)
    (NetworkClient.lastAcknowledgedInputSeq c).

Definition set_lastAcknowledgedInputSeq (v : N) (c : NetworkClient.t) : NetworkClient.t :=
  NetworkClient.mk (NetworkClient.isConnected c) (NetworkClient.localPlayerId c)
    (NetworkClient.prediction c)
    (NetworkClient.predictionEnabled c) (NetworkClient.serverAuthoritativePosition c)
    (NetworkClient.serverAuthoritativeBodyRotation c)
    (NetworkClient.hasServerAuthoritativeState c)
    (NetworkClient.reconciliationTargetPosition c)
    (NetworkClient.reconciliationTargetRotation c) (NetworkClient.isReconciling c) v.

(** [serverAuthoritativePosition = ...; serverAuthoritativeBodyRotation = ...;
    hasServerAuthoritativeState = true;] *)
Definition set_serverAuthoritative (position : Q * Q) (bodyRotation : Q)
  (c : NetworkClient.t) : NetworkClient.t :=
  NetworkClient.mk (NetworkClient.isConnected c) (NetworkClient.localPlayerId c)
    (NetworkClient.prediction c) (NetworkClient.predictionEnabled c) position bodyRotation
    true (NetworkClient.reconciliationTargetPosition c)
    (NetworkClient.reconciliationTargetRotation c) (NetworkClient.isReconciling c)
    (NetworkClient.lastAcknowledgedInputSeq c).

(** [sentPackets.push_back(sentPacket); if (sentPackets.size() >
    MAX_SENT_PACKETS_HISTORY) sentPackets.pop_front(); totalPacketsSent++;] *)
Definition track (sequenceNumber : N) (sentTime : Z) (l : t) : t :=
  let pushed := sentPackets l ++ [(sequenceNumber, sentTime)] in
  let kept := if (MAX_SENT_PACKETS_HISTORY <? List.length pushed)%nat
              then List.tl pushed else pushed in
  mk (client l) (outgoingSequenceNumber l) kept (u32 (totalPacketsSent l + 1))
     (consecutiveErrors l) (updateTimer l) (lastInputAckTime l) (outbox l) (world l).

(** [socket.send(packet, serverAddress, serverPort)] with its status, and the
    error count that follows it: reset on [Done], kept on [NotReady], else
    raised, with the connection given up at [maxConsecutiveErrors] when
    [giveUp] is set (the sends of inputs and updates). *)
Definition send (status : SocketStatus.t) (giveUp : bool) (packet : data) (l : t) : t :=
  match status with
  | SocketStatus.Done =>
      mk (client l) (outgoingSequenceNumber l) (sentPackets l) (totalPacketsSent l)
         0%Z (updateTimer l) (lastInputAckTime l) (outbox l ++ [packet]) (world l)
  | SocketStatus.NotReady => l
  | _ =>
      let errors := (consecutiveErrors l + 1)%Z in
      mk (if giveUp && (maxConsecutiveErrors <=? errors)%Z
          then set_isConnected false (client l) else client l)
         (outgoingSequenceNumber l) (sentPackets l) (totalPacketsSent l)
         errors (updateTimer l) (lastInputAckTime l) (outbox l) (world l)
  end.

Definition next_sequence (l : t) : t :=
  mk (client l) (u32 (outgoingSequenceNumber l + 1)) (sentPackets l) (totalPacketsSent l)
     (consecutiveErrors l) (updateTimer l) (lastInputAckTime l) (outbox l) (world l).

Definition reset_updateTimer (l : t) : t :=
  mk (client l) (outgoingSequenceNumber l) (sentPackets l) (totalPacketsSent l)
     (consecutiveErrors l) 0 (lastInputAckTime l) (outbox l) (world l).

(** [NetworkClient::SendInputWithSequence] *)
Definition SendInputWithSequence (status : SocketStatus.t) (sequenceNumber : N)
  (input : InputState.t) (barrelRotation : Q) (l : t) : t :=
  if negb (NetworkClient.isConnected (client l)) then l
  else
    let packet :=
      [U8 NetMessageType.PLAYER_INPUT;
       U32 (NetworkClient.localPlayerId (client l));
       write_bool (InputState.moveForward input);
       write_bool (InputState.moveBackward input);
       write_bool (InputState.turnLeft input);
       write_bool (InputState.turnRight input);
       I64 (InputState.timestamp input);
       U32 sequenceNumber;
       F32 barrelRotation] in
    send status true packet (track sequenceNumber (InputState.timestamp input) l).

(** [NetworkClient::SendPlayerInput]; the four flags are
    [localPlayer.isMoving]. *)
Definition SendPlayerInput (status : SocketStatus.t) (now : Z)
  (forward backward left right : bool) (l : t) : t :=
  if negb (NetworkClient.isConnected (client l))
     || (NetworkClient.localPlayerId (client l) =? 0)%N then l
  else if Qltb (updateTimer l) updateRate then l
  else
    let sequenceNumber := outgoingSequenceNumber l in
    let packet :=
      [U8 NetMessageType.PLAYER_INPUT;
       U32 (NetworkClient.localPlayerId (client l));
       write_bool forward;
       write_bool backward;
       write_bool left;
       write_bool right;
       I64 now;
       U32 sequenceNumber] in
    reset_updateTimer (send status true packet (track sequenceNumber now (next_sequence l))).

(** [NetworkClient::SendPlayerUpdate] *)
Definition SendPlayerUpdate (status : SocketStatus.t) (now : Z) (localPlayer : Tank.t)
  (forward backward left right : bool) (l : t) : t :=
  if negb (NetworkClient.isConnected (client l))
     || (NetworkClient.localPlayerId (client l) =? 0)%N then l
  else if Qltb (updateTimer l) updateRate then l
  else
    let sequenceNumber := outgoingSequenceNumber l in
    let packet :=
      [U8 NetMessageType.PLAYER_UPDATE;
       U32 (NetworkClient.localPlayerId (client l));
       F32 (NetworkValidation.ClampPositionX (Tank.position localPlayer).1);
       F32 (NetworkValidation.ClampPositionY (Tank.position localPlayer).2);
       F32 (NetworkValidation.NormalizeRotation (Tank.bodyRotation localPlayer));
       F32 (NetworkValidation.NormalizeRotation (Tank.barrelRotation localPlayer));
       write_bool forward;
       write_bool backward;
       write_bool left;
       write_bool right;
       I64 now;
       U32 sequenceNumber] in
    reset_updateTimer (send status true packet (track sequenceNumber now (next_sequence l))).

(** [NetworkClient::SendJoinRequest]: the client afterwards and the returned
    flag. *)
Definition SendJoinRequest (status : SocketStatus.t) (now : Z)
  (playerName preferredColor : string) (l : t) : t * bool :=
  let sequenceNumber := outgoingSequenceNumber l in
  let packet :=
    [U8 NetMessageType.PLAYER_JOIN; Str playerName; Str preferredColor; I64 now;
     U32 sequenceNumber] in
  let l1 := next_sequence l in
  let l2 := mk (client l1) (outgoingSequenceNumber l1) (sentPackets l1)
               (u32 (totalPacketsSent l1 + 1)) (consecutiveErrors l1) (updateTimer l1)
               (lastInputAckTime l1) (outbox l1) (world l1) in
  (send status false packet l2,
   match status with SocketStatus.Done => true | _ => false end).

(** [NetworkClient::HandleInputAcknowledgment] *)
Definition HandleInputAcknowledgment (now : Z) (msg : InputAcknowledgmentMessage.t)
  (l : t) : t :=
  let c := client l in
  if negb (InputAcknowledgmentMessage.playerId msg =? NetworkClient.localPlayerId c)%N
  then l
  else
    let acknowledgedSequence := InputAcknowledgmentMessage.acknowledgedSequence msg in
    let c1 :=
      NetworkClient.set_prediction
        (ClientPrediction.AcknowledgeInput acknowledgedSequence (NetworkClient.prediction c))
        c in
    if (NetworkClient.lastAcknowledgedInputSeq c <? acknowledgedSequence)%N
    then set_lastInputAckTime now
           (set_client (set_lastAcknowledgedInputSeq acknowledgedSequence c1) l)
    else set_client c1 l.

Definition count_error (l : t) : t :=
  set_consecutiveErrors (consecutiveErrors l + 1)%Z l.

Definition clear_errors (l : t) : t := set_consecutiveErrors 0%Z l.

(** [std::to_string] of a [uint32_t] *)
Definition to_string (n : N) : string := NilEmpty.string_of_uint (N.to_uint n).

(** What the player loop of the GAME_STATE branch does with a player it has
    read to the end. *)
Definition store_player (player : PlayerData.t) (l : t) : t :=
  let localPlayerId := NetworkClient.localPlayerId (client l) in
  if (PlayerData.playerId player =? localPlayerId)%N && negb (localPlayerId =? 0)%N then
    set_world (ServerView.set_authoritative player (world l))
      (set_client
         (set_serverAuthoritative (PlayerData.x player, PlayerData.y player)
            (PlayerData.bodyRotation player) (client l)) l)
  else if negb (PlayerData.playerId player =? localPlayerId)%N
          && negb (localPlayerId =? 0)%N then
    set_world
      (ServerView.set_otherPlayers
         (<[PlayerData.playerId player := player]> (ServerView.otherPlayers (world l)))
         (world l)) l
  else l.

(** The player loop of the GAME_STATE branch: the rest of the packet
    ([None] once a read has failed, which ends the loop) and the client.  A
    player with an invalid id is left with [continue], the rest of its
    fields unread. *)
Fixpoint parse_players (count : nat) (packet : data) (l : t) : option data * t :=
  match count with
  | O => (Some packet, l)
  | S count' =>
      match (playerId ← read_u32;
             playerName ← read_string;
             x ← read_f32;
             y ← read_f32;
             mret (playerId, playerName, x, y)) packet with
      | None => (None, l)
      | Some ((playerId, playerName0, x0, y0), packet1) =>
          if negb (NetworkValidation.IsValidPlayerId playerId)
          then parse_players count' packet1 l
          else
            let playerName :=
              if negb (NetworkValidation.IsValidPlayerName playerName0)
              then ("Player" ++ to_string playerId)%string else playerName0 in
            let '(x, y) :=
              if negb (NetworkValidation.IsValidPosition x0 y0)
              then (NetworkValidation.ClampPositionX x0, NetworkValidation.ClampPositionY y0)
              else (x0, y0) in
            match (bodyRotation ← read_f32;
                   barrelRotation ← read_f32;
                   mret (bodyRotation, barrelRotation)) packet1 with
            | None => (None, l)
            | Some ((bodyRotation0, barrelRotation0), packet2) =>
                let bodyRotation :=
                  if negb (NetworkValidation.IsValidRotation bodyRotation0)
                  then NetworkValidation.NormalizeRotation bodyRotation0
                  else bodyRotation0 in
                let barrelRotation :=
                  if negb (NetworkValidation.IsValidRotation barrelRotation0)
                  then NetworkValidation.NormalizeRotation barrelRotation0
                  else barrelRotation0 in
                match (color ← read_string;
                       isMoving_forward ← read_bool;
                       mret (color, isMoving_forward)) packet2 with
                | None => (None, l)
                | Some ((color0, isMoving_forward), packet3) =>
                    let color :=
                      if negb (NetworkValidation.IsValidColor color0)
                      then "green"%string else color0 in
                    match (isMoving_backward ← read_bool;
                           isMoving_left ← read_bool;
                           isMoving_right ← read_bool;
                           mret (isMoving_backward, isMoving_left, isMoving_right))
                            packet3 with
                    | None => (None, l)
                    | Some ((isMoving_backward, isMoving_left, isMoving_right), packet4) =>
                        match (health ← read_f32;
                               maxHealth ← read_f32;
                               mret (health, maxHealth)) packet4 with
                        | None => (None, l)
                        | Some ((health, maxHealth), packet5) =>
                            match (score ← read_i32;
                                   isDead ← read_bool;
                                   mret (score, isDead)) packet5 with
                            | None => (None, l)
                            | Some ((score, isDead), packet6) =>
                                parse_players count' packet6
                                  (store_player
                                     (PlayerData.mk playerId playerName x y bodyRotation
                                        barrelRotation color isMoving_forward
                                        isMoving_backward isMoving_left isMoving_right
                                        health maxHealth score isDead) l)
                            end
                        end
                    end
                end
            end
      end
  end.

(** The enemy loop of the GAME_STATE branch. *)
Fixpoint parse_enemies (count : nat) (packet : data) (l : t) : option data * t :=
  match count with
  | O => (Some packet, l)
  | S count' =>
      match (enemyId ← read_u32;
             enemyType ← read_u8;
             x ← read_f32;
             y ← read_f32;
             bodyRotation ← read_f32;
             barrelRotation ← read_f32;
             health ← read_f32;
             maxHealth ← read_f32;
             mret (EnemyData.mk enemyId enemyType x y bodyRotation barrelRotation health
                     maxHealth)) packet with
      | None => (None, l)
      | Some (enemy, packet1) =>
          parse_enemies count' packet1
            (set_world
               (ServerView.set_enemyData
                  (<[EnemyData.enemyId enemy := enemy]> (ServerView.enemyData (world l)))
                  (world l)) l)
      end
  end.

(** [NetworkValidation::IsValidPlayerCount] *)
Definition IsValidPlayerCount (count : N) : bool := (0 <? count)%N && (count <=? 100)%N.

(** The GAME_STATE branch of [NetworkClient::ProcessPacket], on the packet
    after the type byte.  A packet that became invalid in a loop fails every
    later read. *)
Definition OnGameState (now : Z) (packet : data) (l : t) : t :=
  match read_u32 packet with
  | None => count_error l
  | Some (playerCount, packet1) =>
      if negb (IsValidPlayerCount playerCount) then count_error l
      else
        let l1 := set_world (ServerView.set_otherPlayers ∅ (world l)) l in
        let '(packet2, l2) := parse_players (N.to_nat playerCount) packet1 l1 in
        let '(packet3, l3) :=
          match packet2 ≫= read_u32 with
          | Some (enemyCount, packet') =>
              parse_enemies (N.to_nat enemyCount) packet'
                (set_world (ServerView.set_enemyData ∅ (world l2)) l2)
          | None => (None, l2)
          end in
        match packet3 ≫= (timestamp ← read_i64;
                          sequenceNumber ← read_u32;
                          lastAckedInput ← read_u32;
                          mret (timestamp, sequenceNumber, lastAckedInput)) with
        | Some ((timestamp, sequenceNumber, lastAckedInput), _) =>
            if NetworkValidation.IsValidTimestamp timestamp now then
              let l4 :=
                set_world
                  (ServerView.set_lastServerTimestamp timestamp
                     (ServerView.RecordReceivedPacket sequenceNumber (world l3))) l3 in
              let l5 :=
                if (0 <? lastAckedInput)%N
                   && (NetworkClient.lastAcknowledgedInputSeq (client l4) <? lastAckedInput)%N
                then
                  set_lastInputAckTime now
                    (set_client
                       (set_lastAcknowledgedInputSeq lastAckedInput
                          (NetworkClient.set_prediction
                             (ClientPrediction.AcknowledgeInput lastAckedInput
                                (NetworkClient.prediction (client l4))) (client l4))) l4)
                else l4 in
              clear_errors l5
            else l3
        | None => l3
        end
  end.

Section Handlers.
(** The branches of [ProcessPacket] for PONG, BULLET_UPDATE and
    BULLET_DESTROY, which work on parts of the client this record leaves
    out; each gets the packet after the type byte. *)
Variable OnPong : Z -> data -> t -> t.
Variable OnBulletUpdate : data -> t -> t.
Variable OnBulletDestroy : data -> t -> t.

(** [NetworkClient::ProcessPacket]; its branches for PLAYER_DEATH and
    PLAYER_RESPAWN only print. *)
Definition ProcessPacket (now : Z) (packet : data) (l : t) : t :=
  match read_u8 packet with
  | None => count_error l
  | Some (messageTypeRaw, rest) =>
      if (messageTypeRaw =? NetMessageType.GAME_STATE)%N then OnGameState now rest l
      else if (messageTypeRaw =? NetMessageType.PLAYER_ID_ASSIGNMENT)%N then
        match read_u32 rest with
        | Some (assignedId, _) =>
            if negb (NetworkValidation.IsValidPlayerId assignedId) then count_error l
            else clear_errors (set_client (set_localPlayerId assignedId (client l)) l)
        | None => count_error l
        end
      else if (messageTypeRaw =? NetMessageType.PONG)%N then OnPong now rest l
      else if (messageTypeRaw =? NetMessageType.BULLET_UPDATE)%N then OnBulletUpdate rest l
      else if (messageTypeRaw =? NetMessageType.BULLET_DESTROY)%N then OnBulletDestroy rest l
      else if (messageTypeRaw =? NetMessageType.INPUT_ACKNOWLEDGMENT)%N then
        match (playerId ← read_u32;
               acknowledgedSequence ← read_u32;
               serverTimestamp ← read_i64;
               mret (InputAcknowledgmentMessage.mk playerId acknowledgedSequence
                       serverTimestamp)) rest with
        | Some (ackMsg, _) => HandleInputAcknowledgment now ackMsg l
        | None => l
        end
      else l
  end.

End Handlers.

End NetworkClientLink.

(** ** entity_interpolation.cpp: reading the snapshot buffer *)

Module InterpolatedState.
Record t : Type := mk {
  position : Q * Q;
  bodyRotation : Q;
  barrelRotation : Q;
  isMoving : bool;
  wasExtrapolated : bool
}.

(** [InterpolatedState()] *)
Definition default : t := mk (0%Q, 0%Q) 0%Q 0%Q false false.

Definition set_wasExtrapolated (v : bool) (s : t) : t :=
  mk (position s) (bodyRotation s) (barrelRotation s) (isMoving s) v.
End InterpolatedState.

Module EntityInterpolation.
Import EntityInterpolationBuffer.

Definition MAX_EXTRAPOLATION_TIME_MS : Z := 100.
Definition EXTRAPOLATION_BLEND_TIME_MS : Z := 200.

(** The buffer with the other [mutable] members the [const] readers write. *)
Record t : Type := mk {
  buffer : EntityInterpolationBuffer.t;
  wasLastStateExtrapolated : bool;
  lastExtrapolationTime : Z;
  lastExtrapolatedState : InterpolatedState.t
}.

(** The constructor. *)
Definition make : t := mk EntityInterpolationBuffer.make false 0 InterpolatedState.default.

Definition set_buffer (v : EntityInterpolationBuffer.t) (e : t) : t :=
  mk v (wasLastStateExtrapolated e) (lastExtrapolationTime e) (lastExtrapolatedState e).

Definition set_wasLastStateExtrapolated (v : bool) (e : t) : t :=
  mk (buffer e) v (lastExtrapolationTime e) (lastExtrapolatedState e).

(** [snapshots[i].timestamp <= renderTime && renderTime < snapshots[i + 1].timestamp] *)
Definition brackets (renderTime : Z) (l : list EntitySnapshot.t) (i : nat) : bool :=
  match l !! i, l !! S i with
  | Some a, Some b =>
      (EntitySnapshot.timestamp a <=? renderTime)
      && (renderTime <? EntitySnapshot.timestamp b)
  | _, _ => false
  end.

(** [outBefore = snapshots[i]; outAfter = snapshots[i + 1];] *)
Definition pair_at (l : list EntitySnapshot.t) (i : nat)
  : option (EntitySnapshot.t * EntitySnapshot.t) :=
  match l !! i, l !! S i with
  | Some a, Some b => Some (a, b)
  | _, _ => None
  end.

(** The indices of [for (size_t i = cachedSearchIdx + 1; i < snapshots.size() - 1; ++i)]. *)
Definition forward_indices (cached size : nat) : list nat :=
  seq (S cached) (size - 1 - S cached).

(** The indices of [for (int i = cachedSearchIdx - 1; i >= 0 && i <
    snapshots.size() - 1; --i)]: the test fails at once when the cached index
    is beyond the buffer. *)
Definition backward_indices (cached size : nat) : list nat :=
  match cached with
  | O => []
  | S i => if (i <? size - 1)%nat then rev (seq 0 cached) else []
  end.

(** [EntityInterpolationBuffer::FindSnapshotsForInterpolation]: the pair it
    writes ([None] for [false]) and the buffer with the new cached index. *)
Definition FindSnapshotsForInterpolation (renderTime : Z) (b : EntityInterpolationBuffer.t)
  : option (EntitySnapshot.t * EntitySnapshot.t) * EntityInterpolationBuffer.t :=
  let l := snapshots b in
  let size := List.length l in
  let cached := cachedSearchIdx b in
  if (size <? 2)%nat then (None, b)
  else if (cached <? size - 1)%nat && brackets renderTime l cached
  then (pair_at l cached, b)
  else
    match List.find (brackets renderTime l) (forward_indices cached size) with
    | Some i => (pair_at l i, EntityInterpolationBuffer.mk l i)
    | None =>
        match List.find (brackets renderTime l) (backward_indices cached size) with
        | Some i => (pair_at l i, EntityInterpolationBuffer.mk l i)
        | None =>
            match l with
            | front :: _ =>
                if renderTime <? EntitySnapshot.timestamp front
                then (Some (front, front), EntityInterpolationBuffer.mk l 0)
                else (pair_at l (size - 2), EntityInterpolationBuffer.mk l (size - 2))
            | [] => (None, b)
            end
        end
    end.

(** [while (diff > 180.0f) diff -= 360.0f;] *)
Fixpoint while_above_180 (fuel : nat) (diff : Q) : option Q :=
  match fuel with
  | O => None
  | S fuel' =>
      if Qgtb diff 180 then while_above_180 fuel' (diff - 360)
      else Some diff
  end.

(** [while (diff < -180.0f) diff += 360.0f;] *)
Fixpoint while_below_minus_180 (fuel : nat) (diff : Q) : option Q :=
  match fuel with
  | O => None
  | S fuel' =>
      if Qltb diff (-180) then while_below_minus_180 fuel' (diff + 360)
      else Some diff
  end.

Definition shortest_path_fuel (fuel : nat) (diff : Q) : option Q :=
  match while_above_180 fuel diff with
  | Some d => while_below_minus_180 fuel d
  | None => None
  end.

(** Each loop runs at most [|floor (diff / 360)| + 1] times in exact
    arithmetic ([shortest_path_enough_fuel] below). *)
Definition path_fuel (diff : Q) : nat :=
  S (S (Z.to_nat (Z.abs (Qfloor (diff / 360))))).

(** The two loops that bring a difference of angles to [-180, 180]. *)
Definition shortest_path (diff : Q) : Q :=
  match shortest_path_fuel (path_fuel diff) diff with
  | Some d => d
  | None => diff
  end.

(** [std::max(0.0f, std::min(1.0f, t))] *)
Definition clamp01 (t : Q) : Q := fmaxQ 0 (fminQ 1 t).

(** [EntityInterpolationBuffer::InterpolateAngle]; the last two loops are
    those of [NetworkValidation.NormalizeRotation]. *)
Definition InterpolateAngle (a b t : Q) : Q :=
  let diff := shortest_path (b - a) in
  let smoothT := (t * t * (3 - 2 * t))%Q in
  NetworkValidation.NormalizeRotation (a + diff * smoothT)%Q.

Definition moving (s : EntitySnapshot.t) : bool :=
  EntitySnapshot.isMoving_forward s || EntitySnapshot.isMoving_backward s
  || EntitySnapshot.isMoving_left s || EntitySnapshot.isMoving_right s.

(** [EntityInterpolationBuffer::Interpolate] *)
Definition Interpolate (before after : EntitySnapshot.t) (t : Q) : InterpolatedState.t :=
  let t := clamp01 t in
  let from := EntitySnapshot.position before in
  let to := EntitySnapshot.position after in
  InterpolatedState.mk
    (from.1 + (to.1 - from.1) * t, from.2 + (to.2 - from.2) * t)%Q
    (InterpolateAngle (EntitySnapshot.bodyRotation before)
       (EntitySnapshot.bodyRotation after) t)
    (InterpolateAngle (EntitySnapshot.barrelRotation before)
       (EntitySnapshot.barrelRotation after) t)
    (moving after) false.

(** The state of a snapshot as it is. *)
Definition state_of (latest : EntitySnapshot.t) (wasExtrapolated : bool)
  : InterpolatedState.t :=
  InterpolatedState.mk (EntitySnapshot.position latest) (EntitySnapshot.bodyRotation latest)
    (EntitySnapshot.barrelRotation latest) (moving latest) wasExtrapolated.

(** [EntityInterpolationBuffer::Extrapolate]: the state, and the buffer's
    [lastExtrapolatedState] after the call. *)
Definition Extrapolate (latest : EntitySnapshot.t) (renderTime : Z) (e : t)
  : InterpolatedState.t * t :=
  let extrapolationTime0 := renderTime - EntitySnapshot.timestamp latest in
  let extrapolationTime :=
    if MAX_EXTRAPOLATION_TIME_MS <? extrapolationTime0 then MAX_EXTRAPOLATION_TIME_MS
    else extrapolationTime0 in
  if extrapolationTime <=? 0 then (state_of latest true, e)
  else
    let extrapolationSeconds := (inject_Z extrapolationTime / 1000)%Q in
    let position :=
      ((EntitySnapshot.position latest).1
       + (EntitySnapshot.velocity latest).1 * extrapolationSeconds,
       (EntitySnapshot.position latest).2
       + (EntitySnapshot.velocity latest).2 * extrapolationSeconds)%Q in
    let newBodyRotation :=
      NetworkValidation.NormalizeRotation
        (EntitySnapshot.bodyRotation latest
         + EntitySnapshot.angularVelocity latest * extrapolationSeconds)%Q in
    let result :=
      InterpolatedState.mk position newBodyRotation (EntitySnapshot.barrelRotation latest)
        (moving latest) true in
    (result, mk (buffer e) (wasLastStateExtrapolated e) (lastExtrapolationTime e) result).

(** [EntityInterpolationBuffer::BlendExtrapolationToInterpolation] *)
Definition BlendExtrapolationToInterpolation (extrapolated interpolated : InterpolatedState.t)
  (blendFactor : Q) : InterpolatedState.t :=
  let blendFactor := clamp01 blendFactor in
  let from := InterpolatedState.position extrapolated in
  let to := InterpolatedState.position interpolated in
  InterpolatedState.mk
    (from.1 + (to.1 - from.1) * blendFactor, from.2 + (to.2 - from.2) * blendFactor)%Q
    (InterpolateAngle (InterpolatedState.bodyRotation extrapolated)
       (InterpolatedState.bodyRotation interpolated) blendFactor)
    (InterpolateAngle (InterpolatedState.barrelRotation extrapolated)
       (InterpolatedState.barrelRotation interpolated) blendFactor)
    (InterpolatedState.isMoving interpolated) false.

(** [EntityInterpolationBuffer::GetInterpolatedState]: the state written to
    [outState] ([None] for [false]) and the buffer afterwards. *)
Definition GetInterpolatedState (renderTime : Z) (e : t) : option InterpolatedState.t * t :=
  match last (snapshots (buffer e)) with
  | None => (None, e)
  | Some latest =>
      if (List.length (snapshots (buffer e)) <? 2)%nat
      then (Some (state_of latest false), e)
      else if EntitySnapshot.timestamp latest <? renderTime then
        let '(extrapolatedState, e1) := Extrapolate latest renderTime e in
        (Some extrapolatedState,
         if negb (wasLastStateExtrapolated e1)
         then mk (buffer e1) true renderTime (lastExtrapolatedState e1)
         else e1)
      else
        match FindSnapshotsForInterpolation renderTime (buffer e) with
        | (None, b1) =>
            (Some (state_of latest false),
             set_wasLastStateExtrapolated false (set_buffer b1 e))
        | (Some (before, after), b1) =>
            let e1 := set_buffer b1 e in
            let timeDiff :=
              EntitySnapshot.timestamp after - EntitySnapshot.timestamp before in
            let t :=
              if 0 <? timeDiff
              then (inject_Z (renderTime - EntitySnapshot.timestamp before)
                    / inject_Z timeDiff)%Q
              else 0%Q in
            let interpolatedState :=
              InterpolatedState.set_wasExtrapolated false (Interpolate before after t) in
            if wasLastStateExtrapolated e1 then
              let timeSinceExtrapolation := renderTime - lastExtrapolationTime e1 in
              let blendFactor :=
                clamp01 (inject_Z timeSinceExtrapolation
                         / inject_Z EXTRAPOLATION_BLEND_TIME_MS)%Q in
              if Qltb blendFactor 1
              then (Some (BlendExtrapolationToInterpolation (lastExtrapolatedState e1)
                            interpolatedState blendFactor), e1)
              else (Some interpolatedState, set_wasLastStateExtrapolated false e1)
            else (Some interpolatedState, e1)
        end
  end.

(** [EntityInterpolationBuffer::GetLatestSnapshot] *)
Definition GetLatestSnapshot (b : EntityInterpolationBuffer.t) : option EntitySnapshot.t :=
  last (snapshots b).

(** [EntityInterpolationBuffer::GetOldestTimestamp] *)
Definition GetOldestTimestamp (b : EntityInterpolationBuffer.t) : Z :=
  match snapshots b with
  | [] => 0
  | front :: _ => EntitySnapshot.timestamp front
  end.

(** [EntityInterpolationBuffer::GetNewestTimestamp] *)
Definition GetNewestTimestamp (b : EntityInterpolationBuffer.t) : Z :=
  match last (snapshots b) with
  | None => 0
  | Some back => EntitySnapshot.timestamp back
  end.

End EntityInterpolation.

(* ===================================================================== *)
(** * Part II: properties                                                  *)
(* ===================================================================== *)

(** ** Rational helpers *)

Lemma Qltb_lt (x y : Q) : Qltb x y = true <-> (x < y)%Q.
Proof.
  unfold Qltb. rewrite negb_true_iff. split.
  - intros H. apply Qnot_le_lt. intros Hle.
    apply Qle_bool_iff in Hle. congruence.
  - intros H. destruct (Qle_bool y x) eqn:E; [|reflexivity].
    apply Qle_bool_iff in E. exfalso. apply (Qlt_not_le _ _ H E).
Qed.

Lemma Qltb_ge (x y : Q) : Qltb x y = false <-> (y <= x)%Q.
Proof.
  unfold Qltb. rewrite negb_false_iff. apply Qle_bool_iff.
Qed.

Lemma Qgeb_ge (x y : Q) : Qgeb x y = true <-> (y <= x)%Q.
Proof. unfold Qgeb. apply Qle_bool_iff. Qed.

Lemma Qgeb_lt (x y : Q) : Qgeb x y = false <-> (x < y)%Q.
Proof.
  unfold Qgeb. split.
  - intros H. apply Qnot_le_lt. intros Hle. apply Qle_bool_iff in Hle. congruence.
  - intros H. destruct (Qle_bool y x) eqn:E; [|reflexivity].
    apply Qle_bool_iff in E. exfalso. apply (Qlt_not_le _ _ H E).
Qed.

Lemma fmaxQ_fminQ_bounds (lo hi v : Q) :
  (lo <= hi)%Q -> (lo <= fmaxQ lo (fminQ hi v) <= hi)%Q.
Proof.
  intros Hlh. unfold fmaxQ, fminQ.
  destruct (Qltb v hi) eqn:E1.
  - apply Qltb_lt in E1. destruct (Qltb lo v) eqn:E2.
    + apply Qltb_lt in E2. split; lra.
    + split; lra.
  - apply Qltb_ge in E1. destruct (Qltb lo hi) eqn:E2.
    + split; lra.
    + split; lra.
Qed.

(** ** The binary32 validator *)

Module F32Facts.
Import F32.

(** 1e10f: the integer 10^10 = 9765625 * 2^10 is a binary32 value. *)
Definition ten_billion : float32 := of_Z 10000000000.

Lemma ten_billion_is_finite :
  ten_billion = S754_finite false 9765625 10
  /\ valid_binary prec emax ten_billion = true.
Proof. split; vm_compute; reflexivity. Qed.

(** A value the second loop cannot lower stays in the loop for ever. *)
Lemma while_ge_360_stalls (r : float32) :
  fge r f360 = true -> fsub r f360 = r ->
  forall fuel, while_ge_360 fuel r = None.
Proof.
  intros Hge Hsub fuel. induction fuel as [|fuel IH]; simpl.
  - reflexivity.
  - rewrite Hge, Hsub. exact IH.
Qed.

Lemma while_negative_skips (r : float32) (fuel : nat) :
  flt r f0 = false -> while_negative (S fuel) r = Some r.
Proof. intros H. simpl. rewrite H. reflexivity. Qed.

End F32Facts.

(** C7 (network_validation.h, NormalizeRotation): at the binary32 value
    1e10f, which is neither NaN nor infinite and which [IsValidRotation]
    would reject, the first loop exits at once and the second never does:
    1e10f - 360.0f rounds back to 1e10f, so no number of iterations returns a
    value.  The claim promises the result 280 = ((1e10 mod 360) + 360) mod 360
    in [0, 360). *)
Theorem NormalizeRotation_binary32_stalls :
  F32.isnan F32Facts.ten_billion || F32.isinf F32Facts.ten_billion = false
  /\ F32.IsValidRotation F32Facts.ten_billion = false
  /\ F32.fsub F32Facts.ten_billion F32.f360 = F32Facts.ten_billion
  /\ (forall fuel, F32.while_negative (S fuel) F32Facts.ten_billion
                   = Some F32Facts.ten_billion)
  /\ (forall fuel, F32.NormalizeRotation fuel F32Facts.ten_billion = None).
Proof.
  split; [vm_compute; reflexivity|].
  split; [vm_compute; reflexivity|].
  assert (F32.fsub F32Facts.ten_billion F32.f360 = F32Facts.ten_billion) as Hsub
    by (vm_compute; reflexivity).
  split; [exact Hsub|].
  split.
  - intros fuel. apply F32Facts.while_negative_skips. vm_compute; reflexivity.
  - intros fuel. unfold F32.NormalizeRotation.
    replace (F32.isnan F32Facts.ten_billion || F32.isinf F32Facts.ten_billion)
      with false by (vm_compute; reflexivity).
    destruct fuel as [|fuel]; [reflexivity|].
    rewrite F32Facts.while_negative_skips by (vm_compute; reflexivity).
    apply F32Facts.while_ge_360_stalls; [vm_compute; reflexivity|exact Hsub].
Qed.

(** Values in the validated range are normalised as expected, e.g. -90.0f
    becomes 270.0f and 720.0f becomes 0.0f. *)
Example NormalizeRotation_binary32_samples :
  F32.NormalizeRotation 3 (F32.of_Z (-90)) = Some (F32.of_Z 270)
  /\ F32.NormalizeRotation 3 (F32.of_Z 720) = Some F32.f0
  /\ F32.NormalizeRotation 3 S754_nan = Some F32.f0
  /\ F32.NormalizeRotation 0 (S754_infinity false) = Some F32.f0.
Proof. repeat split; vm_compute; reflexivity. Qed.

(** ** The validators in exact arithmetic *)

Module NetworkValidationFacts.
Import NetworkValidation.
Local Open Scope Q_scope.

Lemma inject_Z_succ (n : nat) :
  inject_Z (Z.of_nat (S n)) == inject_Z (Z.of_nat n) + 1.
Proof. rewrite Nat2Z.inj_succ. unfold Z.succ. rewrite inject_Z_plus. reflexivity. Qed.

Lemma while_negative_returns (n : nat) : forall r : Q,
  - (360 * inject_Z (Z.of_nat n)) <= r ->
  exists v : Q, while_negative (S n) r = Some v
    /\ 0 <= v /\ (r < 0 -> v < 360) /\ (0 <= r -> v = r)
    /\ exists k : Z, v == r + 360 * inject_Z k.
Proof.
  induction n as [|n IH]; intros r Hr.
  - change (inject_Z (Z.of_nat 0)) with 0 in Hr.
    assert (0 <= r) as H0 by lra.
    exists r. simpl. apply Qltb_ge in H0. rewrite H0.
    apply Qltb_ge in H0.
    repeat split; try lra; try reflexivity.
    exists 0%Z. change (inject_Z 0) with 0. lra.
  - change (while_negative (S (S n)) r)
      with (if Qltb r 0 then while_negative (S n) (r + 360) else Some r).
    destruct (Qltb r 0) eqn:E.
    + apply Qltb_lt in E. rewrite inject_Z_succ in Hr.
      destruct (IH (r + 360)) as (v & Hv & H0 & Hlt & Heq & k & Hk); [lra|].
      exists v. split; [exact Hv|]. split; [exact H0|].
      split.
      * intros _. destruct (Qlt_le_dec (r + 360) 0) as [Hneg|Hpos].
        -- auto.
        -- rewrite (Heq Hpos). lra.
      * split; [intros; lra|].
        exists (k + 1)%Z. rewrite inject_Z_plus. rewrite Hk. change (inject_Z 1) with 1. lra.
    + apply Qltb_ge in E. exists r.
      repeat split; try lra; try reflexivity.
      exists 0%Z. change (inject_Z 0) with 0. lra.
Qed.

Lemma while_ge_360_returns (n : nat) : forall r : Q,
  0 <= r -> r < 360 * (inject_Z (Z.of_nat n) + 1) ->
  exists v : Q, while_ge_360 (S n) r = Some v
    /\ 0 <= v /\ v < 360 /\ (r < 360 -> v = r)
    /\ exists k : Z, v == r + 360 * inject_Z k.
Proof.
  induction n as [|n IH]; intros r H0 Hr.
  - change (inject_Z (Z.of_nat 0)) with 0 in Hr.
    assert (r < 360) as Hlt by lra.
    exists r. simpl. apply Qgeb_lt in Hlt. rewrite Hlt. apply Qgeb_lt in Hlt.
    repeat split; try lra; try reflexivity.
    exists 0%Z. change (inject_Z 0) with 0. lra.
  - change (while_ge_360 (S (S n)) r)
      with (if Qgeb r 360 then while_ge_360 (S n) (r - 360) else Some r).
    destruct (Qgeb r 360) eqn:E.
    + apply Qgeb_ge in E. rewrite inject_Z_succ in Hr.
      destruct (IH (r - 360)) as (v & Hv & Hv0 & Hlt & Heq & k & Hk); [lra|lra|].
      exists v. split; [exact Hv|]. split; [exact Hv0|]. split; [exact Hlt|].
      split; [intros; lra|].
      exists (k + -1)%Z. rewrite inject_Z_plus. rewrite Hk.
      change (inject_Z (-1)) with (-1). lra.
    + apply Qgeb_lt in E. exists r.
      repeat split; try lra; try reflexivity.
      exists 0%Z. change (inject_Z 0) with 0. lra.
Qed.

(** More fuel than needed changes nothing. *)
Lemma while_negative_more_fuel (n m : nat) (r v : Q) :
  while_negative n r = Some v -> (n <= m)%nat -> while_negative m r = Some v.
Proof.
  revert m r. induction n as [|n IH]; intros m r H Hle; [discriminate|].
  destruct m as [|m]; [lia|]. simpl in *.
  destruct (Qltb r 0); [|exact H]. apply IH; [exact H|lia].
Qed.

Lemma while_ge_360_more_fuel (n m : nat) (r v : Q) :
  while_ge_360 n r = Some v -> (n <= m)%nat -> while_ge_360 m r = Some v.
Proof.
  revert m r. induction n as [|n IH]; intros m r H Hle; [discriminate|].
  destruct m as [|m]; [lia|]. simpl in *.
  destruct (Qgeb r 360); [|exact H]. apply IH; [exact H|lia].
Qed.

Lemma floor_bounds (r : Q) :
  360 * inject_Z (Qfloor (r / 360)) <= r
  /\ r < 360 * (inject_Z (Qfloor (r / 360)) + 1).
Proof.
  pose proof (Qfloor_le (r / 360)) as H1.
  pose proof (Qlt_floor (r / 360)) as H2.
  rewrite inject_Z_plus in H2. change (inject_Z 1) with 1 in H2.
  assert (r == 360 * (r / 360)) as E by (field).
  split; lra.
Qed.

Lemma floor_unique (q : Q) (z : Z) :
  inject_Z z <= q -> q < inject_Z z + 1 -> Qfloor q = z.
Proof.
  intros H1 H2.
  pose proof (Qfloor_le q) as F1. pose proof (Qlt_floor q) as F2.
  rewrite inject_Z_plus in F2. change (inject_Z 1) with 1 in F2.
  assert (inject_Z z < inject_Z (Qfloor q) + 1) as A by lra.
  assert (inject_Z (Qfloor q) < inject_Z z + 1) as B by lra.
  change 1 with (inject_Z 1) in A, B. rewrite <- inject_Z_plus in A, B.
  rewrite <- Zlt_Qlt in A, B. lia.
Qed.

Lemma abs_floor_nat (r : Q) :
  inject_Z (Z.of_nat (Z.to_nat (Z.abs (Qfloor (r / 360)))))
  = inject_Z (Z.abs (Qfloor (r / 360))).
Proof. rewrite Z2Nat.id by lia. reflexivity. Qed.

Theorem NormalizeRotation_enough_fuel (r : Q) :
  exists v, NormalizeRotation_fuel (rotation_fuel r) r = Some v
    /\ 0 <= v /\ v < 360 /\ v == r - 360 * inject_Z (Qfloor (r / 360)).
Proof.
  unfold NormalizeRotation_fuel, rotation_fuel.
  set (n := Z.to_nat (Z.abs (Qfloor (r / 360)))).
  destruct (floor_bounds r) as [Fl Fu].
  assert (inject_Z (Z.of_nat n) = inject_Z (Z.abs (Qfloor (r / 360)))) as En
    by apply abs_floor_nat.
  assert (- inject_Z (Z.of_nat n) <= inject_Z (Qfloor (r / 360))
          /\ inject_Z (Qfloor (r / 360)) <= inject_Z (Z.of_nat n)) as [Ha Hb].
  { rewrite En. rewrite <- inject_Z_opp. rewrite <- !Zle_Qle. lia. }
  destruct (while_negative_returns n r) as (v1 & Hv1 & H10 & H1lt & H1eq & k1 & Hk1);
    [lra|].
  rewrite Hv1.
  assert (v1 < 360 * (inject_Z (Z.of_nat n) + 1)) as Hv1u.
  { destruct (Qlt_le_dec r 0) as [Hneg|Hpos].
    - specialize (H1lt Hneg).
      assert (0 <= inject_Z (Z.of_nat n)).
      { change 0 with (inject_Z 0). rewrite <- Zle_Qle. lia. }
      lra.
    - rewrite (H1eq Hpos). lra. }
  destruct (while_ge_360_returns n v1) as (v & Hv & Hv0 & Hvlt & _ & k2 & Hk2);
    [lra|lra|].
  exists v. split; [exact Hv|]. split; [exact Hv0|]. split; [exact Hvlt|].
  assert (v == r + 360 * inject_Z (k1 + k2)) as Hk.
  { rewrite inject_Z_plus. rewrite Hk2, Hk1. lra. }
  assert (Qfloor (r / 360) = (- (k1 + k2))%Z) as Hf.
  { apply floor_unique.
    - rewrite inject_Z_opp. apply Qle_shift_div_l; lra.
    - rewrite inject_Z_opp. apply Qlt_shift_div_r; lra. }
  rewrite Hf, inject_Z_opp. rewrite Hk. lra.
Qed.

Lemma NormalizeRotation_range (r : Q) :
  0 <= NormalizeRotation r /\ NormalizeRotation r < 360.
Proof.
  unfold NormalizeRotation.
  destruct (NormalizeRotation_enough_fuel r) as (v & -> & H0 & H1 & _). auto.
Qed.

Lemma NormalizeRotation_floor (r : Q) :
  NormalizeRotation r == r - 360 * inject_Z (Qfloor (r / 360)).
Proof.
  unfold NormalizeRotation.
  destruct (NormalizeRotation_enough_fuel r) as (v & -> & _ & _ & H). exact H.
Qed.

(** Whatever bound lets the loops finish, the value is the same. *)
Lemma NormalizeRotation_fuel_agrees (fuel : nat) (r v : Q) :
  NormalizeRotation_fuel fuel r = Some v -> v = NormalizeRotation r.
Proof.
  intros H. unfold NormalizeRotation.
  destruct (NormalizeRotation_enough_fuel r) as (w & Hw & _). rewrite Hw.
  unfold NormalizeRotation_fuel in *.
  destruct (while_negative fuel r) as [a|] eqn:Ea; [|discriminate].
  destruct (while_negative (rotation_fuel r) r) as [b|] eqn:Eb; [|discriminate].
  pose proof (while_negative_more_fuel _ (Nat.max fuel (rotation_fuel r)) _ _ Ea
                (Nat.le_max_l _ _)) as A.
  pose proof (while_negative_more_fuel _ (Nat.max fuel (rotation_fuel r)) _ _ Eb
                (Nat.le_max_r _ _)) as B.
  assert (a = b) as -> by congruence.
  pose proof (while_ge_360_more_fuel _ (Nat.max fuel (rotation_fuel r)) _ _ H
                (Nat.le_max_l _ _)) as C.
  pose proof (while_ge_360_more_fuel _ (Nat.max fuel (rotation_fuel r)) _ _ Hw
                (Nat.le_max_r _ _)) as D.
  congruence.
Qed.

(** A rotation already in [0, 360) is returned as it is. *)
Lemma NormalizeRotation_fixed (r : Q) :
  0 <= r -> r < 360 -> NormalizeRotation r = r.
Proof.
  intros H0 H1. symmetry. apply (NormalizeRotation_fuel_agrees 1).
  unfold NormalizeRotation_fuel. simpl.
  apply Qltb_ge in H0. rewrite H0. apply Qgeb_lt in H1. rewrite H1. reflexivity.
Qed.

Lemma NormalizeRotation_idempotent (r : Q) :
  NormalizeRotation (NormalizeRotation r) = NormalizeRotation r.
Proof.
  destruct (NormalizeRotation_range r). apply NormalizeRotation_fixed; assumption.
Qed.

End NetworkValidationFacts.

(** ** Burst fire *)

Module EnemyTankFacts.
Import EnemyTank.
Local Open Scope Q_scope.

Lemma AIState_eqb_eq (a b : AIState) : AIState_eqb a b = true <-> a = b.
Proof. destruct a, b; simpl; split; intros H; congruence. Qed.

(** Waiting out the remaining cooldown makes the enemy ready. *)
Lemma UpdateCooldown_ready (e : t) :
  CanShoot (UpdateCooldown (shootCooldown e) e) = true.
Proof.
  unfold CanShoot, UpdateCooldown. simpl.
  destruct (Qgtb (shootCooldown e) 0) eqn:E.
  - destruct (Qltb (shootCooldown e - shootCooldown e) 0) eqn:E2.
    + reflexivity.
    + apply Qle_bool_iff. lra.
  - unfold Qgtb in E. apply negb_false_iff in E. exact E.
Qed.

Lemma TryShoot_fires_iff (e : t) :
  (TryShoot e).1 = true <-> (shootCooldown e <= 0 /\ currentAIState e = ATTACK).
Proof.
  unfold TryShoot, CanShoot.
  destruct (Qle_bool (shootCooldown e) 0) eqn:E1; simpl.
  - apply Qle_bool_iff in E1.
    destruct (AIState_eqb (currentAIState e) ATTACK) eqn:E2; simpl.
    + apply AIState_eqb_eq in E2.
      destruct (shotsInBurst e + 1 >=? maxBurstSize e)%Z; simpl; tauto.
    + split; [discriminate|]. intros [_ H]. apply AIState_eqb_eq in H. congruence.
  - split; [discriminate|]. intros [H _]. apply Qle_bool_iff in H. congruence.
Qed.

Lemma TryShoot_not_fired (e : t) : (TryShoot e).1 = false -> (TryShoot e).2 = e.
Proof.
  unfold TryShoot.
  destruct (negb (CanShoot e)); [reflexivity|].
  destruct (negb (AIState_eqb (currentAIState e) ATTACK)); [reflexivity|].
  destruct (shotsInBurst e + 1 >=? maxBurstSize e)%Z; simpl; discriminate.
Qed.

Lemma TryShoot_fired (e : t) :
  (TryShoot e).1 = true ->
  (TryShoot e).2 =
    if (shotsInBurst e + 1 >=? maxBurstSize e)%Z
    then set_shooting (shootCooldownTime e * (15 # 10)) 0 0%Z e
    else set_shooting (shootCooldownTime e) 0 (shotsInBurst e + 1)%Z e.
Proof.
  unfold TryShoot.
  destruct (negb (CanShoot e)); [discriminate|].
  destruct (negb (AIState_eqb (currentAIState e) ATTACK)); [discriminate|].
  destruct (shotsInBurst e + 1 >=? maxBurstSize e)%Z; reflexivity.
Qed.

Lemma TryShoot_ready (e : t) :
  CanShoot e = true -> currentAIState e = ATTACK ->
  TryShoot e =
    (true,
     if (shotsInBurst e + 1 >=? maxBurstSize e)%Z
     then set_shooting (shootCooldownTime e * (15 # 10)) 0 0%Z e
     else set_shooting (shootCooldownTime e) 0 (shotsInBurst e + 1)%Z e).
Proof.
  intros H1 H2. unfold TryShoot. rewrite H1, H2. simpl.
  destruct (shotsInBurst e + 1 >=? maxBurstSize e)%Z; reflexivity.
Qed.

(** Inside a burst every shot leaves the base cooldown and counts up. *)
Lemma consecutive_shots_within_burst (e : t) (k : nat) :
  currentAIState e = ATTACK -> shotsInBurst e = 0%Z ->
  (Z.of_nat k < maxBurstSize e)%Z ->
  exists ek, consecutive_shots k e = Some ek
    /\ shotsInBurst ek = Z.of_nat k
    /\ currentAIState ek = ATTACK
    /\ maxBurstSize ek = maxBurstSize e
    /\ shootCooldownTime ek = shootCooldownTime e
    /\ ((0 < k)%nat -> shootCooldown ek = shootCooldownTime e).
Proof.
  intros Hs H0. induction k as [|k IH]; intros Hk.
  - exists e. simpl. repeat split; auto. lia.
  - destruct IH as (e1 & He1 & Hn & Hst & Hmax & Hbase & _); [lia|].
    simpl. rewrite He1.
    rewrite TryShoot_ready; [|apply UpdateCooldown_ready|exact Hst].
    simpl. rewrite Hn, Hmax.
    destruct (Z.of_nat k + 1 >=? maxBurstSize e)%Z eqn:E; [lia|].
    eexists. split; [reflexivity|]. simpl.
    repeat split; auto. lia.
Qed.

(** The shot that fills the burst leaves 1.5 times the base cooldown and
    resets the counter. *)
Lemma consecutive_shots_complete_burst (e : t) (k : nat) :
  currentAIState e = ATTACK -> shotsInBurst e = 0%Z ->
  Z.of_nat (S k) = maxBurstSize e ->
  exists eb, consecutive_shots (S k) e = Some eb
    /\ shotsInBurst eb = 0%Z
    /\ shootCooldown eb = shootCooldownTime e * (15 # 10).
Proof.
  intros Hs H0 Hk.
  destruct (consecutive_shots_within_burst e k Hs H0)
    as (e1 & He1 & Hn & Hst & Hmax & Hbase & _); [lia|].
  simpl. rewrite He1.
  rewrite TryShoot_ready; [|apply UpdateCooldown_ready|exact Hst].
  simpl. rewrite Hn, Hmax.
  destruct (Z.of_nat k + 1 >=? maxBurstSize e)%Z eqn:E; [|lia].
  eexists. split; [reflexivity|]. simpl. rewrite Hbase. auto.
Qed.

End EnemyTankFacts.

(** C8 (EnemyTank.cpp, TryShoot and InitializeShootingParameters): [TryShoot]
    returns true exactly when the cooldown is at most 0 and the state is
    ATTACK, and changes nothing otherwise; a shot that fires sets the
    cooldown to the base cooldown and counts one more shot, except the shot
    that fills the burst, which sets 1.5 times the base cooldown and resets
    the counter to 0.  For a new enemy of every type, put in ATTACK state, the
    first [burst_size - 1] consecutive shots each leave the type's base
    cooldown and the [burst_size]-th leaves the base cooldown times 1.5 with
    the counter back at 0. *)
Theorem TryShoot_burst_fire (e : EnemyTank.t) :
  ((EnemyTank.TryShoot e).1 = true
     <-> ((EnemyTank.shootCooldown e <= 0)%Q
          /\ EnemyTank.currentAIState e = EnemyTank.ATTACK))
  /\ ((EnemyTank.TryShoot e).1 = false -> (EnemyTank.TryShoot e).2 = e)
  /\ ((EnemyTank.TryShoot e).1 = true ->
      (EnemyTank.TryShoot e).2 =
        if (EnemyTank.shotsInBurst e + 1 >=? EnemyTank.maxBurstSize e)%Z
        then EnemyTank.set_shooting
               (EnemyTank.shootCooldownTime e * (15 # 10))%Q 0%Q 0%Z e
        else EnemyTank.set_shooting
               (EnemyTank.shootCooldownTime e) 0%Q (EnemyTank.shotsInBurst e + 1)%Z e)
  /\ (forall (ty : EnemyTank.EnemyType) (pos : Q * Q),
        let fresh := EnemyTank.SetAIState EnemyTank.ATTACK (EnemyTank.make ty pos) in
        let '(base, _, _, burst_size) := EnemyTank.shooting_parameters ty in
        EnemyTank.shootCooldownTime fresh = base
        /\ EnemyTank.maxBurstSize fresh = burst_size
        /\ (forall k, (0 < k)%nat -> (Z.of_nat k < burst_size)%Z ->
            exists ek, EnemyTank.consecutive_shots k fresh = Some ek
              /\ EnemyTank.shootCooldown ek = base
              /\ EnemyTank.shotsInBurst ek = Z.of_nat k)
        /\ exists eb, EnemyTank.consecutive_shots (Z.to_nat burst_size) fresh = Some eb
              /\ EnemyTank.shootCooldown eb = (base * (15 # 10))%Q
              /\ EnemyTank.shotsInBurst eb = 0%Z).
Proof.
  split; [apply EnemyTankFacts.TryShoot_fires_iff|].
  split; [apply EnemyTankFacts.TryShoot_not_fired|].
  split; [apply EnemyTankFacts.TryShoot_fired|].
  intros ty pos fresh.
  assert (EnemyTank.currentAIState fresh = EnemyTank.ATTACK) as Hs
    by (destruct ty; reflexivity).
  assert (EnemyTank.shotsInBurst fresh = 0%Z) as H0 by (destruct ty; reflexivity).
  destruct (EnemyTank.shooting_parameters ty) as [[[base acc] spread] burst_size] eqn:Ep.
  assert (EnemyTank.shootCooldownTime fresh = base) as Hb
    by (destruct ty; simpl in *; congruence).
  assert (EnemyTank.maxBurstSize fresh = burst_size) as Hm
    by (destruct ty; simpl in *; congruence).
  assert (1 <= burst_size)%Z as Hpos
    by (destruct ty; simpl in Ep; inversion Ep; lia).
  split; [exact Hb|]. split; [exact Hm|]. split.
  - intros k Hk0 Hk.
    destruct (EnemyTankFacts.consecutive_shots_within_burst fresh k Hs H0)
      as (ek & He & Hn & _ & _ & _ & Hc); [lia|].
    exists ek. rewrite <- Hb. auto.
  - destruct (EnemyTankFacts.consecutive_shots_complete_burst fresh
                (Z.to_nat burst_size - 1) Hs H0) as (eb & He & Hn & Hc); [lia|].
    replace (S (Z.to_nat burst_size - 1)) with (Z.to_nat burst_size) in He by lia.
    exists eb. rewrite <- Hb. auto.
Qed.

(** ** The snapshot buffer *)

Module EntityInterpolationBufferFacts.
Import EntityInterpolationBuffer.
Local Open Scope Z_scope.

Definition before_eq (a b : EntitySnapshot.t) : Prop :=
  EntitySnapshot.timestamp a <= EntitySnapshot.timestamp b.

(** Sorted by timestamp, equal timestamps allowed. *)
Definition chronological (l : list EntitySnapshot.t) : Prop :=
  StronglySorted before_eq l.

(** The calls a client makes on one buffer. *)
Inductive BufferCall : Type :=
| CallAddSnapshot (snapshot : EntitySnapshot.t)
| CallCleanupOldSnapshots (currentRenderTime : Z).

Section Calls.
Variable CalculateVelocity : EntitySnapshot.t -> EntitySnapshot.t -> Q * Q.
Variable CalculateAngularVelocity : EntitySnapshot.t -> EntitySnapshot.t -> Q.

Definition buffer_call (b : t) (c : BufferCall) : t :=
  match c with
  | CallAddSnapshot snapshot =>
      AddSnapshot CalculateVelocity CalculateAngularVelocity snapshot b
  | CallCleanupOldSnapshots currentRenderTime =>
      CleanupOldSnapshots currentRenderTime b
  end.

Definition buffer_run (calls : list BufferCall) (b : t) : t :=
  fold_left buffer_call calls b.

End Calls.

Lemma enforce_max_size_suffix (l : list EntitySnapshot.t) (idx : nat) :
  exists dropped, l = dropped ++ (enforce_max_size l idx).1
    /\ (List.length (enforce_max_size l idx).1 <= MAX_BUFFER_SIZE)%nat
    /\ ((List.length l <= MAX_BUFFER_SIZE)%nat -> (enforce_max_size l idx).1 = l).
Proof.
  revert idx. induction l as [|a l IH]; intros idx.
  - exists []. simpl. split; [reflexivity|]. split; [unfold MAX_BUFFER_SIZE; lia|auto].
  - cbn [enforce_max_size].
    destruct (MAX_BUFFER_SIZE <? List.length (a :: l))%nat eqn:E.
    + apply Nat.ltb_lt in E.
      destruct (IH (Nat.pred idx)) as (d & Hd & Hlen & _).
      exists (a :: d). simpl. split; [f_equal; exact Hd|]. split; [exact Hlen|].
      intros H. simpl in E. lia.
    + apply Nat.ltb_ge in E. exists []. simpl.
      split; [reflexivity|]. split; [exact E|auto].
Qed.

Lemma drop_old_suffix (cutoff : Z) (l : list EntitySnapshot.t) (idx : nat) :
  exists dropped, l = dropped ++ (drop_old cutoff l idx).1
    /\ (List.length (drop_old cutoff l idx).1 <= List.length l)%nat.
Proof.
  revert idx. induction l as [|a l IH]; intros idx.
  - exists []. simpl. auto.
  - cbn [drop_old].
    destruct ((2 <? List.length (a :: l))%nat && (EntitySnapshot.timestamp a <? cutoff)).
    + destruct (IH (Nat.pred idx)) as (d & Hd & Hlen).
      exists (a :: d). simpl. split; [f_equal; exact Hd|]. lia.
    + exists []. simpl. auto.
Qed.

Lemma lower_bound_split (ts : Z) (l : list EntitySnapshot.t) :
  chronological l ->
  Forall (fun x => EntitySnapshot.timestamp x < ts) (firstn (lower_bound ts l) l)
  /\ Forall (fun x => ts <= EntitySnapshot.timestamp x) (skipn (lower_bound ts l) l).
Proof.
  induction l as [|a l IH]; intros Hs.
  - simpl. split; constructor.
  - apply StronglySorted_cons in Hs. destruct Hs as [Ha Hs].
    cbn [lower_bound].
    destruct (EntitySnapshot.timestamp a <? ts) eqn:E.
    + apply Z.ltb_lt in E. destruct (IH Hs) as [H1 H2].
      simpl. split; [constructor; assumption|exact H2].
    + apply Z.ltb_ge in E. simpl. split; [constructor|].
      constructor; [exact E|].
      eapply Forall_impl; [exact Ha|]. unfold before_eq. intros x Hx. simpl in Hx. lia.
Qed.

Lemma chronological_last (l : list EntitySnapshot.t) (back x : EntitySnapshot.t) :
  chronological l -> last l = Some back -> x ∈ l -> before_eq x back.
Proof.
  intros Hs Hl Hx. apply last_Some in Hl. destruct Hl as [l' ->].
  apply elem_of_app in Hx. destruct Hx as [Hx|Hx].
  - eapply StronglySorted_app_1_elem_of; [exact Hs|exact Hx|].
    apply list_elem_of_singleton. reflexivity.
  - apply list_elem_of_singleton in Hx. subst. unfold before_eq. lia.
Qed.

Lemma chronological_insert (i : nat) (s : EntitySnapshot.t)
  (l tl : list EntitySnapshot.t) :
  chronological l ->
  Forall (fun x => EntitySnapshot.timestamp x < EntitySnapshot.timestamp s) (firstn i l) ->
  (exists d, skipn i l = d ++ tl) ->
  Forall (fun x => EntitySnapshot.timestamp s <= EntitySnapshot.timestamp x) (skipn i l) ->
  chronological (firstn i l ++ s :: tl).
Proof.
  intros Hs Hlt [d Hd] Hge.
  rewrite <- (firstn_skipn i l) in Hs.
  apply StronglySorted_app in Hs. destruct Hs as (Hcross & Hs1 & Hs2).
  rewrite Hd in Hs2, Hge, Hcross.
  apply StronglySorted_app_2.
  - intros x1 x2 H1 H2. apply elem_of_cons in H2. destruct H2 as [->|H2].
    + rewrite Forall_forall in Hlt. specialize (Hlt _ H1). unfold before_eq. lia.
    + apply Hcross; [exact H1|]. apply elem_of_app. right. exact H2.
  - exact Hs1.
  - apply StronglySorted_cons. split.
    + apply Forall_app in Hge. destruct Hge as [_ Hge]. exact Hge.
    + eapply StronglySorted_app_1_r. exact Hs2.
Qed.

Lemma place_chronological (s : EntitySnapshot.t) (l : list EntitySnapshot.t) :
  chronological l -> chronological (place s l).
Proof.
  intros Hs. unfold place.
  destruct (last l) as [back|] eqn:El.
  - destruct (EntitySnapshot.timestamp s >=? EntitySnapshot.timestamp back) eqn:E.
    + apply Z.geb_le in E. apply StronglySorted_app_2.
      * intros x1 x2 H1 H2. apply list_elem_of_singleton in H2. subst.
        pose proof (chronological_last l back x1 Hs El H1) as H.
        unfold before_eq in *. lia.
      * exact Hs.
      * repeat constructor.
    + destruct (lower_bound_split (EntitySnapshot.timestamp s) l Hs) as [H1 H2].
      destruct (l !! lower_bound (EntitySnapshot.timestamp s) l) as [found|] eqn:En.
      * destruct (EntitySnapshot.timestamp found =? EntitySnapshot.timestamp s).
        -- unfold assign_at. apply chronological_insert; auto.
           exists [found]. rewrite (drop_S l found); [reflexivity|exact En].
        -- unfold insert_at. apply chronological_insert; auto. exists []. reflexivity.
      * unfold insert_at. apply chronological_insert; auto. exists []. reflexivity.
  - apply StronglySorted_app_2.
    + apply last_None in El. subst. intros x1 x2 H. inversion H.
    + exact Hs.
    + repeat constructor.
Qed.

Section Invariant.
Variable CalculateVelocity : EntitySnapshot.t -> EntitySnapshot.t -> Q * Q.
Variable CalculateAngularVelocity : EntitySnapshot.t -> EntitySnapshot.t -> Q.

Definition well_formed (b : t) : Prop :=
  chronological (snapshots b) /\ (List.length (snapshots b) <= MAX_BUFFER_SIZE)%nat.

Lemma AddSnapshot_well_formed (s : EntitySnapshot.t) (b : t) :
  well_formed b ->
  well_formed (AddSnapshot CalculateVelocity CalculateAngularVelocity s b).
Proof.
  intros [Hs _]. unfold well_formed, AddSnapshot.
  set (l := place _ _).
  assert (chronological l) as Hl by (apply place_chronological; exact Hs).
  destruct (enforce_max_size_suffix l (cachedSearchIdx b)) as (d & Hd & Hlen & _).
  destruct (enforce_max_size l (cachedSearchIdx b)) as [l' idx]. simpl in *.
  split; [|exact Hlen].
  rewrite Hd in Hl. eapply StronglySorted_app_1_r. exact Hl.
Qed.

Lemma CleanupOldSnapshots_well_formed (now : Z) (b : t) :
  well_formed b -> well_formed (CleanupOldSnapshots now b).
Proof.
  intros [Hs Hn]. unfold well_formed, CleanupOldSnapshots.
  match goal with |- context [drop_old ?c ?l ?i] =>
    destruct (drop_old_suffix c l i) as (d & Hd & Hlen);
    destruct (drop_old c l i) as [l' idx] end.
  simpl in *. split; [|lia].
  rewrite Hd in Hs. eapply StronglySorted_app_1_r. exact Hs.
Qed.

Lemma buffer_run_well_formed (calls : list BufferCall) (b : t) :
  well_formed b ->
  well_formed (buffer_run CalculateVelocity CalculateAngularVelocity calls b).
Proof.
  revert b. induction calls as [|c calls IH]; intros b Hb; simpl; [exact Hb|].
  apply IH. destruct c; simpl.
  - apply AddSnapshot_well_formed. exact Hb.
  - apply CleanupOldSnapshots_well_formed. exact Hb.
Qed.

(** A snapshot as new as the newest one is appended, whatever its timestamp:
    the test in the source is [>=]. *)
Lemma AddSnapshot_appends (s back : EntitySnapshot.t) (b : t) :
  last (snapshots b) = Some back ->
  EntitySnapshot.timestamp back <= EntitySnapshot.timestamp s ->
  (List.length (snapshots b) < MAX_BUFFER_SIZE)%nat ->
  timestamps (AddSnapshot CalculateVelocity CalculateAngularVelocity s b)
  = timestamps b ++ [EntitySnapshot.timestamp s].
Proof.
  intros Hl Hts Hlen. unfold AddSnapshot, timestamps.
  set (sv := with_velocity _ _ _ _).
  assert (EntitySnapshot.timestamp sv = EntitySnapshot.timestamp s) as Hsv.
  { subst sv. unfold with_velocity. destruct (snapshots b); [reflexivity|].
    destruct (lower_bound _ _); [reflexivity|].
    destruct (_ !! _); reflexivity. }
  assert (place sv (snapshots b) = snapshots b ++ [sv]) as Hp.
  { unfold place. rewrite Hl, Hsv.
    destruct (EntitySnapshot.timestamp s >=? EntitySnapshot.timestamp back) eqn:E;
      [reflexivity|]. rewrite Z.geb_leb in E. apply Z.leb_gt in E. lia. }
  rewrite Hp.
  destruct (enforce_max_size_suffix (snapshots b ++ [sv]) (cachedSearchIdx b))
    as (_ & _ & _ & Hid).
  destruct (enforce_max_size _ _) as [l' idx]. simpl in *.
  rewrite Hid.
  - rewrite map_app. simpl. rewrite Hsv. reflexivity.
  - rewrite length_app. simpl. lia.
Qed.

End Invariant.

End EntityInterpolationBufferFacts.

(** C6 (entity_interpolation.cpp, AddSnapshot): two snapshots with the same
    timestamp added to an empty buffer are both kept: the buffer then holds
    that timestamp twice, so it is not strictly increasing and the second
    snapshot did not replace the first.  (The branch that looks for a
    duplicate is only reached when the new timestamp is smaller than the
    newest one.) *)
Theorem AddSnapshot_duplicates_newest_timestamp :
  forall (CalculateVelocity : EntitySnapshot.t -> EntitySnapshot.t -> Q * Q)
         (CalculateAngularVelocity : EntitySnapshot.t -> EntitySnapshot.t -> Q)
         (ts : Z) (pos1 pos2 : Q * Q) (body1 barrel1 body2 barrel2 : Q),
    let add := EntityInterpolationBuffer.AddSnapshot
                 CalculateVelocity CalculateAngularVelocity in
    let b1 := add (EntitySnapshot.make ts pos1 body1 barrel1)
                  EntityInterpolationBuffer.make in
    let b2 := add (EntitySnapshot.make ts pos2 body2 barrel2) b1 in
    EntityInterpolationBuffer.timestamps b1 = [ts]
    /\ EntityInterpolationBuffer.timestamps b2 = [ts; ts]
    /\ List.map EntitySnapshot.position (EntityInterpolationBuffer.snapshots b2)
       = [pos1; pos2].
Proof.
  intros cv cw ts pos1 pos2 body1 barrel1 body2 barrel2 add b1 b2.
  assert (EntityInterpolationBuffer.snapshots b1
          = [EntitySnapshot.make ts pos1 body1 barrel1]) as H1 by reflexivity.
  split; [reflexivity|].
  subst b2 add. unfold EntityInterpolationBuffer.AddSnapshot.
  rewrite H1. unfold EntityInterpolationBuffer.with_velocity.
  cbn [EntityInterpolationBuffer.lower_bound EntitySnapshot.timestamp EntitySnapshot.make].
  rewrite Z.ltb_irrefl.
  unfold EntityInterpolationBuffer.place.
  cbn [last EntitySnapshot.set_velocity EntitySnapshot.timestamp EntitySnapshot.make].
  replace (ts >=? ts)%Z with true by (symmetry; apply Z.geb_le; lia).
  split; reflexivity.
Qed.

(** ** The server's outbox *)

(** Sample data: the join and the input of the end-to-end scenarios. *)
Module Scenario.

Definition ada : Endpoint := mkEndpoint 2130706433 50000.

Definition join_ada : JoinMessage.t := JoinMessage.mk "Ada" "blue" 1000 1.

Definition input_7 : PlayerInputMessage.t :=
  PlayerInputMessage.mk 1 true false false false 0%Q 1100 7.

(** A generator that always yields the middle of the range. *)
Definition middle : Rng.t := Rng.mk (fun _ => (1 # 2)%Q) 0.

End Scenario.

Module GameServerFacts.
Import GameServer.
Local Open Scope Z_scope.

(** A [GAME_STATE] packet acknowledges nothing. *)
Definition acks_nothing (p : Endpoint * Packet) : Prop :=
  match p.2 with
  | GAME_STATE msg => GameStateMessage.lastAckedInput msg = 0%N
  | _ => True
  end.

Definition game_states_ack_nothing (s : t) : Prop := Forall acks_nothing (sent s).

Lemma send_ack_nothing to p s :
  acks_nothing (to, p) -> game_states_ack_nothing s -> game_states_ack_nothing (send to p s).
Proof.
  intros Hp Hs. unfold game_states_ack_nothing, send. simpl.
  apply Forall_app. split; [exact Hs|]. constructor; [exact Hp|constructor].
Qed.

Lemma broadcast_list_ack_nothing p (l : list (N * ClientInfo.t)) s :
  (forall to, acks_nothing (to, p)) -> game_states_ack_nothing s ->
  game_states_ack_nothing
    (fold_left (fun acc kc => send (ClientInfo.address kc.2) p acc) l s).
Proof.
  intros Hp. revert s. induction l as [|kc l IH]; intros s Hs; simpl.
  - exact Hs.
  - apply IH. apply send_ack_nothing; auto.
Qed.

Lemma build_game_state_ack now s :
  GameStateMessage.lastAckedInput (build_game_state now s).1 = 0%N
  /\ sent (build_game_state now s).2 = sent s.
Proof. split; reflexivity. Qed.

Lemma SendGameStateToAll_ack_nothing now s :
  game_states_ack_nothing s -> game_states_ack_nothing (SendGameStateToAll now s).
Proof.
  intros Hs. unfold SendGameStateToAll.
  destruct (client_list s); [exact Hs|].
  destruct (build_game_state now s) as [msg s1] eqn:E.
  pose proof (build_game_state_ack now s) as [H1 H2]. rewrite E in H1, H2. simpl in H1, H2.
  apply broadcast_list_ack_nothing.
  - intros to. exact H1.
  - unfold game_states_ack_nothing. rewrite H2. exact Hs.
Qed.

Lemma SendGameStateToClient_ack_nothing now playerId s :
  game_states_ack_nothing s -> game_states_ack_nothing (SendGameStateToClient now playerId s).
Proof.
  intros Hs. unfold SendGameStateToClient.
  destruct (clients s !! playerId) as [c|]; [|exact Hs].
  destruct (ClientInfo.isActive c); [|exact Hs].
  destruct (build_game_state now s) as [msg s1] eqn:E.
  pose proof (build_game_state_ack now s) as [H1 H2]. rewrite E in H1, H2. simpl in H1, H2.
  apply send_ack_nothing; [exact H1|].
  unfold game_states_ack_nothing. rewrite H2. exact Hs.
Qed.

Lemma printMsg_ack_nothing d s :
  game_states_ack_nothing s -> game_states_ack_nothing (printMsg d s).
Proof. intros H; exact H. Qed.

Lemma AssignColor_sent s : sent (AssignColor s).2 = sent s.
Proof.
  unfold AssignColor.
  destruct (List.filter _ availableColors); [|reflexivity].
  destruct (Rng.uniform_int _ _ _). reflexivity.
Qed.

Lemma HandleJoinRequest_ack_nothing now msg from s :
  game_states_ack_nothing s -> game_states_ack_nothing (HandleJoinRequest now msg from s).
Proof.
  intros Hs. unfold HandleJoinRequest.
  destruct (negb (NetworkValidation.IsValidPlayerName _)); [exact Hs|].
  set (s1 := if _ && _ then _ else s).
  assert (game_states_ack_nothing s1) as Hs1 by (subst s1; destruct (_ && _); exact Hs).
  clearbody s1.
  set (s2 := if negb _ then _ else s1).
  assert (game_states_ack_nothing s2) as Hs2 by (subst s2; destruct (negb _); exact Hs1).
  clearbody s2.
  destruct (negb (FindPlayerByAddress from s2 =? 0)%N).
  - apply SendGameStateToClient_ack_nothing. apply send_ack_nothing; [exact I|]. exact Hs2.
  - match goal with |- context [if ?b then _ else AssignColor ?x] =>
      destruct b; [|pose proof (AssignColor_sent x) as HA; destruct (AssignColor x) as [color s4]] end.
    + apply SendGameStateToAll_ack_nothing, SendGameStateToClient_ack_nothing.
      apply send_ack_nothing; [exact I|]. exact Hs2.
    + apply SendGameStateToAll_ack_nothing, SendGameStateToClient_ack_nothing.
      apply send_ack_nothing; [exact I|].
      unfold game_states_ack_nothing in *. simpl in *. rewrite HA. exact Hs2.
Qed.

Lemma HandlePlayerInput_ack_nothing now msg from s :
  game_states_ack_nothing s -> game_states_ack_nothing (HandlePlayerInput now msg from s).
Proof.
  intros Hs. unfold HandlePlayerInput.
  destruct (negb (NetworkValidation.IsValidPlayerId _)); [exact Hs|].
  set (s1 := if negb _ then _ else s).
  assert (game_states_ack_nothing s1) as Hs1 by (subst s1; destruct (negb _); exact Hs).
  clearbody s1.
  set (s2 := if negb _ then _ else s1).
  assert (game_states_ack_nothing s2) as Hs2 by (subst s2; destruct (negb _); exact Hs1).
  clearbody s2.
  destruct (clients s2 !! _) as [c|]; [|exact Hs2].
  destruct (Endpoint_eqb _ _); [|exact Hs2].
  apply send_ack_nothing; [exact I|].
  destruct (negb (ValidateSequenceNumber _ _)); exact Hs2.
Qed.

Lemma HandlePlayerUpdate_sent now msg from s :
  sent (HandlePlayerUpdate now msg from s) = sent s.
Proof.
  unfold HandlePlayerUpdate.
  repeat match goal with
         | |- context [if ?b then _ else _] => destruct b; try reflexivity
         | |- context [match ?o with Some _ => _ | None => _ end] => destruct o; try reflexivity
         end.
Qed.

Lemma SpawnEnemy_sent s : sent (SpawnEnemy s) = sent s.
Proof.
  unfold SpawnEnemy, GetRandomSpawnPosition, GetRandomEnemyType,
    Rng.uniform_real, Rng.uniform_int. reflexivity.
Qed.

Lemma UpdateEnemies_sent upd dt s : sent (UpdateEnemies upd dt s) = sent s.
Proof.
  unfold UpdateEnemies. simpl.
  destruct (_ && _); simpl; [apply SpawnEnemy_sent|reflexivity].
Qed.

Lemma enemy_bullet_hits_player_sent playerId damage s :
  sent (enemy_bullet_hits_player playerId damage s) = sent s.
Proof.
  unfold enemy_bullet_hits_player.
  destruct (clients s !! playerId) as [c|]; [|reflexivity].
  destruct (ClientInfo.isActive c); reflexivity.
Qed.

Lemma broadcast_ack_nothing p s :
  (forall to, acks_nothing (to, p)) -> game_states_ack_nothing s ->
  game_states_ack_nothing (broadcast p s).
Proof. intros Hp Hs. unfold broadcast. apply broadcast_list_ack_nothing; assumption. Qed.

Lemma HandlePlayerDeath_ack_nothing now playerId killerId s :
  game_states_ack_nothing s -> game_states_ack_nothing (HandlePlayerDeath now playerId killerId s).
Proof.
  intros Hs. unfold HandlePlayerDeath.
  destruct (clients s !! playerId) as [c|]; [|exact Hs].
  destruct (negb (ClientInfo.isActive c)); [exact Hs|].
  unfold BroadcastPlayerDeath.
  match goal with |- context [client_list ?x] => destruct (client_list x) end; [exact Hs|].
  apply broadcast_ack_nothing; [intros to; exact I|exact Hs].
Qed.

Lemma CheckPlayerDeaths_ack_nothing now s :
  game_states_ack_nothing s -> game_states_ack_nothing (CheckPlayerDeaths now s).
Proof.
  unfold CheckPlayerDeaths. generalize (List.map fst (client_list s)) as keys.
  intros keys. revert s. induction keys as [|k keys IH]; intros s Hs; simpl; [exact Hs|].
  apply IH. unfold check_player_death.
  destruct (clients s !! k) as [c|]; [|exact Hs].
  destruct (_ || _); [exact Hs|].
  destruct (Qle_bool _ _); [|exact Hs].
  apply HandlePlayerDeath_ack_nothing. exact Hs.
Qed.

Lemma respawn_attempts_sent n s : sent (respawn_attempts n s).2 = sent s.
Proof.
  revert s. induction n as [|n IH]; intros s; simpl; [reflexivity|].
  unfold respawn_candidate, Rng.uniform_real. cbn beta iota zeta.
  match goal with |- context [if ?b then _ else _] => destruct b end; [reflexivity|].
  rewrite IH. reflexivity.
Qed.

Lemma RespawnPlayer_ack_nothing now playerId s :
  game_states_ack_nothing s -> game_states_ack_nothing (RespawnPlayer now playerId s).
Proof.
  intros Hs. unfold RespawnPlayer.
  destruct (clients s !! playerId) as [c|]; [|exact Hs].
  destruct (negb (ClientInfo.isActive c)); [exact Hs|].
  unfold GetRandomRespawnPosition.
  pose proof (respawn_attempts_sent MAX_ATTEMPTS s) as Hr.
  destruct (respawn_attempts MAX_ATTEMPTS s) as [spawnPos s1]. simpl in Hr.
  unfold BroadcastPlayerRespawn.
  match goal with |- context [client_list ?x] => destruct (client_list x) end.
  - unfold game_states_ack_nothing in *. simpl. rewrite Hr. exact Hs.
  - apply broadcast_ack_nothing; [intros to; exact I|].
    unfold game_states_ack_nothing in *. simpl. rewrite Hr. exact Hs.
Qed.

Lemma UpdateDeadPlayers_ack_nothing now dt s :
  game_states_ack_nothing s -> game_states_ack_nothing (UpdateDeadPlayers now dt s).
Proof.
  unfold UpdateDeadPlayers. generalize (List.map fst (client_list s)) as keys.
  intros keys. revert s. induction keys as [|k keys IH]; intros s Hs; simpl; [exact Hs|].
  apply IH. unfold update_dead_player.
  destruct (clients s !! k) as [c|]; [|exact Hs].
  destruct (_ || _); [exact Hs|].
  destruct (Qle_bool _ _); [|exact Hs].
  apply RespawnPlayer_ack_nothing. exact Hs.
Qed.

Lemma RemoveInactiveClients_ack_nothing now dt s :
  game_states_ack_nothing s -> game_states_ack_nothing (RemoveInactiveClients now dt s).
Proof.
  intros Hs. unfold RemoveInactiveClients.
  match goal with |- context [fold_left _ ?l ?s0] =>
    assert (game_states_ack_nothing s0) as H0 by exact Hs;
    generalize dependent s0; generalize l as keys end.
  induction keys as [|k keys IH]; intros s0 H0; simpl; [exact H0|].
  apply IH. apply (SendGameStateToAll_ack_nothing now) in H0. exact H0.
Qed.

Lemma call_ack_nothing cosf sinf upd (c : ServerCall) s :
  game_states_ack_nothing s -> game_states_ack_nothing (call cosf sinf upd s c).
Proof.
  intros Hs. destruct c; simpl.
  - apply HandleJoinRequest_ack_nothing, Hs.
  - unfold game_states_ack_nothing. rewrite HandlePlayerUpdate_sent. exact Hs.
  - apply HandlePlayerInput_ack_nothing, Hs.
  - exact Hs.
  - unfold game_states_ack_nothing. rewrite UpdateEnemies_sent. exact Hs.
  - unfold game_states_ack_nothing. rewrite enemy_bullet_hits_player_sent. exact Hs.
  - apply CheckPlayerDeaths_ack_nothing, Hs.
  - apply UpdateDeadPlayers_ack_nothing, Hs.
  - apply SendGameStateToAll_ack_nothing, Hs.
  - apply RemoveInactiveClients_ack_nothing, Hs.
Qed.

Lemma run_ack_nothing cosf sinf upd (calls : list ServerCall) s :
  game_states_ack_nothing s -> game_states_ack_nothing (run cosf sinf upd calls s).
Proof.
  revert s. induction calls as [|c calls IH]; intros s Hs; simpl; [exact Hs|].
  apply IH, call_ack_nothing, Hs.
Qed.

End GameServerFacts.

(** C10 (game_server.cpp, SendGameStateToAll and SendGameStateToClient):
    whatever calls the server has served since it started, every GAME_STATE
    packet in its outbox carries lastAckedInput = 0.  In particular, after
    Ada joins and her input 7 is processed, the server holds 7 as her last
    acknowledged input and has sent her an INPUT_ACKNOWLEDGMENT for 7, and the
    GAME_STATE it sends next still carries 0. *)
Theorem GameState_lastAckedInput_is_zero
  (cosf sinf : Q -> Q)
  (enemyUpdate : gmap N ClientInfo.t -> Q -> EnemyTank.t -> EnemyTank.t) :
  (forall (calls : list GameServer.ServerCall) (g : Rng.t),
     Forall GameServerFacts.acks_nothing
       (GameServer.sent
          (GameServer.run cosf sinf enemyUpdate calls (GameServer.make g))))
  /\ (let s := GameServer.run cosf sinf enemyUpdate
                 [GameServer.CallHandleJoinRequest 1000 Scenario.join_ada Scenario.ada;
                  GameServer.CallHandlePlayerInput 1100 Scenario.input_7 Scenario.ada;
                  GameServer.CallSendGameStateToAll 1120]
                 (GameServer.make Scenario.middle) in
      (ClientInfo.lastAcknowledgedInputSeq <$> GameServer.clients s !! 1%N) = Some 7%N
      /\ In (Scenario.ada, INPUT_ACKNOWLEDGMENT 1 7 1100) (GameServer.sent s)
      /\ exists msg, last (GameServer.sent s) = Some (Scenario.ada, GAME_STATE msg)
                     /\ GameStateMessage.timestamp msg = 1120%Z
                     /\ GameStateMessage.lastAckedInput msg = 0%N).
Proof.
  split.
  - intros calls g. apply GameServerFacts.run_ack_nothing. constructor.
  - vm_compute. split; [reflexivity|]. split; [tauto|].
    eexists. split; [reflexivity|]. split; reflexivity.
Qed.

(** ** The message handlers *)

Module HandlerFacts.
Import GameServer.
Local Open Scope Z_scope.


(** What [HandlePlayerInput] stores for the sender. *)
Definition input_applied (msg : PlayerInputMessage.t) (c : ClientInfo.t) : ClientInfo.t :=
  ClientInfo.set_lastAcknowledgedInputSeq (PlayerInputMessage.sequenceNumber msg)
    (RecordReceivedSequence (PlayerInputMessage.sequenceNumber msg)
       (ClientInfo.set_lastUpdateTime 0
          (ClientInfo.set_playerData
             (PlayerData.set_barrelRotation
                (NetworkValidation.NormalizeRotation (PlayerInputMessage.barrelRotation msg))
                (PlayerData.set_moving
                   (PlayerInputMessage.isMoving_forward msg)
                   (PlayerInputMessage.isMoving_backward msg)
                   (PlayerInputMessage.isMoving_left msg)
                   (PlayerInputMessage.isMoving_right msg)
                   (ClientInfo.playerData c))) c))).

Lemma HandlePlayerInput_known_sender now msg from s c :
  NetworkValidation.IsValidPlayerId (PlayerInputMessage.playerId msg) = true ->
  clients s !! PlayerInputMessage.playerId msg = Some c ->
  Endpoint_eqb (ClientInfo.address c) from = true ->
  let s' := HandlePlayerInput now msg from s in
  clients s' = <[PlayerInputMessage.playerId msg := input_applied msg c]> (clients s)
  /\ sent s' = sent s ++ [(from, INPUT_ACKNOWLEDGMENT (PlayerInputMessage.playerId msg)
                                   (PlayerInputMessage.sequenceNumber msg) now)]
  /\ (In (OutOfOrderOrDuplicate (PlayerInputMessage.playerId msg)
            (PlayerInputMessage.sequenceNumber msg))
         (skipn (List.length (diagnostics s)) (diagnostics s'))
      <-> ValidateSequenceNumber c (PlayerInputMessage.sequenceNumber msg) = false).
Proof.
  intros Hid Hc Haddr s'. subst s'. unfold HandlePlayerInput. rewrite Hid. simpl negb. cbv iota.
  set (s1 := if negb _ then _ else s).
  set (s2 := if negb _ then _ else s1).
  assert (clients s2 = clients s /\ sent s2 = sent s
          /\ exists ds, diagnostics s2 = diagnostics s ++ ds
               /\ ~ In (OutOfOrderOrDuplicate (PlayerInputMessage.playerId msg)
                         (PlayerInputMessage.sequenceNumber msg)) ds) as (Hcl & Hsent & ds & Hd & Hds).
  { subst s2 s1.
    destruct (negb (NetworkValidation.IsValidTimestamp _ _));
      destruct (negb (NetworkValidation.IsValidRotation _)); simpl;
      (split; [reflexivity|split; [reflexivity|]]).
    - exists [InvalidTimestamp; InvalidBarrelRotation]. rewrite <- app_assoc. split; [reflexivity|].
      simpl. intros [H|[H|[]]]; discriminate.
    - exists [InvalidTimestamp]. split; [reflexivity|]. simpl. intros [H|[]]; discriminate.
    - exists [InvalidBarrelRotation]. split; [reflexivity|]. simpl. intros [H|[]]; discriminate.
    - exists []. rewrite app_nil_r. split; [reflexivity|]. simpl. tauto. }
  clearbody s2. clear s1.
  rewrite Hcl, Hc, Haddr.
  destruct (ValidateSequenceNumber c (PlayerInputMessage.sequenceNumber msg)) eqn:Ev; simpl.
  - split; [rewrite Hcl; reflexivity|]. split; [rewrite Hsent; reflexivity|].
    rewrite Hd. rewrite skipn_app, Nat.sub_diag, skipn_all. simpl.
    split; [intros H; contradiction|discriminate].
  - split; [rewrite Hcl; reflexivity|]. split; [rewrite Hsent; reflexivity|].
    rewrite Hd. rewrite <- app_assoc. rewrite skipn_app, Nat.sub_diag, skipn_all. simpl.
    split; [reflexivity|]. intros _. apply in_or_app. right. left. reflexivity.
Qed.

Lemma fold_send_clients p (l : list (N * ClientInfo.t)) s :
  clients (fold_left (fun acc kc => send (ClientInfo.address kc.2) p acc) l s) = clients s.
Proof.
  revert s. induction l as [|kc l IH]; intros s; simpl; [reflexivity|].
  rewrite IH. reflexivity.
Qed.

Lemma SendGameStateToAll_lookup now s k :
  clients (SendGameStateToAll now s) !! k = (sync_playerData <$> clients s) !! k
  \/ clients (SendGameStateToAll now s) !! k = clients s !! k.
Proof.
  unfold SendGameStateToAll.
  destruct (client_list s); [right; reflexivity|].
  left. unfold build_game_state. cbn beta iota zeta.
  rewrite fold_send_clients. reflexivity.
Qed.

Lemma SendGameStateToClient_lookup now playerId s k :
  clients (SendGameStateToClient now playerId s) !! k = (sync_playerData <$> clients s) !! k
  \/ clients (SendGameStateToClient now playerId s) !! k = clients s !! k.
Proof.
  unfold SendGameStateToClient.
  destruct (clients s !! playerId) as [c|]; [|right; reflexivity].
  destruct (ClientInfo.isActive c); [|right; reflexivity].
  left. reflexivity.
Qed.

Definition color_of (s : t) (playerId : N) : option string :=
  (fun c => PlayerData.color (ClientInfo.playerData c)) <$> clients s !! playerId.

Lemma sync_playerData_color c :
  PlayerData.color (ClientInfo.playerData (sync_playerData c))
  = PlayerData.color (ClientInfo.playerData c).
Proof. unfold sync_playerData. destruct (ClientInfo.isActive c); reflexivity. Qed.

Lemma SendGameStateToAll_color now s k :
  color_of (SendGameStateToAll now s) k = color_of s k.
Proof.
  unfold color_of. destruct (SendGameStateToAll_lookup now s k) as [-> | ->]; [|reflexivity].
  rewrite lookup_fmap. destruct (clients s !! k) as [c|]; [|reflexivity].
  simpl. rewrite sync_playerData_color. reflexivity.
Qed.

Lemma SendGameStateToClient_color now playerId s k :
  color_of (SendGameStateToClient now playerId s) k = color_of s k.
Proof.
  unfold color_of.
  destruct (SendGameStateToClient_lookup now playerId s k) as [-> | ->]; [|reflexivity].
  rewrite lookup_fmap. destruct (clients s !! k) as [c|]; [|reflexivity].
  simpl. rewrite sync_playerData_color. reflexivity.
Qed.

Lemma HandleJoinRequest_invalid_name now msg from s :
  NetworkValidation.IsValidPlayerName (JoinMessage.playerName msg) = false ->
  HandleJoinRequest now msg from s
  = printMsg (InvalidPlayerName (String.length (JoinMessage.playerName msg))) s.
Proof. intros H. unfold HandleJoinRequest. rewrite H. reflexivity. Qed.

Lemma HandleJoinRequest_new_player_color now msg from s :
  NetworkValidation.IsValidPlayerName (JoinMessage.playerName msg) = true ->
  FindPlayerByAddress from s = 0%N ->
  JoinMessage.preferredColor msg <> ""%string ->
  color_of (HandleJoinRequest now msg from s) (nextPlayerId s)
  = Some (JoinMessage.preferredColor msg).
Proof.
  intros Hname Hnew Hcol. unfold HandleJoinRequest. rewrite Hname. simpl negb. cbv iota.
  set (s1 := if _ && _ then _ else s).
  set (s2 := if negb _ then _ else s1).
  assert (clients s2 = clients s /\ nextPlayerId s2 = nextPlayerId s) as [Hcl Hnext].
  { subst s2 s1. destruct (_ && _); destruct (negb (NetworkValidation.IsValidTimestamp _ _));
      split; reflexivity. }
  clearbody s2. clear s1.
  assert (FindPlayerByAddress from s2 = 0%N) as Hf.
  { unfold FindPlayerByAddress, client_list in *. rewrite Hcl. exact Hnew. }
  rewrite Hf. simpl negb. cbv iota.
  assert ((String.length (JoinMessage.preferredColor msg) =? 0)%nat = false) as Hlen.
  { apply Nat.eqb_neq. destruct (JoinMessage.preferredColor msg); [congruence|simpl; lia]. }
  rewrite Hlen. simpl negb. cbv iota beta.
  rewrite SendGameStateToAll_color, SendGameStateToClient_color.
  unfold color_of, SendPlayerIdAssignment. simpl. rewrite Hnext.
  rewrite lookup_insert_eq. reflexivity.
Qed.

(** What [HandlePlayerUpdate] stores for the sender. *)
Definition update_applied (msg : PlayerUpdateMessage.t) (c : ClientInfo.t) : ClientInfo.t :=
  RecordReceivedSequence (PlayerUpdateMessage.sequenceNumber msg)
    (ClientInfo.set_lastUpdateTime 0
       (ClientInfo.set_playerData
          (PlayerData.set_moving
             (PlayerUpdateMessage.isMoving_forward msg)
             (PlayerUpdateMessage.isMoving_backward msg)
             (PlayerUpdateMessage.isMoving_left msg)
             (PlayerUpdateMessage.isMoving_right msg)
             (PlayerData.set_barrelRotation
                (NetworkValidation.NormalizeRotation (PlayerUpdateMessage.barrelRotation msg))
                (PlayerData.set_bodyRotation
                   (NetworkValidation.NormalizeRotation (PlayerUpdateMessage.bodyRotation msg))
                   (PlayerData.set_position
                      (NetworkValidation.ClampPositionX (PlayerUpdateMessage.x msg))
                      (NetworkValidation.ClampPositionY (PlayerUpdateMessage.y msg))
                      (ClientInfo.playerData c))))) c)).


End HandlerFacts.


(** The server after Ada's join and her input 7 (scenarios 1 and 2). *)
Definition after_input_7 : GameServer.t :=
  GameServer.HandlePlayerInput 1100 Scenario.input_7 Scenario.ada
    (GameServer.HandleJoinRequest 1000 Scenario.join_ada Scenario.ada
       (GameServer.make Scenario.middle)).


(** Ada's record on a server ([ClientInfo.make] when she is unknown). *)
Definition ada_on (s : GameServer.t) : ClientInfo.t :=
  default (ClientInfo.make Scenario.ada) (GameServer.clients s !! 1%N).






(** C2, as the code has it (network_validation.h, IsValidColor;
    game_server.cpp, HandleJoinRequest): a join whose name is empty or longer
    than 50 characters is rejected entirely (no client, no id, no packet; one
    diagnostic line).  The color is no reason to reject: for a new sender with
    a valid name, a preferred color of 1 to 20 characters, the only check
    [IsValidColor] makes, is stored as the player's color whether or not it is
    one of red, blue, green, black. *)
Theorem HandleJoinRequest_rejects_names_not_colors
  (now : Z) (msg : JoinMessage.t) (from : Endpoint) (s : GameServer.t) :
  let s' := GameServer.HandleJoinRequest now msg from s in
  (NetworkValidation.IsValidPlayerName (JoinMessage.playerName msg) = false ->
     GameServer.clients s' = GameServer.clients s
     /\ GameServer.nextPlayerId s' = GameServer.nextPlayerId s
     /\ GameServer.sent s' = GameServer.sent s
     /\ GameServer.diagnostics s'
        = GameServer.diagnostics s
          ++ [InvalidPlayerName (String.length (JoinMessage.playerName msg))])
  /\ (NetworkValidation.IsValidPlayerName (JoinMessage.playerName msg) = true ->
      GameServer.FindPlayerByAddress from s = 0%N ->
      NetworkValidation.IsValidColor (JoinMessage.preferredColor msg) = true ->
      HandlerFacts.color_of s' (GameServer.nextPlayerId s)
      = Some (JoinMessage.preferredColor msg)).
Proof.
  intros s'. split.
  - intros Hname. subst s'.
    rewrite (HandlerFacts.HandleJoinRequest_invalid_name now msg from s Hname).
    repeat split; reflexivity.
  - intros Hname Hnew Hcolor. subst s'.
    apply HandlerFacts.HandleJoinRequest_new_player_color; auto.
    intros E. rewrite E in Hcolor. discriminate.
Qed.

Definition join_purple : JoinMessage.t := JoinMessage.mk "Ada" "purple" 1000 1.

Definition join_nameless : JoinMessage.t := JoinMessage.mk "" "blue" 1000 1.

Lemma HandleJoinRequest_rejects_names_not_colors_witness :
  GameServer.clients
    (GameServer.HandleJoinRequest 1000 join_nameless Scenario.ada
       (GameServer.make Scenario.middle)) = ∅
  /\ HandlerFacts.color_of
       (GameServer.HandleJoinRequest 1000 join_purple Scenario.ada
          (GameServer.make Scenario.middle)) 1%N = Some "purple"%string.
Proof.
  split.
  - apply (HandleJoinRequest_rejects_names_not_colors 1000 join_nameless Scenario.ada
             (GameServer.make Scenario.middle)). reflexivity.
  - apply (HandleJoinRequest_rejects_names_not_colors 1000 join_purple Scenario.ada
             (GameServer.make Scenario.middle)); reflexivity.
Defined.

(** C2 as stated fails: "purple" is not one of the four colors, yet the join
    is served without even a warning: Ada gets id 1, her stored color is
    "purple", and the GAME_STATE sent back carries it. *)
Lemma join_with_unlisted_color_is_accepted :
  let s := GameServer.HandleJoinRequest 1000 join_purple Scenario.ada
             (GameServer.make Scenario.middle) in
  existsb (String.eqb "purple") GameServer.availableColors = false
  /\ HandlerFacts.color_of s 1%N = Some "purple"%string
  /\ GameServer.diagnostics s = []
  /\ List.map (fun p => match p.2 with
                        | PLAYER_ID_ASSIGNMENT playerId => [playerId]
                        | _ => []
                        end) (GameServer.sent s) = [[1%N]; []; []]
  /\ List.map (fun p => match p.2 with
                        | GAME_STATE m =>
                            List.map PlayerData.color (GameStateMessage.players m)
                        | _ => []
                        end) (GameServer.sent s)
     = [[]; ["purple"%string]; ["purple"%string]].
Proof. vm_compute. repeat split; reflexivity. Qed.

(** ** Enemy spawning *)

Module EnemyCapFacts.
Import GameServer.
Local Open Scope Z_scope.

Definition enemy_count (s : t) : Z := Z.of_nat (size (enemies s)).

(** The test of [UpdateEnemies] before [SpawnEnemy]. *)
Definition spawn_due (deltaTime : Q) (s : t) : Prop :=
  (enemySpawnInterval s <= enemySpawnTimer s + deltaTime)%Q
  /\ enemy_count s < dynamicMaxEnemies s.

Lemma u32_succ_neq (n : N) : u32 (n + 1) <> n.
Proof.
  unfold u32, UINT32_MOD. intros H.
  assert (n < 4294967296)%N as Hn by (rewrite <- H; apply N.mod_lt; lia).
  destruct (N.eq_dec n 4294967295%N) as [->|Hne].
  - vm_compute in H. discriminate.
  - rewrite N.mod_small in H by lia. lia.
Qed.

Lemma SpawnEnemy_effect s :
  nextEnemyId (SpawnEnemy s) = u32 (nextEnemyId s + 1)
  /\ clients (SpawnEnemy s) = clients s
  /\ exists e, enemies (SpawnEnemy s) = <[nextEnemyId s := e]> (enemies s).
Proof.
  unfold SpawnEnemy, GetRandomSpawnPosition, GetRandomEnemyType,
    Rng.uniform_real, Rng.uniform_int. cbn beta iota zeta.
  split; [reflexivity|]. split; [reflexivity|]. eexists. reflexivity.
Qed.

Lemma size_insert_le {A} (m : gmap N A) k v : (size (<[k := v]> m) <= S (size m))%nat.
Proof. rewrite map_size_insert. destruct (m !! k); simpl; lia. Qed.

Lemma RemoveDeadEnemies_size s : (size (enemies (RemoveDeadEnemies s)) <= size (enemies s))%nat.
Proof.
  unfold RemoveDeadEnemies. simpl. apply map_subseteq_size, map_filter_subseteq.
Qed.

Lemma UpdateEnemies_spawn upd dt s :
  let s' := UpdateEnemies upd dt s in
  (nextEnemyId s' <> nextEnemyId s <-> spawn_due dt s)
  /\ (nextEnemyId s' <> nextEnemyId s -> nextEnemyId s' = u32 (nextEnemyId s + 1))
  /\ clients s' = clients s
  /\ enemy_count s' <= Z.max (enemy_count s) (dynamicMaxEnemies s).
Proof.
  intros s'. subst s'. unfold UpdateEnemies, spawn_due, enemy_count.
  cbn beta iota zeta.
  change (enemySpawnInterval (set_enemySpawnTimer (enemySpawnTimer s + dt) s))
    with (enemySpawnInterval s).
  change (enemySpawnTimer (set_enemySpawnTimer (enemySpawnTimer s + dt) s))
    with (enemySpawnTimer s + dt)%Q.
  change (enemies (set_enemySpawnTimer (enemySpawnTimer s + dt) s)) with (enemies s).
  change (dynamicMaxEnemies (set_enemySpawnTimer (enemySpawnTimer s + dt) s))
    with (dynamicMaxEnemies s).
  destruct (Qgeb (enemySpawnTimer s + dt) (enemySpawnInterval s)) eqn:Et;
    destruct (Z.of_nat (size (enemies s)) <? dynamicMaxEnemies s) eqn:Ec;
    cbn [andb].
  - apply Qgeb_ge in Et. apply Z.ltb_lt in Ec.
    destruct (SpawnEnemy_effect (set_enemySpawnTimer (enemySpawnTimer s + dt) s))
      as (Hid & Hcl & e & He).
    set (sp := SpawnEnemy _) in *. clearbody sp. cbn in Hid, Hcl, He.
    split; [|split; [|split]].
    + cbn. rewrite Hid. split; [intros _; split; assumption|].
      intros _. apply u32_succ_neq.
    + intros _. cbn. rewrite Hid. reflexivity.
    + cbn. rewrite Hcl. reflexivity.
    + etransitivity; [apply inj_le, RemoveDeadEnemies_size|].
      cbn. rewrite map_size_fmap. rewrite He.
      pose proof (size_insert_le (enemies s) (nextEnemyId s) e). lia.
  - apply Z.ltb_ge in Ec. split; [|split; [|split]].
    + cbn. split; [congruence|]. intros [_ H]. lia.
    + cbn. congruence.
    + reflexivity.
    + etransitivity; [apply inj_le, RemoveDeadEnemies_size|].
      cbn. rewrite map_size_fmap. lia.
  - apply Qgeb_lt in Et. split; [|split; [|split]].
    + cbn. split; [congruence|]. intros [H _]. lra.
    + cbn. congruence.
    + reflexivity.
    + etransitivity; [apply inj_le, RemoveDeadEnemies_size|].
      cbn. rewrite map_size_fmap. lia.
  - apply Qgeb_lt in Et. split; [|split; [|split]].
    + cbn. split; [congruence|]. intros [H _]. lra.
    + cbn. congruence.
    + reflexivity.
    + etransitivity; [apply inj_le, RemoveDeadEnemies_size|].
      cbn. rewrite map_size_fmap. lia.
Qed.


(** An enemy update that does what [EnemyTank::Update] does first and nothing
    else, for the examples. *)
Definition cooldown_only (_ : gmap N ClientInfo.t) (deltaTime : Q) (e : EnemyTank.t)
  : EnemyTank.t :=
  EnemyTank.UpdateCooldown deltaTime e.

(** Ada has joined. *)
Definition joined : t :=
  HandleJoinRequest 1000 Scenario.join_ada Scenario.ada (make Scenario.middle).



End EnemyCapFacts.

(** ** Death and respawn *)

Module RespawnFacts.
Import GameServer.
Local Open Scope Z_scope.










(** The candidates [GetRandomRespawnPosition] draws, in order. *)
Fixpoint drawn_candidates (attempts : nat) (s : t) : list (Q * Q) :=
  match attempts with
  | O => []
  | S attempts' =>
      (respawn_candidate s).1 :: drawn_candidates attempts' (respawn_candidate s).2
  end.






Lemma drawn_candidates_length n s : List.length (drawn_candidates n s) = n.
Proof. revert s. induction n as [|n IH]; intros s; simpl; [reflexivity|]. rewrite IH. reflexivity. Qed.







End RespawnFacts.

Module EnemyCap.
Import GameServer EnemyCapFacts.
Local Open Scope Z_scope.




End EnemyCap.

Module DeathAndRespawn.
Import GameServer RespawnFacts.
Local Open Scope Z_scope.




End DeathAndRespawn.

(** ** Reconciliation on the client *)

Module ReconciliationFacts.
Import NetworkClient.
Local Open Scope Q_scope.

Lemma filter_none {A} (f : A -> bool) (l : list A) :
  (forall a, In a l -> f a = false) -> List.filter f l = [].
Proof.
  induction l as [|a l IH]; intros H; simpl; [reflexivity|].
  rewrite (H a) by (left; reflexivity). apply IH. intros b Hb. apply H. right. exact Hb.
Qed.

(** No buffered input carries the replay flag. *)
Definition nothing_flagged (p : ClientPrediction.t) : Prop :=
  map_Forall (fun _ b => BufferedInput.needsReplay b = false) (ClientPrediction.inputBuffer p).

Lemma GetInputsToReplay_nothing_flagged (p : ClientPrediction.t) :
  nothing_flagged p -> ClientPrediction.GetInputsToReplay p = [].
Proof.
  intros H. unfold ClientPrediction.GetInputsToReplay.
  rewrite filter_none; [reflexivity|].
  intros [k b] Hin. apply list_elem_of_In, elem_of_map_to_list in Hin.
  exact (H k b Hin).
Qed.

(** The stand-ins the examples pass for the math library: exact at the
    arguments the examples reach (perfect squares, the angle 0). *)
Definition sqrt_of_square (q : Q) : Q := inject_Z (Z.sqrt (Qfloor q)).
Definition cos_of_zero (_ : Q) : Q := 1.
Definition sin_of_zero (_ : Q) : Q := 0.
Definition atan2_of_east (_ _ : Q) : Q := 0.

(** Scenario 5: the client predicted (700, 480), the server says (600, 480);
    input 42 is acknowledged, inputs 43 and 44 (forward, 16 ms each) are
    buffered and unacknowledged. *)
Definition forward_16ms : InputState.t :=
  InputState.mk 0 2000 true false false false (16 # 1000) false 0.

Definition prediction_43_44 : ClientPrediction.t :=
  (ClientPrediction.StoreInput 2016 forward_16ms
     (ClientPrediction.StoreInput 2000 forward_16ms
        (ClientPrediction.mk [] 43 ∅)).2).2.

Definition predicted_700 : Tank.t := Tank.mk (700, 480) 0 0.

Definition server_says_600 : NetworkClient.t :=
  mk true 1 prediction_43_44 true (600, 480) 0 true (0, 0) 0 false 42.

End ReconciliationFacts.

Module Reconciliation.
Import NetworkClient ReconciliationFacts.
Local Open Scope Q_scope.

(** C3 (network_client.cpp, ApplyServerReconciliation and
    ReplayInputsAfterCorrection; client_prediction.cpp, GetInputsToReplay):
    with fresh server state and a position error of at least 50, the client
    snaps to the server position and body rotation and keeps its barrel
    rotation, but replays only the buffered inputs that carry the replay
    flag.  The flag is set by the 30-to-50 tier alone, so when no buffered
    input carries it, the usual case, nothing is replayed: the tank stays
    exactly at the server state however many unacknowledged inputs after
    last_acked_seq the buffer holds. *)
Theorem hard_snap_replays_only_flagged_inputs
  (sqrtf cosf sinf : Q -> Q) (atan2f : Q -> Q -> Q)
  (localPlayer : Tank.t) (c : NetworkClient.t) :
  predictionEnabled c = true ->
  isConnected c = true ->
  localPlayerId c <> 0%N ->
  hasServerAuthoritativeState c = true ->
  SNAP_CORRECTION_THRESHOLD <= position_error sqrtf localPlayer c ->
  nothing_flagged (prediction c) ->
  ApplyServerReconciliation sqrtf cosf sinf atan2f localPlayer c
  = (Tank.mk (serverAuthoritativePosition c) (serverAuthoritativeBodyRotation c)
       (Tank.barrelRotation localPlayer),
     set_isReconciling false c).
Proof.
  intros Hp Hcon Hid Hs Herr Hflags. unfold ApplyServerReconciliation.
  rewrite Hp, Hcon, Hs. apply N.eqb_neq in Hid. rewrite Hid. cbn [negb orb].
  unfold SNAP_CORRECTION_THRESHOLD in Herr.
  assert (Qltb (position_error sqrtf localPlayer c) 5 = false) as E5
    by (apply Qltb_ge; lra).
  assert (Qltb (position_error sqrtf localPlayer c) SMOOTH_CORRECTION_THRESHOLD = false)
    as E30 by (apply Qltb_ge; unfold SMOOTH_CORRECTION_THRESHOLD; lra).
  assert (Qltb (position_error sqrtf localPlayer c) SNAP_CORRECTION_THRESHOLD = false)
    as E50 by (apply Qltb_ge; unfold SNAP_CORRECTION_THRESHOLD; lra).
  cbn zeta. rewrite E5, E30, E50.
  unfold ReplayInputsAfterCorrection.
  change (prediction (set_isReconciling false c)) with (prediction c).
  rewrite (GetInputsToReplay_nothing_flagged _ Hflags). reflexivity.
Qed.

(** Scenario 5 on the code: inputs 43 and 44 are unacknowledged, the error is
    100, and the tank ends at (600, 480), not 4.8 units further east. *)
Lemma hard_snap_replays_only_flagged_inputs_witness :
  List.map InputState.sequenceNumber
    (ClientPrediction.GetUnacknowledgedInputs (prediction server_says_600)) = [43%N; 44%N]
  /\ (ApplyServerReconciliation sqrt_of_square cos_of_zero sin_of_zero atan2_of_east
        predicted_700 server_says_600).1
     = Tank.mk (600, 480) 0 0.
Proof.
  split; [vm_compute; reflexivity|].
  rewrite (hard_snap_replays_only_flagged_inputs sqrt_of_square cos_of_zero sin_of_zero
             atan2_of_east predicted_700 server_says_600).
  - reflexivity.
  - reflexivity.
  - reflexivity.
  - discriminate.
  - reflexivity.
  - vm_compute. discriminate.
  - apply (bool_decide_unpack _). vm_compute. exact I.
Defined.

End Reconciliation.

(** ** Player movement *)

Module MovementFacts.
Import GameServer.
Local Open Scope Q_scope.

Lemma movement_rectangle :
  WorldConstants.MOVEMENT_MIN_X <= WorldConstants.MOVEMENT_MAX_X
  /\ WorldConstants.MOVEMENT_MIN_Y <= WorldConstants.MOVEMENT_MAX_Y.
Proof. split; vm_compute; discriminate. Qed.

(** Where the body points after the turn keys are applied. *)
Definition turned (deltaTime : Q) (player : PlayerData.t) : Q :=
  if PlayerData.isMoving_left player
  then PlayerData.bodyRotation player - 200 * deltaTime
  else if PlayerData.isMoving_right player
  then PlayerData.bodyRotation player + 200 * deltaTime
  else PlayerData.bodyRotation player.

(** The signed distance travelled: forward wins over backward. *)
Definition travel (deltaTime : Q) (player : PlayerData.t) (dir : Q) (from : Q) : Q :=
  if PlayerData.isMoving_forward player then from + dir * 150 * deltaTime
  else if PlayerData.isMoving_backward player then from - dir * 150 * deltaTime
  else from.

Lemma simulate_player_active cosf sinf deltaTime c :
  ClientInfo.isActive c = true ->
  let player := ClientInfo.playerData c in
  let rotation := NetworkValidation.NormalizeRotation (turned deltaTime player) in
  let radians := rotation * (314159 # 100000) / 180 in
  simulate_player cosf sinf deltaTime c
  = ClientInfo.set_playerData
      (PlayerData.set_position
         (fmaxQ WorldConstants.MOVEMENT_MIN_X
            (fminQ WorldConstants.MOVEMENT_MAX_X
               (travel deltaTime player (cosf radians) (PlayerData.x player))))
         (fmaxQ WorldConstants.MOVEMENT_MIN_Y
            (fminQ WorldConstants.MOVEMENT_MAX_Y
               (travel deltaTime player (sinf radians) (PlayerData.y player))))
         (PlayerData.set_bodyRotation rotation player)) c.
Proof.
  intros Ha player rotation radians. unfold simulate_player. rewrite Ha. cbn [negb].
  fold player. unfold travel, turned in *.
  destruct (PlayerData.isMoving_forward player); [reflexivity|].
  destruct (PlayerData.isMoving_backward player); reflexivity.
Qed.

End MovementFacts.

Module Movement.
Import GameServer MovementFacts.
Local Open Scope Q_scope.

(** C4 (game_server.cpp, SimulatePlayerMovement): for an active client and a
    tick of [deltaTime], the body rotation first changes by -200 * deltaTime
    when the left flag is set, else by +200 * deltaTime when the right flag
    is set, and is then normalised: the new rotation is in [0, 360) and
    differs from the turned one by a multiple of 360.  The position then
    advances by 150 * deltaTime along (cos, sin) of the new rotation when the
    forward flag is set, else by the opposite when the backward flag is set,
    and each coordinate is clamped into the movement rectangle.  Barrel
    rotation and health are left alone. *)
Theorem SimulatePlayerMovement_moves_active_players
  (cosf sinf : Q -> Q) (deltaTime : Q) (s : t) (playerId : N) (c : ClientInfo.t) :
  clients s !! playerId = Some c ->
  ClientInfo.isActive c = true ->
  let player := ClientInfo.playerData c in
  exists c', clients (SimulatePlayerMovement cosf sinf deltaTime s) !! playerId = Some c'
    /\ let player' := ClientInfo.playerData c' in
       let rotation := PlayerData.bodyRotation player' in
       let radians := rotation * (314159 # 100000) / 180 in
       (* the turn, then the normalisation *)
       rotation = NetworkValidation.NormalizeRotation (turned deltaTime player)
       /\ rotation == turned deltaTime player
                      - 360 * inject_Z (Qfloor (turned deltaTime player / 360))
       /\ 0 <= rotation /\ rotation < 360
       (* the step along the new heading, then the clamp *)
       /\ PlayerData.x player'
          = fmaxQ WorldConstants.MOVEMENT_MIN_X
              (fminQ WorldConstants.MOVEMENT_MAX_X
                 (travel deltaTime player (cosf radians) (PlayerData.x player)))
       /\ PlayerData.y player'
          = fmaxQ WorldConstants.MOVEMENT_MIN_Y
              (fminQ WorldConstants.MOVEMENT_MAX_Y
                 (travel deltaTime player (sinf radians) (PlayerData.y player)))
       /\ WorldConstants.MOVEMENT_MIN_X <= PlayerData.x player'
       /\ PlayerData.x player' <= WorldConstants.MOVEMENT_MAX_X
       /\ WorldConstants.MOVEMENT_MIN_Y <= PlayerData.y player'
       /\ PlayerData.y player' <= WorldConstants.MOVEMENT_MAX_Y
       (* nothing else moves *)
       /\ PlayerData.barrelRotation player' = PlayerData.barrelRotation player
       /\ PlayerData.health player' = PlayerData.health player.
Proof.
  intros Hc Ha player.
  exists (simulate_player cosf sinf deltaTime c). split.
  - unfold SimulatePlayerMovement. cbn. rewrite lookup_fmap, Hc. reflexivity.
  - rewrite (simulate_player_active cosf sinf deltaTime c Ha). cbn zeta. fold player.
    cbn [ClientInfo.playerData ClientInfo.set_playerData PlayerData.bodyRotation
         PlayerData.set_position PlayerData.set_bodyRotation PlayerData.x PlayerData.y
         PlayerData.barrelRotation PlayerData.health].
    destruct (NetworkValidationFacts.NormalizeRotation_range (turned deltaTime player))
      as [H0 H360].
    destruct movement_rectangle as [Hx Hy].
    split; [reflexivity|].
    split; [apply NetworkValidationFacts.NormalizeRotation_floor|].
    split; [exact H0|]. split; [exact H360|].
    split; [reflexivity|]. split; [reflexivity|].
    split; [apply fmaxQ_fminQ_bounds; exact Hx|].
    split; [apply fmaxQ_fminQ_bounds; exact Hx|].
    split; [apply fmaxQ_fminQ_bounds; exact Hy|].
    split; [apply fmaxQ_fminQ_bounds; exact Hy|].
    split; reflexivity.
Qed.

(** Scenario 2: after input 7 (forward) a tick of 1/60 s moves Ada, who
    faces east, from x = 640 to x = 642.5. *)
Lemma SimulatePlayerMovement_moves_active_players_witness :
  exists c',
    clients (SimulatePlayerMovement ReconciliationFacts.cos_of_zero
               ReconciliationFacts.sin_of_zero (1 # 60) after_input_7) !! 1%N = Some c'
    /\ PlayerData.x (ClientInfo.playerData c') == 1285 # 2
    /\ PlayerData.y (ClientInfo.playerData c') == 480.
Proof.
  assert (clients after_input_7 !! 1%N = Some (ada_on after_input_7)) as Hc
    by (vm_compute; reflexivity).
  destruct (SimulatePlayerMovement_moves_active_players
              ReconciliationFacts.cos_of_zero ReconciliationFacts.sin_of_zero (1 # 60)
              after_input_7 1%N (ada_on after_input_7) Hc eq_refl)
    as (c' & H1 & _ & _ & _ & _ & Hx & Hy & _).
  exists c'. split; [exact H1|]. rewrite Hx, Hy. split; vm_compute; reflexivity.
Defined.

End Movement.

(** ** Further properties *)

Module Coverage.
Local Open Scope Q_scope.

(** X1 (network_validation.h, NormalizeRotation, in exact arithmetic): the two
    loops finish within the bound [rotation_fuel] for every rotation, and the
    value they return is in [0, 360), equals r - 360 * floor (r / 360), and
    is left unchanged by a second normalisation. *)
Theorem NormalizeRotation_exact_arithmetic (r : Q) :
  NetworkValidation.NormalizeRotation_fuel (NetworkValidation.rotation_fuel r) r
  = Some (NetworkValidation.NormalizeRotation r)
  /\ 0 <= NetworkValidation.NormalizeRotation r
  /\ NetworkValidation.NormalizeRotation r < 360
  /\ NetworkValidation.NormalizeRotation r == r - 360 * inject_Z (Qfloor (r / 360))
  /\ NetworkValidation.NormalizeRotation (NetworkValidation.NormalizeRotation r)
     = NetworkValidation.NormalizeRotation r.
Proof.
  destruct (NetworkValidationFacts.NormalizeRotation_range r) as [H0 H1].
  split.
  - destruct (NetworkValidationFacts.NormalizeRotation_enough_fuel r) as (v & Hv & _).
    rewrite Hv. f_equal.
    apply (NetworkValidationFacts.NormalizeRotation_fuel_agrees _ _ _ Hv).
  - split; [exact H0|]. split; [exact H1|].
    split; [apply NetworkValidationFacts.NormalizeRotation_floor|].
    apply NetworkValidationFacts.NormalizeRotation_idempotent.
Qed.

(** X2 (entity_interpolation.cpp, AddSnapshot and CleanupOldSnapshots): after
    any sequence of calls on a new buffer the snapshots are in non-decreasing
    timestamp order and there are at most 64 of them. *)
Theorem interpolation_buffer_ordered_and_bounded
  (CalculateVelocity : EntitySnapshot.t -> EntitySnapshot.t -> Q * Q)
  (CalculateAngularVelocity : EntitySnapshot.t -> EntitySnapshot.t -> Q)
  (calls : list EntityInterpolationBufferFacts.BufferCall) :
  let b := EntityInterpolationBufferFacts.buffer_run
             CalculateVelocity CalculateAngularVelocity calls
             EntityInterpolationBuffer.make in
  StronglySorted Z.le (EntityInterpolationBuffer.timestamps b)
  /\ (List.length (EntityInterpolationBuffer.snapshots b) <= 64)%nat.
Proof.
  intros b.
  assert (forall l, EntityInterpolationBufferFacts.chronological l ->
                    StronglySorted Z.le (List.map EntitySnapshot.timestamp l)) as Hmap.
  { intros l Hl. induction Hl as [|a l Hl IH Ha]; simpl; constructor; [exact IH|].
    apply Forall_fmap. eapply Forall_impl; [exact Ha|]. intros x Hx. exact Hx. }
  destruct (EntityInterpolationBufferFacts.buffer_run_well_formed
              CalculateVelocity CalculateAngularVelocity calls
              EntityInterpolationBuffer.make) as [Hs Hn].
  { split; [constructor|simpl; lia]. }
  split; [apply Hmap; exact Hs|exact Hn].
Qed.

(** X3 (network_client.cpp, ApplyServerReconciliation, the three tiers below
    the snap): with fresh server state and a position error e below 50, the
    barrel rotation is kept; for e < 5 nothing changes; for 5 <= e < 30 the
    tank is left where it is and a smooth correction towards the server
    position and rotation starts; for 30 <= e < 50 the tank moves halfway to
    the server position, takes the server's body rotation, a smooth
    correction starts, and every buffered input numbered from the last
    acknowledged one plus one is flagged for replay. *)
Theorem reconciliation_below_the_snap
  (sqrtf cosf sinf : Q -> Q) (atan2f : Q -> Q -> Q)
  (localPlayer : Tank.t) (c : NetworkClient.t) :
  NetworkClient.predictionEnabled c = true ->
  NetworkClient.isConnected c = true ->
  NetworkClient.localPlayerId c <> 0%N ->
  NetworkClient.hasServerAuthoritativeState c = true ->
  NetworkClient.position_error sqrtf localPlayer c < 50 ->
  let e := NetworkClient.position_error sqrtf localPlayer c in
  let serverPos := NetworkClient.serverAuthoritativePosition c in
  let serverRot := NetworkClient.serverAuthoritativeBodyRotation c in
  let r := NetworkClient.ApplyServerReconciliation sqrtf cosf sinf atan2f localPlayer c in
  Tank.barrelRotation r.1 = Tank.barrelRotation localPlayer
  /\ (e < 5 -> r = (localPlayer, c))
  /\ (5 <= e -> e < 30 ->
      r = (localPlayer, NetworkClient.start_reconciling serverPos serverRot c))
  /\ (30 <= e ->
      Tank.position r.1
      = ((Tank.position localPlayer).1
         + (serverPos.1 - (Tank.position localPlayer).1) * (1 # 2),
         (Tank.position localPlayer).2
         + (serverPos.2 - (Tank.position localPlayer).2) * (1 # 2))
      /\ Tank.bodyRotation r.1 = serverRot
      /\ NetworkClient.isReconciling r.2 = true
      /\ NetworkClient.reconciliationTargetPosition r.2 = serverPos
      /\ NetworkClient.reconciliationTargetRotation r.2 = serverRot
      /\ forall k b,
           ClientPrediction.inputBuffer (NetworkClient.prediction c) !! k = Some b ->
           (u32 (NetworkClient.lastAcknowledgedInputSeq c + 1)
            <= InputState.sequenceNumber (BufferedInput.input b))%N ->
           exists b',
             ClientPrediction.inputBuffer (NetworkClient.prediction r.2) !! k = Some b'
             /\ BufferedInput.needsReplay b' = true
             /\ BufferedInput.input b' = BufferedInput.input b).
Proof.
  intros Hp Hc Hid Hs He e serverPos serverRot r.
  assert (r = if Qltb e 5 then (localPlayer, c)
              else if Qltb e 30
              then (localPlayer, NetworkClient.start_reconciling serverPos serverRot c)
              else
                let pos := Tank.position localPlayer in
                let halfway := (pos.1 + (serverPos.1 - pos.1) * (1 # 2),
                                pos.2 + (serverPos.2 - pos.2) * (1 # 2)) in
                let c1 := NetworkClient.start_reconciling serverPos serverRot c in
                (Tank.mk halfway serverRot (Tank.barrelRotation localPlayer),
                 NetworkClient.set_prediction
                   (ClientPrediction.MarkInputsForReplay
                      (u32 (NetworkClient.lastAcknowledgedInputSeq c + 1))
                      (NetworkClient.prediction c1)) c1)) as Hr.
  { subst r. unfold NetworkClient.ApplyServerReconciliation.
    rewrite Hp, Hc, Hs. apply N.eqb_neq in Hid. rewrite Hid. simpl negb. simpl orb.
    cbv iota. fold e serverPos serverRot.
    destruct (Qltb e 5); [reflexivity|].
    unfold NetworkClient.SMOOTH_CORRECTION_THRESHOLD.
    destruct (Qltb e 30); [reflexivity|].
    assert (Qltb e NetworkClient.SNAP_CORRECTION_THRESHOLD = true) as ->
      by (apply Qltb_lt; exact He).
    reflexivity. }
  clearbody r. subst r.
  split; [destruct (Qltb e 5); [reflexivity|]; destruct (Qltb e 30); reflexivity|].
  split; [intros H; apply Qltb_lt in H; rewrite H; reflexivity|].
  split.
  - intros H5 H30. apply Qltb_ge in H5. rewrite H5.
    apply Qltb_lt in H30. rewrite H30. reflexivity.
  - intros H30.
    assert (Qltb e 5 = false) as -> by (apply Qltb_ge; lra).
    assert (Qltb e 30 = false) as -> by (apply Qltb_ge; exact H30).
    cbn zeta. repeat (split; [reflexivity|]).
    intros k b Hk Hseq. cbn.
    rewrite lookup_fmap, Hk. cbn.
    apply N.leb_le in Hseq. rewrite Hseq.
    eexists. split; [reflexivity|]. split; reflexivity.
Qed.

(** The client predicted (640, 480), the server says (600, 480): the error is
    40, the tank moves to (620, 480) and inputs 43 and 44 are flagged. *)
Lemma reconciliation_below_the_snap_witness :
  let c := NetworkClient.mk true 1 ReconciliationFacts.prediction_43_44 true
             (600, 480) 0 true (0, 0) 0 false 42 in
  let r := NetworkClient.ApplyServerReconciliation ReconciliationFacts.sqrt_of_square
             ReconciliationFacts.cos_of_zero ReconciliationFacts.sin_of_zero
             ReconciliationFacts.atan2_of_east (Tank.mk (640, 480) 0 0) c in
  Qeq_bool (Tank.position r.1).1 620 = true
  /\ List.map InputState.sequenceNumber
       (ClientPrediction.GetInputsToReplay (NetworkClient.prediction r.2))
     = [43%N; 44%N].
Proof.
  intros c r.
  destruct (reconciliation_below_the_snap ReconciliationFacts.sqrt_of_square
              ReconciliationFacts.cos_of_zero ReconciliationFacts.sin_of_zero
              ReconciliationFacts.atan2_of_east (Tank.mk (640, 480) 0 0) c
              eq_refl eq_refl)
    as (_ & _ & _ & H).
  - discriminate.
  - reflexivity.
  - vm_compute. reflexivity.
  - destruct H as (Hpos & _); [vm_compute; discriminate|].
    fold r in Hpos. rewrite Hpos. split; vm_compute; reflexivity.
Defined.

End Coverage.

(** ** Validators: clamping *)

Module ClampFacts.
Import NetworkValidation.
Local Open Scope Q_scope.

Lemma ClampPosition_range (value lo hi : Q) :
  lo <= hi -> lo <= ClampPosition value lo hi <= hi.
Proof. intros H. unfold ClampPosition. apply fmaxQ_fminQ_bounds. exact H. Qed.

Lemma ClampPosition_fixed (value lo hi : Q) :
  lo <= value -> value <= hi -> ClampPosition value lo hi == value.
Proof.
  intros Hl Hh. unfold ClampPosition, fmaxQ, fminQ.
  destruct (Qltb value hi) eqn:E.
  - destruct (Qltb lo value) eqn:E2; [reflexivity|].
    apply Qltb_ge in E2. lra.
  - apply Qltb_ge in E. destruct (Qltb lo hi) eqn:E2.
    + lra.
    + apply Qltb_ge in E2. lra.
Qed.

Lemma IsValidPosition_true (x y : Q) :
  IsValidPosition x y = true <-> (MIN_X <= x <= MAX_X /\ MIN_Y <= y <= MAX_Y).
Proof.
  unfold IsValidPosition. rewrite !andb_true_iff, !Qle_bool_iff. tauto.
Qed.

Lemma X_bounds : MIN_X <= MAX_X.
Proof. vm_compute. discriminate. Qed.

Lemma Y_bounds : MIN_Y <= MAX_Y.
Proof. vm_compute. discriminate. Qed.

End ClampFacts.

(** X4 (network_validation.h, ClampPosition, ClampPositionX, ClampPositionY and
    IsValidPosition): whatever the coordinates, the clamped position passes
    the position check; a position that already passes it is left where it is
    (up to equality of rationals), so clamping twice is clamping once. *)
Theorem ClampPosition_makes_positions_valid (x y : Q) :
  NetworkValidation.IsValidPosition
    (NetworkValidation.ClampPositionX x) (NetworkValidation.ClampPositionY y) = true
  /\ (NetworkValidation.IsValidPosition x y = true ->
      (NetworkValidation.ClampPositionX x == x /\ NetworkValidation.ClampPositionY y == y)%Q)
  /\ (NetworkValidation.ClampPositionX (NetworkValidation.ClampPositionX x)
      == NetworkValidation.ClampPositionX x)%Q
  /\ (NetworkValidation.ClampPositionY (NetworkValidation.ClampPositionY y)
      == NetworkValidation.ClampPositionY y)%Q.
Proof.
  pose proof (ClampFacts.ClampPosition_range x _ _ ClampFacts.X_bounds) as Hx.
  pose proof (ClampFacts.ClampPosition_range y _ _ ClampFacts.Y_bounds) as Hy.
  split; [apply ClampFacts.IsValidPosition_true; split; assumption|].
  split.
  - intros H. apply ClampFacts.IsValidPosition_true in H. destruct H as [[? ?] [? ?]].
    split; apply ClampFacts.ClampPosition_fixed; assumption.
  - split; apply ClampFacts.ClampPosition_fixed; tauto.
Qed.

(** ** The server's record of received sequence numbers *)

Module SequenceFacts.
Import GameServer.
Local Open Scope N_scope.

(** The client after the server recorded the numbers of [seqs], in order. *)
Definition record_all (seqs : list N) (c : ClientInfo.t) : ClientInfo.t :=
  fold_left (fun c n => RecordReceivedSequence n c) seqs c.

(** A number is remembered: it is still in the history, or it has fallen
    more than 200 behind the newest number. *)
Definition remembered (n : N) (c : ClientInfo.t) : Prop :=
  is_Some (ClientInfo.receivedSequenceNumbers c !! n)
  \/ n + 200 < ClientInfo.lastReceivedSequenceNumber c.

Lemma u32_le (n : N) : u32 n <= n.
Proof. unfold u32, UINT32_MOD. apply N.Div0.mod_le. Qed.

Lemma remembered_rejected n c : remembered n c -> ValidateSequenceNumber c n = false.
Proof.
  intros [[v Hv]|H]; unfold ValidateSequenceNumber.
  - rewrite Hv. reflexivity.
  - destruct (_ !! n); [reflexivity|].
    pose proof (u32_le (n + 50)).
    assert ((u32 (n + 50) <? ClientInfo.lastReceivedSequenceNumber c) = true) as ->
      by (apply N.ltb_lt; lia).
    reflexivity.
Qed.

Lemma RecordReceivedSequence_last m c :
  ClientInfo.lastReceivedSequenceNumber (RecordReceivedSequence m c)
  = N.max (ClientInfo.lastReceivedSequenceNumber c) m.
Proof.
  unfold RecordReceivedSequence. cbn.
  destruct (_ <? m) eqn:E; [apply N.ltb_lt in E|apply N.ltb_ge in E]; lia.
Qed.

Lemma RecordReceivedSequence_lookup m c k :
  ClientInfo.receivedSequenceNumbers (RecordReceivedSequence m c) !! k
  = let seen := <[m := true]> (ClientInfo.receivedSequenceNumbers c) in
    let last := N.max (ClientInfo.lastReceivedSequenceNumber c) m in
    if (200 <? N.of_nat (size seen)) && (200 <? last) && (k <? last - 200)
    then None else seen !! k.
Proof.
  pose proof (RecordReceivedSequence_last m c) as Hlast.
  unfold RecordReceivedSequence in *. cbn in *. rewrite Hlast. clear Hlast.
  set (seen := <[m := true]> _). set (last := N.max _ _).
  destruct (200 <? N.of_nat (size seen)); [|reflexivity].
  cbn [andb].
  destruct (200 <? last) eqn:El.
  - cbn [andb]. destruct (k <? last - 200) eqn:Ek.
    + apply N.ltb_lt in Ek. apply map_lookup_filter_None. right.
      intros v _ Hle. cbn in Hle. lia.
    + apply N.ltb_ge in Ek. destruct (seen !! k) eqn:Es.
      * apply map_lookup_filter_Some. split; [exact Es|]. cbn. lia.
      * apply map_lookup_filter_None. left. exact Es.
  - cbn [andb]. destruct (seen !! k) eqn:Es.
    + apply map_lookup_filter_Some. split; [exact Es|]. cbn. lia.
    + apply map_lookup_filter_None. left. exact Es.
Qed.

Lemma remembered_just_recorded n c : remembered n (RecordReceivedSequence n c).
Proof.
  unfold remembered. rewrite RecordReceivedSequence_lookup, RecordReceivedSequence_last.
  cbn zeta. destruct (_ && _ && _) eqn:E.
  - right. rewrite !andb_true_iff, !N.ltb_lt in E. lia.
  - left. rewrite lookup_insert_eq. eauto.
Qed.

Lemma remembered_kept n m c : remembered n c -> remembered n (RecordReceivedSequence m c).
Proof.
  unfold remembered. rewrite RecordReceivedSequence_lookup, RecordReceivedSequence_last.
  cbn zeta. intros [Hin|Hold]; [|right; lia].
  destruct (_ && _ && _) eqn:E.
  - right. rewrite !andb_true_iff, !N.ltb_lt in E. lia.
  - left. destruct (N.eq_dec m n) as [->|Hne].
    + rewrite lookup_insert_eq. eauto.
    + rewrite lookup_insert_ne by exact Hne. exact Hin.
Qed.

Lemma record_all_remembered seqs c n :
  (In n seqs \/ remembered n c) -> remembered n (record_all seqs c).
Proof.
  revert c. induction seqs as [|m seqs IH]; intros c [Hin|Hr]; simpl.
  - destruct Hin.
  - exact Hr.
  - apply IH. destruct Hin as [->|Hin]; [right; apply remembered_just_recorded|left; exact Hin].
  - apply IH. right. apply remembered_kept. exact Hr.
Qed.

(** Every number of the history is at most the newest one. *)
Definition below_newest (c : ClientInfo.t) : Prop :=
  forall k v, ClientInfo.receivedSequenceNumbers c !! k = Some v ->
              k <= ClientInfo.lastReceivedSequenceNumber c.

Lemma below_newest_kept m c : below_newest c -> below_newest (RecordReceivedSequence m c).
Proof.
  intros H k v. rewrite RecordReceivedSequence_lookup, RecordReceivedSequence_last.
  cbn zeta. destruct (_ && _ && _); [discriminate|].
  destruct (N.eq_dec m k) as [->|Hne].
  - intros _. lia.
  - rewrite lookup_insert_ne by exact Hne. intros Hk. specialize (H k v Hk). lia.
Qed.

(** A map whose keys lie in an interval of [len] numbers has at most [len]
    entries. *)
Lemma size_keys_in_interval {A} (m : gmap N A) (lo : N) (len : nat) :
  (forall k v, m !! k = Some v -> lo <= k < lo + N.of_nat len) ->
  (size m <= len)%nat.
Proof.
  intros H.
  rewrite <- size_dom.
  set (Y := list_to_set (List.map (fun i => lo + N.of_nat i) (seq 0 len)) : gset N).
  assert (dom m ⊆ Y) as Hsub.
  { intros k Hk. apply elem_of_dom in Hk. destruct Hk as [v Hv].
    specialize (H k v Hv). subst Y. apply elem_of_list_to_set.
    apply list_elem_of_In, in_map_iff. exists (N.to_nat (k - lo)). split; [lia|].
    apply in_seq. lia. }
  apply subseteq_size in Hsub. etransitivity; [exact Hsub|].
  subst Y. rewrite size_list_to_set.
  - rewrite length_map, length_seq. reflexivity.
  - apply NoDup_fmap_2; [intros a b Hab; lia|]. apply NoDup_ListNoDup, seq_NoDup.
Qed.

(** The history stays small: at most 201 numbers. *)
Definition bounded_history (c : ClientInfo.t) : Prop :=
  below_newest c /\ (size (ClientInfo.receivedSequenceNumbers c) <= 201)%nat.

Lemma bounded_history_kept m c :
  bounded_history c -> bounded_history (RecordReceivedSequence m c).
Proof.
  intros [Hb Hs]. split; [apply below_newest_kept; exact Hb|].
  pose proof (below_newest_kept m c Hb) as Hb'.
  pose proof (RecordReceivedSequence_last m c) as Hlast.
  set (c' := RecordReceivedSequence m c) in *.
  set (last := ClientInfo.lastReceivedSequenceNumber c') in *.
  set (seen := <[m := true]> (ClientInfo.receivedSequenceNumbers c)).
  destruct (200 <? N.of_nat (size seen)) eqn:Ebig.
  - (* the history was pruned, or the newest number is at most 200 *)
    apply (size_keys_in_interval _ (last - 200) 201).
    intros k v Hk. pose proof (Hb' k v Hk) as Hle. fold last in Hle.
    subst c'. rewrite RecordReceivedSequence_lookup in Hk. cbn zeta in Hk.
    fold seen in Hk. rewrite Ebig in Hk. rewrite <- Hlast in Hk. fold last in Hk.
    cbn [andb] in Hk.
    destruct (200 <? last) eqn:El; cbn [andb] in Hk.
    + destruct (k <? last - 200) eqn:Ek; [discriminate|].
      apply N.ltb_ge in Ek. lia.
    + apply N.ltb_ge in El. lia.
  - apply N.ltb_ge in Ebig.
    assert (ClientInfo.receivedSequenceNumbers c' = seen) as ->.
    { subst c'. unfold RecordReceivedSequence. cbn. fold seen.
      apply N.ltb_ge in Ebig. rewrite Ebig. reflexivity. }
    lia.
Qed.

Lemma record_all_bounded seqs c : bounded_history c -> bounded_history (record_all seqs c).
Proof.
  revert c. induction seqs as [|m seqs IH]; intros c H; simpl; [exact H|].
  apply IH, bounded_history_kept, H.
Qed.

Lemma record_all_last seqs c :
  ClientInfo.lastReceivedSequenceNumber (record_all seqs c)
  = fold_left N.max seqs (ClientInfo.lastReceivedSequenceNumber c).
Proof.
  revert c. induction seqs as [|m seqs IH]; intros c; simpl; [reflexivity|].
  rewrite IH, RecordReceivedSequence_last. reflexivity.
Qed.

End SequenceFacts.

(** X5 (game_server.cpp, RecordReceivedSequence and ValidateSequenceNumber): for a
    client that joined (from any address) and whose packets carried the
    numbers [seqs], in any order and with any repetitions, the server keeps
    at most 201 numbers, its newest number is the largest one received (0
    when none), and ValidateSequenceNumber turns down every number of
    [seqs]: a number that was recorded once is reported as a duplicate or as
    out of order ever after, also once it has been pruned from the
    history. *)
Theorem recorded_sequence_numbers_are_never_valid_again
  (addr : Endpoint) (seqs : list N) :
  let c := SequenceFacts.record_all seqs (ClientInfo.make addr) in
  (forall n, In n seqs -> GameServer.ValidateSequenceNumber c n = false)
  /\ (size (ClientInfo.receivedSequenceNumbers c) <= 201)%nat
  /\ ClientInfo.lastReceivedSequenceNumber c = fold_left N.max seqs 0%N.
Proof.
  intros c. split; [|split].
  - intros n Hn. apply SequenceFacts.remembered_rejected.
    apply SequenceFacts.record_all_remembered. left. exact Hn.
  - apply SequenceFacts.record_all_bounded. split.
    + intros k v Hk. cbn in Hk. rewrite lookup_empty in Hk. discriminate.
    + cbn. rewrite map_size_empty. lia.
  - apply SequenceFacts.record_all_last.
Qed.

(** ** What a run of the server does to each client *)

Module ServerRunFacts.
Import GameServer.
Local Open Scope Q_scope.

(** The client-level effect of each handler. *)

(** [HandleJoinRequest] from an address that is already connected. *)
Definition rejoined (name : string) (c : ClientInfo.t) : ClientInfo.t :=
  ClientInfo.set_playerData
    (PlayerData.set_playerName name (ClientInfo.playerData c))
    (ClientInfo.set_lastUpdateTime 0 (ClientInfo.set_isActive true c)).

(** [HandleJoinRequest] from a new address. *)
Definition new_client (newId : N) (name color : string) (sequenceNumber : N)
  (from : Endpoint) : ClientInfo.t :=
  RecordReceivedSequence sequenceNumber
    (ClientInfo.set_playerData
       (PlayerData.set_maxHealth 100
          (PlayerData.set_health 100
             (PlayerData.set_position WorldConstants.CENTER_X WorldConstants.CENTER_Y
                (PlayerData.set_color color
                   (PlayerData.set_playerName name
                      (PlayerData.set_playerId newId PlayerData.default))))))
       (ClientInfo.make from)).

(** [enemy_bullet_hits_player] *)
Definition hit (damage : Q) (c : ClientInfo.t) : ClientInfo.t :=
  let pd := ClientInfo.playerData c in
  let lowered := PlayerData.health pd - damage in
  ClientInfo.set_playerData
    (PlayerData.set_health (if Qltb lowered 0 then 0 else lowered) pd) c.

(** [HandlePlayerDeath] *)
Definition died (c : ClientInfo.t) : ClientInfo.t :=
  let lowered := i32 (ClientInfo.score c - ClientInfo.DEATH_PENALTY) in
  let newScore := if (lowered <? 0)%Z then 0%Z else lowered in
  ClientInfo.set_playerData
    (PlayerData.set_health 0
       (PlayerData.set_score newScore
          (PlayerData.set_isDead true (ClientInfo.playerData c))))
    (ClientInfo.set_score newScore
       (ClientInfo.set_deathTimer ClientInfo.RESPAWN_COOLDOWN
          (ClientInfo.set_isDead true c))).

(** [UpdateDeadPlayers]: the countdown. *)
Definition timer_ticked (deltaTime : Q) (c : ClientInfo.t) : ClientInfo.t :=
  ClientInfo.set_deathTimer (ClientInfo.deathTimer c - deltaTime) c.

(** [RespawnPlayer] *)
Definition respawned (spawnPos : Q * Q) (c : ClientInfo.t) : ClientInfo.t :=
  let pd0 := ClientInfo.playerData c in
  ClientInfo.set_playerData
    (PlayerData.set_moving false false false false
       (PlayerData.set_barrelRotation 0
          (PlayerData.set_bodyRotation 0
             (PlayerData.set_position spawnPos.1 spawnPos.2
                (PlayerData.set_health (PlayerData.maxHealth pd0)
                   (PlayerData.set_isDead false pd0))))))
    (ClientInfo.set_deathTimer 0 (ClientInfo.set_isDead false c)).

(** Where [GetRandomRespawnPosition] can put a player: 50 units inside the
    movement rectangle (the world center is such a place). *)
Definition respawn_area (p : Q * Q) : Prop :=
  WorldConstants.PLAYABLE_MIN_X + WorldConstants.TANK_RADIUS + 50 <= p.1
  /\ p.1 <= WorldConstants.PLAYABLE_MAX_X - WorldConstants.TANK_RADIUS - 50
  /\ WorldConstants.PLAYABLE_MIN_Y + WorldConstants.TANK_RADIUS + 50 <= p.2
  /\ p.2 <= WorldConstants.PLAYABLE_MAX_Y - WorldConstants.TANK_RADIUS - 50.

Section Steps.
Variables cosf sinf : Q -> Q.
(** The damages the hits of the run may carry. *)
Variable allowed_damage : Q -> Prop.

Inductive client_step : ClientInfo.t -> ClientInfo.t -> Prop :=
| step_refl c : client_step c c
| step_trans a b c : client_step a b -> client_step b c -> client_step a c
| step_sync c : client_step c (sync_playerData c)
| step_rejoin name c :
    NetworkValidation.IsValidPlayerName name = true -> client_step c (rejoined name c)
| step_input msg c : client_step c (HandlerFacts.input_applied msg c)
| step_update msg c :
    NetworkValidation.IsValidPosition (PlayerUpdateMessage.x msg) (PlayerUpdateMessage.y msg)
    = true ->
    client_step c (HandlerFacts.update_applied msg c)
| step_simulate deltaTime c : client_step c (simulate_player cosf sinf deltaTime c)
| step_hit damage c : allowed_damage damage -> client_step c (hit damage c)
| step_death c : client_step c (died c)
| step_timer deltaTime c : client_step c (timer_ticked deltaTime c)
| step_respawn spawnPos c : respawn_area spawnPos -> client_step c (respawned spawnPos c)
| step_age deltaTime c : client_step c (age_client deltaTime c).

(** Every client of [m'] is a client of [m], under the same id, some steps
    later. *)
Definition evolves (m m' : gmap N ClientInfo.t) : Prop :=
  forall k c', m' !! k = Some c' -> exists c, m !! k = Some c /\ client_step c c'.

Lemma evolves_refl m : evolves m m.
Proof. intros k c H. exists c. split; [exact H|constructor]. Qed.

Lemma evolves_trans m1 m2 m3 : evolves m1 m2 -> evolves m2 m3 -> evolves m1 m3.
Proof.
  intros H12 H23 k c3 H3. destruct (H23 k c3 H3) as (c2 & H2 & S23).
  destruct (H12 k c2 H2) as (c1 & H1 & S12). exists c1. split; [exact H1|].
  eapply step_trans; eassumption.
Qed.

Lemma evolves_eq m m' : m' = m -> evolves m m'.
Proof. intros ->. apply evolves_refl. Qed.

Lemma evolves_insert m k c c' :
  m !! k = Some c -> client_step c c' -> evolves m (<[k := c']> m).
Proof.
  intros Hk Hs j d Hj. destruct (N.eq_dec k j) as [->|Hne].
  - rewrite lookup_insert_eq in Hj. inversion Hj; subst. eauto.
  - rewrite lookup_insert_ne in Hj by exact Hne. exists d. split; [exact Hj|constructor].
Qed.

Lemma evolves_fmap m (f : ClientInfo.t -> ClientInfo.t) :
  (forall c, client_step c (f c)) -> evolves m (f <$> m).
Proof.
  intros Hf k c' Hk. rewrite lookup_fmap in Hk.
  destruct (m !! k) as [c|] eqn:E; [|discriminate]. inversion Hk; subst. eauto.
Qed.

Lemma evolves_delete m k : evolves m (delete k m).
Proof.
  intros j d Hj. apply lookup_delete_Some in Hj. destruct Hj as [_ Hj].
  exists d. split; [exact Hj|constructor].
Qed.

Lemma evolves_either m m' (f : ClientInfo.t -> ClientInfo.t) :
  (forall c, client_step c (f c)) ->
  (forall k, m' !! k = (f <$> m) !! k \/ m' !! k = m !! k) ->
  evolves m m'.
Proof.
  intros Hf H k c' Hk. destruct (H k) as [E|E]; rewrite E in Hk.
  - apply (evolves_fmap m f Hf k c' Hk).
  - exists c'. split; [exact Hk|constructor].
Qed.

Lemma SendGameStateToAll_evolves now s :
  evolves (clients s) (clients (SendGameStateToAll now s)).
Proof.
  apply (evolves_either _ _ sync_playerData); [intros; constructor|].
  apply HandlerFacts.SendGameStateToAll_lookup.
Qed.

Lemma SendGameStateToClient_evolves now playerId s :
  evolves (clients s) (clients (SendGameStateToClient now playerId s)).
Proof.
  apply (evolves_either _ _ sync_playerData); [intros; constructor|].
  apply HandlerFacts.SendGameStateToClient_lookup.
Qed.


(** *** What stays: the next player id *)

Lemma fold_send_nextPlayerId p (l : list (N * ClientInfo.t)) s :
  nextPlayerId (fold_left (fun acc kc => send (ClientInfo.address kc.2) p acc) l s)
  = nextPlayerId s.
Proof. revert s. induction l as [|a l IH]; intros s; simpl; [reflexivity|]. rewrite IH. reflexivity. Qed.

Lemma SendGameStateToAll_nextPlayerId now s :
  nextPlayerId (SendGameStateToAll now s) = nextPlayerId s.
Proof.
  unfold SendGameStateToAll. destruct (client_list s); [reflexivity|].
  unfold build_game_state. cbn zeta. rewrite fold_send_nextPlayerId. reflexivity.
Qed.

Lemma SendGameStateToClient_nextPlayerId now playerId s :
  nextPlayerId (SendGameStateToClient now playerId s) = nextPlayerId s.
Proof.
  unfold SendGameStateToClient. destruct (clients s !! playerId) as [c|]; [|reflexivity].
  destruct (ClientInfo.isActive c); reflexivity.
Qed.

Lemma FindPlayerByAddress_found addr s k :
  FindPlayerByAddress addr s = k -> k <> 0%N ->
  exists c, clients s !! k = Some c /\ Endpoint_eqb (ClientInfo.address c) addr = true.
Proof.
  unfold FindPlayerByAddress. intros H Hk.
  destruct (List.filter _ _) as [|[j c] rest] eqn:E; [congruence|]. subst j.
  assert (In (k, c) (List.filter
                       (fun kc : N * ClientInfo.t => Endpoint_eqb (ClientInfo.address kc.2) addr)
                       (client_list s))) as Hin by (rewrite E; left; reflexivity).
  apply filter_In in Hin. destruct Hin as [Hin Ha].
  exists c. split; [|exact Ha].
  apply list_elem_of_In in Hin. apply elem_of_map_to_list in Hin. exact Hin.
Qed.

Lemma FindPlayerByAddress_none addr s :
  FindPlayerByAddress addr s = 0%N ->
  forall k c, clients s !! k = Some c -> k <> 0%N ->
              (forall j d, clients s !! j = Some d -> j <> 0%N) ->
              Endpoint_eqb (ClientInfo.address c) addr = false.
Proof.
  unfold FindPlayerByAddress. intros H k c Hk _ Hall.
  destruct (List.filter _ _) as [|[j d] rest] eqn:E.
  - destruct (Endpoint_eqb (ClientInfo.address c) addr) eqn:Ea; [|reflexivity].
    assert (In (k, c) (List.filter
                         (fun kc : N * ClientInfo.t => Endpoint_eqb (ClientInfo.address kc.2) addr)
                         (client_list s))) as Hin.
    { apply filter_In. split; [|exact Ea].
      apply list_elem_of_In, elem_of_map_to_list. exact Hk. }
    rewrite E in Hin. destruct Hin.
  - subst j. exfalso.
    assert (In (0%N, d) (List.filter
                         (fun kc : N * ClientInfo.t => Endpoint_eqb (ClientInfo.address kc.2) addr)
                         (client_list s))) as Hin by (rewrite E; left; reflexivity).
    apply filter_In in Hin. destruct Hin as [Hin _].
    apply list_elem_of_In, elem_of_map_to_list in Hin.
    exact (Hall _ _ Hin eq_refl).
Qed.

(** *** The handlers, one by one *)

Lemma HandleJoinRequest_evolves now msg from s :
  let s' := HandleJoinRequest now msg from s in
  (evolves (clients s) (clients s') /\ nextPlayerId s' = nextPlayerId s)
  \/ (NetworkValidation.IsValidPlayerName (JoinMessage.playerName msg) = true
      /\ FindPlayerByAddress from s = 0%N
      /\ nextPlayerId s' = u32 (nextPlayerId s + 1)
      /\ exists color,
           evolves (<[nextPlayerId s :=
                        new_client (nextPlayerId s) (JoinMessage.playerName msg) color
                          (JoinMessage.sequenceNumber msg) from]> (clients s))
                   (clients s')).
Proof.
  intros s'. subst s'. unfold HandleJoinRequest.
  destruct (NetworkValidation.IsValidPlayerName (JoinMessage.playerName msg)) eqn:Ename;
    cbn [negb]; [|left; split; [apply evolves_refl|reflexivity]].
  set (s1 := if _ && _ then _ else s).
  set (s2 := if negb (NetworkValidation.IsValidTimestamp _ _) then _ else s1).
  assert (clients s2 = clients s /\ nextPlayerId s2 = nextPlayerId s
          /\ FindPlayerByAddress from s2 = FindPlayerByAddress from s) as (Hc2 & Hn2 & Hf2).
  { subst s2 s1. destruct (_ && _); destruct (negb _); repeat split; reflexivity. }
  rewrite Hf2.
  destruct (FindPlayerByAddress from s =? 0)%N eqn:Efind; cbn [negb].
  - (* a new player *)
    apply N.eqb_eq in Efind. right. split; [reflexivity|]. split; [exact Efind|].
    set (s3 := set_nextPlayerId _ s2).
    destruct (if negb (String.length (JoinMessage.preferredColor msg) =? 0)%nat
              then (JoinMessage.preferredColor msg, s3) else AssignColor s3)
      as [color s4] eqn:Ecolor.
    assert (clients s4 = clients s /\ nextPlayerId s4 = u32 (nextPlayerId s + 1)) as [Hc4 Hn4].
    { destruct (negb _).
      - inversion Ecolor; subst. cbn. rewrite Hc2, Hn2. split; reflexivity.
      - unfold AssignColor in Ecolor. destruct (List.filter _ availableColors).
        + unfold Rng.uniform_int in Ecolor. inversion Ecolor; subst. cbn.
          rewrite Hc2, Hn2. split; reflexivity.
        + inversion Ecolor; subst. cbn. rewrite Hc2, Hn2. split; reflexivity. }
    rewrite SendGameStateToAll_nextPlayerId, SendGameStateToClient_nextPlayerId.
    cbn [SendPlayerIdAssignment send set_clients nextPlayerId].
    split; [exact Hn4|]. exists color.
    eapply evolves_trans; [|apply SendGameStateToAll_evolves].
    eapply evolves_trans; [|apply SendGameStateToClient_evolves].
    cbn [SendPlayerIdAssignment send set_clients clients].
    rewrite Hc4, Hn2. apply evolves_refl.
  - (* the address is connected already *)
    apply N.eqb_neq in Efind. left.
    destruct (FindPlayerByAddress_found from s _ eq_refl Efind) as (c & Hc & _).
    rewrite SendGameStateToClient_nextPlayerId.
    cbn [SendPlayerIdAssignment send set_clients nextPlayerId printMsg].
    split; [|exact Hn2].
    eapply evolves_trans; [|apply SendGameStateToClient_evolves].
    cbn [SendPlayerIdAssignment send set_clients clients printMsg].
    rewrite Hc2, Hc. apply (evolves_insert _ _ c); [exact Hc|].
    apply step_rejoin. exact Ename.
Qed.


Lemma if_printMsg_clients (b : bool) d s :
  clients (if b then printMsg d s else s) = clients s.
Proof. destruct b; reflexivity. Qed.

Lemma if_printMsg_nextPlayerId (b : bool) d s :
  nextPlayerId (if b then printMsg d s else s) = nextPlayerId s.
Proof. destruct b; reflexivity. Qed.

Lemma HandlePlayerInput_evolves now msg from s :
  evolves (clients s) (clients (HandlePlayerInput now msg from s))
  /\ nextPlayerId (HandlePlayerInput now msg from s) = nextPlayerId s.
Proof.
  unfold HandlePlayerInput.
  destruct (NetworkValidation.IsValidPlayerId _); cbn [negb];
    [|split; [apply evolves_refl|reflexivity]].
  cbn zeta. rewrite !if_printMsg_clients.
  destruct (clients s !! _) as [c|] eqn:Hc.
  - destruct (Endpoint_eqb _ _).
    + cbn [SendInputAcknowledgment send set_clients clients nextPlayerId].
      rewrite !if_printMsg_clients, !if_printMsg_nextPlayerId. split; [|reflexivity].
      apply (evolves_insert _ _ c); [exact Hc|]. apply (step_input msg c).
    + cbn [printMsg clients nextPlayerId].
      rewrite !if_printMsg_clients, !if_printMsg_nextPlayerId.
      split; [apply evolves_refl|reflexivity].
  - rewrite !if_printMsg_clients, !if_printMsg_nextPlayerId.
    split; [apply evolves_refl|reflexivity].
Qed.

Lemma HandlePlayerUpdate_evolves now msg from s :
  evolves (clients s) (clients (HandlePlayerUpdate now msg from s))
  /\ nextPlayerId (HandlePlayerUpdate now msg from s) = nextPlayerId s.
Proof.
  unfold HandlePlayerUpdate.
  destruct (NetworkValidation.IsValidPlayerId _); cbn [negb];
    [|split; [apply evolves_refl|reflexivity]].
  destruct (NetworkValidation.IsValidPosition _ _) eqn:Epos; cbn [negb];
    [|split; [apply evolves_refl|reflexivity]].
  destruct (_ || _); [split; [apply evolves_refl|reflexivity]|].
  destruct (clients s !! _) as [c|] eqn:Hc; [|split; [apply evolves_refl|reflexivity]].
  destruct (Endpoint_eqb _ _); [|split; [apply evolves_refl|reflexivity]].
  cbn [set_clients clients nextPlayerId].
  rewrite !if_printMsg_clients, !if_printMsg_nextPlayerId. split; [|reflexivity].
  apply (evolves_insert _ _ c); [exact Hc|]. apply (step_update msg c). exact Epos.
Qed.

Lemma SimulatePlayerMovement_evolves deltaTime s :
  evolves (clients s) (clients (SimulatePlayerMovement cosf sinf deltaTime s)).
Proof. cbn. apply evolves_fmap. intros c. apply step_simulate. Qed.

Lemma enemy_bullet_hits_player_evolves playerId damage s :
  allowed_damage damage ->
  evolves (clients s) (clients (enemy_bullet_hits_player playerId damage s))
  /\ nextPlayerId (enemy_bullet_hits_player playerId damage s) = nextPlayerId s.
Proof.
  intros Hd. unfold enemy_bullet_hits_player.
  destruct (clients s !! playerId) as [c|] eqn:Hc; [|split; [apply evolves_refl|reflexivity]].
  destruct (ClientInfo.isActive c); [|split; [apply evolves_refl|reflexivity]].
  split; [|reflexivity]. cbn [set_clients clients].
  apply (evolves_insert _ _ c); [exact Hc|]. apply (step_hit damage c Hd).
Qed.

Lemma broadcast_nextPlayerId p s : nextPlayerId (broadcast p s) = nextPlayerId s.
Proof. unfold broadcast. apply fold_send_nextPlayerId. Qed.

Lemma broadcast_clients p s : clients (broadcast p s) = clients s.
Proof. unfold broadcast. apply HandlerFacts.fold_send_clients. Qed.

Lemma HandlePlayerDeath_evolves now playerId killerId s :
  evolves (clients s) (clients (HandlePlayerDeath now playerId killerId s))
  /\ nextPlayerId (HandlePlayerDeath now playerId killerId s) = nextPlayerId s.
Proof.
  unfold HandlePlayerDeath.
  destruct (clients s !! playerId) as [c|] eqn:Hc; [|split; [apply evolves_refl|reflexivity]].
  destruct (ClientInfo.isActive c); cbn [negb]; [|split; [apply evolves_refl|reflexivity]].
  unfold BroadcastPlayerDeath.
  destruct (client_list _).
  - split; [|reflexivity]. cbn [set_clients clients].
    apply (evolves_insert _ _ c); [exact Hc|]. apply (step_death c).
  - rewrite broadcast_nextPlayerId, broadcast_clients. split; [|reflexivity].
    cbn [set_clients clients set_outgoingSequenceNumber].
    apply (evolves_insert _ _ c); [exact Hc|]. apply (step_death c).
Qed.

Lemma check_player_death_evolves now s playerId :
  evolves (clients s) (clients (check_player_death now s playerId))
  /\ nextPlayerId (check_player_death now s playerId) = nextPlayerId s.
Proof.
  unfold check_player_death.
  destruct (clients s !! playerId) as [c|]; [|split; [apply evolves_refl|reflexivity]].
  destruct (_ || _); [split; [apply evolves_refl|reflexivity]|].
  destruct (Qle_bool _ _); [apply HandlePlayerDeath_evolves|split; [apply evolves_refl|reflexivity]].
Qed.

Lemma fold_evolves {A} (f : t -> A -> t) (l : list A) s :
  (forall s a, evolves (clients s) (clients (f s a)) /\ nextPlayerId (f s a) = nextPlayerId s) ->
  evolves (clients s) (clients (fold_left f l s))
  /\ nextPlayerId (fold_left f l s) = nextPlayerId s.
Proof.
  intros Hf. revert s. induction l as [|a l IH]; intros s; simpl.
  - split; [apply evolves_refl|reflexivity].
  - destruct (Hf s a) as [H1 H2]. destruct (IH (f s a)) as [H3 H4].
    split; [eapply evolves_trans; eassumption|congruence].
Qed.

Lemma CheckPlayerDeaths_evolves now s :
  evolves (clients s) (clients (CheckPlayerDeaths now s))
  /\ nextPlayerId (CheckPlayerDeaths now s) = nextPlayerId s.
Proof. unfold CheckPlayerDeaths. apply fold_evolves. apply check_player_death_evolves. Qed.

(** *** The respawn position *)

Lemma unit_sample_range g : 0 <= Rng.unit_sample g <= 1.
Proof. unfold Rng.unit_sample. apply fmaxQ_fminQ_bounds. lra. Qed.

Lemma uniform_real_range a b g :
  a <= b -> a <= (Rng.uniform_real a b g).1 <= b.
Proof.
  intros Hab. unfold Rng.uniform_real. cbn [fst].
  destruct (unit_sample_range g) as [H0 H1]. split; nra.
Qed.

Lemma respawn_candidate_area s : respawn_area (respawn_candidate s).1.
Proof.
  unfold respawn_candidate, respawn_area.
  pose proof (uniform_real_range
                (WorldConstants.PLAYABLE_MIN_X + WorldConstants.TANK_RADIUS + 50)
                (WorldConstants.PLAYABLE_MAX_X - WorldConstants.TANK_RADIUS - 50)
                (randomGenerator s)) as Hx.
  destruct (Rng.uniform_real _ _ (randomGenerator s)) as [x g1]. cbn [fst] in Hx.
  pose proof (uniform_real_range
                (WorldConstants.PLAYABLE_MIN_Y + WorldConstants.TANK_RADIUS + 50)
                (WorldConstants.PLAYABLE_MAX_Y - WorldConstants.TANK_RADIUS - 50) g1) as Hy.
  destruct (Rng.uniform_real _ _ g1) as [y g2]. cbn [fst snd] in *.
  assert (WorldConstants.PLAYABLE_MIN_X + WorldConstants.TANK_RADIUS + 50
          <= WorldConstants.PLAYABLE_MAX_X - WorldConstants.TANK_RADIUS - 50) as Bx
    by (vm_compute; discriminate).
  assert (WorldConstants.PLAYABLE_MIN_Y + WorldConstants.TANK_RADIUS + 50
          <= WorldConstants.PLAYABLE_MAX_Y - WorldConstants.TANK_RADIUS - 50) as By
    by (vm_compute; discriminate).
  tauto.
Qed.

Lemma center_area : respawn_area (WorldConstants.CENTER_X, WorldConstants.CENTER_Y).
Proof. unfold respawn_area. cbn [fst snd]. repeat split; vm_compute; discriminate. Qed.

Lemma respawn_candidate_static s :
  clients (respawn_candidate s).2 = clients s
  /\ nextPlayerId (respawn_candidate s).2 = nextPlayerId s.
Proof. unfold respawn_candidate, Rng.uniform_real. split; reflexivity. Qed.

Lemma respawn_attempts_area n s :
  respawn_area (respawn_attempts n s).1
  /\ clients (respawn_attempts n s).2 = clients s
  /\ nextPlayerId (respawn_attempts n s).2 = nextPlayerId s.
Proof.
  revert s. induction n as [|n IH]; intros s; cbn [respawn_attempts].
  - split; [apply center_area|split; reflexivity].
  - pose proof (respawn_candidate_area s) as Ha.
    destruct (respawn_candidate_static s) as [Hc Hn].
    destruct (respawn_candidate s) as [p s1]. cbn [fst snd] in *.
    destruct (isSafe p s1).
    + cbn [fst snd]. split; [exact Ha|split; assumption].
    + destruct (IH s1) as (H1 & H2 & H3). rewrite H2, H3, Hc, Hn.
      split; [exact H1|split; reflexivity].
Qed.


Lemma RespawnPlayer_evolves now playerId s :
  evolves (clients s) (clients (RespawnPlayer now playerId s))
  /\ nextPlayerId (RespawnPlayer now playerId s) = nextPlayerId s.
Proof.
  unfold RespawnPlayer.
  destruct (clients s !! playerId) as [c|] eqn:Hc; [|split; [apply evolves_refl|reflexivity]].
  destruct (ClientInfo.isActive c); cbn [negb]; [|split; [apply evolves_refl|reflexivity]].
  unfold GetRandomRespawnPosition.
  destruct (respawn_attempts_area MAX_ATTEMPTS s) as (Ha & Hcl & Hn).
  destruct (respawn_attempts MAX_ATTEMPTS s) as [spawnPos s1]. cbn [fst snd] in *.
  unfold BroadcastPlayerRespawn.
  assert (evolves (clients s)
                  (<[playerId := respawned spawnPos c]> (clients s1))) as He.
  { rewrite Hcl. apply (evolves_insert _ _ c); [exact Hc|].
    apply (step_respawn spawnPos c Ha). }
  destruct (client_list _).
  - split; [exact He|exact Hn].
  - rewrite broadcast_nextPlayerId, broadcast_clients. split; [exact He|exact Hn].
Qed.

Lemma update_dead_player_evolves now deltaTime s playerId :
  evolves (clients s) (clients (update_dead_player now deltaTime s playerId))
  /\ nextPlayerId (update_dead_player now deltaTime s playerId) = nextPlayerId s.
Proof.
  unfold update_dead_player.
  destruct (clients s !! playerId) as [c|] eqn:Hc; [|split; [apply evolves_refl|reflexivity]].
  destruct (_ || _); [split; [apply evolves_refl|reflexivity]|].
  assert (evolves (clients s)
            (<[playerId := timer_ticked deltaTime c]> (clients s))) as He
    by (apply (evolves_insert _ _ c); [exact Hc|apply step_timer]).
  destruct (Qle_bool _ 0).
  - destruct (RespawnPlayer_evolves now playerId
                (set_clients (<[playerId := timer_ticked deltaTime c]> (clients s)) s))
      as [H1 H2].
    split; [eapply evolves_trans; [exact He|exact H1]|exact H2].
  - split; [exact He|reflexivity].
Qed.

Lemma UpdateDeadPlayers_evolves now deltaTime s :
  evolves (clients s) (clients (UpdateDeadPlayers now deltaTime s))
  /\ nextPlayerId (UpdateDeadPlayers now deltaTime s) = nextPlayerId s.
Proof. unfold UpdateDeadPlayers. apply fold_evolves. apply update_dead_player_evolves. Qed.

Lemma RemoveInactiveClients_evolves now deltaTime s :
  evolves (clients s) (clients (RemoveInactiveClients now deltaTime s))
  /\ nextPlayerId (RemoveInactiveClients now deltaTime s) = nextPlayerId s.
Proof.
  unfold RemoveInactiveClients.
  match goal with |- context [fold_left ?f ?l ?s0] =>
    destruct (fold_evolves f l s0) as [H1 H2] end.
  - intros s1 a. cbn [set_clients clients nextPlayerId].
    rewrite SendGameStateToAll_nextPlayerId. split; [|reflexivity].
    eapply evolves_trans; [apply SendGameStateToAll_evolves|].
    apply evolves_delete.
  - split; [|exact H2]. eapply evolves_trans; [|exact H1].
    cbn [set_clients clients]. apply evolves_fmap. intros c. apply step_age.
Qed.


(** *** Any call, any run *)

Variable enemyUpdate : gmap N ClientInfo.t -> Q -> EnemyTank.t -> EnemyTank.t.

Definition call_allowed (c : ServerCall) : Prop :=
  match c with
  | CallEnemyBulletHitsPlayer _ damage => allowed_damage damage
  | _ => True
  end.

Lemma UpdateEnemies_nextPlayerId deltaTime s :
  nextPlayerId (UpdateEnemies enemyUpdate deltaTime s) = nextPlayerId s.
Proof.
  unfold UpdateEnemies, RemoveDeadEnemies. cbn [set_enemies nextPlayerId].
  destruct (_ && _); [|reflexivity].
  unfold SpawnEnemy, GetRandomSpawnPosition, GetRandomEnemyType,
    Rng.uniform_real, Rng.uniform_int. reflexivity.
Qed.

(** A call either lets every client evolve in place, or is the join of a new
    player, who gets the next id. *)
Definition joins (c : ServerCall) (s s' : t) : Prop :=
  exists now msg from color,
    c = CallHandleJoinRequest now msg from
    /\ NetworkValidation.IsValidPlayerName (JoinMessage.playerName msg) = true
    /\ FindPlayerByAddress from s = 0%N
    /\ nextPlayerId s' = u32 (nextPlayerId s + 1)
    /\ evolves (<[nextPlayerId s :=
                    new_client (nextPlayerId s) (JoinMessage.playerName msg) color
                      (JoinMessage.sequenceNumber msg) from]> (clients s))
               (clients s').

Lemma call_evolves c s :
  call_allowed c ->
  let s' := call cosf sinf enemyUpdate s c in
  (evolves (clients s) (clients s') /\ nextPlayerId s' = nextPlayerId s) \/ joins c s s'.
Proof.
  intros Hc. destruct c; cbn [call].
  - destruct (HandleJoinRequest_evolves now msg from s) as [H|(H1 & H2 & H3 & color & H4)];
      [left; exact H|right].
    exists now, msg, from, color. auto.
  - left. apply HandlePlayerUpdate_evolves.
  - left. apply HandlePlayerInput_evolves.
  - left. split; [apply SimulatePlayerMovement_evolves|reflexivity].
  - left. split; [|apply UpdateEnemies_nextPlayerId].
    destruct (EnemyCapFacts.UpdateEnemies_spawn enemyUpdate deltaTime s) as (_ & _ & H & _).
    apply evolves_eq. exact H.
  - left. apply enemy_bullet_hits_player_evolves. exact Hc.
  - left. apply CheckPlayerDeaths_evolves.
  - left. apply UpdateDeadPlayers_evolves.
  - left. split; [apply SendGameStateToAll_evolves|apply SendGameStateToAll_nextPlayerId].
  - left. apply RemoveInactiveClients_evolves.
Qed.

Section ClientInvariant.
(** A property of clients that every step keeps and every new client has. *)
Variable I : N -> ClientInfo.t -> Prop.
Hypothesis I_step : forall k c c', client_step c c' -> I k c -> I k c'.
Hypothesis I_new : forall newId name color sequenceNumber from,
  NetworkValidation.IsValidPlayerName name = true ->
  I newId (new_client newId name color sequenceNumber from).





End ClientInvariant.

End Steps.

(** *** Positions and rotations *)






(** *** Health and score *)





(** *** Ids and addresses *)

Lemma Endpoint_eqb_eq (a b : Endpoint) : Endpoint_eqb a b = true <-> a = b.
Proof.
  destruct a as [i1 p1], b as [i2 p2]. unfold Endpoint_eqb. cbn.
  rewrite andb_true_iff, !N.eqb_eq. split; [intros [-> ->]; reflexivity|].
  intros H. inversion H. auto.
Qed.

Lemma client_step_identity cosf sinf D c c' :
  client_step cosf sinf D c c' ->
  ClientInfo.address c' = ClientInfo.address c
  /\ PlayerData.playerId (ClientInfo.playerData c')
     = PlayerData.playerId (ClientInfo.playerData c).
Proof.
  induction 1 as [c|a b c _ IH1 _ IH2|c|name c _|msg c|msg c Hpos|deltaTime c
                  |damage c Hd|c|deltaTime c|spawnPos c Harea|deltaTime c];
    try (split; reflexivity).
  - destruct IH1, IH2. split; congruence.
  - unfold sync_playerData. destruct (ClientInfo.isActive c); split; reflexivity.
  - destruct (ClientInfo.isActive c) eqn:Ea.
    + rewrite (MovementFacts.simulate_player_active cosf sinf deltaTime c Ea).
      split; reflexivity.
    + unfold simulate_player. rewrite Ea. split; reflexivity.
  - unfold age_client. destruct (ClientInfo.isActive c); [|split; reflexivity].
    destruct (Qgtb _ _); split; reflexivity.
Qed.

Local Open Scope N_scope.

(** After at most [n] joins: no client has id 0, ids are below the next id
    and written in the player data, and no two clients share an address. *)
Definition ids_ok (n : N) (s : t) : Prop :=
  (1 <= nextPlayerId s <= 1 + n)
  /\ (forall k c, clients s !! k = Some c ->
        k <> 0 /\ k < nextPlayerId s
        /\ PlayerData.playerId (ClientInfo.playerData c) = k)
  /\ (forall k1 k2 c1 c2,
        clients s !! k1 = Some c1 -> clients s !! k2 = Some c2 ->
        ClientInfo.address c1 = ClientInfo.address c2 -> k1 = k2).

Lemma ids_ok_start g : ids_ok 0 (make g).
Proof.
  split; [cbn; lia|]. split.
  - intros k c H. cbn in H. rewrite lookup_empty in H. discriminate.
  - intros k1 k2 c1 c2 H. cbn in H. rewrite lookup_empty in H. discriminate.
Qed.

Lemma ids_ok_call cosf sinf upd n c s :
  n + 2 < UINT32_MOD ->
  ids_ok n s ->
  ids_ok (n + 1) (call cosf sinf upd s c).
Proof.
  intros Hn (Hnext & Hkeys & Huniq).
  destruct (call_evolves cosf sinf (fun _ => True) upd c s) as
    [[He Hsame]|(now & msg & from & color & _ & Hname & Hfind & Hnew & He)].
  { destruct c; exact I. }
  - split; [rewrite Hsame; lia|]. split.
    + intros k c' Hk. destruct (He k c' Hk) as (c0 & Hc0 & Hs).
      destruct (client_step_identity _ _ _ _ _ Hs) as [_ Hid].
      destruct (Hkeys k c0 Hc0) as (H1 & H2 & H3). rewrite Hsame, Hid. auto.
    + intros k1 k2 c1 c2 H1 H2 Ha.
      destruct (He k1 c1 H1) as (d1 & Hd1 & S1).
      destruct (He k2 c2 H2) as (d2 & Hd2 & S2).
      destruct (client_step_identity _ _ _ _ _ S1) as [A1 _].
      destruct (client_step_identity _ _ _ _ _ S2) as [A2 _].
      apply (Huniq k1 k2 d1 d2 Hd1 Hd2). congruence.
  - assert (u32 (nextPlayerId s + 1) = nextPlayerId s + 1) as Hwrap.
    { unfold u32. apply N.mod_small. lia. }
    rewrite Hwrap in Hnew.
    set (newClient := new_client _ _ _ _ _) in He.
    assert (forall k c', clients (call cosf sinf upd s c) !! k = Some c' ->
              (k = nextPlayerId s /\ ClientInfo.address c' = from
               /\ PlayerData.playerId (ClientInfo.playerData c') = k)
              \/ (k <> nextPlayerId s
                  /\ exists c0, clients s !! k = Some c0
                       /\ ClientInfo.address c' = ClientInfo.address c0
                       /\ PlayerData.playerId (ClientInfo.playerData c')
                          = PlayerData.playerId (ClientInfo.playerData c0))) as Hfrom.
    { intros k c' Hk. destruct (He k c' Hk) as (c0 & Hc0 & Hs).
      destruct (client_step_identity _ _ _ _ _ Hs) as [A Hid].
      destruct (N.eq_dec (nextPlayerId s) k) as [E|E].
      - left. subst k. rewrite lookup_insert_eq in Hc0. inversion Hc0; subst c0.
        rewrite A, Hid. split; [reflexivity|]. split; reflexivity.
      - right. rewrite lookup_insert_ne in Hc0 by exact E.
        split; [congruence|]. exists c0. auto. }
    assert (forall k c0, clients s !! k = Some c0 -> ClientInfo.address c0 <> from) as Hfresh.
    { intros k c0 Hc0 Ha.
      destruct (Hkeys k c0 Hc0) as (Hk0 & _).
      pose proof (FindPlayerByAddress_none from s Hfind k c0 Hc0 Hk0
                    (fun j d Hj => proj1 (Hkeys j d Hj))) as Hf.
      apply Endpoint_eqb_eq in Ha. congruence. }
    split; [rewrite Hnew; lia|]. split.
    + intros k c' Hk. rewrite Hnew.
      destruct (Hfrom k c' Hk) as [(-> & _ & Hid)|(_ & c0 & Hc0 & _ & Hid)].
      * split; [lia|]. split; [lia|exact Hid].
      * destruct (Hkeys k c0 Hc0) as (H1 & H2 & H3). rewrite Hid.
        split; [exact H1|]. split; [lia|exact H3].
    + intros k1 k2 c1 c2 H1 H2 Ha.
      destruct (Hfrom k1 c1 H1) as [(-> & A1 & _)|(N1 & d1 & Hd1 & A1 & _)];
        destruct (Hfrom k2 c2 H2) as [(-> & A2 & _)|(N2 & d2 & Hd2 & A2 & _)].
      * reflexivity.
      * exfalso. apply (Hfresh k2 d2 Hd2). congruence.
      * exfalso. apply (Hfresh k1 d1 Hd1). congruence.
      * apply (Huniq k1 k2 d1 d2 Hd1 Hd2). congruence.
Qed.

Lemma ids_ok_run cosf sinf upd calls n s :
  n + N.of_nat (List.length calls) + 1 < UINT32_MOD ->
  ids_ok n s ->
  ids_ok (n + N.of_nat (List.length calls)) (run cosf sinf upd calls s).
Proof.
  revert n s. induction calls as [|c calls IH]; intros n s Hn Hs; simpl.
  - rewrite N.add_0_r. exact Hs.
  - cbn [List.length] in *.
    replace (n + N.of_nat (S (List.length calls)))
      with ((n + 1) + N.of_nat (List.length calls)) by lia.
    apply IH; [lia|].
    apply ids_ok_call; [lia|exact Hs].
Qed.

Lemma ids_ok_find n s k c :
  ids_ok n s -> clients s !! k = Some c ->
  FindPlayerByAddress (ClientInfo.address c) s = k.
Proof.
  intros (_ & Hkeys & Huniq) Hk. unfold FindPlayerByAddress.
  destruct (List.filter _ _) as [|[j d] rest] eqn:E.
  - exfalso.
    assert (In (k, c) (List.filter
              (fun kc : N * ClientInfo.t =>
                 Endpoint_eqb (ClientInfo.address kc.2) (ClientInfo.address c))
              (client_list s))) as Hin.
    { apply filter_In. split; [apply list_elem_of_In, elem_of_map_to_list; exact Hk|].
      apply Endpoint_eqb_eq. reflexivity. }
    rewrite E in Hin. destruct Hin.
  - assert (In (j, d) (List.filter
              (fun kc : N * ClientInfo.t =>
                 Endpoint_eqb (ClientInfo.address kc.2) (ClientInfo.address c))
              (client_list s))) as Hin by (rewrite E; left; reflexivity).
    apply filter_In in Hin. destruct Hin as [Hin Ha].
    apply list_elem_of_In, elem_of_map_to_list in Hin. apply Endpoint_eqb_eq in Ha.
    exact (Huniq j k d c Hin Hk Ha).
Qed.

End ServerRunFacts.

Module ServerRun.
Import GameServer.








(** X8 (game_server.cpp, HandleJoinRequest and FindPlayerByAddress (ids come
    from nextPlayerId++, a uint32_t)): after fewer than 2^32 - 1 calls on a
    new server, no connected player has id 0, every id is below
    nextPlayerId and is the playerId written in the player's data, and no
    two players share an address: looking up a player's address finds that
    player. *)
Theorem player_ids_and_addresses_are_unique
  (cosf sinf : Q -> Q)
  (enemyUpdate : gmap N ClientInfo.t -> Q -> EnemyTank.t -> EnemyTank.t)
  (calls : list ServerCall) (g : Rng.t) (k : N) (c : ClientInfo.t) :
  (N.of_nat (List.length calls) < 4294967295)%N ->
  let s := run cosf sinf enemyUpdate calls (make g) in
  clients s !! k = Some c ->
  k <> 0%N
  /\ (k < nextPlayerId s)%N
  /\ PlayerData.playerId (ClientInfo.playerData c) = k
  /\ FindPlayerByAddress (ClientInfo.address c) s = k.
Proof.
  intros Hlen s Hk.
  pose proof (ServerRunFacts.ids_ok_run cosf sinf enemyUpdate calls 0 (make g)) as H.
  rewrite N.add_0_l in H. fold s in H.
  assert (ServerRunFacts.ids_ok (N.of_nat (List.length calls)) s) as Hok.
  { apply H; [unfold UINT32_MOD; lia|apply ServerRunFacts.ids_ok_start]. }
  pose proof (ServerRunFacts.ids_ok_find _ s k c Hok Hk) as Hfind.
  destruct Hok as (_ & Hkeys & _). destruct (Hkeys k c Hk) as (H1 & H2 & H3).
  auto.
Qed.

(** Ada and Bob join from two addresses, then Ada's join arrives again. *)
Definition bob : Endpoint := mkEndpoint 2130706433 50001.

Definition two_players : list ServerCall :=
  [CallHandleJoinRequest 1000 Scenario.join_ada Scenario.ada;
   CallHandleJoinRequest 1010 (JoinMessage.mk "Bob" "" 1010 1) bob;
   CallHandleJoinRequest 1020 Scenario.join_ada Scenario.ada].

Lemma player_ids_and_addresses_are_unique_witness :
  let s := run ReconciliationFacts.cos_of_zero ReconciliationFacts.sin_of_zero
             EnemyCapFacts.cooldown_only two_players (make Scenario.middle) in
  FindPlayerByAddress bob s = 2%N
  /\ size (clients s) = 2%nat
  /\ nextPlayerId s = 3%N.
Proof.
  intros s.
  assert (exists c, clients s !! 2%N = Some c /\ ClientInfo.address c = bob) as (c & Hk & Ha)
    by (eexists; split; vm_compute; reflexivity).
  destruct (player_ids_and_addresses_are_unique
              ReconciliationFacts.cos_of_zero ReconciliationFacts.sin_of_zero
              EnemyCapFacts.cooldown_only two_players Scenario.middle 2%N c)
    as (_ & _ & _ & Hfind).
  - vm_compute. reflexivity.
  - exact Hk.
  - rewrite Ha in Hfind. split; [exact Hfind|]. vm_compute. split; reflexivity.
Defined.

End ServerRun.

(** ** Timeouts *)

Module TimeoutFacts.
Import GameServer.
Local Open Scope Q_scope.

(** The client is active and this tick takes its idle time past the
    timeout. *)
Definition timed_out (deltaTime : Q) (c : ClientInfo.t) : bool :=
  ClientInfo.isActive c
  && Qgtb (ClientInfo.lastUpdateTime c + deltaTime) clientTimeoutDuration.

Lemma timed_out_age deltaTime c :
  timed_out deltaTime c
  = ClientInfo.isActive c && negb (ClientInfo.isActive (age_client deltaTime c)).
Proof.
  unfold timed_out, age_client. destruct (ClientInfo.isActive c) eqn:Ea; [|reflexivity].
  cbn [andb ClientInfo.set_lastUpdateTime ClientInfo.lastUpdateTime].
  destruct (Qgtb _ _); cbn; [reflexivity|]. rewrite Ea. reflexivity.
Qed.

Lemma sync_playerData_twice c :
  sync_playerData (sync_playerData c) = sync_playerData c.
Proof. unfold sync_playerData. destruct (ClientInfo.isActive c) eqn:E; cbn; rewrite E; reflexivity. Qed.

(** The loop that broadcasts and erases. *)
Definition erase_all (now : Z) (toRemove : list N) (s : t) : t :=
  fold_left (fun acc playerId =>
               let acc1 := SendGameStateToAll now acc in
               set_clients (delete playerId (clients acc1)) acc1)
            toRemove s.

Lemma erase_all_lookup now toRemove s k :
  (In k toRemove -> clients (erase_all now toRemove s) !! k = None)
  /\ (~ In k toRemove ->
      clients (erase_all now toRemove s) !! k = clients s !! k
      \/ clients (erase_all now toRemove s) !! k = (sync_playerData <$> clients s) !! k).
Proof.
  revert s. induction toRemove as [|a l IH]; intros s.
  - split; [intros []|]. intros _. left. reflexivity.
  - set (s1 := SendGameStateToAll now s).
    set (s2 := set_clients (delete a (clients s1)) s1).
    change (erase_all now (a :: l) s) with (erase_all now l s2).
    destruct (IH s2) as [IHin IHout].
    assert (forall j, j <> a ->
              clients s2 !! j = clients s !! j
              \/ clients s2 !! j = (sync_playerData <$> clients s) !! j) as Hs2.
    { intros j Hj. subst s2. cbn [set_clients clients].
      rewrite lookup_delete_ne by congruence.
      destruct (HandlerFacts.SendGameStateToAll_lookup now s j); auto. }
    split.
    + intros Hin. destruct (in_dec N.eq_dec k l) as [Hl|Hl]; [exact (IHin Hl)|].
      destruct Hin as [->|Hin]; [|contradiction].
      assert (clients s2 !! k = None) as Hnone
        by (subst s2; cbn [set_clients clients]; apply lookup_delete_eq).
      destruct (IHout Hl) as [E|E]; rewrite E; [exact Hnone|].
      rewrite lookup_fmap, Hnone. reflexivity.
    + intros Hout.
      assert (k <> a) as Hka by (intros ->; apply Hout; left; reflexivity).
      assert (~ In k l) as Hl by (intros H; apply Hout; right; exact H).
      destruct (IHout Hl) as [E|E]; rewrite E.
      * exact (Hs2 k Hka).
      * rewrite lookup_fmap. destruct (Hs2 k Hka) as [E2|E2]; rewrite E2.
        -- right. rewrite lookup_fmap. reflexivity.
        -- right. rewrite !lookup_fmap. destruct (clients s !! k); [|reflexivity].
           cbn. rewrite sync_playerData_twice. reflexivity.
Qed.

Lemma toRemove_In deltaTime s k :
  In k (List.map fst
          (List.filter (fun kc : N * ClientInfo.t =>
                          ClientInfo.isActive kc.2
                          && negb (ClientInfo.isActive (age_client deltaTime kc.2)))
                       (client_list s)))
  <-> exists c, clients s !! k = Some c /\ timed_out deltaTime c = true.
Proof.
  rewrite in_map_iff. split.
  - intros ([j c] & Hj & Hin). cbn in Hj. subst j.
    apply filter_In in Hin. destruct Hin as [Hin Hp].
    apply list_elem_of_In, elem_of_map_to_list in Hin.
    exists c. split; [exact Hin|]. rewrite timed_out_age. exact Hp.
  - intros (c & Hc & Ht). exists (k, c). split; [reflexivity|].
    apply filter_In. split; [apply list_elem_of_In, elem_of_map_to_list; exact Hc|].
    cbn. rewrite <- timed_out_age. exact Ht.
Qed.

End TimeoutFacts.

Module Timeout.
Import GameServer TimeoutFacts.

(** X9 (game_server.cpp, RemoveInactiveClients (with BroadcastPlayerLeft)): a
    tick removes exactly the active clients whose idle time, advanced by the
    tick, exceeds the 15 s timeout.  Every other client stays under its id,
    with its idle time advanced when it is active (and possibly its score
    and death flag copied into the player data by the broadcast); no client
    appears. *)
Theorem RemoveInactiveClients_removes_the_timed_out
  (now : Z) (deltaTime : Q) (s : t) (k : N) :
  let s' := RemoveInactiveClients now deltaTime s in
  match clients s !! k with
  | None => clients s' !! k = None
  | Some c =>
      if timed_out deltaTime c
      then clients s' !! k = None
      else clients s' !! k = Some (age_client deltaTime c)
           \/ clients s' !! k = Some (sync_playerData (age_client deltaTime c))
  end.
Proof.
  intros s'. subst s'. unfold RemoveInactiveClients.
  set (toRemove := List.map fst _).
  set (s0 := set_clients (age_client deltaTime <$> clients s) s).
  change (fold_left _ toRemove s0) with (erase_all now toRemove s0).
  destruct (erase_all_lookup now toRemove s0 k) as [Hin Hout].
  assert (clients s0 !! k = age_client deltaTime <$> clients s !! k) as Hs0
    by (subst s0; cbn [set_clients clients]; apply lookup_fmap).
  destruct (clients s !! k) as [c|] eqn:Hc.
  - destruct (timed_out deltaTime c) eqn:Ht.
    + apply Hin. apply toRemove_In. exists c. auto.
    + assert (~ In k toRemove) as Hn.
      { intros H. apply toRemove_In in H. destruct H as (c0 & Hc0 & Ht0). congruence. }
      destruct (Hout Hn) as [E|E]; rewrite E.
      * left. rewrite Hs0. reflexivity.
      * right. rewrite lookup_fmap, Hs0. reflexivity.
  - assert (~ In k toRemove) as Hn.
    { intros H. apply toRemove_In in H. destruct H as (c0 & Hc0 & _). congruence. }
    destruct (Hout Hn) as [E|E]; rewrite E.
    + rewrite Hs0. reflexivity.
    + rewrite lookup_fmap, Hs0. reflexivity.
Qed.

End Timeout.

(** ** Colors and spawning *)

Module ColorFacts.
Import GameServer.

Lemma uniform_int_range a b g : a <= b -> a <= (Rng.uniform_int a b g).1 <= b.
Proof.
  intros Hab. unfold Rng.uniform_int. cbn [fst].
  destruct (ServerRunFacts.unit_sample_range g) as [H0 _].
  assert (0 <= Qfloor (Rng.unit_sample g * inject_Z (b - a + 1))) as Hf.
  { change 0 with (Qfloor 0). apply Qfloor_resp_le.
    apply Qmult_le_0_compat; [exact H0|].
    change 0%Q with (inject_Z 0). rewrite <- Zle_Qle. lia. }
  lia.
Qed.

(** Some client wears the color. *)
Definition used (color : string) (s : t) : Prop :=
  exists k c, clients s !! k = Some c /\ PlayerData.color (ClientInfo.playerData c) = color.

Lemma existsb_used color s :
  existsb (String.eqb color)
    (List.map (fun kc : N * ClientInfo.t => PlayerData.color (ClientInfo.playerData kc.2))
              (client_list s)) = true
  <-> used color s.
Proof.
  rewrite existsb_exists. split.
  - intros (x & Hin & Heq). apply String.eqb_eq in Heq. subst x.
    apply in_map_iff in Hin. destruct Hin as ([k c] & Hcol & Hin).
    apply list_elem_of_In, elem_of_map_to_list in Hin. exists k, c. auto.
  - intros (k & c & Hk & Hcol). exists color. split; [|apply String.eqb_refl].
    apply in_map_iff. exists (k, c). split; [exact Hcol|].
    apply list_elem_of_In, elem_of_map_to_list. exact Hk.
Qed.

Lemma AssignColor_listed s :
  In (AssignColor s).1 availableColors
  /\ clients (AssignColor s).2 = clients s
  /\ nextPlayerId (AssignColor s).2 = nextPlayerId s
  /\ ((exists free, In free availableColors /\ ~ used free s) -> ~ used (AssignColor s).1 s).
Proof.
  unfold AssignColor.
  set (usedColors := List.map _ (client_list s)).
  destruct (List.filter _ availableColors) as [|c rest] eqn:E.
  - pose proof (uniform_int_range 0 (Z.of_nat (List.length availableColors) - 1)
                  (randomGenerator s)) as Hr.
    destruct (Rng.uniform_int _ _ _) as [i g]. cbn [fst snd] in *.
    split; [|split; [reflexivity|split; [reflexivity|]]].
    + apply nth_In. cbn in *. lia.
    + intros (free & Hin & Hfree). exfalso.
      assert (In free (List.filter
                (fun c : string => negb (existsb (String.eqb c) usedColors))
                availableColors)) as Hf.
      { apply filter_In. split; [exact Hin|].
        destruct (existsb _ _) eqn:Eu; [|reflexivity].
        apply existsb_used in Eu. contradiction. }
      rewrite E in Hf. destruct Hf.
  - assert (In c (List.filter
              (fun c : string => negb (existsb (String.eqb c) usedColors))
              availableColors)) as Hc by (rewrite E; left; reflexivity).
    apply filter_In in Hc. destruct Hc as [Hin Hfree]. cbn [fst snd].
    split; [exact Hin|]. split; [reflexivity|]. split; [reflexivity|].
    intros _ Hu. apply existsb_used in Hu. fold usedColors in Hu.
    rewrite Hu in Hfree. discriminate.
Qed.

End ColorFacts.

Module Colors.
Import GameServer ColorFacts.

(** X10 (game_server.cpp, AssignColor and HandleJoinRequest): a player who joins
    from a new address with a valid name and no preferred color is given
    one of red, blue, green, black; as long as one of the four is worn by no
    connected client, the color given is worn by no other client. *)
Theorem join_without_preference_gets_a_listed_color
  (now : Z) (msg : JoinMessage.t) (from : Endpoint) (s : t) :
  NetworkValidation.IsValidPlayerName (JoinMessage.playerName msg) = true ->
  JoinMessage.preferredColor msg = ""%string ->
  FindPlayerByAddress from s = 0%N ->
  exists color,
    HandlerFacts.color_of (HandleJoinRequest now msg from s) (nextPlayerId s) = Some color
    /\ In color availableColors
    /\ ((exists free, In free availableColors /\ ~ used free s) -> ~ used color s).
Proof.
  intros Hname Hpref Hfind.
  exists (AssignColor s).1.
  destruct (AssignColor_listed s) as (Hin & _ & _ & Hfree).
  split; [|split; [exact Hin|exact Hfree]].
  unfold HandleJoinRequest. rewrite Hname, Hpref. cbn [negb String.length Nat.eqb andb].
  set (s2 := if negb (NetworkValidation.IsValidTimestamp _ _) then _ else s).
  assert (FindPlayerByAddress from s2 = 0%N) as -> by (subst s2; destruct (negb _); exact Hfind).
  cbn [N.eqb negb].
  assert (nextPlayerId s2 = nextPlayerId s) as Hn by (subst s2; destruct (negb _); reflexivity).
  remember (AssignColor (set_nextPlayerId (u32 (nextPlayerId s2 + 1)) s2)) as a eqn:Ea.
  assert (a.1 = (AssignColor s).1 /\ clients a.2 = clients s) as [Hcol Hcl].
  { subst a. clear Hn. subst s2. unfold AssignColor, client_list.
    destruct (negb _); cbn [set_nextPlayerId printMsg clients randomGenerator];
      (destruct (List.filter _ availableColors); [|split; reflexivity]);
      destruct (Rng.uniform_int _ _ _); split; reflexivity. }
  clear Ea. destruct a as [color s4]. cbn [fst snd] in Hcol, Hcl. subst color.
  rewrite HandlerFacts.SendGameStateToAll_color, HandlerFacts.SendGameStateToClient_color.
  unfold HandlerFacts.color_of. cbn [SendPlayerIdAssignment send set_clients clients].
  rewrite Hn, lookup_insert_eq. reflexivity.
Qed.

(** Ada wears blue; Bob, who asks for nothing, gets red, the first listed
    color nobody wears. *)
Lemma join_without_preference_gets_a_listed_color_witness :
  HandlerFacts.color_of
    (HandleJoinRequest 1010 (JoinMessage.mk "Bob" "" 1010 1) ServerRun.bob
       EnemyCapFacts.joined) 2%N = Some "red"%string.
Proof.
  destruct (join_without_preference_gets_a_listed_color
              1010 (JoinMessage.mk "Bob" "" 1010 1) ServerRun.bob EnemyCapFacts.joined
              eq_refl eq_refl eq_refl) as (color & Hc & _).
  change (nextPlayerId EnemyCapFacts.joined) with 2%N in Hc.
  rewrite Hc. f_equal.
  assert (HandlerFacts.color_of
            (HandleJoinRequest 1010 (JoinMessage.mk "Bob" "" 1010 1) ServerRun.bob
               EnemyCapFacts.joined) 2%N = Some "red"%string) as E
    by (vm_compute; reflexivity).
  rewrite E in Hc. inversion Hc. reflexivity.
Defined.

End Colors.

Module SpawnFacts.
Import GameServer.
Local Open Scope Q_scope.

Lemma make_alive ty pos :
  EnemyTank.IsDead (EnemyTank.make ty pos) = false
  /\ EnemyTank.currentHealth (EnemyTank.make ty pos) = EnemyTank.maxHealth (EnemyTank.make ty pos)
  /\ EnemyTank.position (EnemyTank.make ty pos) = pos
  /\ EnemyTank.enemyType (EnemyTank.make ty pos) = ty
  /\ EnemyTank.currentAIState (EnemyTank.make ty pos) = EnemyTank.PATROL.
Proof. destruct ty; repeat split; reflexivity. Qed.

Lemma spawn_rectangle :
  WorldConstants.SPAWN_MIN_X <= WorldConstants.SPAWN_MAX_X
  /\ WorldConstants.SPAWN_MIN_Y <= WorldConstants.SPAWN_MAX_Y.
Proof. split; vm_compute; discriminate. Qed.

End SpawnFacts.

Module Spawn.
Import GameServer.

(** X11 (game_server.cpp, SpawnEnemy, GetRandomSpawnPosition, GetRandomEnemyType
    and RemoveDeadEnemies): SpawnEnemy adds one enemy under the id
    nextEnemyId, placed inside the spawn rectangle (the spawn margin away
    from every edge of the world), alive, at full health and patrolling; it
    touches no other enemy and no client.  After UpdateEnemies no enemy of
    the server is dead. *)
Theorem SpawnEnemy_adds_a_living_enemy_in_the_spawn_area
  (enemyUpdate : gmap N ClientInfo.t -> Q -> EnemyTank.t -> EnemyTank.t)
  (deltaTime : Q) (s : t) :
  (exists e,
     enemies (SpawnEnemy s) = <[nextEnemyId s := e]> (enemies s)
     /\ nextEnemyId (SpawnEnemy s) = u32 (nextEnemyId s + 1)
     /\ clients (SpawnEnemy s) = clients s
     /\ (WorldConstants.SPAWN_MIN_X <= (EnemyTank.position e).1
         /\ (EnemyTank.position e).1 <= WorldConstants.SPAWN_MAX_X
         /\ WorldConstants.SPAWN_MIN_Y <= (EnemyTank.position e).2
         /\ (EnemyTank.position e).2 <= WorldConstants.SPAWN_MAX_Y)%Q
     /\ EnemyTank.IsDead e = false
     /\ EnemyTank.currentHealth e = EnemyTank.maxHealth e
     /\ EnemyTank.currentAIState e = EnemyTank.PATROL)
  /\ (forall id e, enemies (UpdateEnemies enemyUpdate deltaTime s) !! id = Some e ->
                   EnemyTank.IsDead e = false).
Proof.
  split.
  - unfold SpawnEnemy, GetRandomSpawnPosition, GetRandomEnemyType.
    destruct SpawnFacts.spawn_rectangle as [Bx By].
    pose proof (ServerRunFacts.uniform_real_range _ _ (randomGenerator s) Bx) as Hx.
    destruct (Rng.uniform_real WorldConstants.SPAWN_MIN_X _ _) as [x g1].
    pose proof (ServerRunFacts.uniform_real_range _ _ g1 By) as Hy.
    destruct (Rng.uniform_real WorldConstants.SPAWN_MIN_Y _ _) as [y g2].
    cbn [fst snd set_randomGenerator randomGenerator] in *.
    destruct (Rng.uniform_int 1 100 g2) as [roll g3].
    set (ty := if (roll <=? 40) then _ else _).
    destruct (SpawnFacts.make_alive ty (x, y)) as (H1 & H2 & H3 & _ & H5).
    exists (EnemyTank.make ty (x, y)).
    cbn [set_enemies set_nextEnemyId enemies nextEnemyId clients].
    rewrite H3. cbn [fst snd].
    repeat split; try reflexivity; try tauto; assumption.
  - intros id e He. unfold UpdateEnemies, RemoveDeadEnemies in He.
    cbn [set_enemies enemies] in He.
    apply map_lookup_filter_Some in He. destruct He as [_ He]. exact He.
Qed.

End Spawn.

(** ** The client's input history and buffer *)

Module ClientPredictionFacts.
Import ClientPrediction ClientPredictionBuffer.







(** *** The invariant of the prediction object *)

Local Open Scope N_scope.













(** *** Sorting by sequence number *)

Definition in_sequence (a b : InputState.t) : Prop :=
  InputState.sequenceNumber a <= InputState.sequenceNumber b.

Lemma insert_by_sequence_In i l x :
  In x (insert_by_sequence i l) <-> x = i \/ In x l.
Proof.
  induction l as [|j l IH]; cbn.
  - split; [intros [->|[]]; auto|intros [->|[]]; auto].
  - destruct (_ <? _); cbn; [split; [intros [->|H]; auto|intros [->|H]; auto]|].
    rewrite IH. tauto.
Qed.


Lemma insert_by_sequence_sorted i l :
  StronglySorted in_sequence l -> StronglySorted in_sequence (insert_by_sequence i l).
Proof.
  induction 1 as [|j l Hl IH Hj]; cbn.
  - constructor; constructor.
  - destruct (InputState.sequenceNumber i <? InputState.sequenceNumber j) eqn:E.
    + apply N.ltb_lt in E. constructor; [constructor; assumption|].
      constructor; [unfold in_sequence; lia|].
      eapply Forall_impl; [exact Hj|]. intros x Hx. unfold in_sequence in *. lia.
    + apply N.ltb_ge in E. constructor; [exact IH|].
      apply Forall_forall. intros x Hx. apply list_elem_of_In, insert_by_sequence_In in Hx.
      destruct Hx as [->|Hx]; [exact E|].
      rewrite Forall_forall in Hj. apply Hj, list_elem_of_In, Hx.
Qed.

Lemma sort_by_sequence_In l x : In x (sort_by_sequence l) <-> In x l.
Proof.
  unfold sort_by_sequence. induction l as [|i l IH]; cbn; [tauto|].
  rewrite insert_by_sequence_In, IH. split; intros [H|H]; auto.
Qed.


Lemma sort_by_sequence_sorted l : StronglySorted in_sequence (sort_by_sequence l).
Proof.
  unfold sort_by_sequence. induction l as [|i l IH]; cbn; [constructor|]. apply insert_by_sequence_sorted, IH.
Qed.

End ClientPredictionFacts.

Module Prediction.
Import ClientPrediction ClientPredictionBuffer ClientPredictionFacts.





(** X13 (client_prediction.cpp, StoreInput, GetInput, AcknowledgeInput): when the
    buffer is not full and no input of the history carries the next sequence
    number, StoreInput returns that number, the input (numbered, stamped
    with the clock, not acknowledged) is in the buffer under it and GetInput
    finds it; after AcknowledgeInput of that number the buffer no longer
    holds it, every other buffered input is untouched, and GetInput returns
    the input marked acknowledged. *)
Theorem StoreInput_then_AcknowledgeInput (now : Z) (input : InputState.t) (p : t) :
  (size (inputBuffer p) < 100)%nat ->
  Forall (fun i => InputState.sequenceNumber i <> nextSequenceNumber p) (inputHistory p) ->
  let numbered := InputState.set_numbering (nextSequenceNumber p) now input in
  let sequenceNumber := (StoreInput now input p).1 in
  let stored := (StoreInput now input p).2 in
  let acknowledged := AcknowledgeInput sequenceNumber stored in
  sequenceNumber = nextSequenceNumber p
  /\ nextSequenceNumber stored = u32 (nextSequenceNumber p + 1)
  /\ inputBuffer stored = <[sequenceNumber := BufferedInput.make numbered]> (inputBuffer p)
  /\ GetInput sequenceNumber stored = Some numbered
  /\ inputBuffer acknowledged = delete sequenceNumber (inputBuffer p)
  /\ GetInput sequenceNumber acknowledged
     = Some (InputState.set_acknowledged true numbered).
Proof.
  intros Hroom Hfresh numbered sequenceNumber stored acknowledged.
  assert (sequenceNumber = nextSequenceNumber p) as Hseq by reflexivity.
  assert (inputBuffer stored
          = <[nextSequenceNumber p := BufferedInput.make numbered]> (inputBuffer p)) as Hbuf.
  { subst stored. unfold StoreInput, BufferInput. cbn zeta.
    cbn [inputHistory nextSequenceNumber inputBuffer set_inputBuffer snd
         InputState.set_numbering InputState.sequenceNumber].
    fold numbered.
    pose proof (EnemyCapFacts.size_insert_le (inputBuffer p) (nextSequenceNumber p)
                  (BufferedInput.make numbered)) as Hle.
    assert ((MAX_INPUT_BUFFER_SIZE
             <? size (<[nextSequenceNumber p := BufferedInput.make numbered]> (inputBuffer p)))%nat
            = false) as -> by (apply Nat.ltb_ge; unfold MAX_INPUT_BUFFER_SIZE; lia).
    reflexivity. }
  assert (exists old, inputHistory stored = old ++ [numbered]
                      /\ Forall (fun i => InputState.sequenceNumber i <> nextSequenceNumber p) old)
    as (old & Hhist & Hold).
  { subst stored. unfold StoreInput, BufferInput. cbn zeta.
    cbn [inputHistory nextSequenceNumber inputBuffer set_inputBuffer snd]. fold numbered.
    set (k := (List.length (inputHistory p ++ [numbered]) - MAX_PREDICTION_HISTORY)%nat).
    assert (k <= List.length (inputHistory p))%nat as Hk
      by (subst k; rewrite length_app; cbn; unfold MAX_PREDICTION_HISTORY; lia).
    exists (skipn k (inputHistory p)). split.
    - rewrite skipn_app. replace (k - List.length (inputHistory p))%nat with 0%nat by lia.
      reflexivity.
    - apply Forall_drop. exact Hfresh. }
  assert (forall (l : list InputState.t) x (f : InputState.t -> bool),
            Forall (fun i => f i = false) l -> f x = true ->
            List.find f (l ++ [x]) = Some x) as Hfind.
  { intros l x f Hl Hx. induction Hl as [|a l Ha _ IH]; cbn; [rewrite Hx; reflexivity|].
    rewrite Ha. exact IH. }
  split; [exact Hseq|]. split; [reflexivity|]. split; [rewrite Hseq; exact Hbuf|].
  split.
  { unfold GetInput. rewrite Hhist, Hseq. apply Hfind.
    - eapply Forall_impl; [exact Hold|]. intros i Hi. apply N.eqb_neq. exact Hi.
    - apply N.eqb_refl. }
  split.
  { subst acknowledged. unfold AcknowledgeInput. cbn [inputBuffer]. rewrite Hbuf, Hseq.
    apply delete_insert_eq. }
  subst acknowledged. unfold GetInput, AcknowledgeInput. cbn [inputHistory].
  rewrite Hhist, Hseq.
  assert (mark_acknowledged (nextSequenceNumber p) (old ++ [numbered])
          = old ++ [InputState.set_acknowledged true numbered]) as ->.
  { clear Hhist. induction Hold as [|a l Ha _ IH]; cbn.
    - rewrite N.eqb_refl. reflexivity.
    - apply N.eqb_neq in Ha. rewrite Ha, IH. reflexivity. }
  apply Hfind.
  - eapply Forall_impl; [exact Hold|]. intros i Hi. apply N.eqb_neq. exact Hi.
  - apply N.eqb_refl.
Qed.

Lemma StoreInput_then_AcknowledgeInput_witness :
  let stored := (StoreInput 2000 ReconciliationFacts.forward_16ms make).2 in
  (StoreInput 2000 ReconciliationFacts.forward_16ms make).1 = 1%N
  /\ GetUnacknowledgedCount stored = 1%nat
  /\ GetUnacknowledgedCount (AcknowledgeInput 1 stored) = 0%nat
  /\ (InputState.acknowledged <$> GetInput 1 (AcknowledgeInput 1 stored)) = Some true.
Proof.
  intros stored.
  destruct (StoreInput_then_AcknowledgeInput 2000 ReconciliationFacts.forward_16ms make)
    as (H1 & _ & _ & _ & _ & H6).
  - vm_compute. lia.
  - constructor.
  - split; [exact H1|]. split; [vm_compute; reflexivity|].
    split; [vm_compute; reflexivity|].
    change (GetInput 1 (AcknowledgeInput 1 stored))
      with (GetInput (StoreInput 2000 ReconciliationFacts.forward_16ms make).1
              (AcknowledgeInput (StoreInput 2000 ReconciliationFacts.forward_16ms make).1
                 (StoreInput 2000 ReconciliationFacts.forward_16ms make).2)).
    rewrite H6. reflexivity.
Defined.

(** X14 (client_prediction.cpp, MarkInputsForReplay, GetInputsToReplay,
    ClearReplayFlags, GetUnacknowledgedInputs): after MarkInputsForReplay
    (fromSequence), GetInputsToReplay returns, in increasing sequence order,
    exactly the buffered inputs that were flagged before or whose sequence
    number is at least fromSequence; marking changes neither the buffered
    inputs nor what GetUnacknowledgedInputs returns; after ClearReplayFlags
    there is nothing to replay. *)
Theorem MarkInputsForReplay_selects_from_sequence (fromSequence : N) (p : t) :
  let marked := MarkInputsForReplay fromSequence p in
  (forall i, In i (GetInputsToReplay marked)
             <-> exists k b, inputBuffer p !! k = Some b
                             /\ BufferedInput.input b = i
                             /\ (BufferedInput.needsReplay b = true
                                 \/ (fromSequence <= InputState.sequenceNumber i)%N))
  /\ StronglySorted in_sequence (GetInputsToReplay marked)
  /\ GetUnacknowledgedInputs marked = GetUnacknowledgedInputs p
  /\ GetInputsToReplay (ClearReplayFlags marked) = [].
Proof.
  intros marked. split; [|split; [apply sort_by_sequence_sorted|split]].
  - intros i. unfold GetInputsToReplay. rewrite sort_by_sequence_In, in_map_iff. split.
    + intros ([k b'] & Hi & Hin). apply filter_In in Hin. destruct Hin as [Hin Hflag].
      apply list_elem_of_In, elem_of_map_to_list in Hin. cbn in Hi, Hflag.
      subst marked. unfold MarkInputsForReplay in Hin. cbn in Hin.
      rewrite lookup_fmap in Hin.
      destruct (inputBuffer p !! k) as [b|] eqn:Hk; [|discriminate].
      cbn in Hin. inversion Hin as [Hb']. clear Hin. exists k, b. split; [exact Hk|].
      destruct (fromSequence <=? _)%N eqn:E.
      * subst b'. cbn in Hi. subst i. split; [reflexivity|]. right. apply N.leb_le, E.
      * subst b'. split; [exact Hi|]. left. exact Hflag.
    + intros (k & b & Hk & Hi & Hwhy).
      set (b' := if (fromSequence <=? InputState.sequenceNumber (BufferedInput.input b))%N
                 then BufferedInput.set_needsReplay true b else b).
      exists (k, b'). split.
      * subst b'. cbn. destruct (_ <=? _)%N; exact Hi.
      * apply filter_In. split.
        -- apply list_elem_of_In, elem_of_map_to_list. subst marked.
           unfold MarkInputsForReplay. cbn. rewrite lookup_fmap, Hk. reflexivity.
        -- subst b'. cbn. destruct (_ <=? _)%N eqn:E; [reflexivity|].
           destruct Hwhy as [Hf|Hge]; [exact Hf|]. subst i.
           apply N.leb_le in Hge. congruence.
  - subst marked. unfold GetUnacknowledgedInputs, MarkInputsForReplay. cbn [inputBuffer set_inputBuffer].
    f_equal. rewrite map_to_list_fmap.
    induction (map_to_list (inputBuffer p)) as [|[k b] l IH]; [reflexivity|].
    cbn. destruct (_ <=? _)%N; cbn;
      (destruct (InputState.acknowledged (BufferedInput.input b)); cbn; rewrite <- IH; reflexivity).
  - apply ReconciliationFacts.GetInputsToReplay_nothing_flagged.
    intros k b Hk. cbn in Hk. rewrite lookup_fmap in Hk.
    destruct (_ !! k); [|discriminate]. inversion Hk. reflexivity.
Qed.

End Prediction.

(** ** The wire *)

Module WireFacts.
Import Wire NetworkUtils.

Lemma read_bool_write_bool (b : bool) (rest : data) :
  read_bool (write_bool b :: rest) = Some (b, rest).
Proof. destruct b; reflexivity. Qed.

Ltac read_back :=
  unfold mbind, mret, Reader_bind, Reader_ret, Wire.bind, Wire.ret;
  cbn [app read_u8 read_u32 read_i32 read_i64 read_f32 read_string];
  repeat (rewrite read_bool_write_bool;
          cbn [app read_u8 read_u32 read_i32 read_i64 read_f32 read_string]).

Lemma read_PlayerData_write (player : PlayerData.t) (rest : data) :
  read_PlayerData (write_PlayerData player ++ rest) = Some (player, rest).
Proof.
  unfold read_PlayerData, write_PlayerData. read_back. destruct player; reflexivity.
Qed.

Lemma read_EnemyData_write (enemy : EnemyData.t) (rest : data) :
  read_EnemyData (write_EnemyData enemy ++ rest) = Some (enemy, rest).
Proof.
  unfold read_EnemyData, write_EnemyData. read_back. destruct enemy; reflexivity.
Qed.

Lemma read_BulletData_write (bullet : BulletData.t) (rest : data) :
  read_BulletData (write_BulletData bullet ++ rest) = Some (bullet, rest).
Proof.
  unfold read_BulletData, write_BulletData. read_back. destruct bullet; reflexivity.
Qed.

Lemma read_n_written {A : Type} (r : Reader A) (w : A -> data) :
  (forall x rest, r (w x ++ rest) = Some (x, rest)) ->
  forall l rest,
    read_n (List.length l) r (List.concat (List.map w l) ++ rest) = Some (l, rest).
Proof.
  intros Hr l. induction l as [|x l IH]; intros rest; [reflexivity|].
  cbn [List.length read_n List.map List.concat]. unfold Wire.bind at 1.
  rewrite <- app_assoc, Hr. unfold Wire.bind at 1. rewrite IH. reflexivity.
Qed.

Lemma count_written (n : nat) :
  (N.of_nat n < UINT32_MOD)%N -> N.to_nat (u32 (N.of_nat n)) = n.
Proof. intros H. unfold u32. rewrite N.mod_small by exact H. lia. Qed.

End WireFacts.

Module WireProtocol.
Import Wire NetworkUtils.

(** X15 (network_messages.cpp, operator<< and operator>> of the messages):
    every message of fixed size that [operator<<] of network_messages.cpp
    writes is read back by its [operator>>] with the same type byte and the
    same field values, and the reader stops exactly where the message ends:
    writer and reader agree on the order and the types of the fields. *)
Theorem messages_read_back_as_written (rest : data) :
  (forall msg, read_JoinMessage (write_JoinMessage msg ++ rest)
               = Some ((NetMessageType.PLAYER_JOIN, msg), rest)) /\
  (forall msg, read_PlayerUpdateMessage (write_PlayerUpdateMessage msg ++ rest)
               = Some ((NetMessageType.PLAYER_UPDATE, msg), rest)) /\
  (forall msg, read_PlayerInputMessage (write_PlayerInputMessage msg ++ rest)
               = Some ((NetMessageType.PLAYER_INPUT, msg), rest)) /\
  (forall msg, read_PingMessage (write_PingMessage msg ++ rest)
               = Some ((NetMessageType.PING, msg), rest)) /\
  (forall msg, read_PongMessage (write_PongMessage msg ++ rest)
               = Some ((NetMessageType.PONG, msg), rest)) /\
  (forall msg, read_InputAcknowledgmentMessage (write_InputAcknowledgmentMessage msg ++ rest)
               = Some ((NetMessageType.INPUT_ACKNOWLEDGMENT, msg), rest)) /\
  (forall msg, read_BulletSpawnMessage (write_BulletSpawnMessage msg ++ rest)
               = Some ((NetMessageType.BULLET_SPAWN, msg), rest)) /\
  (forall msg, read_BulletDestroyMessage (write_BulletDestroyMessage msg ++ rest)
               = Some ((NetMessageType.BULLET_DESTROY, msg), rest)).
Proof.
  repeat split; intros msg.
  - unfold read_JoinMessage, write_JoinMessage. WireFacts.read_back.
    destruct msg; reflexivity.
  - unfold read_PlayerUpdateMessage, write_PlayerUpdateMessage. WireFacts.read_back.
    destruct msg; reflexivity.
  - unfold read_PlayerInputMessage, write_PlayerInputMessage. WireFacts.read_back.
    destruct msg; reflexivity.
  - unfold read_PingMessage, write_PingMessage. WireFacts.read_back.
    destruct msg; reflexivity.
  - unfold read_PongMessage, write_PongMessage. WireFacts.read_back.
    destruct msg; reflexivity.
  - unfold read_InputAcknowledgmentMessage, write_InputAcknowledgmentMessage.
    WireFacts.read_back. destruct msg; reflexivity.
  - unfold read_BulletSpawnMessage, write_BulletSpawnMessage. WireFacts.read_back.
    destruct msg; reflexivity.
  - unfold read_BulletDestroyMessage, write_BulletDestroyMessage. WireFacts.read_back.
    destruct msg; reflexivity.
Qed.

(** X16 (network_messages.cpp, operator<< and operator>> of GameStateMessage,
    PlayerData, EnemyData):
    a game state with fewer than 2^32 players and enemies is read back by
    [operator>>] as [operator<<] wrote it: the same players and enemies in the
    same order, with the counts equal to the lengths of the two lists, and
    nothing read beyond the message. *)
Theorem GameStateMessage_reads_back_as_written (msg : GameStateMessage.t) (rest : data) :
  (N.of_nat (List.length (GameStateMessage.players msg)) < UINT32_MOD)%N ->
  (N.of_nat (List.length (GameStateMessage.enemies msg)) < UINT32_MOD)%N ->
  read_GameStateMessage (write_GameStateMessage msg ++ rest)
  = Some ((NetMessageType.GAME_STATE,
           GameStateMessage.mk
             (N.of_nat (List.length (GameStateMessage.players msg)))
             (GameStateMessage.players msg)
             (N.of_nat (List.length (GameStateMessage.enemies msg)))
             (GameStateMessage.enemies msg)
             (GameStateMessage.timestamp msg)
             (GameStateMessage.sequenceNumber msg)
             (GameStateMessage.lastAckedInput msg)), rest).
Proof.
  intros Hp He.
  unfold read_GameStateMessage, write_GameStateMessage.
  unfold mbind, mret, Reader_bind, Reader_ret.
  cbn [app]. unfold Wire.bind at 1. cbn [read_u8].
  unfold Wire.bind at 1. cbn [read_u32].
  unfold Wire.bind at 1.
  rewrite (WireFacts.count_written _ Hp), <- !app_assoc.
  rewrite (WireFacts.read_n_written _ _ WireFacts.read_PlayerData_write).
  cbn [app]. unfold Wire.bind at 1. cbn [read_u32].
  unfold Wire.bind at 1.
  rewrite (WireFacts.count_written _ He), <- !app_assoc.
  rewrite (WireFacts.read_n_written _ _ WireFacts.read_EnemyData_write).
  unfold u32. rewrite !N.mod_small by assumption. reflexivity.
Qed.

Definition two_players_one_enemy : GameStateMessage.t :=
  GameStateMessage.mk 2
    [PlayerData.set_playerId 1 PlayerData.default;
     PlayerData.set_playerId 2 PlayerData.default]
    1 [EnemyData.mk 7 0 100 100 0 0 50 50] 1000 5 0.

Lemma GameStateMessage_reads_back_as_written_witness :
  read_GameStateMessage (write_GameStateMessage two_players_one_enemy ++ [U8 9])
  = Some ((NetMessageType.GAME_STATE, two_players_one_enemy), [U8 9%N]).
Proof.
  apply (GameStateMessage_reads_back_as_written two_players_one_enemy [U8 9%N]);
    vm_compute; reflexivity.
Defined.

End WireProtocol.

Module ClientServerFacts.
Import Wire GameServer.

Lemma sent_send (to : Endpoint) (p : Packet) (s : t) :
  sent (send to p s) = sent s ++ [(to, p)].
Proof. reflexivity. Qed.

Lemma AcknowledgeInput_lookup (n : N) (p : ClientPrediction.t) :
  ClientPrediction.inputBuffer (ClientPrediction.AcknowledgeInput n p) !! n = None.
Proof.
  unfold ClientPrediction.AcknowledgeInput. cbn. apply lookup_delete_eq.
Qed.

End ClientServerFacts.

Module ClientServer.
Import Wire GameServer.

Section Exchange.
Variable HandleBulletSpawn : Z -> BulletSpawnMessage.t -> Endpoint -> t -> t.
Variable HandlePing : PingMessage.t -> Endpoint -> t -> t.
Variable OnPong : Z -> data -> NetworkClientLink.t -> NetworkClientLink.t.
Variable OnBulletUpdate : data -> NetworkClientLink.t -> NetworkClientLink.t.
Variable OnBulletDestroy : data -> NetworkClientLink.t -> NetworkClientLink.t.

(** X17 (network_client.cpp, SendJoinRequest, SendPlayerUpdate,
    SendInputWithSequence; game_server.cpp, ProcessPacket):
    the packets a connected client with an assigned id builds for a join, a
    player update and a sequenced input are parsed by the server's
    [ProcessPacket] into the message with the values the client wrote, and
    handed to [HandleJoinRequest], [HandlePlayerUpdate] and
    [HandlePlayerInput]: the two sides agree on the three layouts, and the
    update carries the clamped position and the normalised rotations. *)
Theorem server_parses_what_the_client_sends
  (now : Z) (from : Endpoint) (s : t) (l : NetworkClientLink.t) :
  NetworkClient.isConnected (NetworkClientLink.client l) = true ->
  NetworkClient.localPlayerId (NetworkClientLink.client l) <> 0%N ->
  (NetworkClientLink.updateRate <= NetworkClientLink.updateTimer l)%Q ->
  let playerId := NetworkClient.localPlayerId (NetworkClientLink.client l) in
  (forall sentAt playerName preferredColor,
     exists packet,
       NetworkClientLink.outbox
         (NetworkClientLink.SendJoinRequest SocketStatus.Done sentAt playerName
            preferredColor l).1
       = NetworkClientLink.outbox l ++ [packet]
       /\ GameServerWire.ProcessPacket HandleBulletSpawn HandlePing now packet from s
          = HandleJoinRequest now
              (JoinMessage.mk playerName preferredColor sentAt
                 (NetworkClientLink.outgoingSequenceNumber l)) from s)
  /\ (forall sentAt localPlayer forward backward left right,
     exists packet,
       NetworkClientLink.outbox
         (NetworkClientLink.SendPlayerUpdate SocketStatus.Done sentAt localPlayer
            forward backward left right l)
       = NetworkClientLink.outbox l ++ [packet]
       /\ GameServerWire.ProcessPacket HandleBulletSpawn HandlePing now packet from s
          = HandlePlayerUpdate now
              (PlayerUpdateMessage.mk playerId
                 (NetworkValidation.ClampPositionX (Tank.position localPlayer).1)
                 (NetworkValidation.ClampPositionY (Tank.position localPlayer).2)
                 (NetworkValidation.NormalizeRotation (Tank.bodyRotation localPlayer))
                 (NetworkValidation.NormalizeRotation (Tank.barrelRotation localPlayer))
                 forward backward left right sentAt
                 (NetworkClientLink.outgoingSequenceNumber l)) from s)
  /\ (forall sequenceNumber input barrelRotation,
     exists packet,
       NetworkClientLink.outbox
         (NetworkClientLink.SendInputWithSequence SocketStatus.Done sequenceNumber input
            barrelRotation l)
       = NetworkClientLink.outbox l ++ [packet]
       /\ GameServerWire.ProcessPacket HandleBulletSpawn HandlePing now packet from s
          = HandlePlayerInput now
              (PlayerInputMessage.mk playerId
                 (InputState.moveForward input) (InputState.moveBackward input)
                 (InputState.turnLeft input) (InputState.turnRight input)
                 barrelRotation (InputState.timestamp input) sequenceNumber) from s).
Proof.
  intros Hconn Hid Hrate playerId.
  apply N.eqb_neq in Hid. apply Qltb_ge in Hrate.
  split; [|split].
  - intros sentAt playerName preferredColor. eexists. split; [reflexivity|].
    reflexivity.
  - intros sentAt localPlayer forward backward left right.
    unfold NetworkClientLink.SendPlayerUpdate. rewrite Hconn, Hid, Hrate. cbn [negb orb].
    eexists. split; [reflexivity|].
    unfold GameServerWire.ProcessPacket. cbn [read_u8 N.eqb Pos.eqb
      NetMessageType.PLAYER_JOIN NetMessageType.PLAYER_UPDATE].
    WireFacts.read_back. reflexivity.
  - intros sequenceNumber input barrelRotation.
    unfold NetworkClientLink.SendInputWithSequence. rewrite Hconn. cbn [negb].
    eexists. split; [reflexivity|].
    unfold GameServerWire.ProcessPacket. cbn [read_u8 N.eqb Pos.eqb
      NetMessageType.PLAYER_JOIN NetMessageType.PLAYER_UPDATE NetMessageType.PLAYER_INPUT].
    WireFacts.read_back. reflexivity.
Qed.

(** X18 (network_client.cpp, SendPlayerInput; game_server.cpp, ProcessPacket):
    [SendPlayerInput] writes no barrel rotation, which the server's
    [ProcessPacket] reads as the last field of a PLAYER_INPUT: the packet is
    counted and tracked by the client as sent, and the server drops it
    without changing anything, whoever sent it and whatever its state. *)
Theorem SendPlayerInput_packet_is_dropped_by_the_server
  (sentAt : Z) (forward backward left right : bool) (l : NetworkClientLink.t) :
  NetworkClient.isConnected (NetworkClientLink.client l) = true ->
  NetworkClient.localPlayerId (NetworkClientLink.client l) <> 0%N ->
  (NetworkClientLink.updateRate <= NetworkClientLink.updateTimer l)%Q ->
  let l' := NetworkClientLink.SendPlayerInput SocketStatus.Done sentAt
              forward backward left right l in
  exists packet,
    NetworkClientLink.outbox l' = NetworkClientLink.outbox l ++ [packet]
    /\ NetworkClientLink.totalPacketsSent l'
       = u32 (NetworkClientLink.totalPacketsSent l + 1)
    /\ In (NetworkClientLink.outgoingSequenceNumber l, sentAt)
          (NetworkClientLink.sentPackets l')
    /\ forall now from s,
         GameServerWire.ProcessPacket HandleBulletSpawn HandlePing now packet from s = s.
Proof.
  intros Hconn Hid Hrate l'. subst l'.
  apply N.eqb_neq in Hid. apply Qltb_ge in Hrate.
  unfold NetworkClientLink.SendPlayerInput. rewrite Hconn, Hid, Hrate. cbn [negb orb].
  eexists. split; [reflexivity|]. split; [reflexivity|]. split.
  - cbn [NetworkClientLink.sentPackets NetworkClientLink.reset_updateTimer
         NetworkClientLink.send NetworkClientLink.track NetworkClientLink.next_sequence
         NetworkClientLink.outgoingSequenceNumber].
    destruct (NetworkClientLink.sentPackets l) as [|x xs].
    + left; reflexivity.
    + destruct (_ <? _)%nat; cbn [List.tl app].
      * apply in_or_app. right. left. reflexivity.
      * right. apply in_or_app. right. left. reflexivity.
  - intros now from s.
    unfold GameServerWire.ProcessPacket. cbn [read_u8 N.eqb Pos.eqb
      NetMessageType.PLAYER_JOIN NetMessageType.PLAYER_UPDATE NetMessageType.PLAYER_INPUT].
    WireFacts.read_back. reflexivity.
Qed.

(** X19 (client_prediction.cpp, StoreInput; network_client.cpp,
    SendInputWithSequence, ProcessPacket, HandleInputAcknowledgment;
    game_server.cpp, ProcessPacket, HandlePlayerInput):
    a predicted input whose barrel rotation passes [IsValidRotation]
    (between -360 and 720, as every angle the client computes with atan2 is)
    makes the whole round: the client stores it and sends it with its
    sequence number, the server (which knows the client under its id and
    address) answers with an acknowledgment of that number and remembers it
    as the last acknowledged, and the client, on reading the answer, drops
    the input from its buffer and advances its own last acknowledged number.
    Without the bound on the rotation the server's normalising loops need
    not return (C7), and then no acknowledgment is sent. *)
Theorem predicted_input_is_acknowledged_over_the_wire
  (storedAt receivedAt ackedAt : Z) (input : InputState.t) (barrelRotation : Q)
  (s : t) (l : NetworkClientLink.t) (c : ClientInfo.t) :
  NetworkClient.isConnected (NetworkClientLink.client l) = true ->
  NetworkValidation.IsValidPlayerId
    (NetworkClient.localPlayerId (NetworkClientLink.client l)) = true ->
  NetworkValidation.IsValidRotation barrelRotation = true ->
  clients s !! NetworkClient.localPlayerId (NetworkClientLink.client l) = Some c ->
  let playerId := NetworkClient.localPlayerId (NetworkClientLink.client l) in
  let stored :=
    ClientPrediction.StoreInput storedAt input
      (NetworkClient.prediction (NetworkClientLink.client l)) in
  let l1 :=
    NetworkClientLink.SendInputWithSequence SocketStatus.Done stored.1 input barrelRotation
      (NetworkClientLink.set_client
         (NetworkClient.set_prediction stored.2 (NetworkClientLink.client l)) l) in
  exists packet ack,
    NetworkClientLink.outbox l1 = NetworkClientLink.outbox l ++ [packet]
    /\ let s1 := GameServerWire.ProcessPacket HandleBulletSpawn HandlePing receivedAt
                   packet (ClientInfo.address c) s in
       sent s1 = sent s ++ [(ClientInfo.address c, ack)]
       /\ ClientInfo.lastAcknowledgedInputSeq <$> clients s1 !! playerId = Some stored.1
       /\ let l2 := NetworkClientLink.ProcessPacket OnPong OnBulletUpdate OnBulletDestroy
                      ackedAt (GameServerWire.wire ack) l1 in
          ClientPrediction.inputBuffer
            (NetworkClient.prediction (NetworkClientLink.client l2)) !! stored.1 = None
          /\ NetworkClient.lastAcknowledgedInputSeq (NetworkClientLink.client l2)
             = N.max (NetworkClient.lastAcknowledgedInputSeq (NetworkClientLink.client l))
                     stored.1.
Proof.
  intros Hconn Hid Hrot Hc playerId stored l1.
  set (msg := PlayerInputMessage.mk playerId
                (InputState.moveForward input) (InputState.moveBackward input)
                (InputState.turnLeft input) (InputState.turnRight input)
                barrelRotation (InputState.timestamp input) stored.1).
  assert (Haddr : Endpoint_eqb (ClientInfo.address c) (ClientInfo.address c) = true)
    by (apply ServerRunFacts.Endpoint_eqb_eq; reflexivity).
  destruct (HandlerFacts.HandlePlayerInput_known_sender receivedAt msg
              (ClientInfo.address c) s c Hid Hc Haddr) as (Hcl & Hsent & _).
  subst l1. unfold NetworkClientLink.SendInputWithSequence.
  cbn [NetworkClientLink.client NetworkClientLink.set_client NetworkClient.isConnected
       NetworkClient.set_prediction NetworkClient.localPlayerId].
  rewrite Hconn. cbn [negb].
  eexists. exists (INPUT_ACKNOWLEDGMENT playerId stored.1 receivedAt).
  split; [reflexivity|].
  assert (Hrecv : forall rest,
            GameServerWire.ProcessPacket HandleBulletSpawn HandlePing receivedAt
              ([U8 NetMessageType.PLAYER_INPUT; U32 playerId;
                write_bool (InputState.moveForward input);
                write_bool (InputState.moveBackward input);
                write_bool (InputState.turnLeft input);
                write_bool (InputState.turnRight input);
                I64 (InputState.timestamp input); U32 stored.1; F32 barrelRotation] ++ rest)
              (ClientInfo.address c) s
            = HandlePlayerInput receivedAt msg (ClientInfo.address c) s).
  { intros rest. unfold GameServerWire.ProcessPacket.
    cbn [app read_u8 N.eqb Pos.eqb
      NetMessageType.PLAYER_JOIN NetMessageType.PLAYER_UPDATE NetMessageType.PLAYER_INPUT].
    WireFacts.read_back. reflexivity. }
  specialize (Hrecv []). cbn [app] in Hrecv.
  cbv zeta. fold playerId. rewrite Hrecv.
  split; [exact Hsent|]. split.
  { rewrite Hcl. cbn [PlayerInputMessage.playerId msg]. rewrite lookup_insert_eq.
    reflexivity. }
  unfold NetworkClientLink.ProcessPacket.
  cbn [GameServerWire.wire read_u8 N.eqb Pos.eqb NetMessageType.GAME_STATE
       NetMessageType.PLAYER_ID_ASSIGNMENT NetMessageType.PONG NetMessageType.BULLET_UPDATE
       NetMessageType.BULLET_DESTROY NetMessageType.INPUT_ACKNOWLEDGMENT].
  WireFacts.read_back.
  unfold NetworkClientLink.HandleInputAcknowledgment.
  cbn [InputAcknowledgmentMessage.playerId InputAcknowledgmentMessage.acknowledgedSequence
       NetworkClientLink.client NetworkClientLink.send NetworkClientLink.track
       NetworkClient.localPlayerId NetworkClient.prediction
       NetworkClient.lastAcknowledgedInputSeq].
  fold playerId. rewrite N.eqb_refl. cbn [negb].
  destruct (_ <? _)%N eqn:E;
    cbn [NetworkClientLink.client NetworkClientLink.set_client
         NetworkClientLink.set_lastInputAckTime
         NetworkClientLink.set_lastAcknowledgedInputSeq NetworkClient.prediction
         NetworkClient.set_prediction NetworkClient.lastAcknowledgedInputSeq].
  - split; [apply ClientServerFacts.AcknowledgeInput_lookup|].
    apply N.ltb_lt in E. cbn [NetworkClient.lastAcknowledgedInputSeq NetworkClientLink.client
      NetworkClientLink.set_client NetworkClient.set_prediction] in E. lia.
  - split; [apply ClientServerFacts.AcknowledgeInput_lookup|].
    apply N.ltb_ge in E. cbn [NetworkClient.lastAcknowledgedInputSeq NetworkClientLink.client
      NetworkClientLink.set_client NetworkClient.set_prediction] in E. lia.
Qed.

End Exchange.

(** Ada's client after her join: connected, with the id 1 the server gave
    her, and due for an update. *)
Definition ada_link : NetworkClientLink.t :=
  NetworkClientLink.mk
    (NetworkClient.mk true 1 ClientPrediction.make true (0, 0)%Q 0%Q false (0, 0)%Q 0%Q
       false 0)
    2 [(1%N, 1000)] 1 0 (1 # 50)%Q 0 [] ServerView.make.

Definition forward_key : InputState.t :=
  InputState.mk 0 1050 true false false false (16 # 1000)%Q false 0.

Definition ignore_bullet_spawn (_ : Z) (_ : BulletSpawnMessage.t) (_ : Endpoint) (s : t)
  : t := s.
Definition ignore_ping (_ : PingMessage.t) (_ : Endpoint) (s : t) : t := s.
Definition ignore_timed (_ : Z) (_ : data) (l : NetworkClientLink.t)
  : NetworkClientLink.t := l.
Definition ignore_untimed (_ : data) (l : NetworkClientLink.t) : NetworkClientLink.t := l.

Lemma server_parses_what_the_client_sends_witness :
  exists packet,
    NetworkClientLink.outbox
      (NetworkClientLink.SendInputWithSequence SocketStatus.Done 1 forward_key 45%Q ada_link)
    = [packet]
    /\ GameServerWire.ProcessPacket ignore_bullet_spawn ignore_ping 1100 packet Scenario.ada
         EnemyCapFacts.joined
       = HandlePlayerInput 1100
           (PlayerInputMessage.mk 1 true false false false 45%Q 1050 1) Scenario.ada
           EnemyCapFacts.joined.
Proof.
  refine (proj2 (proj2 (server_parses_what_the_client_sends ignore_bullet_spawn
                          ignore_ping 1100 Scenario.ada EnemyCapFacts.joined ada_link
                          _ _ _)) 1%N forward_key 45%Q).
  - reflexivity.
  - discriminate.
  - vm_compute. discriminate.
Defined.

Lemma SendPlayerInput_packet_is_dropped_by_the_server_witness :
  exists packet,
    NetworkClientLink.outbox
      (NetworkClientLink.SendPlayerInput SocketStatus.Done 1050 true false false false
         ada_link)
    = [packet]
    /\ NetworkClientLink.totalPacketsSent
         (NetworkClientLink.SendPlayerInput SocketStatus.Done 1050 true false false false
            ada_link) = 2%N
    /\ In (2%N, 1050)
          (NetworkClientLink.sentPackets
             (NetworkClientLink.SendPlayerInput SocketStatus.Done 1050 true false false
                false ada_link))
    /\ forall now from s,
         GameServerWire.ProcessPacket ignore_bullet_spawn ignore_ping now packet from s = s.
Proof.
  refine (SendPlayerInput_packet_is_dropped_by_the_server ignore_bullet_spawn ignore_ping
            1050 true false false false ada_link _ _ _).
  - reflexivity.
  - discriminate.
  - vm_compute. discriminate.
Defined.

Lemma predicted_input_is_acknowledged_over_the_wire_witness :
  exists packet ack,
    NetworkClientLink.outbox
      (NetworkClientLink.SendInputWithSequence SocketStatus.Done 1 forward_key 45%Q
         (NetworkClientLink.set_client
            (NetworkClient.set_prediction
               (ClientPrediction.StoreInput 1050 forward_key ClientPrediction.make).2
               (NetworkClientLink.client ada_link)) ada_link))
    = [packet]
    /\ sent (GameServerWire.ProcessPacket ignore_bullet_spawn ignore_ping 1100 packet
               Scenario.ada EnemyCapFacts.joined)
       = sent EnemyCapFacts.joined ++ [(Scenario.ada, ack)]
    /\ ClientInfo.lastAcknowledgedInputSeq <$>
         clients (GameServerWire.ProcessPacket ignore_bullet_spawn ignore_ping 1100 packet
                    Scenario.ada EnemyCapFacts.joined) !! 1%N = Some 1%N
    /\ ClientPrediction.inputBuffer
         (NetworkClient.prediction
            (NetworkClientLink.client
               (NetworkClientLink.ProcessPacket ignore_timed ignore_untimed
                  ignore_untimed 1150 (GameServerWire.wire ack)
                  (NetworkClientLink.SendInputWithSequence SocketStatus.Done 1 forward_key
                     45%Q
                     (NetworkClientLink.set_client
                        (NetworkClient.set_prediction
                           (ClientPrediction.StoreInput 1050 forward_key
                              ClientPrediction.make).2
                           (NetworkClientLink.client ada_link)) ada_link))))) !! 1%N = None
    /\ NetworkClient.lastAcknowledgedInputSeq
         (NetworkClientLink.client
            (NetworkClientLink.ProcessPacket ignore_timed ignore_untimed
               ignore_untimed 1150 (GameServerWire.wire ack)
               (NetworkClientLink.SendInputWithSequence SocketStatus.Done 1 forward_key
                  45%Q
                  (NetworkClientLink.set_client
                     (NetworkClient.set_prediction
                        (ClientPrediction.StoreInput 1050 forward_key
                           ClientPrediction.make).2
                        (NetworkClientLink.client ada_link)) ada_link)))) = 1%N.
Proof.
  refine (predicted_input_is_acknowledged_over_the_wire ignore_bullet_spawn ignore_ping
            ignore_timed ignore_untimed ignore_untimed
            1050 1100 1150 forward_key 45%Q EnemyCapFacts.joined ada_link
            (ada_on EnemyCapFacts.joined) _ _ _ _).
  - reflexivity.
  - reflexivity.
  - reflexivity.
  - vm_compute. reflexivity.
Defined.

End ClientServer.

(** ** Reading the snapshot buffer *)

Module InterpolationFacts.
Import EntityInterpolationBuffer EntityInterpolation.

(** *** The shorter way between two angles *)

Section Angles.
Local Open Scope Q_scope.

Lemma while_above_180_returns (n : nat) : forall d : Q,
  d <= 180 + 360 * inject_Z (Z.of_nat n) ->
  exists v : Q, while_above_180 (S n) d = Some v
    /\ v <= 180 /\ (180 < d -> -180 < v) /\ (d <= 180 -> v = d)
    /\ exists k : Z, v == d + 360 * inject_Z k.
Proof.
  induction n as [|n IH]; intros d Hd.
  - change (inject_Z (Z.of_nat 0)) with 0 in Hd.
    assert (d <= 180) as H0 by lra.
    exists d. simpl. unfold Qgtb. rewrite (proj2 (Qle_bool_iff d 180) H0). simpl.
    repeat split; try lra; try reflexivity.
    exists 0%Z. change (inject_Z 0) with 0. lra.
  - change (while_above_180 (S (S n)) d)
      with (if Qgtb d 180 then while_above_180 (S n) (d - 360) else Some d).
    unfold Qgtb. destruct (Qle_bool d 180) eqn:E; simpl.
    + apply Qle_bool_iff in E. exists d.
      repeat split; try lra; try reflexivity.
      exists 0%Z. change (inject_Z 0) with 0. lra.
    + assert (180 < d) as Hgt.
      { destruct (Qlt_le_dec 180 d) as [H|H]; [exact H|].
        apply Qle_bool_iff in H. congruence. }
      rewrite NetworkValidationFacts.inject_Z_succ in Hd.
      destruct (IH (d - 360)) as (v & Hv & Hle & Hlt & Heq & k & Hk); [lra|].
      exists v. split; [exact Hv|]. split; [exact Hle|]. split.
      * intros _. destruct (Qlt_le_dec 180 (d - 360)) as [Hb|Hs].
        -- auto.
        -- rewrite (Heq Hs). lra.
      * split; [intros; lra|].
        exists (k + -1)%Z. rewrite inject_Z_plus, Hk. change (inject_Z (-1)) with (-1). lra.
Qed.

Lemma while_below_minus_180_returns (n : nat) : forall d : Q,
  -180 - 360 * inject_Z (Z.of_nat n) <= d -> d <= 180 ->
  exists v : Q, while_below_minus_180 (S n) d = Some v
    /\ -180 <= v /\ v <= 180 /\ (-180 <= d -> v = d)
    /\ exists k : Z, v == d + 360 * inject_Z k.
Proof.
  induction n as [|n IH]; intros d Hd Hu.
  - change (inject_Z (Z.of_nat 0)) with 0 in Hd.
    assert (-180 <= d) as H0 by lra.
    exists d. simpl. apply Qltb_ge in H0. rewrite H0. apply Qltb_ge in H0.
    repeat split; try lra; try reflexivity.
    exists 0%Z. change (inject_Z 0) with 0. lra.
  - change (while_below_minus_180 (S (S n)) d)
      with (if Qltb d (-180) then while_below_minus_180 (S n) (d + 360) else Some d).
    destruct (Qltb d (-180)) eqn:E.
    + apply Qltb_lt in E. rewrite NetworkValidationFacts.inject_Z_succ in Hd.
      destruct (IH (d + 360)) as (v & Hv & Hl & Hle & Heq & k & Hk); [lra|lra|].
      exists v. split; [exact Hv|]. split; [exact Hl|]. split; [exact Hle|].
      split; [intros; lra|].
      exists (k + 1)%Z. rewrite inject_Z_plus, Hk. change (inject_Z 1) with 1. lra.
    + apply Qltb_ge in E. exists d.
      repeat split; try lra; try reflexivity.
      exists 0%Z. change (inject_Z 0) with 0. lra.
Qed.

(** The two loops end within the fuel, on a difference in [-180, 180] that
    is the given one up to whole turns. *)
Lemma shortest_path_enough_fuel (diff : Q) :
  exists d, shortest_path_fuel (path_fuel diff) diff = Some d
    /\ -180 <= d /\ d <= 180
    /\ (-180 <= diff -> diff <= 180 -> d = diff)
    /\ exists k : Z, d == diff + 360 * inject_Z k.
Proof.
  unfold shortest_path_fuel, path_fuel.
  set (n := Z.to_nat (Z.abs (Qfloor (diff / 360)))).
  destruct (NetworkValidationFacts.floor_bounds diff) as [Fl Fu].
  assert (inject_Z (Z.of_nat n) = inject_Z (Z.abs (Qfloor (diff / 360)))) as En
    by apply NetworkValidationFacts.abs_floor_nat.
  assert (- inject_Z (Z.of_nat n) <= inject_Z (Qfloor (diff / 360))
          /\ inject_Z (Qfloor (diff / 360)) <= inject_Z (Z.of_nat n)) as [Ha Hb].
  { rewrite En. rewrite <- inject_Z_opp. rewrite <- !Zle_Qle. lia. }
  pose proof (NetworkValidationFacts.inject_Z_succ n) as Hs.
  destruct (while_above_180_returns (S n) diff) as (v1 & Hv1 & H1le & H1gt & H1eq & k1 & Hk1);
    [lra|].
  rewrite Hv1.
  assert (-180 - 360 * inject_Z (Z.of_nat (S n)) <= v1) as Hlow.
  { destruct (Qlt_le_dec 180 diff) as [Hb1|Hs1].
    - specialize (H1gt Hb1).
      assert (0 <= inject_Z (Z.of_nat (S n))).
      { change 0 with (inject_Z 0). rewrite <- Zle_Qle. lia. }
      lra.
    - rewrite (H1eq Hs1). lra. }
  destruct (while_below_minus_180_returns (S n) v1 Hlow H1le)
    as (v & Hv & Hvl & Hvu & Hveq & k2 & Hk2).
  exists v. split; [exact Hv|]. split; [exact Hvl|]. split; [exact Hvu|]. split.
  - intros H0 H1. rewrite (Hveq ltac:(rewrite (H1eq H1); exact H0)). apply H1eq, H1.
  - exists (k1 + k2)%Z. rewrite inject_Z_plus, Hk2, Hk1. lra.
Qed.

Lemma shortest_path_range (diff : Q) :
  -180 <= shortest_path diff /\ shortest_path diff <= 180
  /\ exists k : Z, shortest_path diff == diff + 360 * inject_Z k.
Proof.
  unfold shortest_path.
  destruct (shortest_path_enough_fuel diff) as (d & -> & H0 & H1 & _ & Hk). auto.
Qed.

Lemma NormalizeRotation_turns (r b : Q) (k : Z) :
  0 <= b -> b < 360 -> r == b + 360 * inject_Z k ->
  NetworkValidation.NormalizeRotation r == b.
Proof.
  intros H0 H1 Hr. rewrite NetworkValidationFacts.NormalizeRotation_floor.
  assert (Qfloor (r / 360) = k) as ->.
  { apply NetworkValidationFacts.floor_unique.
    - apply Qle_shift_div_l; lra.
    - apply Qlt_shift_div_r; lra. }
  lra.
Qed.

End Angles.

(** *** The cached index *)

(** The cached index points into the buffer, or is 0. *)
Definition cache_ok (b : EntityInterpolationBuffer.t) : Prop :=
  (cachedSearchIdx b = 0 \/ cachedSearchIdx b < List.length (snapshots b))%nat.

Lemma enforce_max_size_cache (l : list EntitySnapshot.t) (idx : nat) :
  (idx = 0 \/ idx < List.length l)%nat ->
  ((enforce_max_size l idx).2 = 0
   \/ (enforce_max_size l idx).2 < List.length (enforce_max_size l idx).1)%nat.
Proof.
  revert idx. induction l as [|a l IH]; intros idx H.
  - simpl in *. destruct H; [left; assumption|lia].
  - cbn [enforce_max_size]. destruct (MAX_BUFFER_SIZE <? List.length (a :: l))%nat.
    + apply IH. destruct idx; [left; reflexivity|]. right. simpl in *. lia.
    + exact H.
Qed.

Lemma drop_old_cache (cutoff : Z) (l : list EntitySnapshot.t) (idx : nat) :
  (idx = 0 \/ idx < List.length l)%nat ->
  ((drop_old cutoff l idx).2 = 0
   \/ (drop_old cutoff l idx).2 < List.length (drop_old cutoff l idx).1)%nat.
Proof.
  revert idx. induction l as [|a l IH]; intros idx H.
  - simpl in *. destruct H; [left; assumption|lia].
  - cbn [drop_old].
    destruct ((2 <? List.length (a :: l))%nat && (EntitySnapshot.timestamp a <? cutoff)).
    + apply IH. destruct idx; [left; reflexivity|]. right. simpl in *. lia.
    + exact H.
Qed.

Lemma place_length (s : EntitySnapshot.t) (l : list EntitySnapshot.t) :
  (List.length l <= List.length (place s l))%nat.
Proof.
  unfold place. destruct (last l) as [back|].
  - destruct (_ >=? _).
    + rewrite length_app. lia.
    + destruct (l !! lower_bound (EntitySnapshot.timestamp s) l) as [found|] eqn:E.
      * apply lookup_lt_Some in E.
        destruct (_ =? _); unfold assign_at, insert_at;
          rewrite length_app, length_take; cbn [List.length]; rewrite length_drop; lia.
      * unfold insert_at. rewrite length_app, length_take. cbn [List.length].
        rewrite length_drop. lia.
  - rewrite length_app. lia.
Qed.

Section Cache.
Variable CalculateVelocity : EntitySnapshot.t -> EntitySnapshot.t -> Q * Q.
Variable CalculateAngularVelocity : EntitySnapshot.t -> EntitySnapshot.t -> Q.

Lemma AddSnapshot_cache (s : EntitySnapshot.t) (b : EntityInterpolationBuffer.t) :
  cache_ok b -> cache_ok (AddSnapshot CalculateVelocity CalculateAngularVelocity s b).
Proof.
  unfold cache_ok, AddSnapshot. intros H.
  set (l := place _ _).
  assert (cachedSearchIdx b = 0 \/ cachedSearchIdx b < List.length l)%nat as Hl.
  { pose proof (place_length (with_velocity CalculateVelocity CalculateAngularVelocity s
                                (snapshots b)) (snapshots b)).
    subst l. lia. }
  pose proof (enforce_max_size_cache l (cachedSearchIdx b) Hl) as He.
  destruct (enforce_max_size l (cachedSearchIdx b)) as [l' idx]. exact He.
Qed.

Lemma CleanupOldSnapshots_cache (now : Z) (b : EntityInterpolationBuffer.t) :
  cache_ok b -> cache_ok (CleanupOldSnapshots now b).
Proof.
  unfold cache_ok, CleanupOldSnapshots. intros H.
  match goal with |- context [drop_old ?c ?l ?i] =>
    pose proof (drop_old_cache c l i H) as He; destruct (drop_old c l i) as [l' idx] end.
  exact He.
Qed.

End Cache.

Lemma brackets_pair (renderTime : Z) (l : list EntitySnapshot.t) (i : nat) :
  brackets renderTime l i = true ->
  exists before after,
    l !! i = Some before /\ l !! S i = Some after
    /\ pair_at l i = Some (before, after)
    /\ EntitySnapshot.timestamp before <= renderTime < EntitySnapshot.timestamp after.
Proof.
  unfold brackets, pair_at. intros H.
  destruct (l !! i) as [a|]; [|discriminate].
  destruct (l !! S i) as [b|]; [|discriminate].
  apply andb_true_iff in H. destruct H as [H1 H2].
  apply Z.leb_le in H1. apply Z.ltb_lt in H2.
  exists a, b. auto.
Qed.

Lemma FindSnapshotsForInterpolation_cache (renderTime : Z)
  (b : EntityInterpolationBuffer.t) :
  cache_ok b -> cache_ok (FindSnapshotsForInterpolation renderTime b).2.
Proof.
  intros H. unfold FindSnapshotsForInterpolation.
  destruct (List.length (snapshots b) <? 2)%nat eqn:En; [exact H|].
  apply Nat.ltb_ge in En.
  destruct (_ && _); [exact H|].
  destruct (List.find _ (forward_indices _ _)) as [i|] eqn:Ef.
  { apply find_some in Ef. destruct Ef as [_ Ef].
    apply brackets_pair in Ef. destruct Ef as (x & y & Hx & _).
    apply lookup_lt_Some in Hx. right. exact Hx. }
  destruct (List.find _ (backward_indices _ _)) as [i|] eqn:Eb.
  { apply find_some in Eb. destruct Eb as [_ Eb].
    apply brackets_pair in Eb. destruct Eb as (x & y & Hx & _).
    apply lookup_lt_Some in Hx. right. exact Hx. }
  destruct (snapshots b) as [|front rest] eqn:El; [exact H|].
  destruct (_ <? _).
  - left. reflexivity.
  - right. cbn [snd cachedSearchIdx snapshots]. lia.
Qed.

(** Some neighbours bracket a time between the first and the last timestamp. *)
Lemma bracket_exists (renderTime : Z) (l : list EntitySnapshot.t)
  (front back : EntitySnapshot.t) :
  head l = Some front -> last l = Some back ->
  EntitySnapshot.timestamp front <= renderTime < EntitySnapshot.timestamp back ->
  exists i, brackets renderTime l i = true.
Proof.
  revert front. induction l as [|a l IH]; intros front Hh Hl Hr; [discriminate|].
  injection Hh as ->.
  destruct l as [|b rest].
  - injection Hl as ->. lia.
  - destruct (Z.ltb_spec renderTime (EntitySnapshot.timestamp b)) as [Hlt|Hge].
    + exists 0%nat. unfold brackets. cbn.
      apply andb_true_iff. split; [apply Z.leb_le; lia|apply Z.ltb_lt; exact Hlt].
    + destruct (IH b) as [i Hi]; [reflexivity| |lia|].
      { rewrite last_cons in Hl. destruct (last (b :: rest)) eqn:E; [exact Hl|].
        apply last_None in E. discriminate. }
      exists (S i). unfold brackets in *. exact Hi.
Qed.

(** With the cached index in the buffer, the search visits every index. *)
Lemma FindSnapshotsForInterpolation_brackets (renderTime : Z)
  (b : EntityInterpolationBuffer.t) (front back : EntitySnapshot.t) :
  cache_ok b ->
  head (snapshots b) = Some front -> last (snapshots b) = Some back ->
  EntitySnapshot.timestamp front <= renderTime < EntitySnapshot.timestamp back ->
  exists i before after,
    snapshots b !! i = Some before /\ snapshots b !! S i = Some after
    /\ EntitySnapshot.timestamp before <= renderTime < EntitySnapshot.timestamp after
    /\ (FindSnapshotsForInterpolation renderTime b).1 = Some (before, after)
    /\ snapshots (FindSnapshotsForInterpolation renderTime b).2 = snapshots b.
Proof.
  intros Hc Hh Hl Hr. unfold cache_ok in Hc.
  destruct (bracket_exists renderTime (snapshots b) front back Hh Hl Hr) as [j Hj].
  assert (Hjn : (S j < List.length (snapshots b))%nat).
  { apply brackets_pair in Hj. destruct Hj as (x & y & _ & Hy & _).
    apply lookup_lt_Some in Hy. exact Hy. }
  unfold FindSnapshotsForInterpolation.
  destruct (List.length (snapshots b) <? 2)%nat eqn:En;
    [apply Nat.ltb_lt in En; lia|].
  assert (found : forall i, brackets renderTime (snapshots b) i = true ->
            forall b', snapshots b' = snapshots b ->
            exists i0 before after,
              snapshots b !! i0 = Some before /\ snapshots b !! S i0 = Some after
              /\ EntitySnapshot.timestamp before <= renderTime
                 < EntitySnapshot.timestamp after
              /\ (pair_at (snapshots b) i, b').1 = Some (before, after)
              /\ snapshots (pair_at (snapshots b) i, b').2 = snapshots b).
  { intros i Hi b' Hb'. destruct (brackets_pair _ _ _ Hi) as (x & y & Hx & Hy & Hp & Ht).
    exists i, x, y. cbn [fst snd]. auto. }
  destruct ((cachedSearchIdx b <? List.length (snapshots b) - 1)%nat
            && brackets renderTime (snapshots b) (cachedSearchIdx b)) eqn:Ehit.
  { apply andb_true_iff in Ehit. destruct Ehit as [_ Ehit].
    apply (found _ Ehit). reflexivity. }
  destruct (List.find _ (forward_indices _ _)) as [i|] eqn:Ef.
  { apply find_some in Ef. destruct Ef as [_ Ef]. apply (found _ Ef). reflexivity. }
  destruct (List.find _ (backward_indices _ _)) as [i|] eqn:Eb.
  { apply find_some in Eb. destruct Eb as [_ Eb]. apply (found _ Eb). reflexivity. }
  exfalso.
  pose proof (find_none _ _ Ef j) as Nf. pose proof (find_none _ _ Eb j) as Nb.
  destruct (lt_eq_lt_dec j (cachedSearchIdx b)) as [[Hlt|Heq]|Hgt].
  - assert (In j (backward_indices (cachedSearchIdx b) (List.length (snapshots b)))) as Hin.
    { unfold backward_indices. destruct (cachedSearchIdx b) as [|c] eqn:Ec; [lia|].
      destruct Hc as [Hc|Hc]; [discriminate|].
      destruct (c <? List.length (snapshots b) - 1)%nat eqn:E2;
        [|apply Nat.ltb_ge in E2; lia].
      apply in_rev. rewrite rev_involutive. apply in_seq. lia. }
    specialize (Nb Hin). congruence.
  - subst j. apply andb_false_iff in Ehit. destruct Ehit as [E|E]; [|congruence].
    apply Nat.ltb_ge in E. lia.
  - assert (In j (forward_indices (cachedSearchIdx b) (List.length (snapshots b)))) as Hin.
    { unfold forward_indices. apply in_seq. lia. }
    specialize (Nf Hin). congruence.
Qed.

(** The calls the interpolation manager makes on the buffer of one entity. *)
Inductive EntityCall : Type :=
| DoAddSnapshot (snapshot : EntitySnapshot.t)
| DoCleanupOldSnapshots (currentRenderTime : Z)
| DoGetInterpolatedState (renderTime : Z).

Section Calls.
Variable CalculateVelocity : EntitySnapshot.t -> EntitySnapshot.t -> Q * Q.
Variable CalculateAngularVelocity : EntitySnapshot.t -> EntitySnapshot.t -> Q.

Definition entity_call (e : EntityInterpolation.t) (c : EntityCall) : EntityInterpolation.t :=
  match c with
  | DoAddSnapshot snapshot =>
      set_buffer (AddSnapshot CalculateVelocity CalculateAngularVelocity snapshot (buffer e)) e
  | DoCleanupOldSnapshots currentRenderTime =>
      set_buffer (CleanupOldSnapshots currentRenderTime (buffer e)) e
  | DoGetInterpolatedState renderTime => (GetInterpolatedState renderTime e).2
  end.

Definition entity_run (calls : list EntityCall) (e : EntityInterpolation.t)
  : EntityInterpolation.t :=
  fold_left entity_call calls e.

Lemma GetInterpolatedState_cache (renderTime : Z) (e : EntityInterpolation.t) :
  cache_ok (buffer e) -> cache_ok (buffer (GetInterpolatedState renderTime e).2).
Proof.
  intros H. unfold GetInterpolatedState.
  destruct (last (snapshots (buffer e))) as [latest|]; [|exact H].
  destruct (_ <? 2)%nat; [exact H|].
  destruct (_ <? renderTime).
  - unfold Extrapolate.
    destruct (_ <=? 0); cbn [snd buffer wasLastStateExtrapolated];
      destruct (wasLastStateExtrapolated e); exact H.
  - pose proof (FindSnapshotsForInterpolation_cache renderTime (buffer e) H) as Hf.
    destruct (FindSnapshotsForInterpolation renderTime (buffer e)) as [[[x y]|] b1];
      cbn [snd] in Hf.
    + cbn [set_buffer wasLastStateExtrapolated].
      destruct (wasLastStateExtrapolated e); [|exact Hf].
      destruct (Qltb _ 1); exact Hf.
    + exact Hf.
Qed.

Lemma entity_run_cache (calls : list EntityCall) (e : EntityInterpolation.t) :
  cache_ok (buffer e) -> cache_ok (buffer (entity_run calls e)).
Proof.
  revert e. induction calls as [|c calls IH]; intros e H; [exact H|].
  apply IH. destruct c; cbn [entity_call set_buffer buffer].
  - apply AddSnapshot_cache, H.
  - apply CleanupOldSnapshots_cache, H.
  - apply GetInterpolatedState_cache, H.
Qed.

End Calls.

Lemma clamp01_inside (t : Q) : (0 <= t)%Q -> (t <= 1)%Q -> (clamp01 t == t)%Q.
Proof.
  intros H0 H1. unfold clamp01, fmaxQ, fminQ.
  destruct (Qltb t 1) eqn:E1.
  - destruct (Qltb 0 t) eqn:E0; [reflexivity|]. apply Qltb_ge in E0. lra.
  - apply Qltb_ge in E1. destruct (Qltb 0 1) eqn:E0; [lra|]. apply Qltb_ge in E0. lra.
Qed.

Lemma clamp01_range (t : Q) : (0 <= clamp01 t)%Q /\ (clamp01 t <= 1)%Q.
Proof.
  unfold clamp01, fmaxQ, fminQ.
  destruct (Qltb t 1) eqn:E1.
  - apply Qltb_lt in E1. destruct (Qltb 0 t) eqn:E0.
    + apply Qltb_lt in E0. lra.
    + lra.
  - destruct (Qltb 0 1) eqn:E0; lra.
Qed.

End InterpolationFacts.

Module Interpolation.
Import EntityInterpolationBuffer EntityInterpolation.

(** X20 (entity_interpolation.cpp, GetInterpolatedState,
    FindSnapshotsForInterpolation, Interpolate):
    whatever snapshots were added, cleaned up and read before, a read at a
    render time from the first timestamp of the buffer up to, but not
    including, the last one interpolates between two neighbouring snapshots
    that bracket the render time (when no blend out of an extrapolation is
    under way): the position is the linear interpolation of their positions
    at the fraction of the time elapsed between them, and the state is not
    marked as extrapolated. *)
Theorem GetInterpolatedState_interpolates_between_neighbours
  (CalculateVelocity : EntitySnapshot.t -> EntitySnapshot.t -> Q * Q)
  (CalculateAngularVelocity : EntitySnapshot.t -> EntitySnapshot.t -> Q)
  (calls : list InterpolationFacts.EntityCall) (renderTime : Z)
  (front back : EntitySnapshot.t) :
  let e := InterpolationFacts.entity_run CalculateVelocity CalculateAngularVelocity calls
             EntityInterpolation.make in
  head (snapshots (buffer e)) = Some front ->
  last (snapshots (buffer e)) = Some back ->
  EntitySnapshot.timestamp front <= renderTime < EntitySnapshot.timestamp back ->
  wasLastStateExtrapolated e = false ->
  exists i before after state,
    snapshots (buffer e) !! i = Some before
    /\ snapshots (buffer e) !! S i = Some after
    /\ EntitySnapshot.timestamp before <= renderTime < EntitySnapshot.timestamp after
    /\ (GetInterpolatedState renderTime e).1 = Some state
    /\ InterpolatedState.wasExtrapolated state = false
    /\ let t := (inject_Z (renderTime - EntitySnapshot.timestamp before)
                 / inject_Z (EntitySnapshot.timestamp after
                             - EntitySnapshot.timestamp before))%Q in
       (0 <= t /\ t < 1
        /\ (InterpolatedState.position state).1
           == (EntitySnapshot.position before).1
              + ((EntitySnapshot.position after).1 - (EntitySnapshot.position before).1) * t
        /\ (InterpolatedState.position state).2
           == (EntitySnapshot.position before).2
              + ((EntitySnapshot.position after).2 - (EntitySnapshot.position before).2) * t
       )%Q.
Proof.
  intros e Hh Hl Hr Hx.
  assert (Hc : InterpolationFacts.cache_ok (buffer e)).
  { apply InterpolationFacts.entity_run_cache. left. reflexivity. }
  destruct (InterpolationFacts.FindSnapshotsForInterpolation_brackets renderTime (buffer e)
              front back Hc Hh Hl Hr) as (i & before & after & Hi & Hsi & Ht & Hf & _).
  assert (Hn : (List.length (snapshots (buffer e)) <? 2)%nat = false).
  { apply Nat.ltb_ge. apply lookup_lt_Some in Hsi. lia. }
  set (d := EntitySnapshot.timestamp after - EntitySnapshot.timestamp before) in *.
  set (t := (inject_Z (renderTime - EntitySnapshot.timestamp before) / inject_Z d)%Q).
  assert (Hd : (0 < inject_Z d)%Q).
  { change 0%Q with (inject_Z 0). rewrite <- Zlt_Qlt. subst d. lia. }
  assert (Ht0 : (0 <= t)%Q).
  { subst t. apply Qle_shift_div_l; [exact Hd|]. rewrite Qmult_0_l.
    change 0%Q with (inject_Z 0). rewrite <- Zle_Qle. lia. }
  assert (Ht1 : (t < 1)%Q).
  { subst t. apply Qlt_shift_div_r; [exact Hd|]. rewrite Qmult_1_l.
    rewrite <- Zlt_Qlt. subst d. lia. }
  exists i, before, after, (Interpolate before after t).
  split; [exact Hi|]. split; [exact Hsi|]. split; [exact Ht|]. split.
  - unfold GetInterpolatedState. rewrite Hl, Hn.
    destruct (Z.ltb_spec (EntitySnapshot.timestamp back) renderTime) as [Hb|_]; [lia|].
    destruct (FindSnapshotsForInterpolation renderTime (buffer e)) as [found b1].
    cbn [fst] in Hf. subst found.
    cbn [set_buffer wasLastStateExtrapolated]. rewrite Hx.
    fold d. destruct (Z.ltb_spec 0 d) as [_|Hd0]; [|subst d; lia].
    reflexivity.
  - split; [reflexivity|]. cbv zeta.
    split; [exact Ht0|]. split; [exact Ht1|].
    pose proof (InterpolationFacts.clamp01_inside t Ht0 (Qlt_le_weak _ _ Ht1)) as Hcl.
    unfold Interpolate. cbn [InterpolatedState.position fst snd].
    split; rewrite Hcl; reflexivity.
Qed.

Definition at_1000 : EntitySnapshot.t := EntitySnapshot.make 1000 (100, 100)%Q 0%Q 0%Q.
Definition at_1100 : EntitySnapshot.t := EntitySnapshot.make 1100 (200, 140)%Q 90%Q 0%Q.
Definition no_velocity (_ _ : EntitySnapshot.t) : Q * Q := (0, 0)%Q.
Definition no_angular_velocity (_ _ : EntitySnapshot.t) : Q := 0%Q.

Lemma GetInterpolatedState_interpolates_between_neighbours_witness :
  exists i before after state,
    [at_1000; at_1100] !! i = Some before
    /\ [at_1000; at_1100] !! S i = Some after
    /\ EntitySnapshot.timestamp before <= 1025 < EntitySnapshot.timestamp after
    /\ (GetInterpolatedState 1025
          (InterpolationFacts.entity_run no_velocity no_angular_velocity
             [InterpolationFacts.DoAddSnapshot at_1000;
              InterpolationFacts.DoAddSnapshot at_1100] EntityInterpolation.make)).1
       = Some state
    /\ InterpolatedState.wasExtrapolated state = false
    /\ let t := (inject_Z (1025 - EntitySnapshot.timestamp before)
                 / inject_Z (EntitySnapshot.timestamp after
                             - EntitySnapshot.timestamp before))%Q in
       (0 <= t /\ t < 1
        /\ (InterpolatedState.position state).1
           == (EntitySnapshot.position before).1
              + ((EntitySnapshot.position after).1 - (EntitySnapshot.position before).1) * t
        /\ (InterpolatedState.position state).2
           == (EntitySnapshot.position before).2
              + ((EntitySnapshot.position after).2 - (EntitySnapshot.position before).2) * t
       )%Q.
Proof.
  refine (GetInterpolatedState_interpolates_between_neighbours no_velocity
            no_angular_velocity
            [InterpolationFacts.DoAddSnapshot at_1000;
             InterpolationFacts.DoAddSnapshot at_1100] 1025 at_1000 at_1100 _ _ _ _).
  - reflexivity.
  - reflexivity.
  - vm_compute. split; [discriminate|reflexivity].
  - reflexivity.
Defined.

(** X21 (entity_interpolation.cpp, GetInterpolatedState and Extrapolate):
    past the newest snapshot of a buffer of two or more, the state is
    extrapolated from that snapshot along its velocity for the time elapsed
    since, but for no more than 100 ms: it is marked as extrapolated, keeps
    the snapshot's barrel rotation, has its body rotation in [0, 360), and
    the buffer's snapshots are left as they are. *)
Theorem GetInterpolatedState_extrapolates_at_most_100_ms
  (renderTime : Z) (e : EntityInterpolation.t) (latest : EntitySnapshot.t) :
  last (snapshots (buffer e)) = Some latest ->
  (2 <= List.length (snapshots (buffer e)))%nat ->
  EntitySnapshot.timestamp latest < renderTime ->
  exists (state : InterpolatedState.t) (seconds : Q),
    (GetInterpolatedState renderTime e).1 = Some state
    /\ InterpolatedState.wasExtrapolated state = true
    /\ InterpolatedState.barrelRotation state = EntitySnapshot.barrelRotation latest
    /\ (0 < seconds /\ seconds <= 1 # 10
        /\ seconds
           == inject_Z (Z.min (renderTime - EntitySnapshot.timestamp latest) 100) / 1000
        /\ (InterpolatedState.position state).1
           == (EntitySnapshot.position latest).1 + (EntitySnapshot.velocity latest).1 * seconds
        /\ (InterpolatedState.position state).2
           == (EntitySnapshot.position latest).2 + (EntitySnapshot.velocity latest).2 * seconds
        /\ 0 <= InterpolatedState.bodyRotation state
        /\ InterpolatedState.bodyRotation state < 360)%Q
    /\ snapshots (buffer (GetInterpolatedState renderTime e).2) = snapshots (buffer e).
Proof.
  intros Hl Hn Hr.
  unfold GetInterpolatedState. rewrite Hl.
  destruct (Nat.ltb_spec (List.length (snapshots (buffer e))) 2) as [Hlt|_]; [lia|].
  destruct (Z.ltb_spec (EntitySnapshot.timestamp latest) renderTime) as [_|Hge]; [|lia].
  unfold Extrapolate.
  set (d := renderTime - EntitySnapshot.timestamp latest).
  assert (Hmin : (if MAX_EXTRAPOLATION_TIME_MS <? d then MAX_EXTRAPOLATION_TIME_MS else d)
                 = Z.min d 100).
  { unfold MAX_EXTRAPOLATION_TIME_MS. destruct (Z.ltb_spec 100 d); lia. }
  rewrite Hmin.
  destruct (Z.leb_spec (Z.min d 100) 0) as [Hle|Hpos]; [subst d; lia|].
  eexists. exists (inject_Z (Z.min d 100) / 1000)%Q.
  split; [reflexivity|]. split; [reflexivity|]. split; [reflexivity|]. split.
  - assert (0 < inject_Z (Z.min d 100))%Q as H0.
    { change 0%Q with (inject_Z 0). rewrite <- Zlt_Qlt. exact Hpos. }
    assert (inject_Z (Z.min d 100) <= 100)%Q as H1.
    { change 100%Q with (inject_Z 100). rewrite <- Zle_Qle. lia. }
    split; [apply Qlt_shift_div_l; lra|]. split; [apply Qle_shift_div_r; lra|].
    split; [reflexivity|]. split; [reflexivity|]. split; [reflexivity|].
    apply NetworkValidationFacts.NormalizeRotation_range.
  - cbn [snd]. destruct (negb _); reflexivity.
Qed.

Lemma GetInterpolatedState_extrapolates_at_most_100_ms_witness :
  exists (state : InterpolatedState.t) (seconds : Q),
    (GetInterpolatedState 5000
       (InterpolationFacts.entity_run no_velocity no_angular_velocity
          [InterpolationFacts.DoAddSnapshot at_1000;
           InterpolationFacts.DoAddSnapshot at_1100] EntityInterpolation.make)).1
    = Some state
    /\ InterpolatedState.wasExtrapolated state = true
    /\ InterpolatedState.barrelRotation state = EntitySnapshot.barrelRotation at_1100
    /\ (0 < seconds /\ seconds <= 1 # 10)%Q.
Proof.
  destruct (GetInterpolatedState_extrapolates_at_most_100_ms 5000
              (InterpolationFacts.entity_run no_velocity no_angular_velocity
                 [InterpolationFacts.DoAddSnapshot at_1000;
                  InterpolationFacts.DoAddSnapshot at_1100] EntityInterpolation.make)
              (EntitySnapshot.set_velocity (0, 0)%Q 0%Q at_1100))
    as (state & seconds & H1 & H2 & H3 & (H4 & H5 & _) & _).
  - reflexivity.
  - vm_compute. lia.
  - vm_compute. reflexivity.
  - exists state, seconds. repeat split; assumption.
Defined.

(** X22 (entity_interpolation.cpp, InterpolateAngle):
    between two angles in [0, 360) the interpolation starts at the first,
    ends at the second, stays in [0, 360), and turns by the difference
    brought to [-180, 180]: it takes the shorter way round, eased by the
    smoothstep of the factor. *)
Theorem InterpolateAngle_takes_the_shorter_way (a b : Q) :
  (0 <= a)%Q -> (a < 360)%Q -> (0 <= b)%Q -> (b < 360)%Q ->
  (InterpolateAngle a b 0 == a)%Q
  /\ (InterpolateAngle a b 1 == b)%Q
  /\ exists d : Q,
       (-180 <= d)%Q /\ (d <= 180)%Q
       /\ (d == b - a \/ d == b - a - 360 \/ d == b - a + 360)%Q
       /\ forall t : Q,
            InterpolateAngle a b t
            = NetworkValidation.NormalizeRotation (a + d * (t * t * (3 - 2 * t)))%Q
            /\ (0 <= InterpolateAngle a b t)%Q /\ (InterpolateAngle a b t < 360)%Q.
Proof.
  intros Ha0 Ha1 Hb0 Hb1.
  destruct (InterpolationFacts.shortest_path_range (b - a)%Q) as (Hl & Hu & k & Hk).
  split; [|split].
  - unfold InterpolateAngle.
    apply (InterpolationFacts.NormalizeRotation_turns _ a 0); [exact Ha0|exact Ha1|].
    change (inject_Z 0) with 0%Q. lra.
  - unfold InterpolateAngle.
    apply (InterpolationFacts.NormalizeRotation_turns _ b k); [exact Hb0|exact Hb1|].
    rewrite Hk. lra.
  - exists (shortest_path (b - a)). split; [exact Hl|]. split; [exact Hu|]. split.
    + assert (-1 <= k <= 1) as Hk1.
      { assert (inject_Z (-2) < inject_Z k /\ inject_Z k < inject_Z 2)%Q as [A B].
        { change (inject_Z (-2)) with (-2)%Q. change (inject_Z 2) with 2%Q. split; lra. }
        rewrite <- Zlt_Qlt in A, B. lia. }
      assert (k = -1 \/ k = 0 \/ k = 1) as Hcases by lia.
      destruct Hcases as [E|[E|E]]; subst k.
      * right. left. rewrite Hk. change (inject_Z (-1)) with (-1)%Q. lra.
      * left. rewrite Hk. change (inject_Z 0) with 0%Q. lra.
      * right. right. rewrite Hk. change (inject_Z 1) with 1%Q. lra.
    + intros t. split; [reflexivity|].
      apply NetworkValidationFacts.NormalizeRotation_range.
Qed.

Lemma InterpolateAngle_takes_the_shorter_way_witness :
  (InterpolateAngle 350 10 0 == 350)%Q /\ (InterpolateAngle 350 10 1 == 10)%Q.
Proof.
  destruct (InterpolateAngle_takes_the_shorter_way 350 10) as (H0 & H1 & _);
    [vm_compute; discriminate|reflexivity|vm_compute; discriminate|reflexivity|].
  split; [exact H0|exact H1].
Defined.

End Interpolation.

(** ** Client prediction against the server's simulation *)

Module PredictionFacts.

(** The tank a client shows for a player as the server holds it. *)
Definition tank_of (player : PlayerData.t) : Tank.t :=
  Tank.mk (PlayerData.x player, PlayerData.y player) (PlayerData.bodyRotation player)
    (PlayerData.barrelRotation player).

(** The input of a frame of [deltaTime] seconds with the keys the server
    holds for the player. *)
Definition held_keys (player : PlayerData.t) (deltaTime : Q) : InputState.t :=
  InputState.mk 0 0 (PlayerData.isMoving_forward player)
    (PlayerData.isMoving_backward player) (PlayerData.isMoving_left player)
    (PlayerData.isMoving_right player) deltaTime false 0.

End PredictionFacts.

Module PredictionAgainstServer.
Import PredictionFacts.

(** X23 (network_client.cpp, ApplyInputToTank; game_server.cpp,
    SimulatePlayerMovement):
    for the same keys and the same time step, from the same position and
    body rotation, the client's [ApplyInputToTank] and the server's
    [SimulatePlayerMovement] turn the body to the same rotation, and the
    server's position is the client's predicted position clamped to the
    movement bounds: the two agree wherever the prediction stays inside the
    bounds, and only the server stops at the wall. *)
Theorem server_simulation_is_the_clamped_prediction
  (cosf sinf : Q -> Q) (atan2f : Q -> Q -> Q) (deltaTime : Q) (mousePos : Q * Q)
  (client : ClientInfo.t) :
  ClientInfo.isActive client = true ->
  let player := ClientInfo.playerData client in
  let predicted :=
    NetworkClient.ApplyInputToTank cosf sinf atan2f (held_keys player deltaTime) mousePos
      (tank_of player) in
  let simulated :=
    ClientInfo.playerData (GameServer.simulate_player cosf sinf deltaTime client) in
  PlayerData.bodyRotation simulated = Tank.bodyRotation predicted
  /\ PlayerData.x simulated = NetworkValidation.ClampPositionX (Tank.position predicted).1
  /\ PlayerData.y simulated = NetworkValidation.ClampPositionY (Tank.position predicted).2
  /\ (NetworkValidation.IsValidPosition (Tank.position predicted).1
        (Tank.position predicted).2 = true ->
      (PlayerData.x simulated == (Tank.position predicted).1
       /\ PlayerData.y simulated == (Tank.position predicted).2)%Q).
Proof.
  intros Hact player predicted simulated.
  assert (Hb : PlayerData.bodyRotation simulated = Tank.bodyRotation predicted).
  { subst simulated predicted. unfold GameServer.simulate_player. rewrite Hact.
    cbn [negb]. fold player.
    unfold NetworkClient.ApplyInputToTank, held_keys, tank_of.
    cbn [InputState.turnLeft InputState.turnRight InputState.deltaTime Tank.bodyRotation
         InputState.moveForward InputState.moveBackward Tank.position fst snd].
    destruct (PlayerData.isMoving_forward player), (PlayerData.isMoving_backward player);
      reflexivity. }
  assert (Hx : PlayerData.x simulated
               = NetworkValidation.ClampPositionX (Tank.position predicted).1).
  { subst simulated predicted. unfold GameServer.simulate_player. rewrite Hact.
    cbn [negb]. fold player.
    unfold NetworkClient.ApplyInputToTank, held_keys, tank_of.
    cbn [InputState.turnLeft InputState.turnRight InputState.deltaTime Tank.bodyRotation
         InputState.moveForward InputState.moveBackward Tank.position fst snd].
    destruct (PlayerData.isMoving_forward player), (PlayerData.isMoving_backward player);
      reflexivity. }
  assert (Hy : PlayerData.y simulated
               = NetworkValidation.ClampPositionY (Tank.position predicted).2).
  { subst simulated predicted. unfold GameServer.simulate_player. rewrite Hact.
    cbn [negb]. fold player.
    unfold NetworkClient.ApplyInputToTank, held_keys, tank_of.
    cbn [InputState.turnLeft InputState.turnRight InputState.deltaTime Tank.bodyRotation
         InputState.moveForward InputState.moveBackward Tank.position fst snd].
    destruct (PlayerData.isMoving_forward player), (PlayerData.isMoving_backward player);
      reflexivity. }
  split; [exact Hb|]. split; [exact Hx|]. split; [exact Hy|].
  intros Hv. rewrite Hx, Hy.
  unfold NetworkValidation.IsValidPosition in Hv.
  repeat (apply andb_true_iff in Hv; destruct Hv as [Hv ?]).
  split; apply ClampFacts.ClampPosition_fixed; apply Qle_bool_iff; assumption.
Qed.

(** Ada holds the forward key in the middle of the map. *)
Lemma server_simulation_is_the_clamped_prediction_witness :
  let player := ClientInfo.playerData (ada_on after_input_7) in
  let predicted :=
    NetworkClient.ApplyInputToTank ReconciliationFacts.cos_of_zero
      ReconciliationFacts.sin_of_zero ReconciliationFacts.atan2_of_east
      (held_keys player (16 # 1000)) (700, 480)%Q (tank_of player) in
  let simulated :=
    ClientInfo.playerData
      (GameServer.simulate_player ReconciliationFacts.cos_of_zero
         ReconciliationFacts.sin_of_zero (16 # 1000) (ada_on after_input_7)) in
  PlayerData.isMoving_forward player = true
  /\ PlayerData.bodyRotation simulated = Tank.bodyRotation predicted
  /\ PlayerData.x simulated = NetworkValidation.ClampPositionX (Tank.position predicted).1
  /\ PlayerData.y simulated = NetworkValidation.ClampPositionY (Tank.position predicted).2
  /\ (NetworkValidation.IsValidPosition (Tank.position predicted).1
        (Tank.position predicted).2 = true ->
      (PlayerData.x simulated == (Tank.position predicted).1
       /\ PlayerData.y simulated == (Tank.position predicted).2)%Q).
Proof.
  split; [reflexivity|].
  refine (server_simulation_is_the_clamped_prediction ReconciliationFacts.cos_of_zero
            ReconciliationFacts.sin_of_zero ReconciliationFacts.atan2_of_east
            (16 # 1000) (700, 480)%Q (ada_on after_input_7) _).
  reflexivity.
Defined.

End PredictionAgainstServer.

(** ** The game state on the client *)

Module GameStateFacts.
Import Wire NetworkUtils NetworkClientLink.

(** A player the client stores as received: every check of the player loop
    passes. *)
Definition presentable (player : PlayerData.t) : bool :=
  NetworkValidation.IsValidPlayerId (PlayerData.playerId player)
  && NetworkValidation.IsValidPlayerName (PlayerData.playerName player)
  && NetworkValidation.IsValidPosition (PlayerData.x player) (PlayerData.y player)
  && NetworkValidation.IsValidRotation (PlayerData.bodyRotation player)
  && NetworkValidation.IsValidRotation (PlayerData.barrelRotation player)
  && NetworkValidation.IsValidColor (PlayerData.color player).

Definition store_enemy (enemy : EnemyData.t) (l : t) : t :=
  set_world
    (ServerView.set_enemyData
       (<[EnemyData.enemyId enemy := enemy]> (ServerView.enemyData (world l))) (world l)) l.

Definition store_players (players : list PlayerData.t) (l : t) : t :=
  fold_left (fun l player => store_player player l) players l.

Definition store_enemies (enemies : list EnemyData.t) (l : t) : t :=
  fold_left (fun l enemy => store_enemy enemy l) enemies l.

Lemma parse_players_written (players : list PlayerData.t) (rest : data) (l : t) :
  Forall (fun player => presentable player = true) players ->
  parse_players (List.length players)
    (List.concat (List.map write_PlayerData players) ++ rest) l
  = (Some rest, store_players players l).
Proof.
  intros H. revert l. induction H as [|player players Hp _ IH]; intros l; [reflexivity|].
  cbn [List.length parse_players List.map List.concat]. rewrite <- app_assoc.
  unfold presentable in Hp. destruct player.
  cbn [PlayerData.playerId PlayerData.playerName PlayerData.x PlayerData.y
       PlayerData.bodyRotation PlayerData.barrelRotation PlayerData.color] in Hp.
  do 5 (apply andb_true_iff in Hp; destruct Hp as [Hp ?]).
  unfold write_PlayerData.
  cbn [PlayerData.playerId PlayerData.playerName PlayerData.x PlayerData.y
       PlayerData.bodyRotation PlayerData.barrelRotation PlayerData.color
       PlayerData.isMoving_forward PlayerData.isMoving_backward PlayerData.isMoving_left
       PlayerData.isMoving_right PlayerData.health PlayerData.maxHealth PlayerData.score
       PlayerData.isDead].
  WireFacts.read_back.
  repeat match goal with
         | E : ?b = true |- context [negb ?b] => rewrite E; cbn [negb]
         end.
  WireFacts.read_back.
  apply IH.
Qed.

Lemma parse_enemies_written (enemies : list EnemyData.t) (rest : data) (l : t) :
  parse_enemies (List.length enemies)
    (List.concat (List.map write_EnemyData enemies) ++ rest) l
  = (Some rest, store_enemies enemies l).
Proof.
  revert l. induction enemies as [|enemy enemies IH]; intros l; [reflexivity|].
  cbn [List.length parse_enemies List.map List.concat]. rewrite <- app_assoc.
  destruct enemy. unfold write_EnemyData.
  cbn [EnemyData.enemyId EnemyData.enemyType EnemyData.x EnemyData.y
       EnemyData.bodyRotation EnemyData.barrelRotation EnemyData.health
       EnemyData.maxHealth].
  WireFacts.read_back. apply IH.
Qed.

Lemma store_player_localPlayerId (player : PlayerData.t) (l : t) :
  NetworkClient.localPlayerId (client (store_player player l))
  = NetworkClient.localPlayerId (client l).
Proof. unfold store_player. destruct (_ && _); [reflexivity|]. destruct (_ && _); reflexivity. Qed.

Lemma store_players_localPlayerId (players : list PlayerData.t) (l : t) :
  NetworkClient.localPlayerId (client (store_players players l))
  = NetworkClient.localPlayerId (client l).
Proof.
  revert l. induction players as [|player players IH]; intros l; [reflexivity|].
  cbn [store_players fold_left]. fold (store_players players (store_player player l)).
  rewrite IH. apply store_player_localPlayerId.
Qed.

Definition insert_player (m : gmap N PlayerData.t) (player : PlayerData.t)
  : gmap N PlayerData.t := <[PlayerData.playerId player := player]> m.

Definition insert_enemy (m : gmap N EnemyData.t) (enemy : EnemyData.t)
  : gmap N EnemyData.t := <[EnemyData.enemyId enemy := enemy]> m.

Lemma store_players_otherPlayers (players : list PlayerData.t) (l : t) :
  NetworkClient.localPlayerId (client l) <> 0%N ->
  ServerView.otherPlayers (world (store_players players l))
  = fold_left insert_player
      (List.filter (fun player =>
                      negb (PlayerData.playerId player
                            =? NetworkClient.localPlayerId (client l))%N) players)
      (ServerView.otherPlayers (world l)).
Proof.
  revert l. induction players as [|player players IH]; intros l Hl; [reflexivity|].
  cbn [store_players fold_left List.filter].
  fold (store_players players (store_player player l)).
  rewrite IH by (rewrite store_player_localPlayerId; exact Hl).
  rewrite store_player_localPlayerId.
  unfold store_player. apply N.eqb_neq in Hl. rewrite Hl. cbn [negb].
  destruct (PlayerData.playerId player =? NetworkClient.localPlayerId (client l))%N;
    reflexivity.
Qed.

Lemma store_players_enemyData (players : list PlayerData.t) (l : t) :
  ServerView.enemyData (world (store_players players l)) = ServerView.enemyData (world l).
Proof.
  revert l. induction players as [|player players IH]; intros l; [reflexivity|].
  cbn [store_players fold_left]. fold (store_players players (store_player player l)).
  rewrite IH. unfold store_player.
  destruct (_ && _); [reflexivity|]. destruct (_ && _); reflexivity.
Qed.

(** The local player's entry of a game state, as the client keeps it. *)
Definition authoritative (player : PlayerData.t) (l : t) : Prop :=
  NetworkClient.hasServerAuthoritativeState (client l) = true
  /\ NetworkClient.serverAuthoritativePosition (client l)
     = (PlayerData.x player, PlayerData.y player)
  /\ NetworkClient.serverAuthoritativeBodyRotation (client l)
     = PlayerData.bodyRotation player
  /\ ServerView.serverAuthoritativeBarrelRotation (world l)
     = PlayerData.barrelRotation player
  /\ ServerView.serverAuthoritativeHealth (world l) = PlayerData.health player
  /\ ServerView.serverAuthoritativeMaxHealth (world l) = PlayerData.maxHealth player
  /\ ServerView.serverAuthoritativeScore (world l) = PlayerData.score player
  /\ ServerView.serverAuthoritativeIsDead (world l) = PlayerData.isDead player.

Lemma store_players_app (players more : list PlayerData.t) (l : t) :
  store_players (players ++ more) l = store_players more (store_players players l).
Proof. unfold store_players. apply fold_left_app. Qed.

Lemma store_players_authoritative (players : list PlayerData.t) (l : t)
  (player : PlayerData.t) :
  NetworkClient.localPlayerId (client l) <> 0%N ->
  last (List.filter (fun player =>
                       (PlayerData.playerId player
                        =? NetworkClient.localPlayerId (client l))%N) players)
  = Some player ->
  authoritative player (store_players players l).
Proof.
  intros Hl. induction players as [|q players IH] using rev_ind; [discriminate|].
  rewrite List.filter_app, store_players_app. cbn [List.filter store_players fold_left].
  pose proof (store_players_localPlayerId players l) as Hid.
  destruct (PlayerData.playerId q =? NetworkClient.localPlayerId (client l))%N eqn:E.
  - rewrite last_snoc. intros [= <-].
    unfold store_player. rewrite Hid, E. apply N.eqb_neq in Hl. rewrite Hl. cbn [negb andb].
    repeat split.
  - rewrite app_nil_r. intros H. specialize (IH H).
    unfold store_player. rewrite Hid, E. apply N.eqb_neq in Hl. rewrite Hl. cbn [negb andb].
    exact IH.
Qed.

Lemma store_enemies_enemyData (enemies : list EnemyData.t) (l : t) :
  ServerView.enemyData (world (store_enemies enemies l))
  = fold_left insert_enemy enemies (ServerView.enemyData (world l)).
Proof.
  revert l. induction enemies as [|enemy enemies IH]; intros l; [reflexivity|].
  cbn [store_enemies fold_left]. fold (store_enemies enemies (store_enemy enemy l)).
  rewrite IH. reflexivity.
Qed.

(** The enemy loop touches [enemyData] only. *)
Lemma store_enemies_rest (enemies : list EnemyData.t) (l : t) :
  client (store_enemies enemies l) = client l
  /\ ServerView.otherPlayers (world (store_enemies enemies l))
     = ServerView.otherPlayers (world l)
  /\ (forall player, authoritative player l ->
                     authoritative player (store_enemies enemies l)).
Proof.
  revert l. induction enemies as [|enemy enemies IH]; intros l.
  - split; [reflexivity|]. split; [reflexivity|]. auto.
  - cbn [store_enemies fold_left]. fold (store_enemies enemies (store_enemy enemy l)).
    destruct (IH (store_enemy enemy l)) as (H1 & H2 & H3).
    split; [rewrite H1; reflexivity|]. split; [rewrite H2; reflexivity|].
    intros player H. apply H3. exact H.
Qed.

Lemma RecordReceivedPacket_keeps (sequenceNumber : N) (w : ServerView.t) :
  let w' := ServerView.RecordReceivedPacket sequenceNumber w in
  ServerView.otherPlayers w' = ServerView.otherPlayers w
  /\ ServerView.enemyData w' = ServerView.enemyData w
  /\ ServerView.serverAuthoritativeBarrelRotation w'
     = ServerView.serverAuthoritativeBarrelRotation w
  /\ ServerView.serverAuthoritativeHealth w' = ServerView.serverAuthoritativeHealth w
  /\ ServerView.serverAuthoritativeMaxHealth w' = ServerView.serverAuthoritativeMaxHealth w
  /\ ServerView.serverAuthoritativeScore w' = ServerView.serverAuthoritativeScore w
  /\ ServerView.serverAuthoritativeIsDead w' = ServerView.serverAuthoritativeIsDead w.
Proof.
  unfold ServerView.RecordReceivedPacket, ServerView.CleanupOldSequenceNumbers.
  cbv zeta. destruct (_ <? _)%N; repeat split.
Qed.

End GameStateFacts.

Module GameStateOnTheClient.
Import Wire NetworkUtils NetworkClientLink GameStateFacts.

(** X24 (game_server.cpp, SendGameStateToAll, SendGameStateToClient;
    network_client.cpp, ProcessPacket (GAME_STATE)):
    a client with an assigned id that reads a game state as the server
    writes it (one to a hundred players that pass the client's checks, a
    valid timestamp) ends with exactly the other players of the message in
    [otherPlayers] and its enemies in [enemyData], each under its id, with
    the local player's entry as the server-authoritative state, the
    message's timestamp as the last server timestamp and the error count at
    zero: the client reads the fields in the order the server writes them. *)
Theorem client_stores_the_game_state_the_server_wrote
  (OnPong : Z -> data -> t -> t) (OnBulletUpdate OnBulletDestroy : data -> t -> t)
  (now : Z) (msg : GameStateMessage.t) (l : t) :
  let players := GameStateMessage.players msg in
  let enemies := GameStateMessage.enemies msg in
  let localPlayerId := NetworkClient.localPlayerId (client l) in
  localPlayerId <> 0%N ->
  GameStateMessage.activeClientCount msg = N.of_nat (List.length players) ->
  (0 < List.length players <= 100)%nat ->
  GameStateMessage.enemyCount msg = N.of_nat (List.length enemies) ->
  (N.of_nat (List.length enemies) < UINT32_MOD)%N ->
  Forall (fun player => presentable player = true) players ->
  NetworkValidation.IsValidTimestamp (GameStateMessage.timestamp msg) now = true ->
  let l' := ProcessPacket OnPong OnBulletUpdate OnBulletDestroy now
              (GameServerWire.wire (GAME_STATE msg)) l in
  ServerView.otherPlayers (world l')
  = fold_left insert_player
      (List.filter (fun player => negb (PlayerData.playerId player =? localPlayerId)%N)
                   players) ∅
  /\ ServerView.enemyData (world l') = fold_left insert_enemy enemies ∅
  /\ (forall player,
        last (List.filter (fun player => (PlayerData.playerId player =? localPlayerId)%N)
                          players) = Some player ->
        authoritative player l')
  /\ ServerView.lastServerTimestamp (world l') = GameStateMessage.timestamp msg
  /\ consecutiveErrors l' = 0.
Proof.
  intros players enemies localPlayerId Hid Hcount Hlen Hecount Helen Hvalid Hts l'.
  subst l'. unfold ProcessPacket, GameServerWire.wire.
  cbn [app read_u8 N.eqb Pos.eqb NetMessageType.GAME_STATE].
  unfold OnGameState. cbn [read_u32].
  fold players enemies. rewrite Hcount, Hecount.
  assert (Hu : u32 (N.of_nat (List.length players)) = N.of_nat (List.length players)).
  { unfold u32, UINT32_MOD. apply N.mod_small. lia. }
  assert (Hue : u32 (N.of_nat (List.length enemies)) = N.of_nat (List.length enemies)).
  { unfold u32. apply N.mod_small. exact Helen. }
  rewrite Hu, Hue.
  assert (Hpc : IsValidPlayerCount (N.of_nat (List.length players)) = true).
  { unfold IsValidPlayerCount. apply andb_true_iff.
    split; [apply N.ltb_lt|apply N.leb_le]; lia. }
  rewrite Hpc. cbn [negb]. rewrite Nat2N.id.
  set (l1 := set_world _ l).
  rewrite (parse_players_written players _ l1 Hvalid).
  cbn [mbind option_bind app read_u32]. rewrite Nat2N.id.
  set (l2 := set_world _ (store_players players l1)).
  rewrite (parse_enemies_written enemies _ l2).
  WireFacts.read_back. cbn [mbind option_bind]. WireFacts.read_back.
  rewrite Hts.
  set (l3 := store_enemies enemies l2).
  assert (Hl1 : NetworkClient.localPlayerId (client l1) = localPlayerId) by reflexivity.
  assert (Hl1' : NetworkClient.localPlayerId (client l1) <> 0%N) by exact Hid.
  destruct (store_enemies_rest enemies l2) as (Hc3 & Ho3 & Ha3). fold l3 in Hc3, Ho3, Ha3.
  pose proof (store_enemies_enemyData enemies l2) as He3. fold l3 in He3.
  destruct (RecordReceivedPacket_keeps (GameStateMessage.sequenceNumber msg) (world l3))
    as (R1 & R2 & R3 & R4 & R5 & R6 & R7).
  set (w4 := ServerView.RecordReceivedPacket _ (world l3)) in *.
  assert (Hothers : ServerView.otherPlayers w4
                    = fold_left insert_player
                        (List.filter
                           (fun player => negb (PlayerData.playerId player
                                                =? localPlayerId)%N) players) ∅).
  { rewrite R1, Ho3. subst l2. cbn [world set_world ServerView.otherPlayers
                                     ServerView.set_enemyData].
    rewrite (store_players_otherPlayers players l1 Hl1'). rewrite Hl1. reflexivity. }
  assert (Henemies : ServerView.enemyData w4 = fold_left insert_enemy enemies ∅).
  { rewrite R2, He3. reflexivity. }
  assert (Hauth : forall player,
            last (List.filter (fun player => (PlayerData.playerId player
                                              =? localPlayerId)%N) players) = Some player ->
            authoritative player (set_world w4 l3)).
  { intros player Hp. rewrite <- Hl1 in Hp.
    pose proof (store_players_authoritative players l1 player Hl1' Hp) as Ha.
    assert (authoritative player l3) as (A1 & A2 & A3 & A4 & A5 & A6 & A7 & A8).
    { apply Ha3. exact Ha. }
    unfold authoritative. cbn [client world set_world].
    rewrite R3, R4, R5, R6, R7. repeat split; assumption. }
  clearbody w4 l3.
  destruct (_ && _); cbn; (split; [exact Hothers|]); (split; [exact Henemies|]);
    (split; [|split; reflexivity]); intros player Hp;
    destruct (Hauth player Hp) as (A1 & A2 & A3 & A4 & A5 & A6 & A7 & A8);
    repeat split; assumption.
Qed.

(** The game state the server builds once Ada and Bob have joined, read by
    Ada's client. *)
Definition ada_and_bob : GameStateMessage.t :=
  (GameServer.build_game_state 1030
     (GameServer.run ReconciliationFacts.cos_of_zero ReconciliationFacts.sin_of_zero
        EnemyCapFacts.cooldown_only ServerRun.two_players
        (GameServer.make Scenario.middle))).1.

Lemma client_stores_the_game_state_the_server_wrote_witness :
  let players := GameStateMessage.players ada_and_bob in
  let l' := ProcessPacket ClientServer.ignore_timed ClientServer.ignore_untimed
              ClientServer.ignore_untimed 1040
              (GameServerWire.wire (GAME_STATE ada_and_bob)) ClientServer.ada_link in
  List.length players = 2%nat
  /\ ServerView.otherPlayers (world l')
     = fold_left insert_player
         (List.filter (fun player => negb (PlayerData.playerId player =? 1)%N) players) ∅
  /\ ServerView.enemyData (world l')
     = fold_left insert_enemy (GameStateMessage.enemies ada_and_bob) ∅
  /\ (forall player,
        last (List.filter (fun player => (PlayerData.playerId player =? 1)%N) players)
        = Some player ->
        authoritative player l')
  /\ ServerView.lastServerTimestamp (world l') = 1030
  /\ consecutiveErrors l' = 0.
Proof.
  split; [vm_compute; reflexivity|].
  refine (client_stores_the_game_state_the_server_wrote ClientServer.ignore_timed
            ClientServer.ignore_untimed ClientServer.ignore_untimed 1040 ada_and_bob
            ClientServer.ada_link _ _ _ _ _ _ _).
  - discriminate.
  - vm_compute. reflexivity.
  - vm_compute. split; lia.
  - vm_compute. reflexivity.
  - vm_compute. reflexivity.
  - vm_compute. repeat constructor.
  - vm_compute. reflexivity.
Defined.

End GameStateOnTheClient.
